(** * Open Badges serialization and lifecycle of badgr-server, in Rocq

    A shallow embedding of [apps/issuer/models.py]: the JSON-LD builders
    ([get_json]) of [Issuer], [BadgeClass] and [BadgeInstance], the
    pass-through of imported JSON, recipient hashing, revocation, the
    [pending] derivation, re-baking, the setters that reconcile the
    sub-document collections (extensions, evidence, alignments, tags,
    staff) with a desired list, the baked images kept per version, and
    the deletion of badge classes and issuers.

    Conventions of the embedding.
    - A Python [dict] / [OrderedDict] is an association list in insertion
      order; [json[k] = v] is [dict_set].
    - A nullable column is an [option]; Python truthiness is written out
      ([truthy_str], [truthy]).
    - The [original_json] column of an issuer, a badge class or an
      assertion is held as what [json_loads] makes of its text
      ([JsonText]): nothing for an empty column, a failure, or a JSON
      value; the column of an extension row is held as its document.
    - Tables of child rows are lists of [(pk, row)] with the next free
      primary key and a log of the writes done on them.
    - Exceptions are the [Raise] results of [Exc]; a statement that
      changes the object or the database gives the state it leaves
      together with its result. *)

From Stdlib Require Import String Ascii List Bool Arith ZArith NArith Lia.
Import ListNotations.
Local Open Scope string_scope.
Set Warnings "-register-all".

(** ** Exceptions *)

Inductive Exception : Type :=
| ValidationError (message : string)
| MultipleObjectsReturned
| AttributeError
| ValueError
| IntegrityError.

Inductive Exc (A : Type) : Type :=
| Ok (a : A)
| Raise (e : Exception).
Arguments Ok {A} a.
Arguments Raise {A} e.

Definition bind {A B : Type} (m : Exc A) (k : A -> Exc B) : Exc B :=
  match m with
  | Ok a => k a
  | Raise e => Raise e
  end.

Notation "x <- m ;; k" := (bind m (fun x => k))
  (at level 61, m at next level, right associativity).

(** A [for] loop whose body may raise. *)
Fixpoint foldM {A S : Type} (body : S -> A -> Exc S) (l : list A) (s : S) : Exc S :=
  match l with
  | [] => Ok s
  | a :: l' => s' <- body s a ;; foldM body l' s'
  end.

(** ** Strings *)

Definition mem_str (k : string) (l : list string) : bool :=
  existsb (String.eqb k) l.

(** [bool(s)] for a nullable string column. *)
Definition truthy_str (o : option string) : bool :=
  match o with
  | Some s => negb (s =? "")
  | None => false
  end.

(** ["{}".format(x)] for a nullable string. *)
Definition format_opt (o : option string) : string :=
  match o with
  | Some s => s
  | None => "None"
  end.

(** [x or ''] *)
Definition or_empty (o : option string) : string :=
  match o with
  | Some s => s
  | None => ""
  end.

Fixpoint endswith_Z (s : string) : bool :=
  match s with
  | EmptyString => false
  | String c EmptyString => Ascii.eqb c "Z"%char
  | String _ rest => endswith_Z rest
  end.

(** [sep.join(parts)] *)
Fixpoint join (sep : string) (parts : list string) : string :=
  match parts with
  | [] => ""
  | [p] => p
  | p :: rest => p ++ sep ++ join sep rest
  end.

(** ** JSON documents *)

Inductive Json : Type :=
| JNull
| JBool (b : bool)
| JNum (n : Z)
| JStr (s : string)
| JArr (items : list Json)
| JObj (members : list (string * Json)).

Definition OrderedDict := list (string * Json).

Fixpoint dict_get (k : string) (d : OrderedDict) : option Json :=
  match d with
  | [] => None
  | (k', v) :: d' => if k' =? k then Some v else dict_get k d'
  end.

(** [k in d] *)
Definition dict_contains (k : string) (d : OrderedDict) : bool :=
  match dict_get k d with
  | Some _ => true
  | None => false
  end.

(** [d[k] = v]: a key already present keeps its place. *)
Fixpoint dict_set (k : string) (v : Json) (d : OrderedDict) : OrderedDict :=
  match d with
  | [] => [(k, v)]
  | (k', v') :: d' =>
      if k' =? k then (k', v) :: d' else (k', v') :: dict_set k v d'
  end.

(** [d.update(kvs)] *)
Definition dict_update (d : OrderedDict) (kvs : list (string * Json)) : OrderedDict :=
  fold_left (fun acc kv => dict_set (fst kv) (snd kv) acc) kvs d.

Definition dict_keys (d : OrderedDict) : list string := map fst d.

(** [d[k][k2] = v] where [d[k]] is a JSON object. *)
Definition dict_set_in (k k2 : string) (v : Json) (d : OrderedDict) : OrderedDict :=
  match dict_get k d with
  | Some (JObj inner) => dict_set k (JObj (dict_set k2 v inner)) d
  | _ => d
  end.

Definition opt_json (o : option string) : Json :=
  match o with
  | Some s => JStr s
  | None => JNull
  end.

(** Python truthiness of a JSON value. *)
Definition truthy (j : Json) : bool :=
  match j with
  | JNull => false
  | JBool b => b
  | JNum n => negb (n =? 0)%Z
  | JStr s => negb (s =? "")
  | JArr items => match items with [] => false | _ => true end
  | JObj members => match members with [] => false | _ => true end
  end.

(** [str(j).endswith('Z')]: only a string can end in [Z]; [None], booleans,
    numbers, lists and dicts print with another last character. *)
Definition str_endswith_Z (j : Json) : bool :=
  match j with
  | JStr s => endswith_Z s
  | _ => false
  end.

(** ** JSON text columns

    What [json_loads] makes of the text of a nullable text column: the
    column is NULL or empty, or [json_loads] raises [ValueError] on its
    text, or the text is that of a JSON value. *)

Inductive JsonText : Type :=
| NoText
| NotJson
| TextOf (value : Json).

(** [bool(self.original_json)] *)
Definition has_text (c : JsonText) : bool :=
  match c with
  | NoText => false
  | _ => true
  end.

(** [x.get(key, None)]: only a dict has [get]; [JNull] is [None]. *)
Definition json_get (x : Json) (key : string) : Exc Json :=
  match x with
  | JObj members =>
      Ok (match dict_get key members with
          | Some v => v
          | None => JNull
          end)
  | _ => Raise AttributeError
  end.

(** ** Open Badges versions and the helpers of [issuer/utils.py] *)

Inductive ObiVersion : Type := V1_1 | V2_0.

Definition datetime := Z.

(** What the models import from modules outside this file, and the values
    a call draws from its surroundings. *)
Record Env : Type := {
  (** [OriginSetting.HTTP] *)
  HTTP_ORIGIN : string;
  (** the context IRI table behind [get_obi_context] *)
  context_iri : ObiVersion -> string;
  (** [utils.CURRENT_OBI_VERSION] and [utils.UNVERSIONED_BAKED_VERSION] *)
  CURRENT_OBI_VERSION : ObiVersion;
  UNVERSIONED_BAKED_VERSION : ObiVersion;
  (** [utils.add_obi_version_ifneeded] *)
  add_obi_version_ifneeded : string -> ObiVersion -> string;
  (** the digest behind [utils.generate_sha256_hashstring] *)
  sha256 : string -> string;
  (** [utils.parse_original_datetime] *)
  parse_original_datetime : Json -> Json;
  (** [utils.generate_rebaked_filename] *)
  generate_rebaked_filename : option string -> option string -> string;
  (** [datetime.isoformat] *)
  isoformat : datetime -> string;
  (** [json.dumps] *)
  json_dumps : Json -> string;
  (** [openbadges_bakery.bake]: image file, assertion text, baked image *)
  bake : option string -> string -> string;
  (** [os.path.splitext(name)[1]] *)
  splitext_ext : option string -> string;
  (** [Storage.get_available_name]: the name a new file is stored under *)
  get_available_name : string -> list string -> string;
  (** [blacklist.api_query_is_in_blacklist] *)
  api_query_is_in_blacklist : string -> string -> bool;
  (** [uuid.uuid4()], a 128-bit number *)
  uuid4 : N;
  (** [generate_entity_uri()] *)
  generate_entity_uri : string;
  (** the primary key the database gives a new row *)
  new_pk : nat
}.

(** Modelled from the spec: [get_obi_context] of [issuer/utils.py]
    (not among the sources).  "resolve(version) -> (normalized_version,
    context_iri). Supported versions: 1_1, 2_0": a supported version is
    its own normal form, paired with its context IRI. *)
Definition get_obi_context (env : Env) (obi_version : ObiVersion)
  : ObiVersion * string :=
  (obi_version, context_iri env obi_version).

(** Modelled from the spec: [generate_sha256_hashstring] of
    [issuer/utils.py] (not among the sources).  "If hashed, rendered
    identity is sha256(identifier + salt)"; a missing salt adds nothing. *)
Definition generate_sha256_hashstring (env : Env)
  (identifier : string) (salt : option string) : string :=
  sha256 env (identifier ++ or_empty salt).

(** ** URL routes ([mainsite/urls.py], [issuer/public_api_urls.py]) *)

Inductive RouteName : Type :=
| issuer_json | issuer_image
| badgeclass_json | badgeclass_image | badgeclass_criteria
| badgeinstance_json | badgeinstance_image.

(** [reverse(name, kwargs={'entity_id': entity_id})] *)
Definition reverse (name : RouteName) (entity_id : string) : string :=
  match name with
  | issuer_json => "/public/issuers/" ++ entity_id
  | issuer_image => "/public/issuers/" ++ entity_id ++ "/image"
  | badgeclass_json => "/public/badges/" ++ entity_id
  | badgeclass_image => "/public/badges/" ++ entity_id ++ "/image"
  | badgeclass_criteria => "/public/badges/" ++ entity_id ++ "/criteria"
  | badgeinstance_json => "/public/assertions/" ++ entity_id
  | badgeinstance_image => "/public/assertions/" ++ entity_id ++ "/image"
  end.

(** ** Tables of child rows

    The rows a related manager returns, with the writes the ORM offers on
    them.  [log] records every write, so that a claim about what an
    operation created or deleted can be read off it. *)

Inductive Event : Type :=
| Created (pk : nat)
| Updated (pk : nat)
| Deleted (pk : nat).

Record Table (R : Type) : Type := {
  rows : list (nat * R);
  next_pk : nat;
  log : list Event
}.
Arguments rows {R} t.
Arguments next_pk {R} t.
Arguments log {R} t.

Definition empty_table {R : Type} : Table R :=
  {| rows := []; next_pk := 1; log := [] |}.

(** [manager.all()] *)
Definition all {R : Type} (t : Table R) : list (nat * R) := rows t.

(** [manager.create] with the row's fields *)
Definition create {R : Type} (r : R) (t : Table R) : Table R :=
  {| rows := (rows t ++ [(next_pk t, r)])%list;
     next_pk := S (next_pk t);
     log := (log t ++ [Created (next_pk t)])%list |}.

(** [row.delete()] *)
Definition delete {R : Type} (pk : nat) (t : Table R) : Table R :=
  {| rows := filter (fun x => negb (Nat.eqb (fst x) pk)) (rows t);
     next_pk := next_pk t;
     log := (log t ++ [Deleted pk])%list |}.

(** [row.save()] of a row that exists, after assignments to its fields *)
Definition save_row {R : Type} (pk : nat) (r : R) (t : Table R) : Table R :=
  {| rows := map (fun x => if Nat.eqb (fst x) pk then (pk, r) else x) (rows t);
     next_pk := next_pk t;
     log := (log t ++ [Updated pk])%list |}.

(** [manager.get_or_create(lookup, defaults)]: the row, whether it was
    created, and the table afterwards. *)
Definition get_or_create {R : Type} (lookup : R -> bool) (new_row : R)
  (t : Table R) : Exc (nat * R * bool * Table R) :=
  match filter (fun x => lookup (snd x)) (rows t) with
  | [] => Ok (next_pk t, new_row, true, create new_row t)
  | [(pk, r)] => Ok (pk, r, false, t)
  | _ => Raise MultipleObjectsReturned
  end.

(** The table as the next request finds it: same rows, an empty log. *)
Definition committed {R : Type} (t : Table R) : Table R :=
  {| rows := rows t; next_pk := next_pk t; log := [] |}.

Definition is_created (e : Event) : bool :=
  match e with Created _ => true | _ => false end.

Definition is_deleted (e : Event) : bool :=
  match e with Deleted _ => true | _ => false end.

Definition created_rows {R : Type} (t : Table R) : list Event :=
  filter is_created (log t).

Definition deleted_rows {R : Type} (t : Table R) : list Event :=
  filter is_deleted (log t).

(** Primary keys are unique and below the next one handed out. *)
Definition wf_table {R : Type} (t : Table R) : Prop :=
  NoDup (map fst (rows t)) /\ Forall (fun x => fst x < next_pk t) (rows t).

(** ** Extensions ([BaseOpenBadgeExtension], [extension_items]) *)

Module BaseOpenBadgeExtension.

Record t : Type := {
  name : string;
  original_json : Json
}.

End BaseOpenBadgeExtension.

Module BaseOpenBadgeObjectModel.

Import BaseOpenBadgeExtension.

(** One turn of the "add new" loop: [ext_json] is stored as text and read
    back with [json_loads]; the table holds the document itself. *)
Definition add_new (st : Table t * list nat) (item : string * Json)
  : Exc (Table t * list nat) :=
  let '(tbl, touched_idx) := st in
  let '(ext_name, ext) := item in
  bind (get_or_create (fun e => name e =? ext_name)
          {| name := ext_name; original_json := ext |} tbl)
    (fun '(pk, e, ext_created, tbl) =>
       let tbl :=
         if negb ext_created
         then save_row pk {| name := name e; original_json := ext |} tbl
         else tbl in
       Ok (tbl, (touched_idx ++ [pk])%list)).

Definition remove_old (touched_idx : list nat) (tbl : Table t) (extension : nat * t)
  : Table t :=
  if negb (existsb (Nat.eqb (fst extension)) touched_idx)
  then delete (fst extension) tbl
  else tbl.

(** The two loops of the setter, "add new" and "remove old", on the rows
    of [get_extensions_manager()]. *)
Definition update_extensions (value : list (string * Json)) (tbl : Table t)
  : Exc (Table t) :=
  st <- foldM add_new value (tbl, []) ;;
  let '(tbl, touched_idx) := st in
  Ok (fold_left (remove_old touched_idx) (all tbl) tbl).

(** What the setter uses of the object it is called on.  The class is
    abstract; [Issuer], [BadgeClass] and [BadgeInstance] inherit the
    property and bring their own [save] and [get_extensions_manager]. *)
Class Object (O : Type) : Type := {
  (** [self.pk] *)
  object_pk : O -> option nat;
  (** [self.save()] *)
  object_save : O -> Exc O;
  (** the rows of [self.get_extensions_manager()] *)
  get_extensions_manager : O -> Table t;
  (** the object once these rows are written *)
  with_extensions : O -> Table t -> O
}.

(** What the proofs about the setter use of an object: [save] gives it a
    primary key and touches no extension row; the extension rows written
    are the rows read back, and writing them leaves the primary key. *)
Definition lawful (O : Type) `{Object O} : Prop :=
  (forall o o' : O,
      object_save o = Ok o' ->
      object_pk o' <> None
      /\ get_extensions_manager o' = get_extensions_manager o)
  /\ (forall (o : O) tbl, get_extensions_manager (with_extensions o tbl) = tbl)
  /\ (forall (o : O) tbl, object_pk (with_extensions o tbl) = object_pk o).

(** [not self.pk] *)
Definition unsaved (pk : option nat) : bool :=
  match pk with
  | Some _ => false
  | None => true
  end.

(** [extension_items.setter].  All of it runs in one transaction: an
    exception leaves nothing written. *)
Definition extension_items_setter {O : Type} `{Object O}
  (value : option (list (string * Json))) (self : O) : Exc O :=
  let value := match value with None => [] | Some v => v end in
  self <- (if unsaved (object_pk self) && negb (Nat.eqb (length value) 0)
           then object_save self else Ok self) ;;
  tbl <- update_extensions value (get_extensions_manager self) ;;
  Ok (with_extensions self tbl).

(** [extension_items], the getter:
    [{e.name: json_loads(e.original_json) for e in self.cached_extensions()}] *)
Definition extension_items (tbl : Table t) : OrderedDict :=
  fold_left
    (fun d e => dict_set (name (snd e)) (original_json (snd e)) d)
    (all tbl) [].

(** The row that stands for the item [(ext_name, ext)] of a desired
    list. *)
Definition ext_row (item : string * Json) : t :=
  {| name := fst item; original_json := snd item |}.

(** [item] has its row in [tbl], the only row of that name, and the
    setter has touched it. *)
Definition settled (tbl : Table t) (touched_idx : list nat)
  (item : string * Json) : Prop :=
  exists pk,
    In pk touched_idx
    /\ In (pk, ext_row item) (rows tbl)
    /\ forall y, In y (rows tbl) -> name (snd y) = fst item -> y = (pk, ext_row item).

(** every touched row is the row of an item of [items] *)
Definition touched_within (tbl : Table t) (touched_idx : list nat)
  (items : list (string * Json)) : Prop :=
  forall pk, In pk touched_idx ->
             exists y, In y (rows tbl) /\ fst y = pk
                       /\ In (name (snd y)) (map fst items).

End BaseOpenBadgeObjectModel.

(** ** Issuer staff *)

Module IssuerStaff.

Definition ROLE_OWNER := "owner".
Definition ROLE_EDITOR := "editor".
Definition ROLE_STAFF := "staff".

(** the rows of one issuer *)
Record t : Type := {
  user : nat;
  role : string
}.

(** [IssuerStaff.objects.create(issuer=..., user=..., role=...)]:
    [unique_together = ('issuer', 'user')], so a second row for a user of
    the issuer is refused. *)
Definition objects_create (r : t) (tbl : Table t) : Exc (Table t) :=
  if existsb (fun m => Nat.eqb (user (snd m)) (user r)) (rows tbl)
  then Raise IntegrityError
  else Ok (create r tbl).

End IssuerStaff.

(** An entry of the list given to [Issuer.staff_items]. *)
Record StaffData : Type := {
  cached_user : nat;
  staff_role : string
}.

(** ** Imported JSON ([OriginalJsonMixin]) and the blocks the three
    builders share *)

Module OriginalJsonMixin.

(** [get_original_json]: the value of the text; [None] ([JNull]) for an
    empty column and, the [ValueError] being caught, for text that is not
    JSON. *)
Definition get_original_json (original_json : JsonText) : Json :=
  match original_json with
  | TextOf value => value
  | _ => JNull
  end.

(** [get_filtered_json(excluded_fields)]: the imported document without the
    excluded keys, [None] when [get_original_json] gives [None];
    [original.keys()] raises [AttributeError] on a value that is not an
    object. *)
Definition get_filtered_json (original_json : JsonText)
  (excluded_fields : list string) : Exc (option OrderedDict) :=
  match get_original_json original_json with
  | JNull => Ok None
  | JObj original =>
      Ok (Some (filter (fun kv => negb (mem_str (fst kv) excluded_fields)) original))
  | _ => Raise AttributeError
  end.

End OriginalJsonMixin.

(** [if isinstance(image_info, dict): json['image'] = image_info;
    json['image']['id'] = image_url] *)
Definition set_image_info (image_info image_url : Json) (json : OrderedDict)
  : OrderedDict :=
  match image_info with
  | JObj image_info =>
      dict_set "image" (JObj (dict_set "id" image_url image_info)) json
  | _ => json
  end.

(** The image block of [Issuer.get_json] and of [BadgeInstance.get_json]:
    [if self.original_json: image_info =
    self.get_original_json().get('image', None)], then the above. *)
Definition merge_image_info (original_json : JsonText)
  (image_url : Json) (json : OrderedDict) : Exc OrderedDict :=
  if has_text original_json then
    image_info <- json_get (OriginalJsonMixin.get_original_json original_json)
                    "image" ;;
    Ok (set_image_info image_info image_url json)
  else Ok json.

(** *** The documents without the failing reads

    For reasoning about a builder that has returned: the imported
    document when the column holds an object ([imported]), and the two
    blocks above as they run then.  [merge_image_info_imported] and
    [get_filtered_json_imported] below relate them to the blocks. *)

Definition imported (original_json : JsonText) : option OrderedDict :=
  match original_json with
  | TextOf (JObj original) => Some original
  | _ => None
  end.

Definition filtered (original : option OrderedDict) (excluded_fields : list string)
  : option OrderedDict :=
  match original with
  | Some original =>
      Some (filter (fun kv => negb (mem_str (fst kv) excluded_fields)) original)
  | None => None
  end.

Definition with_image_info (original : option OrderedDict)
  (image_url : Json) (json : OrderedDict) : OrderedDict :=
  match original with
  | Some original =>
      match dict_get "image" original with
      | Some (JObj image_info) =>
          dict_set "image" (JObj (dict_set "id" image_url image_info)) json
      | _ => json
      end
  | None => json
  end.

(** The column holds nothing, or an object: no read of it fails. *)
Definition readable (original_json : JsonText) : bool :=
  match original_json with
  | NoText => true
  | TextOf (JObj _) => true
  | _ => false
  end.

(** The "source url" block. *)
Definition source_url_fields (source_url : option string) (hosted_url : string)
  (obi_version : ObiVersion) (json : OrderedDict) : OrderedDict :=
  if truthy_str source_url then
    match obi_version with
    | V1_1 =>
        dict_set "hosted_url" (JStr hosted_url)
          (dict_set "source_url" (opt_json source_url) json)
    | V2_0 =>
        dict_set "hostedUrl" (JStr hosted_url)
          (dict_set "sourceUrl" (opt_json source_url) json)
    end
  else json.

(** The "extensions" block: [json[extension.name] = json_loads(...)]. *)
Definition extension_fields (extensions : Table BaseOpenBadgeExtension.t)
  (json : OrderedDict) : OrderedDict :=
  fold_left
    (fun json extension =>
       dict_set (BaseOpenBadgeExtension.name (snd extension))
         (BaseOpenBadgeExtension.original_json (snd extension)) json)
    (all extensions) json.

(** The keys the "extensions" block writes. *)
Definition extension_names (extensions : Table BaseOpenBadgeExtension.t)
  : list string :=
  map (fun e => BaseOpenBadgeExtension.name (snd e)) (rows extensions).

(** The "pass through imported json" block:
    [for k, v in extra.items(): if k not in json: json[k] = v]. *)
Definition pass_through (extra : option OrderedDict) (json : OrderedDict)
  : OrderedDict :=
  match extra with
  | Some extra =>
      fold_left
        (fun json kv =>
           if negb (dict_contains (fst kv) json)
           then dict_set (fst kv) (snd kv) json
           else json)
        extra json
  | None => json
  end.

(** ** Issuer *)

Module Issuer.

Record t : Type := {
  pk : option nat;
  entity_id : string;
  created_by_id : option nat;
  name : string;
  image : option string;
  description : option string;
  url : option string;
  email : option string;
  category : string;
  source_url : option string;
  original_json : JsonText;
  (** [issuerextension_set] *)
  extensions : Table BaseOpenBadgeExtension.t;
  (** the [IssuerStaff] rows of this issuer *)
  staff : Table IssuerStaff.t
}.

Definition with_staff (i : t) (s : Table IssuerStaff.t) : t :=
  {| pk := pk i; entity_id := entity_id i; created_by_id := created_by_id i;
     name := name i; image := image i; description := description i;
     url := url i; email := email i; category := category i;
     source_url := source_url i; original_json := original_json i;
     extensions := extensions i; staff := s |}.

Definition with_pk (i : t) (k : option nat) : t :=
  {| pk := k; entity_id := entity_id i; created_by_id := created_by_id i;
     name := name i; image := image i; description := description i;
     url := url i; email := email i; category := category i;
     source_url := source_url i; original_json := original_json i;
     extensions := extensions i; staff := staff i |}.

(** [self.staff.filter(issuerstaff__role=ROLE_OWNER)], one entry per
    membership row with the owner role. *)
Definition owners (s : Table IssuerStaff.t) : list (nat * IssuerStaff.t) :=
  filter (fun m => IssuerStaff.role (snd m) =? IssuerStaff.ROLE_OWNER) (rows s).

(** a membership row with the owner role *)
Definition is_owner (m : nat * IssuerStaff.t) : bool :=
  IssuerStaff.role (snd m) =? IssuerStaff.ROLE_OWNER.

(** [Issuer.save]: the row is written (a new one gets its primary key),
    then "if no owner staff records exist, create one for created_by".
    The result comes with the issuer as the call leaves it.  The mail to
    the administrators and the geocoding of the address touch none of the
    fields kept here. *)
Definition save (env : Env) (i : t) : Exc unit * t :=
  let i := with_pk i (Some (match pk i with Some k => k | None => new_pk env end)) in
  match created_by_id i with
  | Some (S u) =>
      if Nat.ltb (length (owners (staff i))) 1 then
        match IssuerStaff.objects_create
                {| IssuerStaff.user := S u;
                   IssuerStaff.role := IssuerStaff.ROLE_OWNER |} (staff i) with
        | Ok staff => (Ok tt, with_staff i staff)
        | Raise e => (Raise e, i)
        end
      else (Ok tt, i)
  | _ => (Ok tt, i)
  end.

Definition get_absolute_url (i : t) : string :=
  reverse issuer_json (entity_id i).

Definition public_url (env : Env) (i : t) : string :=
  HTTP_ORIGIN env ++ get_absolute_url i.

(** [image_url(public=True)], the only call the builders make. *)
Definition image_url (env : Env) (i : t) : option string :=
  if truthy_str (image i)
  then Some (HTTP_ORIGIN env ++ reverse issuer_image (entity_id i))
  else None.

Definition jsonld_id (env : Env) (i : t) : string :=
  if truthy_str (source_url i) then or_empty (source_url i)
  else HTTP_ORIGIN env ++ get_absolute_url i.

Definition excluded_fields : list string :=
  ["@context"; "id"; "type"; "name"; "url"; "description"; "image"; "email"].

Definition get_filtered_json (i : t) : Exc (option OrderedDict) :=
  OriginalJsonMixin.get_filtered_json (original_json i) excluded_fields.

Definition get_json (env : Env) (i : t) (obi_version : ObiVersion)
  (include_extra use_canonical_id : bool) : Exc OrderedDict :=
  let '(obi_version, context_iri) := get_obi_context env obi_version in
  let json := [("@context", JStr context_iri)] in
  let json := dict_update json
    [("type", JStr "Issuer");
     ("id", JStr (if use_canonical_id then jsonld_id env i
                  else add_obi_version_ifneeded env (jsonld_id env i) obi_version));
     ("name", JStr (name i));
     ("url", opt_json (url i));
     ("email", opt_json (email i));
     ("description", opt_json (description i));
     ("category", JStr (category i));
     ("slug", JStr (entity_id i))] in
  let image_url := opt_json (image_url env i) in
  let json := dict_set "image" image_url json in
  json <- merge_image_info (original_json i) image_url json ;;
  (* source url *)
  let json := source_url_fields (source_url i)
                (HTTP_ORIGIN env ++ get_absolute_url i) obi_version json in
  (* extensions *)
  let json := extension_fields (extensions i) json in
  (* pass through imported json *)
  if include_extra then
    extra <- get_filtered_json i ;;
    Ok (pass_through extra json)
  else Ok json.

(** The document [get_json] returns when it returns: its blocks, with the
    imported document read as [imported] gives it.  [Issuer_get_json_returns]
    below states when it returns, and that this is what it returns. *)
Definition document (env : Env) (i : t) (obi_version : ObiVersion)
  (include_extra use_canonical_id : bool) : OrderedDict :=
  let '(obi_version, context_iri) := get_obi_context env obi_version in
  let json := [("@context", JStr context_iri)] in
  let json := dict_update json
    [("type", JStr "Issuer");
     ("id", JStr (if use_canonical_id then jsonld_id env i
                  else add_obi_version_ifneeded env (jsonld_id env i) obi_version));
     ("name", JStr (name i));
     ("url", opt_json (url i));
     ("email", opt_json (email i));
     ("description", opt_json (description i));
     ("category", JStr (category i));
     ("slug", JStr (entity_id i))] in
  let image_url := opt_json (image_url env i) in
  let json := dict_set "image" image_url json in
  let json := with_image_info (imported (original_json i)) image_url json in
  let json := source_url_fields (source_url i)
                (HTTP_ORIGIN env ++ get_absolute_url i) obi_version json in
  let json := extension_fields (extensions i) json in
  if include_extra
  then pass_through (filtered (imported (original_json i)) excluded_fields) json
  else json.

(** [get_json] returns: the column holds nothing or an object (whatever
    [include_extra] is, the image block reads it first). *)
Definition renders (i : t) : bool := readable (original_json i).

(** [extension_items] on an issuer *)
#[export] Instance Object (env : Env) : BaseOpenBadgeObjectModel.Object t := {
  BaseOpenBadgeObjectModel.object_pk := pk;
  BaseOpenBadgeObjectModel.object_save := fun i =>
    match save env i with
    | (Ok _, i) => Ok i
    | (Raise e, _) => Raise e
    end;
  BaseOpenBadgeObjectModel.get_extensions_manager := extensions;
  BaseOpenBadgeObjectModel.with_extensions := fun i tbl =>
    {| pk := pk i; entity_id := entity_id i; created_by_id := created_by_id i;
       name := name i; image := image i; description := description i;
       url := url i; email := email i; category := category i;
       source_url := source_url i; original_json := original_json i;
       extensions := tbl; staff := staff i |}
}.

(** ** [Issuer.staff_items], the setter *)

Definition mem_user (u : nat) (idx : list nat) : bool := existsb (Nat.eqb u) idx.

(** [IssuerStaff.cached.get_or_create(issuer=self, user=..., defaults=...)]
    and, for a record that was there, the assignment of the role. *)
Definition add_staff_record (staff_data : StaffData) (tbl : Table IssuerStaff.t)
  : Exc (Table IssuerStaff.t) :=
  bind (get_or_create
          (fun r => Nat.eqb (IssuerStaff.user r) (cached_user staff_data))
          {| IssuerStaff.user := cached_user staff_data;
             IssuerStaff.role := staff_role staff_data |} tbl)
    (fun '(pk, staff_record, created, tbl) =>
       if negb created
       then Ok (save_row pk
                  {| IssuerStaff.user := IssuerStaff.user staff_record;
                     IssuerStaff.role := staff_role staff_data |} tbl)
       else Ok tbl).

(** One turn of the "add missing staff records" loop. *)
Definition add_missing (existing_staff_idx : list nat)
  (tbl : Table IssuerStaff.t) (staff_data : StaffData) : Exc (Table IssuerStaff.t) :=
  if negb (mem_user (cached_user staff_data) existing_staff_idx)
  then add_staff_record staff_data tbl
  else Ok tbl.

(** One turn of the "remove old staff records" loop, "but never remove the
    only OWNER role": [len(self.owners)] is read from the table as it is
    at that turn. *)
Definition remove_old (new_staff_idx : list nat)
  (tbl : Table IssuerStaff.t) (staff_record : nat * IssuerStaff.t)
  : Table IssuerStaff.t :=
  if negb (mem_user (IssuerStaff.user (snd staff_record)) new_staff_idx) then
    if negb (IssuerStaff.role (snd staff_record) =? IssuerStaff.ROLE_OWNER)
       || Nat.ltb 1 (length (owners tbl))
    then delete (fst staff_record) tbl
    else tbl
  else tbl.

Definition staff_items_setter (value : list StaffData)
  (tbl : Table IssuerStaff.t) : Exc (Table IssuerStaff.t) :=
  let existing_staff_idx := map (fun s => IssuerStaff.user (snd s)) (all tbl) in
  let new_staff_idx := map cached_user value in
  tbl <- foldM (add_missing existing_staff_idx) value tbl ;;
  Ok (fold_left (remove_old new_staff_idx) (all tbl) tbl).

End Issuer.

(** ** Alignments and tags of a badge class *)

Definition opt_eqb (a b : option string) : bool :=
  match a, b with
  | Some x, Some y => x =? y
  | None, None => true
  | _, _ => false
  end.

Module BadgeClassAlignment.

(** [target_name] and [target_url] are required columns, the other three
    are nullable. *)
Record t : Type := {
  target_name : string;
  target_url : string;
  target_description : option string;
  target_framework : option string;
  target_code : option string
}.

(** What a descriptor handed to [alignment_items] (a dict, its keys
    among the five columns) holds under the key of a required column: the
    key is left out, or holds [None], or holds a string.  Under the key
    of a nullable column the first two read alike and are stored alike,
    as [None]. *)
Inductive Required : Type :=
| LeftOut
| IsNone
| Str (s : string).

Record Data : Type := {
  data_target_name : Required;
  data_target_url : Required;
  data_target_description : option string;
  data_target_framework : option string;
  data_target_code : option string
}.

(** [align.get(k, None)], printed *)
Definition format_required (v : Required) : string :=
  match v with
  | Str s => s
  | _ => "None"
  end.

(** the column [create] writes, given the descriptor as keyword
    arguments: the default of a text column for a key left out, and no
    [NULL] in a required column *)
Definition column (v : Required) : Exc string :=
  match v with
  | LeftOut => Ok ""
  | IsNone => Raise IntegrityError
  | Str s => Ok s
  end.

(** [self.badgeclassalignment_set.create], the descriptor as keyword
    arguments *)
Definition manager_create (align : Data) (tbl : Table t) : Exc (Table t) :=
  name <- column (data_target_name align) ;;
  url <- column (data_target_url align) ;;
  Ok (create {| target_name := name; target_url := url;
                target_description := data_target_description align;
                target_framework := data_target_framework align;
                target_code := data_target_code align |} tbl).

(** For reasoning about [create]: the descriptors it accepts, the row it
    writes for one of them, and the descriptors that give both required
    columns. *)
Definition storable (align : Data) : bool :=
  match data_target_name align, data_target_url align with
  | IsNone, _ | _, IsNone => false
  | _, _ => true
  end.

Definition new_row (align : Data) : t :=
  {| target_name := match data_target_name align with Str s => s | _ => "" end;
     target_url := match data_target_url align with Str s => s | _ => "" end;
     target_description := data_target_description align;
     target_framework := data_target_framework align;
     target_code := data_target_code align |}.

Definition complete (align : Data) : bool :=
  match data_target_name align, data_target_url align with
  | Str _, Str _ => true
  | _, _ => false
  end.

Definition get_json (env : Env) (a : t) (obi_version : ObiVersion)
  (include_context : bool) : OrderedDict :=
  let json := [] in
  let json :=
    if include_context
    then dict_set "@context" (JStr (snd (get_obi_context env obi_version))) json
    else json in
  let json := dict_set "targetName" (JStr (target_name a)) json in
  let json := dict_set "targetUrl" (JStr (target_url a)) json in
  let json :=
    if truthy_str (target_description a)
    then dict_set "targetDescription" (opt_json (target_description a)) json
    else json in
  let json :=
    if truthy_str (target_framework a)
    then dict_set "targetFramework" (opt_json (target_framework a)) json
    else json in
  if truthy_str (target_code a)
  then dict_set "targetCode" (opt_json (target_code a)) json
  else json.

End BadgeClassAlignment.

Module BadgeClassTag.

Record t : Type := { name : string }.

End BadgeClassTag.

(** ** BadgeClass *)

Module BadgeClass.

Record t : Type := {
  pk : option nat;
  entity_id : string;
  (** [cached_issuer] *)
  issuer : Issuer.t;
  name : string;
  image : option string;
  description : option string;
  criteria_url : option string;
  criteria_text : option string;
  source_url : option string;
  original_json : JsonText;
  (** [badgeclassextension_set] *)
  extensions : Table BaseOpenBadgeExtension.t;
  (** [badgeclassalignment_set] *)
  alignments : Table BadgeClassAlignment.t;
  (** [badgeclasstag_set] *)
  tags : Table BadgeClassTag.t
}.

Definition get_absolute_url (bc : t) : string :=
  reverse badgeclass_json (entity_id bc).

Definition public_url (env : Env) (bc : t) : string :=
  HTTP_ORIGIN env ++ get_absolute_url bc.

Definition jsonld_id (env : Env) (bc : t) : string :=
  if truthy_str (source_url bc) then or_empty (source_url bc)
  else HTTP_ORIGIN env ++ get_absolute_url bc.

Definition get_criteria_url (env : Env) (bc : t) : string :=
  if truthy_str (criteria_url bc) then or_empty (criteria_url bc)
  else HTTP_ORIGIN env ++ reverse badgeclass_criteria (entity_id bc).

Definition description_nonnull (bc : t) : string :=
  if truthy_str (description bc) then or_empty (description bc) else "".

(** [image_url(public=True)] *)
Definition image_url (env : Env) (bc : t) : string :=
  HTTP_ORIGIN env ++ reverse badgeclass_image (entity_id bc).

Definition excluded_fields : list string :=
  ["@context"; "id"; "type"; "name"; "description"; "image"; "criteria"; "issuer"].

Definition get_filtered_json (bc : t) : Exc (option OrderedDict) :=
  OriginalJsonMixin.get_filtered_json (original_json bc) excluded_fields.

Definition get_json (env : Env) (bc : t) (obi_version : ObiVersion)
  (include_extra use_canonical_id : bool) : Exc OrderedDict :=
  let '(obi_version, context_iri) := get_obi_context env obi_version in
  let json := [("@context", JStr context_iri)] in
  let json := dict_update json
    [("type", JStr "BadgeClass");
     ("id", JStr (if use_canonical_id then jsonld_id env bc
                  else add_obi_version_ifneeded env (jsonld_id env bc) obi_version));
     ("name", JStr (name bc));
     ("description", JStr (description_nonnull bc));
     ("issuer", JStr (if use_canonical_id then Issuer.jsonld_id env (issuer bc)
                      else add_obi_version_ifneeded env
                             (Issuer.jsonld_id env (issuer bc)) obi_version))] in
  (* image *)
  json <-
    (if truthy_str (image bc) then
       let image_url := JStr (image_url env bc) in
       let json := dict_set "image" image_url json in
       if has_text (original_json bc) then
         match OriginalJsonMixin.get_original_json (original_json bc) with
         | JNull => Ok json
         | original_json =>
             image_info <- json_get original_json "image" ;;
             Ok (set_image_info image_info image_url json)
         end
       else Ok json
     else Ok json) ;;
  (* criteria *)
  let json :=
    match obi_version with
    | V1_1 => dict_set "criteria" (JStr (get_criteria_url env bc)) json
    | V2_0 =>
        let criteria := [] in
        let criteria :=
          if truthy_str (criteria_url bc)
          then dict_set "id" (opt_json (criteria_url bc)) criteria else criteria in
        let criteria :=
          if truthy_str (criteria_text bc)
          then dict_set "narrative" (opt_json (criteria_text bc)) criteria
          else criteria in
        dict_set "criteria" (JObj criteria) json
    end in
  (* source_url *)
  let json := source_url_fields (source_url bc)
                (HTTP_ORIGIN env ++ get_absolute_url bc) obi_version json in
  (* alignment / tags *)
  let json :=
    match obi_version with
    | V2_0 =>
        let json := dict_set "alignment"
          (JArr (map (fun a => JObj (BadgeClassAlignment.get_json env (snd a) obi_version false))
                   (all (alignments bc)))) json in
        dict_set "tags"
          (JArr (map (fun tg => JStr (BadgeClassTag.name (snd tg))) (all (tags bc)))) json
    | V1_1 => json
    end in
  (* extensions *)
  let json := extension_fields (extensions bc) json in
  (* pass through imported json *)
  if include_extra then
    extra <- get_filtered_json bc ;;
    Ok (pass_through extra json)
  else Ok json.

(** The document [get_json] returns when it returns
    ([BadgeClass_get_json_returns] below). *)
Definition document (env : Env) (bc : t) (obi_version : ObiVersion)
  (include_extra use_canonical_id : bool) : OrderedDict :=
  let '(obi_version, context_iri) := get_obi_context env obi_version in
  let json := [("@context", JStr context_iri)] in
  let json := dict_update json
    [("type", JStr "BadgeClass");
     ("id", JStr (if use_canonical_id then jsonld_id env bc
                  else add_obi_version_ifneeded env (jsonld_id env bc) obi_version));
     ("name", JStr (name bc));
     ("description", JStr (description_nonnull bc));
     ("issuer", JStr (if use_canonical_id then Issuer.jsonld_id env (issuer bc)
                      else add_obi_version_ifneeded env
                             (Issuer.jsonld_id env (issuer bc)) obi_version))] in
  (* image *)
  let json :=
    if truthy_str (image bc) then
      let image_url := JStr (image_url env bc) in
      with_image_info (imported (original_json bc)) image_url
        (dict_set "image" image_url json)
    else json in
  (* criteria *)
  let json :=
    match obi_version with
    | V1_1 => dict_set "criteria" (JStr (get_criteria_url env bc)) json
    | V2_0 =>
        let criteria := [] in
        let criteria :=
          if truthy_str (criteria_url bc)
          then dict_set "id" (opt_json (criteria_url bc)) criteria else criteria in
        let criteria :=
          if truthy_str (criteria_text bc)
          then dict_set "narrative" (opt_json (criteria_text bc)) criteria
          else criteria in
        dict_set "criteria" (JObj criteria) json
    end in
  (* source_url *)
  let json := source_url_fields (source_url bc)
                (HTTP_ORIGIN env ++ get_absolute_url bc) obi_version json in
  (* alignment / tags *)
  let json :=
    match obi_version with
    | V2_0 =>
        let json := dict_set "alignment"
          (JArr (map (fun a => JObj (BadgeClassAlignment.get_json env (snd a) obi_version false))
                   (all (alignments bc)))) json in
        dict_set "tags"
          (JArr (map (fun tg => JStr (BadgeClassTag.name (snd tg))) (all (tags bc)))) json
    | V1_1 => json
    end in
  (* extensions *)
  let json := extension_fields (extensions bc) json in
  (* pass through imported json *)
  if include_extra
  then pass_through (filtered (imported (original_json bc)) excluded_fields) json
  else json.

(** [get_json] returns: the column holds nothing, [null], text that is
    not JSON (the image block skips these) or an object; any other value
    fails in the image block when the badge class has an image and in the
    pass-through under [include_extra]. *)
Definition renders (bc : t) (include_extra : bool) : bool :=
  match original_json bc with
  | TextOf (JBool _) | TextOf (JNum _) | TextOf (JStr _) | TextOf (JArr _) =>
      negb (truthy_str (image bc)) && negb include_extra
  | _ => true
  end.

(** ** [BadgeClass.alignment_items], the setter *)

Definition keys : list string :=
  ["target_name"; "target_url"; "target_description"; "target_framework";
   "target_code"].

(** ["{}={}".format(k, value of k)] for each key, joined with [&] *)
Definition identity_of (values : list string) : string :=
  join "&" (map (fun kv => fst kv ++ "=" ++ snd kv) (combine keys values)).

(** "build a unique identity from alignment json": [align.get(k, None)]
    for each key *)
Definition _identity (align : BadgeClassAlignment.Data) : string :=
  identity_of
    [BadgeClassAlignment.format_required (BadgeClassAlignment.data_target_name align);
     BadgeClassAlignment.format_required (BadgeClassAlignment.data_target_url align);
     format_opt (BadgeClassAlignment.data_target_description align);
     format_opt (BadgeClassAlignment.data_target_framework align);
     format_opt (BadgeClassAlignment.data_target_code align)].

(** the same from a stored row: [getattr(alignment, k)] for each key *)
Definition _obj_identity (alignment : BadgeClassAlignment.t) : string :=
  identity_of
    [BadgeClassAlignment.target_name alignment;
     BadgeClassAlignment.target_url alignment;
     format_opt (BadgeClassAlignment.target_description alignment);
     format_opt (BadgeClassAlignment.target_framework alignment);
     format_opt (BadgeClassAlignment.target_code alignment)].

(** The badge class is saved first when it has no primary key
    ([BadgeClass] has no [save] of its own in this file); the loops then
    run, in one transaction, on the rows of [badgeclassalignment_set]. *)
Definition alignment_items_setter (value : option (list BadgeClassAlignment.Data))
  (tbl : Table BadgeClassAlignment.t) : Exc (Table BadgeClassAlignment.t) :=
  let value := match value with None => [] | Some v => v end in
  let existing_idx := map (fun a => _obj_identity (snd a)) (all tbl) in
  let new_idx := map _identity value in
  (* add missing records *)
  tbl <-
    foldM
      (fun tbl align =>
         if negb (mem_str (_identity align) existing_idx)
         then BadgeClassAlignment.manager_create align tbl else Ok tbl)
      value tbl ;;
  (* remove old records *)
  Ok (fold_left
        (fun tbl alignment =>
           if negb (mem_str (_obj_identity (snd alignment)) new_idx)
           then delete (fst alignment) tbl else tbl)
        (all tbl) tbl).

(** ** [BadgeClass.tag_items], the setter *)

(** The badge class is saved first when it has no primary key; the loops
    then run on the rows of [badgeclasstag_set]. *)
Definition tag_items_setter (value : option (list string))
  (tbl : Table BadgeClassTag.t) : Table BadgeClassTag.t :=
  let value := match value with None => [] | Some v => v end in
  let existing_idx := map (fun tg => BadgeClassTag.name (snd tg)) (all tbl) in
  let new_idx := value in
  (* add missing *)
  let tbl :=
    fold_left
      (fun tbl tg =>
         if negb (mem_str tg existing_idx)
         then create {| BadgeClassTag.name := tg |} tbl else tbl)
      value tbl in
  (* remove old *)
  fold_left
    (fun tbl tag =>
       if negb (mem_str (BadgeClassTag.name (snd tag)) new_idx)
       then delete (fst tag) tbl else tbl)
    (all tbl) tbl.

End BadgeClass.

(** ** Evidence of an assertion *)

Module BadgeInstanceEvidence.

(** A descriptor handed to [evidence_items] gives the same two values
    ([narrative], [evidence_url]; a key it leaves out reads as [None]). *)
Record t : Type := {
  evidence_url : option string;
  narrative : option string
}.

Definition get_json (env : Env) (e : t) (obi_version : ObiVersion)
  (include_context : bool) : OrderedDict :=
  let json := [] in
  let json :=
    if include_context
    then dict_set "@context" (JStr (snd (get_obi_context env obi_version))) json
    else json in
  let json := dict_set "type" (JStr "Evidence") json in
  let json :=
    if truthy_str (evidence_url e)
    then dict_set "id" (opt_json (evidence_url e)) json else json in
  if truthy_str (narrative e)
  then dict_set "narrative" (opt_json (narrative e)) json else json.

End BadgeInstanceEvidence.

(** ** Recipient identities ([badgeuser.models]) *)

(** A row of [CachedEmailAddress] (keyed by [email]) or of
    [UserRecipientIdentifier] (keyed by [identifier]); the key column is
    unique, so [cached.get] finds at most one row. *)
Record IdentityRecord : Type := {
  identifier : string;
  verified : bool
}.

Record Accounts : Type := {
  CachedEmailAddress : list IdentityRecord;
  UserRecipientIdentifier : list IdentityRecord
}.

(** [Model.cached.get(key)]: [None] stands for [DoesNotExist]. *)
Definition cached_get (key : string) (table : list IdentityRecord)
  : option IdentityRecord :=
  find (fun r => identifier r =? key) table.

Definition RECIPIENT_TYPE_EMAIL := "email".
Definition RECIPIENT_TYPE_ID := "openBadgeId".
Definition RECIPIENT_TYPE_TELEPHONE := "telephone".
Definition RECIPIENT_TYPE_URL := "url".

(** [get_user_or_none(recipient_id, recipient_type)]: the user of the first
    verified row with that identifier, among the e-mail addresses for the
    type [email] and among the other identifiers for any other type.
    [user_of] reads the [user] column of a row. *)
Definition get_user_or_none {U : Type} (user_of : IdentityRecord -> U)
  (accounts : Accounts) (recipient_id recipient_type : string) : option U :=
  if recipient_type =? "email" then
    match find (fun r => verified r && (identifier r =? recipient_id))
            (CachedEmailAddress accounts) with
    | Some verified_email => Some (user_of verified_email)
    | None => None
    end
  else
    match find (fun r => verified r && (identifier r =? recipient_id))
            (UserRecipientIdentifier accounts) with
    | Some verified_recipient_id => Some (user_of verified_recipient_id)
    | None => None
    end.

(** [uuid.UUID.hex]: the 128 bits as 32 hexadecimal digits. *)
Definition hex_digit (d : N) : ascii :=
  match d with
  | 0%N => "0" | 1%N => "1" | 2%N => "2" | 3%N => "3" | 4%N => "4"
  | 5%N => "5" | 6%N => "6" | 7%N => "7" | 8%N => "8" | 9%N => "9"
  | 10%N => "a" | 11%N => "b" | 12%N => "c" | 13%N => "d" | 14%N => "e"
  | _ => "f"
  end%char.

Fixpoint to_hex (digits : nat) (n : N) (acc : string) : string :=
  match digits with
  | O => acc
  | S d => to_hex d (N.div n 16) (String (hex_digit (N.modulo n 16)) acc)
  end.

Definition uuid_hex (u : N) : string := to_hex 32 u "".
Arguments uuid_hex : simpl never.

(** ** BadgeInstance (an assertion) *)

Module BadgeInstance.

Record t : Type := {
  pk : option nat;
  entity_id : option string;
  (** [cached_badgeclass] *)
  badgeclass : BadgeClass.t;
  (** [cached_issuer] *)
  issuer : Issuer.t;
  recipient_identifier : string;
  recipient_type : string;
  image : option string;
  revoked : bool;
  revocation_reason : option string;
  issued_on : datetime;
  expires_at : option datetime;
  hashed : bool;
  salt : option string;
  narrative : option string;
  source_url : option string;
  original_json : JsonText;
  (** [badgeinstanceextension_set] *)
  extensions : Table BaseOpenBadgeExtension.t;
  (** [badgeinstanceevidence_set] *)
  evidence : Table BadgeInstanceEvidence.t
}.

(** Assignments to one attribute of the object. *)
Definition set_pk (v : option nat) (b : t) : t :=
  {| pk := v; entity_id := entity_id b; badgeclass := badgeclass b;
     issuer := issuer b; recipient_identifier := recipient_identifier b;
     recipient_type := recipient_type b; image := image b;
     revoked := revoked b; revocation_reason := revocation_reason b;
     issued_on := issued_on b; expires_at := expires_at b;
     hashed := hashed b; salt := salt b; narrative := narrative b;
     source_url := source_url b; original_json := original_json b;
     extensions := extensions b; evidence := evidence b |}.

Definition set_entity_id (v : option string) (b : t) : t :=
  {| pk := pk b; entity_id := v; badgeclass := badgeclass b;
     issuer := issuer b; recipient_identifier := recipient_identifier b;
     recipient_type := recipient_type b; image := image b;
     revoked := revoked b; revocation_reason := revocation_reason b;
     issued_on := issued_on b; expires_at := expires_at b;
     hashed := hashed b; salt := salt b; narrative := narrative b;
     source_url := source_url b; original_json := original_json b;
     extensions := extensions b; evidence := evidence b |}.

Definition set_image (v : option string) (b : t) : t :=
  {| pk := pk b; entity_id := entity_id b; badgeclass := badgeclass b;
     issuer := issuer b; recipient_identifier := recipient_identifier b;
     recipient_type := recipient_type b; image := v; revoked := revoked b;
     revocation_reason := revocation_reason b; issued_on := issued_on b;
     expires_at := expires_at b; hashed := hashed b; salt := salt b;
     narrative := narrative b; source_url := source_url b;
     original_json := original_json b; extensions := extensions b;
     evidence := evidence b |}.

Definition set_revoked (v : bool) (b : t) : t :=
  {| pk := pk b; entity_id := entity_id b; badgeclass := badgeclass b;
     issuer := issuer b; recipient_identifier := recipient_identifier b;
     recipient_type := recipient_type b; image := image b; revoked := v;
     revocation_reason := revocation_reason b; issued_on := issued_on b;
     expires_at := expires_at b; hashed := hashed b; salt := salt b;
     narrative := narrative b; source_url := source_url b;
     original_json := original_json b; extensions := extensions b;
     evidence := evidence b |}.

Definition set_revocation_reason (v : option string) (b : t) : t :=
  {| pk := pk b; entity_id := entity_id b; badgeclass := badgeclass b;
     issuer := issuer b; recipient_identifier := recipient_identifier b;
     recipient_type := recipient_type b; image := image b;
     revoked := revoked b; revocation_reason := v; issued_on := issued_on b;
     expires_at := expires_at b; hashed := hashed b; salt := salt b;
     narrative := narrative b; source_url := source_url b;
     original_json := original_json b; extensions := extensions b;
     evidence := evidence b |}.

Definition set_salt (v : option string) (b : t) : t :=
  {| pk := pk b; entity_id := entity_id b; badgeclass := badgeclass b;
     issuer := issuer b; recipient_identifier := recipient_identifier b;
     recipient_type := recipient_type b; image := image b;
     revoked := revoked b; revocation_reason := revocation_reason b;
     issued_on := issued_on b; expires_at := expires_at b;
     hashed := hashed b; salt := v; narrative := narrative b;
     source_url := source_url b; original_json := original_json b;
     extensions := extensions b; evidence := evidence b |}.

Definition set_recipient_type (v : string) (b : t) : t :=
  {| pk := pk b; entity_id := entity_id b; badgeclass := badgeclass b;
     issuer := issuer b; recipient_identifier := recipient_identifier b;
     recipient_type := v; image := image b; revoked := revoked b;
     revocation_reason := revocation_reason b; issued_on := issued_on b;
     expires_at := expires_at b; hashed := hashed b; salt := salt b;
     narrative := narrative b; source_url := source_url b;
     original_json := original_json b; extensions := extensions b;
     evidence := evidence b |}.

Definition set_source_url (v : option string) (b : t) : t :=
  {| pk := pk b; entity_id := entity_id b; badgeclass := badgeclass b;
     issuer := issuer b; recipient_identifier := recipient_identifier b;
     recipient_type := recipient_type b; image := image b;
     revoked := revoked b; revocation_reason := revocation_reason b;
     issued_on := issued_on b; expires_at := expires_at b;
     hashed := hashed b; salt := salt b; narrative := narrative b;
     source_url := v; original_json := original_json b;
     extensions := extensions b; evidence := evidence b |}.

Definition set_original_json (v : JsonText) (b : t) : t :=
  {| pk := pk b; entity_id := entity_id b; badgeclass := badgeclass b;
     issuer := issuer b; recipient_identifier := recipient_identifier b;
     recipient_type := recipient_type b; image := image b;
     revoked := revoked b; revocation_reason := revocation_reason b;
     issued_on := issued_on b; expires_at := expires_at b;
     hashed := hashed b; salt := salt b; narrative := narrative b;
     source_url := source_url b; original_json := v;
     extensions := extensions b; evidence := evidence b |}.

Definition set_extensions (v : Table BaseOpenBadgeExtension.t) (b : t) : t :=
  {| pk := pk b; entity_id := entity_id b; badgeclass := badgeclass b;
     issuer := issuer b; recipient_identifier := recipient_identifier b;
     recipient_type := recipient_type b; image := image b;
     revoked := revoked b; revocation_reason := revocation_reason b;
     issued_on := issued_on b; expires_at := expires_at b;
     hashed := hashed b; salt := salt b; narrative := narrative b;
     source_url := source_url b; original_json := original_json b;
     extensions := v; evidence := evidence b |}.

Definition set_evidence (v : Table BadgeInstanceEvidence.t) (b : t) : t :=
  {| pk := pk b; entity_id := entity_id b; badgeclass := badgeclass b;
     issuer := issuer b; recipient_identifier := recipient_identifier b;
     recipient_type := recipient_type b; image := image b;
     revoked := revoked b; revocation_reason := revocation_reason b;
     issued_on := issued_on b; expires_at := expires_at b;
     hashed := hashed b; salt := salt b; narrative := narrative b;
     source_url := source_url b; original_json := original_json b;
     extensions := extensions b; evidence := v |}.

(** [reverse] prints the argument it is given. *)
Definition get_absolute_url (b : t) : string :=
  reverse badgeinstance_json (format_opt (entity_id b)).

Definition public_url (env : Env) (b : t) : string :=
  HTTP_ORIGIN env ++ get_absolute_url b.

(** [image_url(public=True)] *)
Definition image_url (env : Env) (b : t) : string :=
  HTTP_ORIGIN env ++ reverse badgeinstance_image (format_opt (entity_id b)).

Definition jsonld_id (env : Env) (b : t) : string :=
  if truthy_str (source_url b) then or_empty (source_url b)
  else HTTP_ORIGIN env ++ get_absolute_url b.

Definition cached_evidence (b : t) : list BadgeInstanceEvidence.t :=
  map snd (all (evidence b)).

(** "Exists for compliance with ob1.x badges" *)
Definition evidence_url (env : Env) (b : t) : option string :=
  let evidence_list := cached_evidence b in
  if Nat.ltb 1 (length evidence_list) then Some (public_url env b)
  else
    match evidence_list with
    | [e] =>
        if truthy_str (BadgeInstanceEvidence.evidence_url e)
        then BadgeInstanceEvidence.evidence_url e
        else Some (public_url env b)
    | _ => None
    end.

Definition excluded_fields : list string :=
  ["@context"; "id"; "type"; "uid"; "recipient"; "badge"; "issuedOn"; "image";
   "evidence"; "narrative"; "revoked"; "revocationReason"; "verify";
   "verification"].

(** "Ensure that the expires date string is in the expected ISO-85601 UTC
    format" *)
Definition ensure_expires (env : Env) (filtered : option OrderedDict)
  : option OrderedDict :=
  match filtered with
  | Some filtered =>
      match dict_get "expires" filtered with
      | Some expires =>
          if truthy expires && negb (str_endswith_Z expires)
          then Some (dict_set "expires" (parse_original_datetime env expires) filtered)
          else Some filtered
      | None => Some filtered
      end
  | None => None
  end.

Definition get_filtered_json (env : Env) (b : t) : Exc (option OrderedDict) :=
  filtered <- OriginalJsonMixin.get_filtered_json (original_json b) excluded_fields ;;
  Ok (ensure_expires env filtered).

(** The "recipient" block. *)
Definition recipient_json (env : Env) (b : t) : OrderedDict :=
  if hashed b then
    let recipient :=
      [("hashed", JBool true);
       ("type", JStr (recipient_type b));
       ("identity",
        JStr (generate_sha256_hashstring env (recipient_identifier b) (salt b)))] in
    if truthy_str (salt b)
    then dict_set "salt" (opt_json (salt b)) recipient
    else recipient
  else
    [("hashed", JBool false);
     ("type", JStr (recipient_type b));
     ("identity", JStr (recipient_identifier b))].

Definition get_json (env : Env) (b : t) (obi_version : ObiVersion)
  (expand_badgeclass expand_issuer include_extra use_canonical_id : bool)
  : Exc OrderedDict :=
  let '(obi_version, context_iri) := get_obi_context env obi_version in
  let json :=
    [("@context", JStr context_iri);
     ("type", JStr "Assertion");
     ("id", JStr (add_obi_version_ifneeded env (jsonld_id env b) obi_version));
     ("badge", JStr (add_obi_version_ifneeded env
                       (BadgeClass.jsonld_id env (badgeclass b)) obi_version))] in
  let image_url := JStr (image_url env b) in
  let json := dict_set "image" image_url json in
  json <- merge_image_info (original_json b) image_url json ;;
  json <-
    (if expand_badgeclass then
       badge <- BadgeClass.get_json env (badgeclass b) obi_version include_extra false ;;
       let json := dict_set "badge" (JObj badge) json in
       if expand_issuer then
         issuer <- Issuer.get_json env (issuer b) obi_version include_extra false ;;
         Ok (dict_set_in "badge" "issuer" (JObj issuer) json)
       else Ok json
     else Ok json) ;;
  if revoked b then
    Ok [("@context", JStr context_iri);
        ("type", JStr "Assertion");
        ("id", JStr (if use_canonical_id then jsonld_id env b
                     else add_obi_version_ifneeded env (jsonld_id env b) obi_version));
        ("revoked", JBool (revoked b));
        ("revocationReason",
         JStr (if truthy_str (revocation_reason b)
               then or_empty (revocation_reason b) else ""))]
  else
  let json :=
    match obi_version with
    | V1_1 =>
        let json := dict_set "uid" (opt_json (entity_id b)) json in
        dict_set "verify"
          (JObj [("url", JStr (if use_canonical_id then public_url env b
                               else add_obi_version_ifneeded env
                                      (public_url env b) obi_version));
                 ("type", JStr "hosted")]) json
    | V2_0 =>
        dict_set "verification" (JObj [("type", JStr "HostedBadge")]) json
    end in
  (* source url *)
  let json := source_url_fields (source_url b)
                (HTTP_ORIGIN env ++ get_absolute_url b) obi_version json in
  (* evidence *)
  let json :=
    if truthy_str (evidence_url env b) then
      match obi_version with
      | V1_1 => dict_set "evidence" (opt_json (evidence_url env b)) json
      | V2_0 =>
          dict_set "evidence"
            (JArr (map (fun e => JObj (BadgeInstanceEvidence.get_json env e obi_version false))
                     (cached_evidence b))) json
      end
    else json in
  (* narrative *)
  let json :=
    match obi_version with
    | V2_0 =>
        if truthy_str (narrative b)
        then dict_set "narrative" (opt_json (narrative b)) json else json
    | V1_1 => json
    end in
  (* issuedOn / expires *)
  let json := dict_set "issuedOn" (JStr (isoformat env (issued_on b))) json in
  let json :=
    match expires_at b with
    | Some expires => dict_set "expires" (JStr (isoformat env expires)) json
    | None => json
    end in
  (* recipient *)
  let json := dict_set "recipient" (JObj (recipient_json env b)) json in
  (* extensions *)
  let json := extension_fields (extensions b) json in
  (* pass through imported json *)
  if include_extra then
    extra <- get_filtered_json env b ;;
    Ok (pass_through extra json)
  else Ok json.

(** [extended_json]: [self.json] with the documents of the badge class and
    of the issuer ([self.badgeclass.json], [self.issuer.json]) nested in
    it. *)
Definition extended_json (env : Env) (b : t) : Exc OrderedDict :=
  extended_json <- get_json env b (CURRENT_OBI_VERSION env) false false true false ;;
  badge <- BadgeClass.get_json env (badgeclass b) (CURRENT_OBI_VERSION env)
             true false ;;
  let extended_json := dict_set "badge" (JObj badge) extended_json in
  issuer <- Issuer.get_json env (issuer b) (CURRENT_OBI_VERSION env) true false ;;
  Ok (dict_set_in "badge" "issuer" (JObj issuer) extended_json).

(** *** The document [get_json] returns when it returns

    [filtered_json] is what [get_filtered_json] gives when the column
    holds nothing or an object; [document] is [get_json] with the
    imported document read as [imported] gives it and the nested
    documents as the builders of the badge class and of the issuer return
    them ([BadgeInstance_get_json_returns] below). *)

Definition filtered_json (env : Env) (b : t) : option OrderedDict :=
  ensure_expires env (filtered (imported (original_json b)) excluded_fields).

Definition document (env : Env) (b : t) (obi_version : ObiVersion)
  (expand_badgeclass expand_issuer include_extra use_canonical_id : bool)
  : OrderedDict :=
  let '(obi_version, context_iri) := get_obi_context env obi_version in
  let json :=
    [("@context", JStr context_iri);
     ("type", JStr "Assertion");
     ("id", JStr (add_obi_version_ifneeded env (jsonld_id env b) obi_version));
     ("badge", JStr (add_obi_version_ifneeded env
                       (BadgeClass.jsonld_id env (badgeclass b)) obi_version))] in
  let image_url := JStr (image_url env b) in
  let json := dict_set "image" image_url json in
  let json := with_image_info (imported (original_json b)) image_url json in
  let json :=
    if expand_badgeclass then
      let json := dict_set "badge"
        (JObj (BadgeClass.document env (badgeclass b) obi_version include_extra false))
        json in
      if expand_issuer then
        dict_set_in "badge" "issuer"
          (JObj (Issuer.document env (issuer b) obi_version include_extra false)) json
      else json
    else json in
  if revoked b then
    [("@context", JStr context_iri);
     ("type", JStr "Assertion");
     ("id", JStr (if use_canonical_id then jsonld_id env b
                  else add_obi_version_ifneeded env (jsonld_id env b) obi_version));
     ("revoked", JBool (revoked b));
     ("revocationReason",
      JStr (if truthy_str (revocation_reason b)
            then or_empty (revocation_reason b) else ""))]
  else
  let json :=
    match obi_version with
    | V1_1 =>
        let json := dict_set "uid" (opt_json (entity_id b)) json in
        dict_set "verify"
          (JObj [("url", JStr (if use_canonical_id then public_url env b
                               else add_obi_version_ifneeded env
                                      (public_url env b) obi_version));
                 ("type", JStr "hosted")]) json
    | V2_0 =>
        dict_set "verification" (JObj [("type", JStr "HostedBadge")]) json
    end in
  (* source url *)
  let json := source_url_fields (source_url b)
                (HTTP_ORIGIN env ++ get_absolute_url b) obi_version json in
  (* evidence *)
  let json :=
    if truthy_str (evidence_url env b) then
      match obi_version with
      | V1_1 => dict_set "evidence" (opt_json (evidence_url env b)) json
      | V2_0 =>
          dict_set "evidence"
            (JArr (map (fun e => JObj (BadgeInstanceEvidence.get_json env e obi_version false))
                     (cached_evidence b))) json
      end
    else json in
  (* narrative *)
  let json :=
    match obi_version with
    | V2_0 =>
        if truthy_str (narrative b)
        then dict_set "narrative" (opt_json (narrative b)) json else json
    | V1_1 => json
    end in
  (* issuedOn / expires *)
  let json := dict_set "issuedOn" (JStr (isoformat env (issued_on b))) json in
  let json :=
    match expires_at b with
    | Some expires => dict_set "expires" (JStr (isoformat env expires)) json
    | None => json
    end in
  (* recipient *)
  let json := dict_set "recipient" (JObj (recipient_json env b)) json in
  (* extensions *)
  let json := extension_fields (extensions b) json in
  (* pass through imported json *)
  if include_extra then pass_through (filtered_json env b) json else json.

(** [get_json] returns: the column of the assertion holds nothing or an
    object, and the builders of the requested nested documents return. *)
Definition renders (b : t) (expand_badgeclass expand_issuer include_extra : bool)
  : bool :=
  readable (original_json b)
  && (if expand_badgeclass then
        BadgeClass.renders (badgeclass b) include_extra
        && (if expand_issuer then Issuer.renders (issuer b) else true)
      else true).

(** [document] in two parts: the document up to the revocation check
    ([head]) and the blocks from "uid / verify" to "extensions", as a
    function of the document so far ([body]).  [document_not_revoked]
    below states that [document] is [head], then [body], then the
    pass-through. *)
Definition head (env : Env) (b : t) (obi_version : ObiVersion)
  (expand_badgeclass expand_issuer include_extra : bool) : OrderedDict :=
  let json :=
    [("@context", JStr (context_iri env obi_version));
     ("type", JStr "Assertion");
     ("id", JStr (add_obi_version_ifneeded env (jsonld_id env b) obi_version));
     ("badge", JStr (add_obi_version_ifneeded env
                       (BadgeClass.jsonld_id env (badgeclass b)) obi_version))] in
  let image_url := JStr (image_url env b) in
  let json := dict_set "image" image_url json in
  let json := with_image_info (imported (original_json b)) image_url json in
  if expand_badgeclass then
    let json := dict_set "badge"
      (JObj (BadgeClass.document env (badgeclass b) obi_version include_extra false))
      json in
    if expand_issuer then
      dict_set_in "badge" "issuer"
        (JObj (Issuer.document env (issuer b) obi_version include_extra false)) json
    else json
  else json.

Definition body (env : Env) (b : t) (obi_version : ObiVersion)
  (use_canonical_id : bool) (json : OrderedDict) : OrderedDict :=
  let json :=
    match obi_version with
    | V1_1 =>
        let json := dict_set "uid" (opt_json (entity_id b)) json in
        dict_set "verify"
          (JObj [("url", JStr (if use_canonical_id then public_url env b
                               else add_obi_version_ifneeded env
                                      (public_url env b) obi_version));
                 ("type", JStr "hosted")]) json
    | V2_0 =>
        dict_set "verification" (JObj [("type", JStr "HostedBadge")]) json
    end in
  let json := source_url_fields (source_url b)
                (HTTP_ORIGIN env ++ get_absolute_url b) obi_version json in
  let json :=
    if truthy_str (evidence_url env b) then
      match obi_version with
      | V1_1 => dict_set "evidence" (opt_json (evidence_url env b)) json
      | V2_0 =>
          dict_set "evidence"
            (JArr (map (fun e => JObj (BadgeInstanceEvidence.get_json env e obi_version false))
                     (cached_evidence b))) json
      end
    else json in
  let json :=
    match obi_version with
    | V2_0 =>
        if truthy_str (narrative b)
        then dict_set "narrative" (opt_json (narrative b)) json else json
    | V1_1 => json
    end in
  let json := dict_set "issuedOn" (JStr (isoformat env (issued_on b))) json in
  let json :=
    match expires_at b with
    | Some expires => dict_set "expires" (JStr (isoformat env expires)) json
    | None => json
    end in
  let json := dict_set "recipient" (JObj (recipient_json env b)) json in
  extension_fields (extensions b) json.

(** The value the pass-through carries for key [k] of the imported
    document: the imported value, but for [expires] as
    [get_filtered_json] rewrites it. *)
Definition passed_value (env : Env) (k : string) (v : Json) : Json :=
  if (k =? "expires") && (truthy v && negb (str_endswith_Z v))
  then parse_original_datetime env v
  else v.

(** [pending], with the identity tables it reads. *)
Definition pending (accounts : Accounts) (b : t) : bool :=
  let existing_identifier :=
    if recipient_type b =? RECIPIENT_TYPE_EMAIL
    then cached_get (recipient_identifier b) (CachedEmailAddress accounts)
    else cached_get (recipient_identifier b) (UserRecipientIdentifier accounts) in
  match existing_identifier with
  | None => false
  | Some existing_identifier =>
      if negb (truthy_str (source_url b)) then false
      else negb (verified existing_identifier)
  end.

(** [recipient_user]: the e-mail addresses are read first, whatever the
    recipient type; the other identifiers only when no e-mail address
    has that identifier. *)
Definition recipient_user {U : Type} (user_of : IdentityRecord -> U)
  (accounts : Accounts) (b : t) : option U :=
  match cached_get (recipient_identifier b) (CachedEmailAddress accounts) with
  | Some email_address =>
      if verified email_address then Some (user_of email_address) else None
  | None =>
      match cached_get (recipient_identifier b)
              (UserRecipientIdentifier accounts) with
      | Some identifier =>
          if verified identifier then Some (user_of identifier) else None
      | None => None
      end
  end.

(** ** [BadgeInstance.evidence_items], the setter *)

Definition _key (narrative url : option string) : string :=
  or_empty narrative ++ "-" ++ or_empty url.

(** [x or None] *)
Definition or_None (o : option string) : option string :=
  if truthy_str o then o else None.

Definition add_missing (existing_evidence_idx : list string)
  (tbl : Table BadgeInstanceEvidence.t) (evidence_data : BadgeInstanceEvidence.t)
  : Exc (Table BadgeInstanceEvidence.t) :=
  let key := _key (BadgeInstanceEvidence.narrative evidence_data)
                  (BadgeInstanceEvidence.evidence_url evidence_data) in
  if negb (mem_str key existing_evidence_idx) then
    bind (get_or_create
            (fun r =>
               opt_eqb (BadgeInstanceEvidence.narrative r)
                       (BadgeInstanceEvidence.narrative evidence_data)
               && opt_eqb (BadgeInstanceEvidence.evidence_url r)
                          (BadgeInstanceEvidence.evidence_url evidence_data))
            {| BadgeInstanceEvidence.evidence_url :=
                 BadgeInstanceEvidence.evidence_url evidence_data;
               BadgeInstanceEvidence.narrative :=
                 BadgeInstanceEvidence.narrative evidence_data |} tbl)
      (fun '(_, _, _, tbl) => Ok tbl)
  else Ok tbl.

Definition remove_old (new_evidence_idx : list string)
  (tbl : Table BadgeInstanceEvidence.t)
  (evidence_record : nat * BadgeInstanceEvidence.t)
  : Table BadgeInstanceEvidence.t :=
  let key := _key (or_None (BadgeInstanceEvidence.narrative (snd evidence_record)))
                  (or_None (BadgeInstanceEvidence.evidence_url (snd evidence_record))) in
  if negb (mem_str key new_evidence_idx)
  then delete (fst evidence_record) tbl
  else tbl.

(** The two loops on the rows found, for reasoning about the setter,
    which follows [save] (it calls it). *)
Definition update_evidence (value : list BadgeInstanceEvidence.t)
  (tbl : Table BadgeInstanceEvidence.t) : Exc (Table BadgeInstanceEvidence.t) :=
  let existing_evidence_idx :=
    map (fun e => _key (BadgeInstanceEvidence.narrative (snd e))
                       (BadgeInstanceEvidence.evidence_url (snd e))) (all tbl) in
  let new_evidence_idx :=
    map (fun v => _key (BadgeInstanceEvidence.narrative v)
                       (BadgeInstanceEvidence.evidence_url v)) value in
  tbl <- foldM (add_missing existing_evidence_idx) value tbl ;;
  Ok (fold_left (remove_old new_evidence_idx) (all tbl) tbl).

(** ** Operations that write: [save], [revoke], [rebake]

    The object in memory ([self]), its row in the database as another
    request reads it ([row]), the files of [default_storage], and the
    worlds (row and files) that were visible after each write, oldest
    first. *)

Definition Storage := list (string * string).

Record World : Type := {
  db_row : option t;
  files : Storage
}.

Record State : Type := {
  self : t;
  row : option t;
  storage : Storage;
  history : list World
}.

(** A statement: it ends with a value or an exception, in a new state. *)
Definition M (A : Type) : Type := State -> Exc A * State.

Definition ret {A : Type} (a : A) : M A := fun st => (Ok a, st).

Definition raise {A : Type} (e : Exception) : M A := fun st => (Raise e, st).

Definition bindM {A B : Type} (m : M A) (k : A -> M B) : M B :=
  fun st =>
    match m st with
    | (Ok a, st') => k a st'
    | (Raise e, st') => (Raise e, st')
    end.

Notation "x <-- m ;; k" := (bindM m (fun x => k))
  (at level 61, m at next level, right associativity).
Notation "m ;;; k" := (bindM m (fun _ => k))
  (at level 61, right associativity).

Definition get_self : M t := fun st => (Ok (self st), st).

(** a call that writes nothing *)
Definition lift {A : Type} (r : Exc A) : M A := fun st => (r, st).

(** the state a statement leaves when it ends normally *)
Definition exec {A : Type} (m : M A) (st : State) : Exc State :=
  match m st with
  | (Ok _, st') => Ok st'
  | (Raise e, _) => Raise e
  end.

(** [field.file]: [ValueError] when the field names no file.  The storage
    is taken to hold the file a badge class image names. *)
Definition field_file (name : option string) : M unit :=
  if truthy_str name then ret tt else raise ValueError.

(** an assignment to an attribute of [self] *)
Definition modify (f : t -> t) : M unit :=
  fun st =>
    (Ok tt, {| self := f (self st); row := row st; storage := storage st;
               history := history st |}).

(** what a reader finds once a write is done *)
Definition observe (st : State) : State :=
  {| self := self st; row := row st; storage := storage st;
     history := (history st ++ [{| db_row := row st; files := storage st |}])%list |}.

Definition stored (name : string) (fs : Storage) : bool :=
  existsb (fun f => fst f =? name) fs.

(** [default_storage.save(name, content)]: the name the file got *)
Definition storage_save (env : Env) (name content : string) : M string :=
  fun st =>
    let actual := get_available_name env name (map fst (storage st)) in
    (Ok actual,
     observe {| self := self st; row := row st;
                storage := (storage st ++ [(actual, content)])%list;
                history := history st |}).

(** [default_storage.delete(name)] *)
Definition storage_delete (name : option string) : M unit :=
  fun st =>
    match name with
    | Some n =>
        (Ok tt,
         observe {| self := self st; row := row st;
                    storage := filter (fun f => negb (fst f =? n)) (storage st);
                    history := history st |})
    | None => (Ok tt, st)
    end.

(** [super().save()]: a new row gets its primary key, the row is written *)
Definition write_row (env : Env) : M unit :=
  fun st =>
    let s := self st in
    let s := set_pk (Some (match pk s with Some k => k | None => new_pk env end)) s in
    (Ok tt, observe {| self := s; row := Some s; storage := storage st;
                       history := history st |}).

Definition UPLOAD_TO := "uploads/badges/".

(** [BadgeInstance.save].  The log event and the e-mail variant kept for
    the recipient touch nothing held here. *)
Definition save (env : Env) : M unit :=
  s <-- get_self ;;
  match pk s with
  | None =>
      (* First check if recipient is in the blacklist *)
      if api_query_is_in_blacklist env (recipient_type s) (recipient_identifier s)
      then raise (ValidationError "You may not award this badge to this recipient.")
      else
        modify (set_salt (Some (uuid_hex (uuid4 env)))) ;;;
        modify (fun s => match entity_id s with
                         | None => set_entity_id (Some (generate_entity_uri env)) s
                         | Some _ => s
                         end) ;;;
        s <-- get_self ;;
        if negb (truthy_str (image s)) then
          field_file (BadgeClass.image (badgeclass s)) ;;;
          let ext := splitext_ext env (BadgeClass.image (badgeclass s)) in
          json <-- lift (get_json env s (UNVERSIONED_BAKED_VERSION env)
                           false false true false) ;;
          let new_image :=
            bake env (BadgeClass.image (badgeclass s))
              (json_dumps env (JObj json)) in
          name <-- storage_save env
                     (UPLOAD_TO ++ "assertion-" ++ format_opt (entity_id s) ++ ext)
                     new_image ;;
          modify (set_image (Some name))
        else ret tt
  | Some _ => ret tt
  end ;;;
  modify (fun s => if negb (revoked s) then set_revocation_reason None s else s) ;;;
  write_row env.

(** For reasoning about [save]: a new assertion once [save] has given it
    its salt and its entity id ([prepared]); the state with another
    object in memory ([with_self]); and the state the last two statements
    of [save] leave, which clear the reason of an assertion that is not
    revoked and write the row ([written]). *)
Definition prepared (env : Env) (s : t) : t :=
  let s := set_salt (Some (uuid_hex (uuid4 env))) s in
  match entity_id s with
  | None => set_entity_id (Some (generate_entity_uri env)) s
  | Some _ => s
  end.

Definition with_self (st : State) (s : t) : State :=
  {| self := s; row := row st; storage := storage st; history := history st |}.

Definition written (env : Env) (st : State) : State :=
  let s := self st in
  let s := if negb (revoked s) then set_revocation_reason None s else s in
  let s := set_pk (Some (match pk s with Some k => k | None => new_pk env end)) s in
  {| self := s; row := Some s; storage := storage st;
     history := (history st ++ [{| db_row := Some s; files := storage st |}])%list |}.

(** [self.image.delete()]: nothing without a file; else the file is
    deleted, the reference cleared and the instance saved. *)
Definition image_delete (env : Env) : M unit :=
  s <-- get_self ;;
  if negb (truthy_str (image s)) then ret tt
  else
    storage_delete (image s) ;;;
    modify (set_image None) ;;;
    save env.

Definition AlreadyRevokedError : Exception :=
  ValidationError "Assertion is already revoked".

Definition MissingReasonError : Exception :=
  ValidationError "revocation_reason is required".

Definition revoke (env : Env) (reason : option string) : M unit :=
  s <-- get_self ;;
  if revoked s then raise AlreadyRevokedError
  else if negb (truthy_str reason) then raise MissingReasonError
  else
    modify (set_revoked true) ;;;
    modify (set_revocation_reason reason) ;;;
    image_delete env ;;;
    save env.

Definition rebake (env : Env) (obi_version : ObiVersion) (save_flag : bool)
  : M unit :=
  s <-- get_self ;;
  field_file (BadgeClass.image (badgeclass s)) ;;;
  json <-- lift (get_json env s obi_version false false true false) ;;
  let new_image :=
    bake env (BadgeClass.image (badgeclass s)) (json_dumps env (JObj json)) in
  let new_filename :=
    generate_rebaked_filename env (image s) (BadgeClass.image (badgeclass s)) in
  new_name <-- storage_save env new_filename new_image ;;
  storage_delete (image s) ;;;
  modify (set_image (Some new_name)) ;;;
  if save_flag then save env else ret tt.

(** ** [BadgeInstance.evidence_items], the setter

    The evidence rows are those of [self]; all of it runs in one
    transaction, so an exception leaves nothing written. *)

Definition with_evidence (st : State) (tbl : Table BadgeInstanceEvidence.t)
  : State :=
  {| self := set_evidence tbl (self st); row := row st; storage := storage st;
     history := history st |}.

Definition evidence_items_setter (env : Env)
  (value : list BadgeInstanceEvidence.t) (st : State) : Exc State :=
  let existing_evidence_idx :=
    map (fun e => _key (BadgeInstanceEvidence.narrative (snd e))
                       (BadgeInstanceEvidence.evidence_url (snd e)))
      (all (evidence (self st))) in
  let new_evidence_idx :=
    map (fun v => _key (BadgeInstanceEvidence.narrative v)
                       (BadgeInstanceEvidence.evidence_url v)) value in
  st <- (if BaseOpenBadgeObjectModel.unsaved (pk (self st))
         then exec (save env) st else Ok st) ;;
  (* add missing *)
  tbl <- foldM (add_missing existing_evidence_idx) value (evidence (self st)) ;;
  (* remove old *)
  Ok (with_evidence st (fold_left (remove_old new_evidence_idx) (all tbl) tbl)).

(** [extension_items] on an assertion *)
#[export] Instance Object (env : Env) : BaseOpenBadgeObjectModel.Object State := {
  BaseOpenBadgeObjectModel.object_pk := fun st => pk (self st);
  BaseOpenBadgeObjectModel.object_save := exec (save env);
  BaseOpenBadgeObjectModel.get_extensions_manager := fun st => extensions (self st);
  BaseOpenBadgeObjectModel.with_extensions := fun st tbl =>
    {| self := set_extensions tbl (self st); row := row st; storage := storage st;
       history := history st |}
}.


(** A reader that follows the image reference of the stored row finds its
    file. *)
Definition image_readable (w : World) : bool :=
  match db_row w with
  | Some r =>
      match image r with
      | Some name => stored name (files w)
      | None => false
      end
  | None => false
  end.

End BadgeInstance.

(** ** Baked images per version ([BadgeInstanceBakedImage],
    [get_baked_image_url]) *)

Definition ObiVersion_eqb (a b : ObiVersion) : bool :=
  match a, b with
  | V1_1, V1_1 | V2_0, V2_0 => true
  | _, _ => false
  end.

(** the text of a version: ['1_1'], ['2_0'] *)
Definition version_text (v : ObiVersion) : string :=
  match v with
  | V1_1 => "1_1"
  | V2_0 => "2_0"
  end.

Module BadgeInstanceBakedImage.

(** the rows of one assertion *)
Record t : Type := {
  obi_version : ObiVersion;
  image : option string
}.

End BadgeInstanceBakedImage.

Definition _baked_badge_instance_filename_generator
  (instance : BadgeInstanceBakedImage.t) (filename : string) : string :=
  "baked/" ++ version_text (BadgeInstanceBakedImage.obi_version instance)
  ++ "/" ++ filename.

(** [field.url]: [ValueError] when the field names no file;
    [storage_url] stands for [default_storage.url]. *)
Definition field_file_url (storage_url : string -> string) (name : option string)
  : Exc string :=
  if truthy_str name then Ok (storage_url (or_empty name))
  else Raise ValueError.

Record BakedState : Type := {
  baked_images : Table BadgeInstanceBakedImage.t;
  baked_files : BadgeInstance.Storage
}.

(** The rows of [BadgeInstanceBakedImage] are those of the assertion; the
    result comes with the rows and files the call leaves. *)
Definition get_baked_image_url (env : Env) (storage_url : string -> string)
  (b : BadgeInstance.t) (obi_version : ObiVersion) (st : BakedState)
  : Exc string * BakedState :=
  if ObiVersion_eqb obi_version (UNVERSIONED_BAKED_VERSION env) then
    (* requested version is the one referenced in assertion.image *)
    (field_file_url storage_url (BadgeInstance.image b), st)
  else
    match filter
            (fun x => ObiVersion_eqb
                        (BadgeInstanceBakedImage.obi_version (snd x)) obi_version)
            (rows (baked_images st)) with
    | [(_, baked_image)] =>
        (field_file_url storage_url (BadgeInstanceBakedImage.image baked_image), st)
    | [] =>
        (* rebake *)
        let baked_image :=
          {| BadgeInstanceBakedImage.obi_version := obi_version;
             BadgeInstanceBakedImage.image := None |} in
        match BadgeInstance.get_json env b obi_version true true true false with
        | Raise e => (Raise e, st)
        | Ok json_to_bake =>
            (* [self.badgeclass.image.file] *)
            if negb (truthy_str (BadgeClass.image (BadgeInstance.badgeclass b)))
            then (Raise ValueError, st)
            else
              let ext :=
                splitext_ext env (BadgeClass.image (BadgeInstance.badgeclass b)) in
              let new_image :=
                bake env (BadgeClass.image (BadgeInstance.badgeclass b))
                  (json_dumps env (JObj json_to_bake)) in
              let name :=
                get_available_name env
                  (_baked_badge_instance_filename_generator baked_image
                     ("assertion-" ++ format_opt (BadgeInstance.entity_id b) ++ "-"
                      ++ version_text obi_version ++ ext))
                  (map fst (baked_files st)) in
              let baked_image :=
                {| BadgeInstanceBakedImage.obi_version := obi_version;
                   BadgeInstanceBakedImage.image := Some name |} in
              (field_file_url storage_url (BadgeInstanceBakedImage.image baked_image),
               {| baked_images := create baked_image (baked_images st);
                  baked_files := (baked_files st ++ [(name, new_image)])%list |})
        end
    | _ => (Raise MultipleObjectsReturned, st)
    end.

(** ** Deleting a badge class and an issuer

    The rows of the three tables; a foreign key is read as the primary
    key of the object a row refers to, and a row that refers to a deleted
    row goes with it where the field says [on_delete=CASCADE]. *)

Record Database : Type := {
  issuer_rows : list Issuer.t;
  badgeclass_rows : list BadgeClass.t;
  badgeinstance_rows : list BadgeInstance.t
}.

(** [fk == self.pk]; an object without primary key is referred to by no
    row *)
Definition refers_to (fk pk : option nat) : bool :=
  match fk, pk with
  | Some x, Some y => Nat.eqb x y
  | _, _ => false
  end.

Definition badgeclass_id (a : BadgeInstance.t) : option nat :=
  BadgeClass.pk (BadgeInstance.badgeclass a).

Definition issuer_id (a : BadgeInstance.t) : option nat :=
  Issuer.pk (BadgeInstance.issuer a).

Inductive DeleteOutcome : Type :=
| Deleted_
| ProtectedError (message : string).

(** [Issuer.has_nonrevoked_assertions] *)
Definition has_nonrevoked_assertions (db : Database) (i : Issuer.t) : bool :=
  existsb
    (fun a => refers_to (issuer_id a) (Issuer.pk i) && negb (BadgeInstance.revoked a))
    (badgeinstance_rows db).

(** "if there are some assertions that have not expired" *)
Definition has_live_assertions (now : datetime) (db : Database) (bc : BadgeClass.t)
  : bool :=
  existsb
    (fun a =>
       refers_to (badgeclass_id a) (BadgeClass.pk bc)
       && negb (BadgeInstance.revoked a)
       && match BadgeInstance.expires_at a with
          | None => true
          | Some expires_at => (now <? expires_at)%Z
          end)
    (badgeinstance_rows db).

(** [BadgeClass.delete]; the assertions of the badge class cascade *)
Definition BadgeClass_delete (now : datetime) (bc : BadgeClass.t) (db : Database)
  : DeleteOutcome * Database :=
  if has_live_assertions now db bc then
    (ProtectedError
       "BadgeClass may only be deleted if all BadgeInstances have been revoked.",
     db)
  else
    (Deleted_,
     {| issuer_rows := issuer_rows db;
        badgeclass_rows :=
          filter (fun c => negb (refers_to (BadgeClass.pk c) (BadgeClass.pk bc)))
            (badgeclass_rows db);
        badgeinstance_rows :=
          filter (fun a => negb (refers_to (badgeclass_id a) (BadgeClass.pk bc)))
            (badgeinstance_rows db) |}).

(** the loop [for bc in self.cached_badgeclasses(): bc.delete()]; an
    exception ends it, with what was deleted before *)
Fixpoint delete_badgeclasses (now : datetime) (bcs : list BadgeClass.t)
  (db : Database) : DeleteOutcome * Database :=
  match bcs with
  | [] => (Deleted_, db)
  | bc :: rest =>
      match BadgeClass_delete now bc db with
      | (Deleted_, db') => delete_badgeclasses now rest db'
      | (ProtectedError message, db') => (ProtectedError message, db')
      end
  end.

(** [Issuer.delete]; the badge classes, the assertions and the staff of
    the issuer cascade (the staff rows are held in the issuer's row here) *)
Definition Issuer_delete (now : datetime) (i : Issuer.t) (db : Database)
  : DeleteOutcome * Database :=
  if has_nonrevoked_assertions db i then
    (ProtectedError
       "Issuer can not be deleted because it has previously issued badges.", db)
  else
    (* remove any unused badgeclasses owned by issuer *)
    let cached_badgeclasses :=
      filter (fun c => refers_to (Issuer.pk (BadgeClass.issuer c)) (Issuer.pk i))
        (badgeclass_rows db) in
    match delete_badgeclasses now cached_badgeclasses db with
    | (Deleted_, db) =>
        (Deleted_,
         {| issuer_rows :=
              filter (fun j => negb (refers_to (Issuer.pk j) (Issuer.pk i)))
                (issuer_rows db);
            badgeclass_rows :=
              filter (fun c => negb (refers_to (Issuer.pk (BadgeClass.issuer c))
                                       (Issuer.pk i)))
                (badgeclass_rows db);
            badgeinstance_rows :=
              filter (fun a => negb (refers_to (issuer_id a) (Issuer.pk i)))
                (badgeinstance_rows db) |})
    | (ProtectedError message, db) => (ProtectedError message, db)
    end.

(** ** A sample deployment

    One environment that the descriptions of the helpers allow, and a few
    rows, for evaluating the definitions on concrete inputs. *)

Module Demo.

(** Modelled from the spec: the helpers of [issuer/utils.py] (not among
    the sources).  [add_obi_version_ifneeded] "appends a
    version-disambiguation suffix" for a version other than the current
    one; [parse_original_datetime] normalizes "an expires value lacking a
    UTC-zone suffix" to a UTC string; the digest only has to be a function
    of its input. *)
Definition env : Env :=
  {| HTTP_ORIGIN := "https://badges.example";
     context_iri := fun v =>
       match v with
       | V1_1 => "https://w3id.org/openbadges/v1"
       | V2_0 => "https://w3id.org/openbadges/v2"
       end;
     CURRENT_OBI_VERSION := V2_0;
     UNVERSIONED_BAKED_VERSION := V2_0;
     add_obi_version_ifneeded := fun url v =>
       match v with
       | V2_0 => url
       | V1_1 => url ++ "?v=1_1"
       end;
     sha256 := fun s => "sha256$" ++ s;
     parse_original_datetime := fun j =>
       match j with
       | JStr s => JStr (s ++ "Z")
       | _ => j
       end;
     generate_rebaked_filename := fun old _ => or_empty old ++ ".rebaked.png";
     isoformat := fun _ => "2024-01-15T00:00:00+00:00";
     json_dumps := fun _ => "{}";
     bake := fun _ text => "PNG" ++ text;
     splitext_ext := fun _ => ".png";
     get_available_name := fun name taken =>
       if mem_str name taken then name ++ "_1" else name;
     api_query_is_in_blacklist := fun _ _ => false;
     uuid4 := 255%N;
     generate_entity_uri := "fresh";
     new_pk := 100 |}.

Definition owner_row : IssuerStaff.t :=
  {| IssuerStaff.user := 7; IssuerStaff.role := IssuerStaff.ROLE_OWNER |}.

Definition staff_table : Table IssuerStaff.t :=
  {| rows := [(1, owner_row);
              (2, {| IssuerStaff.user := 8; IssuerStaff.role := IssuerStaff.ROLE_STAFF |})];
     next_pk := 3; log := [] |}.

Definition issuer : Issuer.t :=
  {| Issuer.pk := Some 1; Issuer.entity_id := "iss"; Issuer.created_by_id := Some 7;
     Issuer.name := "Acme"; Issuer.image := None;
     Issuer.description := Some "An issuer"; Issuer.url := Some "https://acme.example";
     Issuer.email := Some "badges@acme.example"; Issuer.category := "n/a";
     Issuer.source_url := None;
     Issuer.original_json :=
       TextOf (JObj [("name", JStr "Imported"); ("motto", JStr "ad astra")]);
     Issuer.extensions := empty_table; Issuer.staff := staff_table |}.

Definition badgeclass : BadgeClass.t :=
  {| BadgeClass.pk := Some 1; BadgeClass.entity_id := "bc"; BadgeClass.issuer := issuer;
     BadgeClass.name := "Welder"; BadgeClass.image := Some "uploads/badges/welder.png";
     BadgeClass.description := None; BadgeClass.criteria_url := None;
     BadgeClass.criteria_text := Some "Weld."; BadgeClass.source_url := None;
     BadgeClass.original_json := NoText; BadgeClass.extensions := empty_table;
     BadgeClass.alignments := empty_table; BadgeClass.tags := empty_table |}.

Definition assertion : BadgeInstance.t :=
  {| BadgeInstance.pk := Some 1; BadgeInstance.entity_id := Some "as";
     BadgeInstance.badgeclass := badgeclass; BadgeInstance.issuer := issuer;
     BadgeInstance.recipient_identifier := "a@example.com";
     BadgeInstance.recipient_type := RECIPIENT_TYPE_EMAIL;
     BadgeInstance.image := Some "uploads/badges/assertion-as.png";
     BadgeInstance.revoked := false; BadgeInstance.revocation_reason := None;
     BadgeInstance.issued_on := 0%Z; BadgeInstance.expires_at := None;
     BadgeInstance.hashed := true; BadgeInstance.salt := Some "s4lt";
     BadgeInstance.narrative := None; BadgeInstance.source_url := None;
     BadgeInstance.original_json := NoText; BadgeInstance.extensions := empty_table;
     BadgeInstance.evidence := empty_table |}.

Definition revoked_assertion : BadgeInstance.t :=
  BadgeInstance.set_revoked true
    (BadgeInstance.set_revocation_reason (Some "bad") assertion).

(** an issuer whose [original_json] column holds text that is not JSON,
    and a revoked assertion of that issuer *)
Definition garbled_issuer : Issuer.t :=
  {| Issuer.pk := Some 3; Issuer.entity_id := "gar"; Issuer.created_by_id := Some 7;
     Issuer.name := "Garbled"; Issuer.image := None;
     Issuer.description := None; Issuer.url := None; Issuer.email := None;
     Issuer.category := "n/a"; Issuer.source_url := None;
     Issuer.original_json := NotJson;
     Issuer.extensions := empty_table; Issuer.staff := staff_table |}.

Definition revoked_assertion_of_garbled_issuer : BadgeInstance.t :=
  {| BadgeInstance.pk := Some 2; BadgeInstance.entity_id := Some "rv";
     BadgeInstance.badgeclass := badgeclass; BadgeInstance.issuer := garbled_issuer;
     BadgeInstance.recipient_identifier := "a@example.com";
     BadgeInstance.recipient_type := RECIPIENT_TYPE_EMAIL;
     BadgeInstance.image := None;
     BadgeInstance.revoked := true; BadgeInstance.revocation_reason := Some "bad";
     BadgeInstance.issued_on := 0%Z; BadgeInstance.expires_at := None;
     BadgeInstance.hashed := true; BadgeInstance.salt := Some "s4lt";
     BadgeInstance.narrative := None; BadgeInstance.source_url := None;
     BadgeInstance.original_json := NoText; BadgeInstance.extensions := empty_table;
     BadgeInstance.evidence := empty_table |}.

(** a badge class without image, and a stored assertion of it *)
Definition badgeclass_without_image : BadgeClass.t :=
  {| BadgeClass.pk := Some 2; BadgeClass.entity_id := "plain"; BadgeClass.issuer := issuer;
     BadgeClass.name := "Plain"; BadgeClass.image := None;
     BadgeClass.description := None; BadgeClass.criteria_url := None;
     BadgeClass.criteria_text := None; BadgeClass.source_url := None;
     BadgeClass.original_json := NoText; BadgeClass.extensions := empty_table;
     BadgeClass.alignments := empty_table; BadgeClass.tags := empty_table |}.

Definition assertion_of_badgeclass_without_image : BadgeInstance.t :=
  {| BadgeInstance.pk := Some 4; BadgeInstance.entity_id := Some "pl";
     BadgeInstance.badgeclass := badgeclass_without_image;
     BadgeInstance.issuer := issuer;
     BadgeInstance.recipient_identifier := "a@example.com";
     BadgeInstance.recipient_type := RECIPIENT_TYPE_EMAIL;
     BadgeInstance.image := Some "uploads/badges/assertion-pl.png";
     BadgeInstance.revoked := false; BadgeInstance.revocation_reason := None;
     BadgeInstance.issued_on := 0%Z; BadgeInstance.expires_at := None;
     BadgeInstance.hashed := true; BadgeInstance.salt := Some "s4lt";
     BadgeInstance.narrative := None; BadgeInstance.source_url := None;
     BadgeInstance.original_json := NoText; BadgeInstance.extensions := empty_table;
     BadgeInstance.evidence := empty_table |}.

Definition state_of_badgeclass_without_image : BadgeInstance.State :=
  {| BadgeInstance.self := assertion_of_badgeclass_without_image;
     BadgeInstance.row := Some assertion_of_badgeclass_without_image;
     BadgeInstance.storage := [("uploads/badges/assertion-pl.png", "PNG")];
     BadgeInstance.history := [] |}.

(** an issuer whose creator has a staff row that is not an owner's, and
    that has no owner *)
Definition issuer_without_owner : Issuer.t :=
  {| Issuer.pk := Some 5; Issuer.entity_id := "orphan"; Issuer.created_by_id := Some 7;
     Issuer.name := "Orphan"; Issuer.image := None;
     Issuer.description := None; Issuer.url := None; Issuer.email := None;
     Issuer.category := "n/a"; Issuer.source_url := None;
     Issuer.original_json := NoText;
     Issuer.extensions := empty_table;
     Issuer.staff :=
       {| rows := [(1, {| IssuerStaff.user := 7;
                          IssuerStaff.role := IssuerStaff.ROLE_EDITOR |})];
          next_pk := 2; log := [] |} |}.

(** an issuer not saved yet, without staff *)
Definition new_issuer : Issuer.t :=
  {| Issuer.pk := None; Issuer.entity_id := "fresh-issuer";
     Issuer.created_by_id := Some 7;
     Issuer.name := "New"; Issuer.image := None;
     Issuer.description := None; Issuer.url := None; Issuer.email := None;
     Issuer.category := "n/a"; Issuer.source_url := None;
     Issuer.original_json := NoText;
     Issuer.extensions := empty_table; Issuer.staff := empty_table |}.

(** a new assertion, not saved yet and without image *)
Definition new_assertion : BadgeInstance.t :=
  BadgeInstance.set_pk None
    (BadgeInstance.set_entity_id None (BadgeInstance.set_image None assertion)).

Definition new_state : BadgeInstance.State :=
  {| BadgeInstance.self := new_assertion;
     BadgeInstance.row := None;
     BadgeInstance.storage := [];
     BadgeInstance.history := [] |}.

(** the assertion as a stored row with its image file *)
Definition state : BadgeInstance.State :=
  {| BadgeInstance.self := assertion;
     BadgeInstance.row := Some assertion;
     BadgeInstance.storage := [("uploads/badges/assertion-as.png", "PNG")];
     BadgeInstance.history := [] |}.

(** an assertion imported from another platform, with its document *)
Definition imported_assertion : BadgeInstance.t :=
  BadgeInstance.set_source_url (Some "https://elsewhere.example/a/1")
    (BadgeInstance.set_original_json
       (TextOf (JObj [("id", JStr "https://elsewhere.example/a/1");
                      ("expires", JStr "2030-01-01T00:00:00");
                      ("motto", JStr "ad astra")]))
       assertion).

(** the assertion with two pieces of evidence, and with one *)
Definition assertion_with_evidence : BadgeInstance.t :=
  BadgeInstance.set_evidence
    {| rows := [(1, {| BadgeInstanceEvidence.evidence_url := Some "https://proof.example/1";
                       BadgeInstanceEvidence.narrative := None |});
                (2, {| BadgeInstanceEvidence.evidence_url := None;
                       BadgeInstanceEvidence.narrative := Some "seen welding" |})];
       next_pk := 3; log := [] |}
    assertion.

Definition assertion_with_one_evidence : BadgeInstance.t :=
  BadgeInstance.set_evidence
    {| rows := [(1, {| BadgeInstanceEvidence.evidence_url := Some "https://proof.example/1";
                       BadgeInstanceEvidence.narrative := None |})];
       next_pk := 2; log := [] |}
    assertion.

(** an issuer imported with a described image *)
Definition imported_issuer : Issuer.t :=
  {| Issuer.pk := Some 2; Issuer.entity_id := "imp"; Issuer.created_by_id := Some 7;
     Issuer.name := "Guild"; Issuer.image := Some "uploads/issuers/logo.png";
     Issuer.description := None; Issuer.url := None; Issuer.email := None;
     Issuer.category := "n/a";
     Issuer.source_url := Some "https://elsewhere.example/i/1";
     Issuer.original_json :=
       TextOf (JObj [("image", JObj [("id", JStr "https://elsewhere.example/logo.png");
                                     ("caption", JStr "the guild's seal")]);
                     ("motto", JStr "ad astra")]);
     Issuer.extensions := empty_table; Issuer.staff := staff_table |}.

(** child rows of a badge class and of an assertion, one of each kind
    stale with respect to the lists they are reconciled with below *)
Definition extension_table : Table BaseOpenBadgeExtension.t :=
  {| rows := [(1, {| BaseOpenBadgeExtension.name := "extensions:OrgExt";
                     BaseOpenBadgeExtension.original_json := JStr "old" |});
              (2, {| BaseOpenBadgeExtension.name := "extensions:Stale";
                     BaseOpenBadgeExtension.original_json := JStr "gone" |})];
     next_pk := 3; log := [] |}.

Definition evidence_table : Table BadgeInstanceEvidence.t :=
  {| rows := [(1, {| BadgeInstanceEvidence.evidence_url := Some "https://e.example/1";
                     BadgeInstanceEvidence.narrative := None |});
              (2, {| BadgeInstanceEvidence.evidence_url := None;
                     BadgeInstanceEvidence.narrative := Some "stale" |})];
     next_pk := 3; log := [] |}.

Definition alignment : BadgeClassAlignment.Data :=
  {| BadgeClassAlignment.data_target_name := BadgeClassAlignment.Str "Standard 1";
     BadgeClassAlignment.data_target_url := BadgeClassAlignment.Str "https://s.example/1";
     BadgeClassAlignment.data_target_description := None;
     BadgeClassAlignment.data_target_framework := None;
     BadgeClassAlignment.data_target_code := Some "S1" |}.

(** a descriptor that leaves [target_url] out *)
Definition alignment_without_url : BadgeClassAlignment.Data :=
  {| BadgeClassAlignment.data_target_name := BadgeClassAlignment.Str "Standard 2";
     BadgeClassAlignment.data_target_url := BadgeClassAlignment.LeftOut;
     BadgeClassAlignment.data_target_description := None;
     BadgeClassAlignment.data_target_framework := None;
     BadgeClassAlignment.data_target_code := None |}.

Definition alignment_table : Table BadgeClassAlignment.t :=
  {| rows := [(4, {| BadgeClassAlignment.target_name := "Standard 0";
                     BadgeClassAlignment.target_url := "https://s.example/0";
                     BadgeClassAlignment.target_description := None;
                     BadgeClassAlignment.target_framework := None;
                     BadgeClassAlignment.target_code := None |})];
     next_pk := 5; log := [] |}.

Definition tag_table : Table BadgeClassTag.t :=
  {| rows := [(1, {| BadgeClassTag.name := "rust" |});
              (2, {| BadgeClassTag.name := "stale" |})];
     next_pk := 3; log := [] |}.

End Demo.

(** ** The shape the setters share

    Every setter adds the descriptors whose identity key is not among the
    keys of the rows it found, then deletes the rows whose key is not
    among the keys of the descriptors.  The three functions below spell
    this shape out once, for an arbitrary way [add] of adding a row and
    arbitrary keys; the setters are shown to be instances of it. *)

Definition add_missing_loop {R D K : Type} (mem : K -> list K -> bool)
  (key : D -> K) (add : D -> Table R -> Exc (Table R))
  (existing_idx : list K) (value : list D) (tbl : Table R) : Exc (Table R) :=
  foldM (fun tbl d => if negb (mem (key d) existing_idx) then add d tbl else Ok tbl)
    value tbl.

Definition remove_old_loop {R K : Type} (mem : K -> list K -> bool)
  (row_key : nat * R -> K) (new_idx : list K) (snapshot : list (nat * R))
  (tbl : Table R) : Table R :=
  fold_left
    (fun tbl x =>
       if negb (mem (row_key x) new_idx) then delete (fst x) tbl else tbl)
    snapshot tbl.

Definition reconcile {R D K : Type} (mem : K -> list K -> bool)
  (row_key : nat * R -> K) (key : D -> K) (add : D -> Table R -> Exc (Table R))
  (value : list D) (tbl : Table R) : Exc (Table R) :=
  tbl <- add_missing_loop mem key add
           (map row_key (all tbl)) value tbl ;;
  Ok (remove_old_loop mem row_key (map key value) (all tbl) tbl).

(** The evidence setter in the terms of the shape: the key of a stored
    row, the key of a descriptor, the lookup of [get_or_create] and the
    way a row is added. *)
Definition evidence_key (x : nat * BadgeInstanceEvidence.t) : string :=
  BadgeInstance._key (BadgeInstanceEvidence.narrative (snd x))
    (BadgeInstanceEvidence.evidence_url (snd x)).

Definition evidence_data_key (d : BadgeInstanceEvidence.t) : string :=
  BadgeInstance._key (BadgeInstanceEvidence.narrative d)
    (BadgeInstanceEvidence.evidence_url d).

Definition evidence_lookup (d r : BadgeInstanceEvidence.t) : bool :=
  opt_eqb (BadgeInstanceEvidence.narrative r) (BadgeInstanceEvidence.narrative d)
  && opt_eqb (BadgeInstanceEvidence.evidence_url r)
             (BadgeInstanceEvidence.evidence_url d).

Definition evidence_add (d : BadgeInstanceEvidence.t)
  (tbl : Table BadgeInstanceEvidence.t) : Exc (Table BadgeInstanceEvidence.t) :=
  bind (get_or_create (evidence_lookup d)
          {| BadgeInstanceEvidence.evidence_url := BadgeInstanceEvidence.evidence_url d;
             BadgeInstanceEvidence.narrative := BadgeInstanceEvidence.narrative d |} tbl)
    (fun '(_, _, _, tbl) => Ok tbl).

(** some row of [t] has key [k], for every [k] of [S] *)
Definition has_keys {R K : Type} (row_key : nat * R -> K) (t : Table R)
  (S : list K) : Prop :=
  forall k, In k S -> exists x, In x (rows t) /\ row_key x = k.

(** Users that had no record at the start never get two of them. *)
Definition at_most_one_each (E : list nat) (t : Table IssuerStaff.t) : Prop :=
  forall u, Issuer.mem_user u E = false ->
            length (filter (fun x => Nat.eqb (IssuerStaff.user (snd x)) u) (rows t)) <= 1.

(** What a second run of a setter must show: the rows of the first run,
    nothing created, nothing deleted. *)
Definition no_net_change {R : Type} (first second : Table R) : Prop :=
  rows second = rows first
  /\ next_pk second = next_pk first
  /\ created_rows second = []
  /\ deleted_rows second = [].


(** * Properties *)


(** ** Dictionaries *)

Lemma dict_get_set (k k2 : string) (v : Json) (d : OrderedDict) :
  dict_get k (dict_set k2 v d) = if k2 =? k then Some v else dict_get k d.
Proof.
  induction d as [|[k' v'] d IH]; simpl.
  - reflexivity.
  - destruct (k' =? k2) eqn:E2; simpl.
    + apply String.eqb_eq in E2. subst k'.
      destruct (k2 =? k); reflexivity.
    + destruct (k' =? k) eqn:E.
      * apply String.eqb_eq in E. subst k'.
        rewrite String.eqb_sym in E2. rewrite E2. reflexivity.
      * exact IH.
Qed.

Lemma dict_contains_set (k k2 : string) (v : Json) (d : OrderedDict) :
  dict_contains k (dict_set k2 v d) = (k2 =? k) || dict_contains k d.
Proof.
  unfold dict_contains. rewrite dict_get_set.
  destruct (k2 =? k); reflexivity.
Qed.

Lemma mem_str_false_iff (k : string) (l : list string) :
  mem_str k l = false <-> ~ In k l.
Proof.
  unfold mem_str. split.
  - intros H Hin.
    assert (existsb (String.eqb k) l = true) as Ht.
    { apply existsb_exists. exists k. split; [exact Hin | apply String.eqb_refl]. }
    congruence.
  - intros H. destruct (existsb (String.eqb k) l) eqn:E; [|reflexivity].
    apply existsb_exists in E. destruct E as [x [Hin Hx]].
    apply String.eqb_eq in Hx. subst x. contradiction.
Qed.

Lemma mem_str_true_iff (k : string) (l : list string) :
  mem_str k l = true <-> In k l.
Proof.
  unfold mem_str. rewrite existsb_exists. split.
  - intros [x [Hin Hx]]. apply String.eqb_eq in Hx. subst x. exact Hin.
  - intros Hin. exists k. split; [exact Hin | apply String.eqb_refl].
Qed.

(** Extension rows write only the keys they are named after. *)
Lemma dict_get_extension_fields (k : string)
  (extensions : Table BaseOpenBadgeExtension.t) (json : OrderedDict) :
  mem_str k (extension_names extensions) = false ->
  dict_get k (extension_fields extensions json) = dict_get k json.
Proof.
  unfold extension_fields, extension_names, all. generalize (rows extensions) as l.
  intros l. revert json.
  induction l as [|e l IH]; intros json H; simpl in *.
  - reflexivity.
  - apply orb_false_iff in H. destruct H as [Hk Hl].
    rewrite IH by exact Hl. rewrite dict_get_set.
    rewrite String.eqb_sym, Hk. reflexivity.
Qed.

(** The pass-through fills in what the document lacks and overrides
    nothing. *)
Lemma dict_get_pass_through (k : string) (extra json : OrderedDict) :
  dict_get k (pass_through (Some extra) json) =
  match dict_get k json with
  | Some v => Some v
  | None => dict_get k extra
  end.
Proof.
  unfold pass_through. revert json.
  induction extra as [|[k' v'] extra IH]; intros json; simpl.
  - destruct (dict_get k json); reflexivity.
  - rewrite IH. unfold dict_contains.
    destruct (dict_get k' json) as [w|] eqn:Ek'; simpl.
    + destruct (k' =? k) eqn:E.
      * apply String.eqb_eq in E. subst k'. rewrite Ek'. reflexivity.
      * reflexivity.
    + rewrite dict_get_set. destruct (k' =? k) eqn:E.
      * apply String.eqb_eq in E. subst k'. rewrite Ek'. reflexivity.
      * reflexivity.
Qed.

Lemma dict_get_filter_excluded (k : string) (excluded : list string)
  (original : OrderedDict) :
  dict_get k (filter (fun kv => negb (mem_str (fst kv) excluded)) original) =
  if mem_str k excluded then None else dict_get k original.
Proof.
  induction original as [|[k' v'] original IH]; simpl.
  - destruct (mem_str k excluded); reflexivity.
  - destruct (mem_str k' excluded) eqn:Ex; simpl.
    + rewrite IH. destruct (k' =? k) eqn:E.
      * apply String.eqb_eq in E. subst k'. rewrite Ex. reflexivity.
      * reflexivity.
    + destruct (k' =? k) eqn:E.
      * apply String.eqb_eq in E. subst k'. rewrite Ex. reflexivity.
      * exact IH.
Qed.

Lemma dict_get_with_image_info (k : string) (original_json : option OrderedDict)
  (image_url : Json) (json : OrderedDict) :
  (k =? "image") = false ->
  dict_get k (with_image_info original_json image_url json) = dict_get k json.
Proof.
  intros Hk. unfold with_image_info.
  destruct original_json as [original|]; [|reflexivity].
  destruct (dict_get "image" original) as [[| | | | |image_info]|]; try reflexivity.
  rewrite dict_get_set. rewrite String.eqb_sym, Hk. reflexivity.
Qed.

Lemma dict_get_source_url_fields (k : string) (source_url : option string)
  (hosted_url : string) (v : ObiVersion) (json : OrderedDict) :
  mem_str k ["source_url"; "hosted_url"; "sourceUrl"; "hostedUrl"] = false ->
  dict_get k (source_url_fields source_url hosted_url v json) = dict_get k json.
Proof.
  intros Hk. unfold source_url_fields.
  simpl in Hk. repeat (apply orb_false_iff in Hk; destruct Hk as [? Hk]).
  destruct (truthy_str source_url); [|reflexivity].
  destruct v; rewrite !dict_get_set;
    repeat match goal with
           | H : (k =? ?s) = false |- _ => rewrite String.eqb_sym in H; rewrite H; clear H
           end; reflexivity.
Qed.


(** ** When the builders return *)

Lemma merge_image_info_imported (original_json : JsonText) (image_url : Json)
  (json : OrderedDict) :
  merge_image_info original_json image_url json
  = if readable original_json
    then Ok (with_image_info (imported original_json) image_url json)
    else Raise AttributeError.
Proof.
  unfold merge_image_info, with_image_info, imported, readable.
  destruct original_json as [| |[| | | | |members]]; try reflexivity.
  simpl. destruct (dict_get "image" members) as [[| | | | |info]|]; reflexivity.
Qed.

Lemma get_filtered_json_imported (original_json : JsonText)
  (excluded_fields : list string) :
  readable original_json = true ->
  OriginalJsonMixin.get_filtered_json original_json excluded_fields
  = Ok (filtered (imported original_json) excluded_fields).
Proof.
  destruct original_json as [| |[| | | | |members]]; try discriminate; reflexivity.
Qed.

(** [Issuer.get_json] raises [AttributeError] on a column that holds
    text other than that of an object, and returns [Issuer.document]
    otherwise. *)
Lemma Issuer_get_json_returns (env : Env) (i : Issuer.t) (v : ObiVersion)
  (ie uc : bool) :
  Issuer.get_json env i v ie uc
  = if Issuer.renders i then Ok (Issuer.document env i v ie uc)
    else Raise AttributeError.
Proof.
  unfold Issuer.get_json, Issuer.document, Issuer.renders, get_obi_context.
  cbv beta iota zeta.
  rewrite merge_image_info_imported.
  destruct (readable (Issuer.original_json i)) eqn:Hr; [|reflexivity].
  cbn [bind]. destruct ie; [|reflexivity].
  unfold Issuer.get_filtered_json.
  rewrite get_filtered_json_imported by exact Hr. reflexivity.
Qed.

Lemma BadgeClass_get_json_returns (env : Env) (bc : BadgeClass.t) (v : ObiVersion)
  (ie uc : bool) :
  BadgeClass.get_json env bc v ie uc
  = if BadgeClass.renders bc ie then Ok (BadgeClass.document env bc v ie uc)
    else Raise AttributeError.
Proof.
  unfold BadgeClass.get_json, BadgeClass.document, BadgeClass.renders,
    BadgeClass.get_filtered_json, OriginalJsonMixin.get_filtered_json,
    get_obi_context.
  cbv beta iota zeta.
  destruct (BadgeClass.original_json bc) as [| |[| | | | |members]];
    destruct (truthy_str (BadgeClass.image bc)); destruct ie; try reflexivity.
  - simpl. unfold set_image_info.
    destruct (dict_get "image" members) as [[| | | | |info]|]; reflexivity.
  - simpl. unfold set_image_info.
    destruct (dict_get "image" members) as [[| | | | |info]|]; reflexivity.
Qed.

Lemma BadgeInstance_get_filtered_json_imported (env : Env) (b : BadgeInstance.t) :
  readable (BadgeInstance.original_json b) = true ->
  BadgeInstance.get_filtered_json env b = Ok (BadgeInstance.filtered_json env b).
Proof.
  intros Hr. unfold BadgeInstance.get_filtered_json, BadgeInstance.filtered_json.
  rewrite get_filtered_json_imported by exact Hr. reflexivity.
Qed.

(** [BadgeInstance.get_json] raises [AttributeError] when the column of
    the assertion, or a nested document it is asked for, cannot be read,
    and returns [BadgeInstance.document] otherwise. *)
Lemma BadgeInstance_get_json_returns (env : Env) (b : BadgeInstance.t)
  (v : ObiVersion) (eb ei ie uc : bool) :
  BadgeInstance.get_json env b v eb ei ie uc
  = if BadgeInstance.renders b eb ei ie
    then Ok (BadgeInstance.document env b v eb ei ie uc)
    else Raise AttributeError.
Proof.
  unfold BadgeInstance.get_json, BadgeInstance.document, BadgeInstance.renders,
    get_obi_context.
  cbv beta iota zeta.
  rewrite merge_image_info_imported.
  destruct (readable (BadgeInstance.original_json b)) eqn:Hr; [|reflexivity].
  cbn [bind andb].
  destruct eb.
  - rewrite BadgeClass_get_json_returns.
    destruct (BadgeClass.renders (BadgeInstance.badgeclass b) ie); [|reflexivity].
    cbn [bind andb].
    destruct ei.
    + rewrite Issuer_get_json_returns.
      destruct (Issuer.renders (BadgeInstance.issuer b)); [|reflexivity].
      cbn [bind].
      destruct (BadgeInstance.revoked b); [reflexivity|].
      destruct ie; [|reflexivity].
      rewrite BadgeInstance_get_filtered_json_imported by exact Hr. reflexivity.
    + cbn [bind].
      destruct (BadgeInstance.revoked b); [reflexivity|].
      destruct ie; [|reflexivity].
      rewrite BadgeInstance_get_filtered_json_imported by exact Hr. reflexivity.
  - cbn [bind].
    destruct (BadgeInstance.revoked b); [reflexivity|].
    destruct ie; [|reflexivity].
    rewrite BadgeInstance_get_filtered_json_imported by exact Hr. reflexivity.
Qed.

(** From [get_json ... = Ok doc] to the document. *)
Ltac returned H :=
  first
    [ rewrite BadgeInstance_get_json_returns in H
    | rewrite BadgeClass_get_json_returns in H
    | rewrite Issuer_get_json_returns in H ];
  match type of H with
  | (if ?c then _ else _) = _ =>
      let E := fresh "Hrenders" in
      destruct c eqn:E; [|discriminate H];
      injection H as H; try subst
  end.


(** ** Revoked assertions *)

Lemma document_revoked (env : Env) (b : BadgeInstance.t) (v : ObiVersion)
  (eb ei ie uc : bool) :
  BadgeInstance.revoked b = true ->
  BadgeInstance.document env b v eb ei ie uc
  = [("@context", JStr (context_iri env v));
     ("type", JStr "Assertion");
     ("id", JStr (if uc then BadgeInstance.jsonld_id env b
                  else add_obi_version_ifneeded env (BadgeInstance.jsonld_id env b) v));
     ("revoked", JBool true);
     ("revocationReason",
      JStr (if truthy_str (BadgeInstance.revocation_reason b)
            then or_empty (BadgeInstance.revocation_reason b) else ""))].
Proof.
  intros Hrev. unfold BadgeInstance.document, get_obi_context.
  rewrite Hrev. reflexivity.
Qed.

(** C1, as stated, fails: [get_json] builds the nested documents it is
    asked for before it looks at [revoked].  For a revoked assertion
    whose issuer has text that is not JSON in [original_json], the call
    with the expansion flags raises [AttributeError] and returns no
    document, while the call without them returns the five entries. *)
Lemma revoked_get_json_depends_on_expansion :
  BadgeInstance.revoked Demo.revoked_assertion_of_garbled_issuer = true
  /\ BadgeInstance.get_json Demo.env Demo.revoked_assertion_of_garbled_issuer V2_0
       true true true false
     = Raise AttributeError
  /\ BadgeInstance.get_json Demo.env Demo.revoked_assertion_of_garbled_issuer V2_0
       false false true false
     = Ok [("@context", JStr "https://w3id.org/openbadges/v2");
           ("type", JStr "Assertion");
           ("id", JStr "https://badges.example/public/assertions/rv");
           ("revoked", JBool true);
           ("revocationReason", JStr "bad")].
Proof. repeat split; reflexivity. Qed.

(** C1, amended.  For a revoked assertion, every version and whatever the
    flags are, [get_json] either raises [AttributeError] or returns
    exactly the entries [@context], [type], [id], [revoked] (true) and
    [revocationReason], in that order.  It raises exactly when a column
    it reads before it looks at [revoked] cannot be read
    ([BadgeInstance.renders]): [original_json] of the assertion and, under
    the expansion flags, of the badge class and of the issuer.  When
    these three columns hold nothing or a JSON object it returns, and
    the document is the same for all values of [expand_badgeclass],
    [expand_issuer] and [include_extra]. *)
Theorem revoked_get_json_short_circuit :
  forall (env : Env) (b : BadgeInstance.t) (obi_version : ObiVersion)
         (expand_badgeclass expand_issuer include_extra use_canonical_id : bool),
    BadgeInstance.revoked b = true ->
    let short :=
      [("@context", JStr (context_iri env obi_version));
       ("type", JStr "Assertion");
       ("id", JStr (if use_canonical_id then BadgeInstance.jsonld_id env b
                    else add_obi_version_ifneeded env
                           (BadgeInstance.jsonld_id env b) obi_version));
       ("revoked", JBool true);
       ("revocationReason",
        JStr (if truthy_str (BadgeInstance.revocation_reason b)
              then or_empty (BadgeInstance.revocation_reason b) else ""))] in
    BadgeInstance.get_json env b obi_version expand_badgeclass expand_issuer
      include_extra use_canonical_id
    = (if BadgeInstance.renders b expand_badgeclass expand_issuer include_extra
       then Ok short else Raise AttributeError)
    /\ (readable (BadgeInstance.original_json b) = true ->
        readable (BadgeClass.original_json (BadgeInstance.badgeclass b)) = true ->
        readable (Issuer.original_json (BadgeInstance.issuer b)) = true ->
        BadgeInstance.get_json env b obi_version expand_badgeclass expand_issuer
          include_extra use_canonical_id
        = Ok short
        /\ BadgeInstance.get_json env b obi_version false false false
             use_canonical_id
           = Ok short).
Proof.
  intros env b v eb ei ie uc Hrev short.
  assert (forall eb ei ie,
             BadgeInstance.get_json env b v eb ei ie uc
             = if BadgeInstance.renders b eb ei ie then Ok short
               else Raise AttributeError) as Heq.
  { intros eb' ei' ie'. rewrite BadgeInstance_get_json_returns.
    rewrite document_revoked by exact Hrev. reflexivity. }
  split; [apply Heq|].
  intros Hb Hbc Hi.
  assert (forall eb ei ie, BadgeInstance.renders b eb ei ie = true) as Hren.
  { intros eb' ei' ie'. unfold BadgeInstance.renders, BadgeClass.renders,
      Issuer.renders.
    rewrite Hb, Hi.
    destruct (BadgeClass.original_json (BadgeInstance.badgeclass b))
      as [| |[| | | | |members]]; try discriminate Hbc;
      destruct eb', ei'; reflexivity. }
  rewrite !Heq, !Hren. split; reflexivity.
Qed.

Lemma revoked_get_json_short_circuit_witness :
  BadgeInstance.revoked Demo.revoked_assertion = true
  /\ BadgeInstance.get_json Demo.env Demo.revoked_assertion V1_1
       true true true false
     = Ok [("@context", JStr "https://w3id.org/openbadges/v1");
           ("type", JStr "Assertion");
           ("id", JStr "https://badges.example/public/assertions/as?v=1_1");
           ("revoked", JBool true);
           ("revocationReason", JStr "bad")].
Proof.
  split.
  - reflexivity.
  - exact (proj1 (proj2 (revoked_get_json_short_circuit Demo.env
                           Demo.revoked_assertion V1_1 true true true false eq_refl)
                    eq_refl eq_refl eq_refl)).
Defined.

(** ** Saving an assertion *)

(** Running the statements of a method, the documents left folded. *)
Ltac run_statements :=
  cbn -[BadgeInstance.get_json BadgeInstance.document truthy_str uuid_hex
        BadgeInstance.prepared BadgeInstance.written].

(** [save], outcome by outcome.  A stored assertion is written.  A new
    one is refused when its recipient is in the blacklist; else it gets
    its salt and its entity id, and, when it has no image, one is baked
    from the image of the badge class, which must be there, and from the
    document of the assertion, which must be readable. *)
Lemma save_cases (env : Env) (st : BadgeInstance.State) :
  BadgeInstance.save env st
  = match BadgeInstance.pk (BadgeInstance.self st) with
    | Some _ => (Ok tt, BadgeInstance.written env st)
    | None =>
        if api_query_is_in_blacklist env
             (BadgeInstance.recipient_type (BadgeInstance.self st))
             (BadgeInstance.recipient_identifier (BadgeInstance.self st))
        then (Raise (ValidationError "You may not award this badge to this recipient."),
              st)
        else
          let s := BadgeInstance.prepared env (BadgeInstance.self st) in
          let st1 := BadgeInstance.with_self st s in
          if truthy_str (BadgeInstance.image (BadgeInstance.self st))
          then (Ok tt, BadgeInstance.written env st1)
          else if truthy_str (BadgeClass.image (BadgeInstance.badgeclass s)) then
            match BadgeInstance.get_json env s (UNVERSIONED_BAKED_VERSION env)
                    false false true false with
            | Raise e => (Raise e, st1)
            | Ok json =>
                let name :=
                  get_available_name env
                    (BadgeInstance.UPLOAD_TO ++ "assertion-"
                     ++ format_opt (BadgeInstance.entity_id s)
                     ++ splitext_ext env
                          (BadgeClass.image (BadgeInstance.badgeclass s)))
                    (map fst (BadgeInstance.storage st)) in
                let files :=
                  (BadgeInstance.storage st
                   ++ [(name,
                        bake env (BadgeClass.image (BadgeInstance.badgeclass s))
                          (json_dumps env (JObj json)))])%list in
                (Ok tt,
                 BadgeInstance.written env
                   {| BadgeInstance.self := BadgeInstance.set_image (Some name) s;
                      BadgeInstance.row := BadgeInstance.row st;
                      BadgeInstance.storage := files;
                      BadgeInstance.history :=
                        (BadgeInstance.history st
                         ++ [{| BadgeInstance.db_row := BadgeInstance.row st;
                                BadgeInstance.files := files |}])%list |})
            end
          else (Raise ValueError, st1)
    end.
Proof.
  destruct st as [s r fs h].
  unfold BadgeInstance.save, BadgeInstance.bindM, BadgeInstance.get_self.
  cbn [BadgeInstance.self].
  destruct (BadgeInstance.pk s) as [k|] eqn:Hpk.
  - unfold BadgeInstance.ret, BadgeInstance.modify, BadgeInstance.write_row,
      BadgeInstance.observe, BadgeInstance.written.
    cbn [BadgeInstance.self BadgeInstance.row BadgeInstance.storage
         BadgeInstance.history].
    reflexivity.
  - destruct (api_query_is_in_blacklist env (BadgeInstance.recipient_type s)
                (BadgeInstance.recipient_identifier s)); [reflexivity|].
    unfold BadgeInstance.modify at 1 2.
    cbn [BadgeInstance.self BadgeInstance.row BadgeInstance.storage
         BadgeInstance.history].
    fold (BadgeInstance.prepared env s).
    assert (BadgeInstance.image (BadgeInstance.prepared env s)
            = BadgeInstance.image s) as Himg.
    { unfold BadgeInstance.prepared. cbn.
      destruct (BadgeInstance.entity_id s); reflexivity. }
    assert (BadgeInstance.storage
              (BadgeInstance.with_self
                 {| BadgeInstance.self := s; BadgeInstance.row := r;
                    BadgeInstance.storage := fs; BadgeInstance.history := h |}
                 (BadgeInstance.prepared env s)) = fs) as Hfs by reflexivity.
    rewrite Himg.
    destruct (truthy_str (BadgeInstance.image s)).
    + reflexivity.
    + cbn [negb]. unfold BadgeInstance.field_file.
      destruct (truthy_str (BadgeClass.image
                              (BadgeInstance.badgeclass
                                 (BadgeInstance.prepared env s)))); [|reflexivity].
      unfold BadgeInstance.ret, BadgeInstance.lift.
      destruct (BadgeInstance.get_json env (BadgeInstance.prepared env s)
                  (UNVERSIONED_BAKED_VERSION env) false false true false);
        reflexivity.
Qed.

(** ** Recipient identity and salt *)

Lemma to_hex_length (digits : nat) (n : N) (acc : string) :
  String.length (to_hex digits n acc) = digits + String.length acc.
Proof.
  revert n acc. induction digits as [|d IH]; intros n acc; simpl.
  - reflexivity.
  - rewrite IH. simpl. lia.
Qed.

Lemma uuid_hex_length (u : N) : String.length (uuid_hex u) = 32.
Proof. unfold uuid_hex. rewrite to_hex_length. reflexivity. Qed.

Lemma uuid_hex_truthy (u : N) : truthy_str (Some (uuid_hex u)) = true.
Proof.
  pose proof (uuid_hex_length u) as H. simpl.
  destruct (uuid_hex u); [discriminate H | reflexivity].
Qed.

Lemma dict_get_pass_through_present (k : string) (v : Json)
  (extra : option OrderedDict) (json : OrderedDict) :
  dict_get k json = Some v -> dict_get k (pass_through extra json) = Some v.
Proof.
  intros H. destruct extra as [extra|]; [|exact H].
  rewrite dict_get_pass_through, H. reflexivity.
Qed.

(** The recipient block reaches the document of a non-revoked assertion
    unless an extension row is named [recipient]. *)
Lemma document_recipient :
  forall (env : Env) (b : BadgeInstance.t) (v : ObiVersion)
         (eb ei ie uc : bool),
    BadgeInstance.revoked b = false ->
    mem_str "recipient" (extension_names (BadgeInstance.extensions b)) = false ->
    dict_get "recipient" (BadgeInstance.document env b v eb ei ie uc)
    = Some (JObj (BadgeInstance.recipient_json env b)).
Proof.
  intros env b v eb ei ie uc Hrev Hext.
  unfold BadgeInstance.document, get_obi_context. rewrite Hrev.
  cbv beta iota zeta.
  assert (forall json,
             dict_get "recipient"
               (extension_fields (BadgeInstance.extensions b)
                  (dict_set "recipient" (JObj (BadgeInstance.recipient_json env b)) json))
             = Some (JObj (BadgeInstance.recipient_json env b))) as Hcore.
  { intros json. rewrite dict_get_extension_fields by exact Hext.
    rewrite dict_get_set. reflexivity. }
  destruct ie.
  - apply dict_get_pass_through_present. apply Hcore.
  - apply Hcore.
Qed.

Lemma salt_written (env : Env) (st : BadgeInstance.State) :
  BadgeInstance.salt (BadgeInstance.self (BadgeInstance.written env st))
  = BadgeInstance.salt (BadgeInstance.self st).
Proof.
  unfold BadgeInstance.written. cbn [BadgeInstance.self].
  destruct (BadgeInstance.revoked (BadgeInstance.self st)); reflexivity.
Qed.

Lemma salt_prepared (env : Env) (s : BadgeInstance.t) :
  BadgeInstance.salt (BadgeInstance.prepared env s) = Some (uuid_hex (uuid4 env)).
Proof.
  unfold BadgeInstance.prepared. cbn -[uuid_hex].
  destruct (BadgeInstance.entity_id s); reflexivity.
Qed.

Lemma readable_prepared (env : Env) (s : BadgeInstance.t) :
  BadgeInstance.original_json (BadgeInstance.prepared env s)
  = BadgeInstance.original_json s.
Proof.
  unfold BadgeInstance.prepared. cbn -[uuid_hex].
  destruct (BadgeInstance.entity_id s); reflexivity.
Qed.

Lemma badgeclass_prepared (env : Env) (s : BadgeInstance.t) :
  BadgeInstance.badgeclass (BadgeInstance.prepared env s)
  = BadgeInstance.badgeclass s.
Proof.
  unfold BadgeInstance.prepared. cbn -[uuid_hex].
  destruct (BadgeInstance.entity_id s); reflexivity.
Qed.

(** The builder of an assertion, without expansion, returns exactly when
    the column of the assertion is readable. *)
Lemma get_json_plain (env : Env) (b : BadgeInstance.t) (v : ObiVersion)
  (ie uc : bool) :
  BadgeInstance.get_json env b v false false ie uc
  = if readable (BadgeInstance.original_json b)
    then Ok (BadgeInstance.document env b v false false ie uc)
    else Raise AttributeError.
Proof.
  rewrite BadgeInstance_get_json_returns. unfold BadgeInstance.renders.
  rewrite andb_true_r. reflexivity.
Qed.

(** Saving a new assertion draws its salt; saving a stored one keeps it. *)
Lemma save_new_draws_salt (env : Env) (st st' : BadgeInstance.State) :
  BadgeInstance.pk (BadgeInstance.self st) = None ->
  BadgeInstance.save env st = (Ok tt, st') ->
  BadgeInstance.salt (BadgeInstance.self st') = Some (uuid_hex (uuid4 env)).
Proof.
  intros Hpk Hrun. rewrite save_cases, Hpk in Hrun.
  destruct (api_query_is_in_blacklist env _ _); [discriminate Hrun|].
  cbv zeta in Hrun.
  destruct (truthy_str (BadgeInstance.image (BadgeInstance.self st))).
  - injection Hrun as <-. rewrite salt_written. apply salt_prepared.
  - destruct (truthy_str (BadgeClass.image _)); [|discriminate Hrun].
    destruct (BadgeInstance.get_json env _ _ false false true false);
      [|discriminate Hrun].
    injection Hrun as <-. rewrite salt_written.
    cbn [BadgeInstance.self]. apply salt_prepared.
Qed.

Lemma save_new_returns (env : Env) (st : BadgeInstance.State) :
  BadgeInstance.pk (BadgeInstance.self st) = None ->
  api_query_is_in_blacklist env
    (BadgeInstance.recipient_type (BadgeInstance.self st))
    (BadgeInstance.recipient_identifier (BadgeInstance.self st)) = false ->
  truthy_str (BadgeInstance.image (BadgeInstance.self st)) = true
  \/ (truthy_str (BadgeClass.image (BadgeInstance.badgeclass (BadgeInstance.self st)))
      = true
      /\ readable (BadgeInstance.original_json (BadgeInstance.self st)) = true) ->
  exists st', BadgeInstance.save env st = (Ok tt, st').
Proof.
  intros Hpk Hbl Hcan. rewrite save_cases, Hpk, Hbl. cbv zeta.
  destruct (truthy_str (BadgeInstance.image (BadgeInstance.self st))) eqn:Hi.
  - eexists. reflexivity.
  - destruct Hcan as [Hcan|[Hbc Hr]]; [discriminate Hcan|].
    rewrite badgeclass_prepared, Hbc, get_json_plain, readable_prepared, Hr.
    eexists. reflexivity.
Qed.

Lemma save_stored_keeps_salt (env : Env) (st : BadgeInstance.State) :
  BadgeInstance.pk (BadgeInstance.self st) <> None ->
  exists st',
    BadgeInstance.save env st = (Ok tt, st')
    /\ BadgeInstance.salt (BadgeInstance.self st')
       = BadgeInstance.salt (BadgeInstance.self st).
Proof.
  intros Hpk. rewrite save_cases.
  destruct (BadgeInstance.pk (BadgeInstance.self st)) as [k|] eqn:E;
    [|contradiction].
  eexists. split; [reflexivity|]. apply salt_written.
Qed.

(** C2, as stated, fails on an assertion whose [salt] column is empty (the
    column is nullable and [get_json] guards on it): the assertion is not
    revoked and is hashed, yet the recipient object of its document has no
    [salt] key. *)
Lemma hashed_recipient_without_salt_key :
  let b := BadgeInstance.set_salt None Demo.assertion in
  BadgeInstance.revoked b = false
  /\ BadgeInstance.hashed b = true
  /\ exists doc,
       BadgeInstance.get_json Demo.env b V2_0 false false true false = Ok doc
       /\ dict_get "recipient" doc
          = Some (JObj [("hashed", JBool true);
                        ("type", JStr "email");
                        ("identity", JStr "sha256$a@example.com")]).
Proof.
  split; [reflexivity|]. split; [reflexivity|].
  eexists. split; reflexivity.
Qed.

(** C2, amended.  A [save] that creates an assertion and ends normally
    has drawn its salt (32 hexadecimal digits, so not empty); it ends
    normally when the recipient is not in the blacklist and the assertion
    has an image, or its badge class has one and its [original_json] is
    readable.  A [save] of a stored assertion keeps the salt.  In a
    document [get_json] returns for a non-revoked assertion, no extension
    row being named [recipient]: when [hashed], [identity] is the digest
    of the recipient identifier followed by the salt, and the [salt] key
    is present, with the salt, exactly when the salt is not empty; when
    not [hashed], [identity] is the identifier itself and there is no
    [salt] key. *)
Theorem recipient_identity_and_salt :
  forall (env : Env),
    (forall st st' : BadgeInstance.State,
        BadgeInstance.pk (BadgeInstance.self st) = None ->
        BadgeInstance.save env st = (Ok tt, st') ->
        BadgeInstance.salt (BadgeInstance.self st') = Some (uuid_hex (uuid4 env))
        /\ truthy_str (BadgeInstance.salt (BadgeInstance.self st')) = true)
    /\ (forall st : BadgeInstance.State,
           BadgeInstance.pk (BadgeInstance.self st) = None ->
           api_query_is_in_blacklist env
             (BadgeInstance.recipient_type (BadgeInstance.self st))
             (BadgeInstance.recipient_identifier (BadgeInstance.self st)) = false ->
           truthy_str (BadgeInstance.image (BadgeInstance.self st)) = true
           \/ (truthy_str (BadgeClass.image
                             (BadgeInstance.badgeclass (BadgeInstance.self st)))
               = true
               /\ readable (BadgeInstance.original_json (BadgeInstance.self st))
                  = true) ->
           exists st', BadgeInstance.save env st = (Ok tt, st'))
    /\ (forall st : BadgeInstance.State,
           BadgeInstance.pk (BadgeInstance.self st) <> None ->
           exists st',
             BadgeInstance.save env st = (Ok tt, st')
             /\ BadgeInstance.salt (BadgeInstance.self st')
                = BadgeInstance.salt (BadgeInstance.self st))
    /\ (forall (b : BadgeInstance.t) (obi_version : ObiVersion)
               (expand_badgeclass expand_issuer include_extra use_canonical_id : bool)
               (doc : OrderedDict),
           BadgeInstance.revoked b = false ->
           mem_str "recipient" (extension_names (BadgeInstance.extensions b)) = false ->
           BadgeInstance.get_json env b obi_version expand_badgeclass
             expand_issuer include_extra use_canonical_id = Ok doc ->
           exists recipient,
             dict_get "recipient" doc = Some (JObj recipient)
             /\ (BadgeInstance.hashed b = true ->
                 dict_get "identity" recipient
                 = Some (JStr (sha256 env (BadgeInstance.recipient_identifier b
                                           ++ or_empty (BadgeInstance.salt b))))
                 /\ dict_get "salt" recipient
                    = if truthy_str (BadgeInstance.salt b)
                      then Some (opt_json (BadgeInstance.salt b)) else None)
             /\ (BadgeInstance.hashed b = false ->
                 dict_get "identity" recipient
                 = Some (JStr (BadgeInstance.recipient_identifier b))
                 /\ dict_get "salt" recipient = None)).
Proof.
  intros env. split; [|split; [|split]].
  - intros st st' Hpk Hrun.
    pose proof (save_new_draws_salt env st st' Hpk Hrun) as Hsalt.
    split; [exact Hsalt|]. rewrite Hsalt. apply uuid_hex_truthy.
  - intros st. apply save_new_returns.
  - intros st Hpk. apply save_stored_keeps_salt. exact Hpk.
  - intros b v eb ei ie uc doc Hrev Hext Hdoc. returned Hdoc.
    exists (BadgeInstance.recipient_json env b). split.
    + apply document_recipient; assumption.
    + unfold BadgeInstance.recipient_json, generate_sha256_hashstring.
      split; intros Hh; rewrite Hh.
      * destruct (truthy_str (BadgeInstance.salt b)); split; reflexivity.
      * split; reflexivity.
Qed.

Lemma recipient_identity_and_salt_witness :
  exists doc recipient,
    BadgeInstance.get_json Demo.env Demo.assertion V1_1 false false true false
    = Ok doc
    /\ dict_get "recipient" doc = Some (JObj recipient)
    /\ dict_get "identity" recipient = Some (JStr "sha256$a@example.coms4lt")
    /\ dict_get "salt" recipient = Some (JStr "s4lt").
Proof.
  eexists.
  destruct (proj2 (proj2 (proj2 (recipient_identity_and_salt Demo.env)))
              Demo.assertion V1_1 false false true false _ eq_refl eq_refl eq_refl)
    as [recipient [Hdoc [Hhashed _]]].
  exists recipient. split; [reflexivity|]. split; [exact Hdoc|].
  exact (Hhashed eq_refl).
Defined.

(** ** Revocation *)

Lemma stored_after_delete (n : string) (fs : BadgeInstance.Storage) :
  BadgeInstance.stored n (filter (fun f => negb (fst f =? n)) fs) = false.
Proof.
  unfold BadgeInstance.stored.
  induction fs as [|[m c] fs IH]; simpl.
  - reflexivity.
  - destruct (m =? n) eqn:E; simpl.
    + exact IH.
    + rewrite E. exact IH.
Qed.

Lemma revoke_already_revoked (env : Env) (reason : option string)
  (st : BadgeInstance.State) :
  BadgeInstance.revoked (BadgeInstance.self st) = true ->
  BadgeInstance.revoke env reason st = (Raise BadgeInstance.AlreadyRevokedError, st).
Proof.
  intros H. unfold BadgeInstance.revoke, BadgeInstance.bindM, BadgeInstance.get_self.
  rewrite H. reflexivity.
Qed.

Lemma revoke_missing_reason (env : Env) (reason : option string)
  (st : BadgeInstance.State) :
  BadgeInstance.revoked (BadgeInstance.self st) = false ->
  truthy_str reason = false ->
  BadgeInstance.revoke env reason st = (Raise BadgeInstance.MissingReasonError, st).
Proof.
  intros H Hr. unfold BadgeInstance.revoke, BadgeInstance.bindM, BadgeInstance.get_self.
  rewrite H, Hr. reflexivity.
Qed.

(** [save] of a stored assertion only writes the row. *)
Lemma save_stored (env : Env) (st : BadgeInstance.State) (k : nat) :
  BadgeInstance.pk (BadgeInstance.self st) = Some k ->
  BadgeInstance.save env st = (Ok tt, BadgeInstance.written env st).
Proof. intros Hpk. rewrite save_cases, Hpk. reflexivity. Qed.

Lemma row_written (env : Env) (st : BadgeInstance.State) :
  BadgeInstance.row (BadgeInstance.written env st)
  = Some (BadgeInstance.self (BadgeInstance.written env st)).
Proof. reflexivity. Qed.

Lemma storage_written (env : Env) (st : BadgeInstance.State) :
  BadgeInstance.storage (BadgeInstance.written env st) = BadgeInstance.storage st.
Proof. reflexivity. Qed.

Lemma revoked_written (env : Env) (st : BadgeInstance.State) :
  BadgeInstance.revoked (BadgeInstance.self (BadgeInstance.written env st))
  = BadgeInstance.revoked (BadgeInstance.self st).
Proof.
  unfold BadgeInstance.written. cbn [BadgeInstance.self].
  destruct (BadgeInstance.revoked (BadgeInstance.self st)) eqn:E;
    simpl negb; cbv iota; first [exact E | reflexivity].
Qed.

Lemma image_written (env : Env) (st : BadgeInstance.State) :
  BadgeInstance.image (BadgeInstance.self (BadgeInstance.written env st))
  = BadgeInstance.image (BadgeInstance.self st).
Proof.
  unfold BadgeInstance.written. cbn [BadgeInstance.self].
  destruct (BadgeInstance.revoked (BadgeInstance.self st)) eqn:E;
    simpl negb; cbv iota; first [exact E | reflexivity].
Qed.

Lemma pk_written (env : Env) (st : BadgeInstance.State) :
  BadgeInstance.pk (BadgeInstance.self (BadgeInstance.written env st))
  = Some (match BadgeInstance.pk (BadgeInstance.self st) with
          | Some k => k
          | None => new_pk env
          end).
Proof.
  unfold BadgeInstance.written. cbn [BadgeInstance.self].
  destruct (BadgeInstance.revoked (BadgeInstance.self st)) eqn:E;
    simpl negb; cbv iota; first [exact E | reflexivity].
Qed.

Lemma reason_written (env : Env) (st : BadgeInstance.State) :
  BadgeInstance.revocation_reason (BadgeInstance.self (BadgeInstance.written env st))
  = if BadgeInstance.revoked (BadgeInstance.self st)
    then BadgeInstance.revocation_reason (BadgeInstance.self st)
    else None.
Proof.
  unfold BadgeInstance.written. cbn [BadgeInstance.self].
  destruct (BadgeInstance.revoked (BadgeInstance.self st)) eqn:E;
    simpl negb; cbv iota; first [exact E | reflexivity].
Qed.

Lemma revoke_stored_assertion (env : Env) (reason : option string)
  (st : BadgeInstance.State) :
  BadgeInstance.revoked (BadgeInstance.self st) = false ->
  truthy_str reason = true ->
  BadgeInstance.pk (BadgeInstance.self st) <> None ->
  exists st',
    BadgeInstance.revoke env reason st = (Ok tt, st')
    /\ BadgeInstance.revoked (BadgeInstance.self st') = true
    /\ BadgeInstance.revocation_reason (BadgeInstance.self st') = reason
    /\ truthy_str (BadgeInstance.image (BadgeInstance.self st')) = false
    /\ (forall n, BadgeInstance.image (BadgeInstance.self st) = Some n ->
                  n <> "" ->
                  BadgeInstance.stored n (BadgeInstance.storage st') = false)
    /\ BadgeInstance.row st' = Some (BadgeInstance.self st').
Proof.
  intros Hrev Hreason Hpk.
  destruct st as [s r fs h]. cbn [BadgeInstance.self] in *.
  destruct (BadgeInstance.pk s) as [k|] eqn:Ek; [clear Hpk | contradiction].
  unfold BadgeInstance.revoke, BadgeInstance.image_delete,
    BadgeInstance.bindM, BadgeInstance.get_self.
  cbn -[BadgeInstance.save truthy_str].
  rewrite Hrev, Hreason.
  cbn -[BadgeInstance.save truthy_str].
  destruct (truthy_str (BadgeInstance.image s)) eqn:Hi;
    cbn -[BadgeInstance.save truthy_str].
  - destruct (BadgeInstance.image s) as [n|] eqn:En; [|discriminate Hi].
    unfold BadgeInstance.storage_delete, BadgeInstance.observe.
    cbn -[BadgeInstance.save truthy_str].
    rewrite (save_stored env _ k) by exact Ek.
    rewrite (save_stored env _ k)
      by (rewrite pk_written; cbn [BadgeInstance.self BadgeInstance.pk];
          cbn; rewrite Ek; reflexivity).
    eexists. split; [reflexivity|].
    rewrite !revoked_written, !reason_written, !revoked_written, !image_written,
      !storage_written, row_written.
    cbn -[truthy_str BadgeInstance.stored].
    split; [reflexivity|]. split; [reflexivity|]. split; [reflexivity|].
    split; [|reflexivity].
    intros m Hm Hne. injection Hm as <-. apply stored_after_delete.
  - rewrite (save_stored env _ k) by exact Ek.
    eexists. split; [reflexivity|].
    rewrite !revoked_written, !reason_written, !image_written,
      !storage_written, row_written.
    cbn -[truthy_str BadgeInstance.stored].
    split; [reflexivity|]. split; [reflexivity|]. split; [exact Hi|].
    split; [|reflexivity].
    intros m Hm Hne. rewrite Hm in Hi. simpl in Hi.
    destruct (m =? "") eqn:E; [|discriminate Hi].
    apply String.eqb_eq in E. contradiction.
Qed.

(** C3.  [revoke(reason)]: on a revoked assertion it raises "Assertion is
    already revoked"; otherwise, with an empty reason, it raises
    "revocation_reason is required"; either way nothing has changed.
    Otherwise, on a stored assertion, it ends normally with [revoked] set,
    the reason kept, the image reference cleared, its file gone from
    storage and the row written; and from then on every [revoke] raises
    the first error. *)
Theorem revoke_spec :
  forall (env : Env) (reason : option string) (st : BadgeInstance.State),
    (BadgeInstance.revoked (BadgeInstance.self st) = true ->
     BadgeInstance.revoke env reason st
     = (Raise BadgeInstance.AlreadyRevokedError, st))
    /\ (BadgeInstance.revoked (BadgeInstance.self st) = false ->
        truthy_str reason = false ->
        BadgeInstance.revoke env reason st
        = (Raise BadgeInstance.MissingReasonError, st))
    /\ (BadgeInstance.revoked (BadgeInstance.self st) = false ->
        truthy_str reason = true ->
        BadgeInstance.pk (BadgeInstance.self st) <> None ->
        exists st',
          BadgeInstance.revoke env reason st = (Ok tt, st')
          /\ BadgeInstance.revoked (BadgeInstance.self st') = true
          /\ BadgeInstance.revocation_reason (BadgeInstance.self st') = reason
          /\ truthy_str (BadgeInstance.image (BadgeInstance.self st')) = false
          /\ (forall n, BadgeInstance.image (BadgeInstance.self st) = Some n ->
                        n <> "" ->
                        BadgeInstance.stored n (BadgeInstance.storage st') = false)
          /\ BadgeInstance.row st' = Some (BadgeInstance.self st')
          /\ forall again : option string,
               BadgeInstance.revoke env again st'
               = (Raise BadgeInstance.AlreadyRevokedError, st')).
Proof.
  intros env reason st. split; [|split].
  - apply revoke_already_revoked.
  - apply revoke_missing_reason.
  - intros Hrev Hreason Hpk.
    destruct (revoke_stored_assertion env reason st Hrev Hreason Hpk)
      as [st' [Hrun [Hr [Hrsn [Himg [Hfile Hrow]]]]]].
    exists st'. repeat split; try assumption.
    intros again. apply revoke_already_revoked. exact Hr.
Qed.

Lemma revoke_spec_witness :
  exists st',
    BadgeInstance.revoke Demo.env (Some "bad") Demo.state = (Ok tt, st')
    /\ BadgeInstance.revoked (BadgeInstance.self st') = true
    /\ BadgeInstance.revocation_reason (BadgeInstance.self st') = Some "bad"
    /\ BadgeInstance.revoke Demo.env (Some "worse") st'
       = (Raise (ValidationError "Assertion is already revoked"), st')
    /\ BadgeInstance.revoke Demo.env (Some "") Demo.state
       = (Raise (ValidationError "revocation_reason is required"), Demo.state).
Proof.
  destruct (proj2 (proj2 (revoke_spec Demo.env (Some "bad") Demo.state))
              eq_refl eq_refl ltac:(discriminate))
    as [st' [Hrun [Hr [Hrsn [_ [_ [_ Hagain]]]]]]].
  exists st'.
  split; [exact Hrun|]. split; [exact Hr|]. split; [exact Hrsn|].
  split; [apply Hagain|].
  exact (proj1 (proj2 (revoke_spec Demo.env (Some "") Demo.state))
           eq_refl eq_refl).
Defined.


(** ** Pending assertions *)

Lemma cached_get_matches (key : string) (table : list IdentityRecord)
  (r : IdentityRecord) :
  cached_get key table = Some r -> In r table /\ identifier r = key.
Proof.
  unfold cached_get. intros H. apply find_some in H.
  destruct H as [Hin Heq]. apply String.eqb_eq in Heq. split; assumption.
Qed.

(** Where identifiers are unique, [cached.get] finds the record that has
    the key. *)
Lemma cached_get_unique (key : string) (table : list IdentityRecord)
  (r : IdentityRecord) :
  NoDup (map identifier table) ->
  In r table -> identifier r = key -> cached_get key table = Some r.
Proof.
  unfold cached_get.
  induction table as [|r0 table IH]; simpl; intros Hnd Hin Hkey; [contradiction|].
  inversion Hnd as [|? ? Hnotin Hnd']; subst.
  destruct Hin as [Hin|Hin].
  - subst r0. rewrite String.eqb_refl. reflexivity.
  - destruct (identifier r0 =? identifier r) eqn:E.
    + apply String.eqb_eq in E. exfalso. apply Hnotin. rewrite E.
      apply in_map. exact Hin.
    + apply IH; [exact Hnd' | exact Hin | reflexivity].
Qed.

Lemma cached_get_absent (key : string) (table : list IdentityRecord) :
  (forall r, In r table -> identifier r <> key) -> cached_get key table = None.
Proof.
  unfold cached_get. intros H.
  destruct (find (fun r => identifier r =? key) table) as [r|] eqn:F;
    [|reflexivity].
  apply find_some in F. destruct F as [Hin Heq]. apply String.eqb_eq in Heq.
  exfalso. exact (H r Hin Heq).
Qed.

(** C8.  [pending] reads the identity table of the recipient type of the
    assertion (the e-mail addresses for the type [email], the other
    identifiers otherwise).  Where the identifiers of that table are
    unique, it is true exactly when the assertion has a non-empty
    [source_url] and the table holds a record with its recipient
    identifier that is not verified; and when the table holds no record
    with that identifier it is false, whatever the [source_url]. *)
Theorem pending_iff :
  forall (accounts : Accounts) (b : BadgeInstance.t),
    let table :=
      if BadgeInstance.recipient_type b =? RECIPIENT_TYPE_EMAIL
      then CachedEmailAddress accounts
      else UserRecipientIdentifier accounts in
    (NoDup (map identifier table) ->
     (BadgeInstance.pending accounts b = true <->
      truthy_str (BadgeInstance.source_url b) = true
      /\ exists r, In r table
                   /\ identifier r = BadgeInstance.recipient_identifier b
                   /\ verified r = false))
    /\ ((forall r, In r table ->
                   identifier r <> BadgeInstance.recipient_identifier b) ->
        BadgeInstance.pending accounts b = false).
Proof.
  intros accounts b table. unfold BadgeInstance.pending.
  assert ((if BadgeInstance.recipient_type b =? RECIPIENT_TYPE_EMAIL
           then cached_get (BadgeInstance.recipient_identifier b)
                  (CachedEmailAddress accounts)
           else cached_get (BadgeInstance.recipient_identifier b)
                  (UserRecipientIdentifier accounts))
          = cached_get (BadgeInstance.recipient_identifier b) table) as ->.
  { subst table. destruct (BadgeInstance.recipient_type b =? RECIPIENT_TYPE_EMAIL);
      reflexivity. }
  split.
  - intros Hnd. split.
    + intros Hp.
      destruct (cached_get (BadgeInstance.recipient_identifier b) table)
        as [r|] eqn:E; [|discriminate Hp].
      destruct (cached_get_matches _ _ _ E) as [Hin Hid].
      destruct (truthy_str (BadgeInstance.source_url b)); [|discriminate Hp].
      split; [reflexivity|]. exists r.
      split; [exact Hin|]. split; [exact Hid|].
      simpl in Hp. destruct (verified r); [discriminate Hp | reflexivity].
    + intros [Hs [r [Hin [Hid Hv]]]].
      rewrite (cached_get_unique _ _ r Hnd Hin Hid), Hs, Hv. reflexivity.
  - intros Hnone. rewrite cached_get_absent by exact Hnone. reflexivity.
Qed.

Lemma pending_iff_witness :
  BadgeInstance.pending
    {| CachedEmailAddress := [{| identifier := "b@example.com"; verified := true |};
                              {| identifier := "a@example.com"; verified := false |}];
       UserRecipientIdentifier := [] |}
    Demo.imported_assertion
  = true
  /\ BadgeInstance.pending
       {| CachedEmailAddress := [{| identifier := "a@example.com"; verified := false |}];
          UserRecipientIdentifier := [] |}
       (BadgeInstance.set_recipient_type RECIPIENT_TYPE_URL Demo.imported_assertion)
     = false.
Proof.
  split.
  - apply (proj1 (pending_iff
                    {| CachedEmailAddress :=
                         [{| identifier := "b@example.com"; verified := true |};
                          {| identifier := "a@example.com"; verified := false |}];
                       UserRecipientIdentifier := [] |}
                    Demo.imported_assertion)).
    + repeat constructor; simpl; intuition discriminate.
    + split; [reflexivity|].
      exists {| identifier := "a@example.com"; verified := false |}.
      split; [right; left; reflexivity|]. split; reflexivity.
  - apply (proj2 (pending_iff
                    {| CachedEmailAddress :=
                         [{| identifier := "a@example.com"; verified := false |}];
                       UserRecipientIdentifier := [] |}
                    (BadgeInstance.set_recipient_type RECIPIENT_TYPE_URL
                       Demo.imported_assertion))).
    intros r [].
Defined.

(** ** The document of a non-revoked assertion, block by block *)

Lemma document_not_revoked (env : Env) (b : BadgeInstance.t) (v : ObiVersion)
  (eb ei ie uc : bool) :
  BadgeInstance.revoked b = false ->
  BadgeInstance.document env b v eb ei ie uc =
  let json := BadgeInstance.body env b v uc (BadgeInstance.head env b v eb ei ie) in
  if ie then pass_through (BadgeInstance.filtered_json env b) json else json.
Proof.
  intros H.
  unfold BadgeInstance.document, BadgeInstance.head, BadgeInstance.body,
    get_obi_context.
  rewrite H. reflexivity.
Qed.

Lemma dict_get_set_ne (k k2 : string) (v : Json) (d : OrderedDict) :
  (k2 =? k) = false -> dict_get k (dict_set k2 v d) = dict_get k d.
Proof. intros H. rewrite dict_get_set, H. reflexivity. Qed.

Lemma dict_get_set_eq (k : string) (v : Json) (d : OrderedDict) :
  dict_get k (dict_set k v d) = Some v.
Proof. rewrite dict_get_set, String.eqb_refl. reflexivity. Qed.

Lemma dict_get_set_in (k k1 k2 : string) (v : Json) (d : OrderedDict) :
  (k1 =? k) = false -> dict_get k (dict_set_in k1 k2 v d) = dict_get k d.
Proof.
  intros H. unfold dict_set_in.
  destruct (dict_get k1 d) as [[| | | | |inner]|]; try reflexivity.
  apply dict_get_set_ne. exact H.
Qed.

(** Lookups of a literal key through the blocks of a builder. *)
Ltac dict_lookup :=
  repeat first
    [ rewrite dict_get_set_eq
    | rewrite dict_get_set_ne by reflexivity
    | rewrite dict_get_set_in by reflexivity
    | rewrite dict_get_with_image_info by reflexivity
    | rewrite dict_get_source_url_fields by reflexivity ].

Lemma public_url_truthy (env : Env) (b : BadgeInstance.t) :
  truthy_str (Some (BadgeInstance.public_url env b)) = true.
Proof.
  unfold BadgeInstance.public_url, BadgeInstance.get_absolute_url, reverse.
  simpl. destruct (HTTP_ORIGIN env); reflexivity.
Qed.

(** An excluded key is never taken from the imported document of an
    assertion. *)
Lemma dict_get_pass_through_excluded (env : Env) (b : BadgeInstance.t)
  (k : string) (json : OrderedDict) :
  mem_str k BadgeInstance.excluded_fields = true ->
  dict_get k (pass_through (BadgeInstance.filtered_json env b) json)
  = dict_get k json.
Proof.
  intros Hex.
  assert ((k =? "expires") = false) as Hne.
  { apply mem_str_true_iff in Hex. simpl in Hex.
    repeat (destruct Hex as [Hex|Hex]; [subst k; reflexivity|]).
    contradiction. }
  unfold BadgeInstance.filtered_json, BadgeInstance.ensure_expires, filtered.
  destruct (imported (BadgeInstance.original_json b)) as [orig|]; [|reflexivity].
  assert (dict_get k
            (filter (fun kv => negb (mem_str (fst kv) BadgeInstance.excluded_fields)) orig)
          = None) as Hnone.
  { rewrite dict_get_filter_excluded, Hex. reflexivity. }
  destruct (dict_get "expires" _) as [expires|];
    [destruct (truthy expires && negb (str_endswith_Z expires))|];
    rewrite dict_get_pass_through;
    try rewrite dict_get_set_ne by (rewrite String.eqb_sym; exact Hne);
    rewrite Hnone; destruct (dict_get k json); reflexivity.
Qed.

(** What [get_json] puts under [evidence] for version 1.1. *)
Lemma document_v1_evidence (env : Env) (b : BadgeInstance.t) (eb ei ie uc : bool) :
  BadgeInstance.revoked b = false ->
  mem_str "evidence" (extension_names (BadgeInstance.extensions b)) = false ->
  dict_get "evidence" (BadgeInstance.document env b V1_1 eb ei ie uc)
  = if truthy_str (BadgeInstance.evidence_url env b)
    then Some (opt_json (BadgeInstance.evidence_url env b)) else None.
Proof.
  intros Hrev Hext. rewrite document_not_revoked by exact Hrev.
  cbv zeta.
  assert (dict_get "evidence"
            (BadgeInstance.body env b V1_1 uc (BadgeInstance.head env b V1_1 eb ei ie))
          = if truthy_str (BadgeInstance.evidence_url env b)
            then Some (opt_json (BadgeInstance.evidence_url env b)) else None) as Hbody.
  { unfold BadgeInstance.body.
    rewrite dict_get_extension_fields by exact Hext.
    destruct (BadgeInstance.expires_at b);
      destruct (truthy_str (BadgeInstance.evidence_url env b));
      dict_lookup; try reflexivity;
      unfold BadgeInstance.head; destruct eb, ei; dict_lookup; reflexivity. }
  destruct ie.
  - rewrite dict_get_pass_through_excluded by reflexivity. exact Hbody.
  - exact Hbody.
Qed.

(** C10, as stated, fails: the extensions block runs after the evidence
    block, so an assertion that is not revoked and has no evidence item,
    but an extension row named [evidence], renders an [evidence] key. *)
Lemma evidence_key_without_evidence_items :
  let b :=
    BadgeInstance.set_extensions
      {| rows := [(1, {| BaseOpenBadgeExtension.name := "evidence";
                         BaseOpenBadgeExtension.original_json := JStr "see annex" |})];
         next_pk := 2; log := [] |}
      Demo.assertion in
  BadgeInstance.revoked b = false
  /\ BadgeInstance.cached_evidence b = []
  /\ exists doc,
       BadgeInstance.get_json Demo.env b V1_1 false false true false = Ok doc
       /\ dict_get "evidence" doc = Some (JStr "see annex").
Proof.
  split; [reflexivity|]. split; [reflexivity|].
  eexists. split; reflexivity.
Qed.

(** C10, amended.  The [evidence] entry of a version 1.1 document that
    [get_json] returns for a non-revoked assertion, provided no extension
    row is named [evidence]: none without evidence items; the URL of the
    only item when it has one; the public URL of the assertion when the
    only item has no URL, or when there are several items. *)
Theorem evidence_url_v1 :
  forall (env : Env) (b : BadgeInstance.t)
         (expand_badgeclass expand_issuer include_extra use_canonical_id : bool)
         (doc : OrderedDict),
    BadgeInstance.revoked b = false ->
    mem_str "evidence" (extension_names (BadgeInstance.extensions b)) = false ->
    BadgeInstance.get_json env b V1_1 expand_badgeclass expand_issuer
      include_extra use_canonical_id = Ok doc ->
    let items := BadgeInstance.cached_evidence b in
    (items = [] ->
     BadgeInstance.evidence_url env b = None /\ dict_get "evidence" doc = None)
    /\ (forall e url,
           items = [e] ->
           BadgeInstanceEvidence.evidence_url e = Some url -> url <> "" ->
           BadgeInstance.evidence_url env b = Some url
           /\ dict_get "evidence" doc = Some (JStr url))
    /\ (forall e,
           items = [e] ->
           truthy_str (BadgeInstanceEvidence.evidence_url e) = false ->
           BadgeInstance.evidence_url env b = Some (BadgeInstance.public_url env b)
           /\ dict_get "evidence" doc = Some (JStr (BadgeInstance.public_url env b)))
    /\ (2 <= length items ->
        BadgeInstance.evidence_url env b = Some (BadgeInstance.public_url env b)
        /\ dict_get "evidence" doc = Some (JStr (BadgeInstance.public_url env b))).
Proof.
  intros env b eb ei ie uc doc Hrev Hext Hdoc items. returned Hdoc.
  rewrite document_v1_evidence by assumption.
  unfold BadgeInstance.evidence_url. fold items.
  repeat split.
  - rewrite H. reflexivity.
  - rewrite H. reflexivity.
  - rewrite H. simpl. rewrite H0.
    assert (truthy_str (Some url) = true) as ->.
    { simpl. destruct (url =? "") eqn:E; [|reflexivity].
      apply String.eqb_eq in E. contradiction. }
    reflexivity.
  - rewrite H. simpl. rewrite H0.
    assert (truthy_str (Some url) = true) as Ht.
    { simpl. destruct (url =? "") eqn:E; [|reflexivity].
      apply String.eqb_eq in E. contradiction. }
    rewrite !Ht. reflexivity.
  - rewrite H. simpl. rewrite H0. reflexivity.
  - rewrite H. simpl. rewrite H0. rewrite public_url_truthy. reflexivity.
  - apply Nat.ltb_lt in H. rewrite H. reflexivity.
  - apply Nat.ltb_lt in H. rewrite H. rewrite public_url_truthy. reflexivity.
Qed.

Lemma evidence_url_v1_witness :
  exists doc2 doc1,
    (BadgeInstance.get_json Demo.env Demo.assertion_with_evidence V1_1
       false false true false = Ok doc2
     /\ dict_get "evidence" doc2
        = Some (JStr "https://badges.example/public/assertions/as"))
    /\ (BadgeInstance.get_json Demo.env Demo.assertion_with_one_evidence V1_1
          false false true false = Ok doc1
        /\ dict_get "evidence" doc1 = Some (JStr "https://proof.example/1")).
Proof.
  eexists. eexists. split.
  - split; [reflexivity|].
    exact (proj2 (proj2 (proj2 (proj2
             (evidence_url_v1 Demo.env Demo.assertion_with_evidence
                false false true false _ eq_refl eq_refl eq_refl))) (le_n 2))).
  - split; [reflexivity|].
    refine (proj2 (proj1 (proj2
              (evidence_url_v1 Demo.env Demo.assertion_with_one_evidence
                 false false true false _ eq_refl eq_refl eq_refl)) _ _ eq_refl eq_refl _)).
    discriminate.
Defined.

(** ** The [id] of a document *)

Lemma issuer_document_id (env : Env) (i : Issuer.t) (v : ObiVersion)
  (ie uc : bool) :
  mem_str "id" (extension_names (Issuer.extensions i)) = false ->
  dict_get "id" (Issuer.document env i v ie uc)
  = Some (JStr (if uc then Issuer.jsonld_id env i
                else add_obi_version_ifneeded env (Issuer.jsonld_id env i) v)).
Proof.
  intros Hext. unfold Issuer.document, get_obi_context. cbv beta iota zeta.
  match goal with
  | |- dict_get _ (if ie then pass_through ?x ?j else ?j) = _ =>
      assert (dict_get "id" j
              = Some (JStr (if uc then Issuer.jsonld_id env i
                            else add_obi_version_ifneeded env
                                   (Issuer.jsonld_id env i) v))) as Hj
  end.
  { rewrite dict_get_extension_fields by exact Hext.
    dict_lookup. reflexivity. }
  destruct ie.
  - apply dict_get_pass_through_present. exact Hj.
  - exact Hj.
Qed.

Lemma badgeclass_document_id (env : Env) (bc : BadgeClass.t) (v : ObiVersion)
  (ie uc : bool) :
  mem_str "id" (extension_names (BadgeClass.extensions bc)) = false ->
  dict_get "id" (BadgeClass.document env bc v ie uc)
  = Some (JStr (if uc then BadgeClass.jsonld_id env bc
                else add_obi_version_ifneeded env (BadgeClass.jsonld_id env bc) v)).
Proof.
  intros Hext. unfold BadgeClass.document, get_obi_context. cbv beta iota zeta.
  match goal with
  | |- dict_get _ (if ie then pass_through ?x ?j else ?j) = _ =>
      assert (dict_get "id" j
              = Some (JStr (if uc then BadgeClass.jsonld_id env bc
                            else add_obi_version_ifneeded env
                                   (BadgeClass.jsonld_id env bc) v))) as Hj
  end.
  { rewrite dict_get_extension_fields by exact Hext.
    destruct v; destruct (truthy_str (BadgeClass.image bc));
      dict_lookup; reflexivity. }
  destruct ie.
  - apply dict_get_pass_through_present. exact Hj.
  - exact Hj.
Qed.

Lemma badgeinstance_document_id (env : Env) (b : BadgeInstance.t) (v : ObiVersion)
  (eb ei ie uc : bool) :
  BadgeInstance.revoked b = false ->
  mem_str "id" (extension_names (BadgeInstance.extensions b)) = false ->
  dict_get "id" (BadgeInstance.document env b v eb ei ie uc)
  = Some (JStr (add_obi_version_ifneeded env (BadgeInstance.jsonld_id env b) v)).
Proof.
  intros Hrev Hext. rewrite document_not_revoked by exact Hrev. cbv zeta.
  assert (dict_get "id"
            (BadgeInstance.body env b v uc (BadgeInstance.head env b v eb ei ie))
          = Some (JStr (add_obi_version_ifneeded env (BadgeInstance.jsonld_id env b) v)))
    as Hj.
  { unfold BadgeInstance.body.
    rewrite dict_get_extension_fields by exact Hext.
    destruct v; destruct (BadgeInstance.expires_at b);
      destruct (truthy_str (BadgeInstance.evidence_url env b));
      try destruct (truthy_str (BadgeInstance.narrative b));
      dict_lookup;
      unfold BadgeInstance.head; destruct eb, ei; dict_lookup; reflexivity. }
  destruct ie.
  - apply dict_get_pass_through_present. exact Hj.
  - exact Hj.
Qed.

(** C6, on the code.  The [id] of a document a builder returns (no
    extension row being named [id]): [Issuer.get_json],
    [BadgeClass.get_json] and the revoked branch of
    [BadgeInstance.get_json] give the canonical id under
    [use_canonical_id] and its version-suffixed form otherwise; the
    document of a non-revoked assertion carries the version-suffixed form
    whatever [use_canonical_id] is. *)
Theorem get_json_id :
  forall (env : Env) (obi_version : ObiVersion) (use_canonical_id : bool),
    (forall (i : Issuer.t) (include_extra : bool) (doc : OrderedDict),
        mem_str "id" (extension_names (Issuer.extensions i)) = false ->
        Issuer.get_json env i obi_version include_extra use_canonical_id = Ok doc ->
        dict_get "id" doc
        = Some (JStr (if use_canonical_id then Issuer.jsonld_id env i
                      else add_obi_version_ifneeded env
                             (Issuer.jsonld_id env i) obi_version)))
    /\ (forall (bc : BadgeClass.t) (include_extra : bool) (doc : OrderedDict),
           mem_str "id" (extension_names (BadgeClass.extensions bc)) = false ->
           BadgeClass.get_json env bc obi_version include_extra use_canonical_id
           = Ok doc ->
           dict_get "id" doc
           = Some (JStr (if use_canonical_id then BadgeClass.jsonld_id env bc
                         else add_obi_version_ifneeded env
                                (BadgeClass.jsonld_id env bc) obi_version)))
    /\ (forall (b : BadgeInstance.t)
               (expand_badgeclass expand_issuer include_extra : bool)
               (doc : OrderedDict),
           BadgeInstance.revoked b = true ->
           BadgeInstance.get_json env b obi_version expand_badgeclass
             expand_issuer include_extra use_canonical_id = Ok doc ->
           dict_get "id" doc
           = Some (JStr (if use_canonical_id then BadgeInstance.jsonld_id env b
                         else add_obi_version_ifneeded env
                                (BadgeInstance.jsonld_id env b) obi_version)))
    /\ (forall (b : BadgeInstance.t)
               (expand_badgeclass expand_issuer include_extra : bool)
               (doc : OrderedDict),
           BadgeInstance.revoked b = false ->
           mem_str "id" (extension_names (BadgeInstance.extensions b)) = false ->
           BadgeInstance.get_json env b obi_version expand_badgeclass
             expand_issuer include_extra use_canonical_id = Ok doc ->
           dict_get "id" doc
           = Some (JStr (add_obi_version_ifneeded env
                           (BadgeInstance.jsonld_id env b) obi_version))).
Proof.
  intros env v uc. repeat split.
  - intros i ie doc Hext Hdoc. returned Hdoc. apply issuer_document_id. exact Hext.
  - intros bc ie doc Hext Hdoc. returned Hdoc.
    apply badgeclass_document_id. exact Hext.
  - intros b eb ei ie doc Hrev Hdoc. returned Hdoc.
    rewrite document_revoked by exact Hrev. reflexivity.
  - intros b eb ei ie doc Hrev Hext Hdoc. returned Hdoc.
    apply badgeinstance_document_id; assumption.
Qed.

Lemma get_json_id_witness :
  BadgeInstance.jsonld_id Demo.env Demo.assertion
  = "https://badges.example/public/assertions/as"
  /\ (exists doc,
        BadgeInstance.get_json Demo.env Demo.assertion V1_1 false false true true
        = Ok doc
        /\ dict_get "id" doc
           = Some (JStr "https://badges.example/public/assertions/as?v=1_1"))
  /\ (exists doc,
        Issuer.get_json Demo.env Demo.issuer V1_1 true true = Ok doc
        /\ dict_get "id" doc
           = Some (JStr "https://badges.example/public/issuers/iss")).
Proof.
  split; [reflexivity|]. split.
  - eexists. split; [reflexivity|].
    exact (proj2 (proj2 (proj2 (get_json_id Demo.env V1_1 true)))
             Demo.assertion false false true _ eq_refl eq_refl eq_refl).
  - eexists. split; [reflexivity|].
    exact (proj1 (get_json_id Demo.env V1_1 true) Demo.issuer true _ eq_refl eq_refl).
Defined.

(** ** Pass-through of the imported document *)

Lemma dict_set_agree (k k2 : string) (v : Json) (j1 j2 : OrderedDict) :
  dict_get k j1 = dict_get k j2 ->
  dict_get k (dict_set k2 v j1) = dict_get k (dict_set k2 v j2).
Proof. intros H. rewrite !dict_get_set, H. reflexivity. Qed.

Lemma extension_fields_agree (k : string)
  (extensions : Table BaseOpenBadgeExtension.t) (j1 j2 : OrderedDict) :
  dict_get k j1 = dict_get k j2 ->
  dict_get k (extension_fields extensions j1)
  = dict_get k (extension_fields extensions j2).
Proof.
  unfold extension_fields, all. generalize (rows extensions) as l. intros l.
  revert j1 j2. induction l as [|e l IH]; intros j1 j2 H; simpl.
  - exact H.
  - apply IH. apply dict_set_agree. exact H.
Qed.

Lemma source_url_fields_agree (k : string) (source_url : option string)
  (hosted_url : string) (v : ObiVersion) (j1 j2 : OrderedDict) :
  dict_get k j1 = dict_get k j2 ->
  dict_get k (source_url_fields source_url hosted_url v j1)
  = dict_get k (source_url_fields source_url hosted_url v j2).
Proof.
  intros H. unfold source_url_fields.
  destruct (truthy_str source_url); [|exact H].
  destruct v; repeat apply dict_set_agree; exact H.
Qed.

Lemma body_agree (env : Env) (b : BadgeInstance.t) (v : ObiVersion) (uc : bool)
  (k : string) (j1 j2 : OrderedDict) :
  dict_get k j1 = dict_get k j2 ->
  dict_get k (BadgeInstance.body env b v uc j1)
  = dict_get k (BadgeInstance.body env b v uc j2).
Proof.
  intros H. unfold BadgeInstance.body.
  apply extension_fields_agree.
  destruct v; destruct (BadgeInstance.expires_at b);
    destruct (truthy_str (BadgeInstance.evidence_url env b));
    try destruct (truthy_str (BadgeInstance.narrative b));
    repeat first [apply dict_set_agree | apply source_url_fields_agree];
    exact H.
Qed.

Lemma head_agree (env : Env) (b : BadgeInstance.t) (v : ObiVersion)
  (eb ei ie1 ie2 : bool) (k : string) :
  (k =? "badge") = false ->
  dict_get k (BadgeInstance.head env b v eb ei ie1)
  = dict_get k (BadgeInstance.head env b v eb ei ie2).
Proof.
  intros Hk. rewrite String.eqb_sym in Hk. unfold BadgeInstance.head.
  destruct eb; [|reflexivity].
  destruct ei.
  - rewrite !dict_get_set_in by exact Hk.
    rewrite !dict_get_set_ne by exact Hk. reflexivity.
  - rewrite !dict_get_set_ne by exact Hk. reflexivity.
Qed.

Lemma option_map_passed_value_other (env : Env) (k : string) (o : option Json) :
  (k =? "expires") = false -> option_map (BadgeInstance.passed_value env k) o = o.
Proof.
  intros H. destruct o as [v|]; [|reflexivity].
  unfold BadgeInstance.passed_value. simpl. rewrite H. reflexivity.
Qed.

(** What [BadgeInstance.filtered_json] holds under each key. *)
Lemma badgeinstance_filtered_lookup (env : Env) (b : BadgeInstance.t)
  (orig : OrderedDict) :
  imported (BadgeInstance.original_json b) = Some orig ->
  exists filtered_orig,
    BadgeInstance.filtered_json env b = Some filtered_orig
    /\ forall k,
         dict_get k filtered_orig
         = if mem_str k BadgeInstance.excluded_fields then None
           else option_map (BadgeInstance.passed_value env k) (dict_get k orig).
Proof.
  intros Horig.
  unfold BadgeInstance.filtered_json, BadgeInstance.ensure_expires, filtered.
  rewrite Horig.
  set (F := filter (fun kv => negb (mem_str (fst kv) BadgeInstance.excluded_fields)) orig).
  assert (forall k, dict_get k F
                    = if mem_str k BadgeInstance.excluded_fields then None
                      else dict_get k orig) as HF.
  { intros k. apply dict_get_filter_excluded. }
  assert (forall k, (k =? "expires") = false ->
                    dict_get k F
                    = if mem_str k BadgeInstance.excluded_fields then None
                      else option_map (BadgeInstance.passed_value env k) (dict_get k orig))
    as Hother.
  { intros k Hk. rewrite HF, option_map_passed_value_other by exact Hk. reflexivity. }
  pose proof (HF "expires") as Hexp. change (mem_str "expires" BadgeInstance.excluded_fields)
    with false in Hexp. cbv iota in Hexp.
  destruct (dict_get "expires" F) as [expires|] eqn:E.
  - destruct (truthy expires && negb (str_endswith_Z expires)) eqn:C.
    + eexists. split; [reflexivity|]. intros k. rewrite dict_get_set.
      destruct ("expires" =? k) eqn:Ek.
      * apply String.eqb_eq in Ek. subst k.
        change (mem_str "expires" BadgeInstance.excluded_fields) with false. cbv iota.
        rewrite <- Hexp. unfold BadgeInstance.passed_value. simpl. rewrite C.
        reflexivity.
      * apply Hother. rewrite String.eqb_sym. exact Ek.
    + eexists. split; [reflexivity|]. intros k.
      destruct (k =? "expires") eqn:Ek.
      * apply String.eqb_eq in Ek. subst k. rewrite E.
        change (mem_str "expires" BadgeInstance.excluded_fields) with false. cbv iota.
        rewrite <- Hexp. unfold BadgeInstance.passed_value. simpl. rewrite C.
        reflexivity.
      * apply Hother. exact Ek.
  - eexists. split; [reflexivity|]. intros k.
    destruct (k =? "expires") eqn:Ek.
    + apply String.eqb_eq in Ek. subst k. rewrite E.
      change (mem_str "expires" BadgeInstance.excluded_fields) with false. cbv iota.
      rewrite <- Hexp. reflexivity.
    + apply Hother. exact Ek.
Qed.

Lemma dict_set_absent (k : string) (v : Json) (d : OrderedDict) :
  dict_get k d = None -> dict_set k v d = (d ++ [(k, v)])%list.
Proof.
  induction d as [|[k' v'] d IH]; simpl; intros H.
  - reflexivity.
  - destruct (k' =? k); [discriminate|]. rewrite IH by exact H. reflexivity.
Qed.

(** The pass-through only adds entries after those of the document. *)
Lemma pass_through_appends (extra : option OrderedDict) (json : OrderedDict) :
  exists extras, pass_through extra json = (json ++ extras)%list.
Proof.
  destruct extra as [extra|]; simpl.
  - revert json. induction extra as [|[k v] extra IH]; intros json; simpl.
    + exists []. rewrite app_nil_r. reflexivity.
    + destruct (dict_contains k json) eqn:E; simpl.
      * apply IH.
      * assert (dict_get k json = None) as Hnone.
        { unfold dict_contains in E.
          destruct (dict_get k json); [discriminate | reflexivity]. }
        rewrite dict_set_absent by exact Hnone.
        destruct (IH (json ++ [(k, v)])%list) as [l Hl].
        exists ((k, v) :: l). rewrite Hl, <- app_assoc. reflexivity.
  - exists []. rewrite app_nil_r. reflexivity.
Qed.

(** The keys of a dict after an assignment depend on its keys only. *)
Lemma dict_keys_set_agree (k : string) (v1 v2 : Json) (d1 d2 : OrderedDict) :
  dict_keys d1 = dict_keys d2 ->
  dict_keys (dict_set k v1 d1) = dict_keys (dict_set k v2 d2).
Proof.
  unfold dict_keys. revert d2.
  induction d1 as [|[k1 x1] d1 IH]; intros [|[k2 x2] d2] H; simpl in *;
    try discriminate; [reflexivity|].
  injection H as Hk Hrest. subst k2.
  destruct (k1 =? k); simpl.
  - rewrite Hrest. reflexivity.
  - rewrite (IH d2 Hrest). reflexivity.
Qed.

Lemma dict_keys_set_present (k : string) (v x : Json) (d : OrderedDict) :
  dict_get k d = Some x -> dict_keys (dict_set k v d) = dict_keys d.
Proof.
  unfold dict_keys. induction d as [|[k' v'] d IH]; simpl; intros H; [discriminate|].
  destruct (k' =? k); simpl; [reflexivity|]. rewrite IH by exact H. reflexivity.
Qed.

Lemma dict_keys_set_in (k k2 : string) (v : Json) (d : OrderedDict) :
  dict_keys (dict_set_in k k2 v d) = dict_keys d.
Proof.
  unfold dict_set_in.
  destruct (dict_get k d) as [[| | | | |inner]|] eqn:E; try reflexivity.
  apply (dict_keys_set_present k _ _ d E).
Qed.

Lemma extension_fields_keys_agree (extensions : Table BaseOpenBadgeExtension.t)
  (j1 j2 : OrderedDict) :
  dict_keys j1 = dict_keys j2 ->
  dict_keys (extension_fields extensions j1)
  = dict_keys (extension_fields extensions j2).
Proof.
  unfold extension_fields, all. generalize (rows extensions) as l. intros l.
  revert j1 j2. induction l as [|e l IH]; intros j1 j2 H; simpl.
  - exact H.
  - apply IH. apply dict_keys_set_agree. exact H.
Qed.

Lemma source_url_fields_keys_agree (source_url : option string)
  (hosted_url : string) (v : ObiVersion) (j1 j2 : OrderedDict) :
  dict_keys j1 = dict_keys j2 ->
  dict_keys (source_url_fields source_url hosted_url v j1)
  = dict_keys (source_url_fields source_url hosted_url v j2).
Proof.
  intros H. unfold source_url_fields.
  destruct (truthy_str source_url); [|exact H].
  destruct v; repeat apply dict_keys_set_agree; exact H.
Qed.

Lemma body_keys_agree (env : Env) (b : BadgeInstance.t) (v : ObiVersion) (uc : bool)
  (j1 j2 : OrderedDict) :
  dict_keys j1 = dict_keys j2 ->
  dict_keys (BadgeInstance.body env b v uc j1)
  = dict_keys (BadgeInstance.body env b v uc j2).
Proof.
  intros H. unfold BadgeInstance.body.
  apply extension_fields_keys_agree.
  destruct v; destruct (BadgeInstance.expires_at b);
    destruct (truthy_str (BadgeInstance.evidence_url env b));
    try destruct (truthy_str (BadgeInstance.narrative b));
    repeat first [apply dict_keys_set_agree | apply source_url_fields_keys_agree];
    exact H.
Qed.

Lemma head_keys (env : Env) (b : BadgeInstance.t) (v : ObiVersion)
  (eb ei ie1 ie2 : bool) :
  dict_keys (BadgeInstance.head env b v eb ei ie1)
  = dict_keys (BadgeInstance.head env b v eb ei ie2).
Proof.
  unfold BadgeInstance.head. cbv zeta.
  destruct eb; [|reflexivity].
  destruct ei.
  - rewrite !dict_keys_set_in. apply dict_keys_set_agree. reflexivity.
  - apply dict_keys_set_agree. reflexivity.
Qed.

Lemma BadgeClass_renders_without_extra (bc : BadgeClass.t) :
  BadgeClass.renders bc true = true -> BadgeClass.renders bc false = true.
Proof.
  unfold BadgeClass.renders.
  destruct (BadgeClass.original_json bc) as [| |[| | | | |members]];
    try reflexivity; rewrite andb_false_r; discriminate.
Qed.

Lemma BadgeInstance_renders_without_extra (b : BadgeInstance.t) (eb ei : bool) :
  BadgeInstance.renders b eb ei true = true ->
  BadgeInstance.renders b eb ei false = true.
Proof.
  unfold BadgeInstance.renders. intros H.
  apply andb_true_iff in H. destruct H as [Hb H]. rewrite Hb. simpl.
  destruct eb; [|reflexivity].
  apply andb_true_iff in H. destruct H as [Hbc Hi].
  rewrite (BadgeClass_renders_without_extra _ Hbc). exact Hi.
Qed.

(** The [badge] entry of the document does not depend on the imported
    document of the assertion. *)
Lemma document_badge_without_imported (env : Env) (b : BadgeInstance.t)
  (v : ObiVersion) (eb ei ie uc : bool) :
  BadgeInstance.revoked b = false ->
  dict_get "badge" (BadgeInstance.document env b v eb ei ie uc)
  = dict_get "badge"
      (BadgeInstance.document env (BadgeInstance.set_original_json NoText b)
         v eb ei ie uc).
Proof.
  intros Hrev.
  rewrite !document_not_revoked by exact Hrev. cbv zeta.
  change (BadgeInstance.body env (BadgeInstance.set_original_json NoText b) v uc)
    with (BadgeInstance.body env b v uc).
  assert (dict_get "badge"
            (BadgeInstance.body env b v uc (BadgeInstance.head env b v eb ei ie))
          = dict_get "badge"
              (BadgeInstance.body env b v uc
                 (BadgeInstance.head env
                    (BadgeInstance.set_original_json NoText b) v eb ei ie)))
    as Hbody.
  { apply body_agree. unfold BadgeInstance.head. cbv zeta.
    change (imported (BadgeInstance.original_json
                        (BadgeInstance.set_original_json NoText b)))
      with (@None OrderedDict).
    destruct eb; [destruct ei|].
    - unfold dict_set_in. rewrite !dict_get_set_eq. reflexivity.
    - rewrite !dict_get_set_eq. reflexivity.
    - rewrite dict_get_with_image_info by reflexivity. reflexivity. }
  destruct ie.
  - rewrite !dict_get_pass_through_excluded by reflexivity. exact Hbody.
  - exact Hbody.
Qed.

(** C5, as stated, fails in three places: an excluded key ([image]) whose
    value does come from the imported document; a key ([expires]) that is
    passed through with another value than the imported one; and a
    revoked assertion, whose document takes nothing from the imported
    one. *)
Lemma pass_through_is_not_verbatim :
  (mem_str "image" Issuer.excluded_fields = true
   /\ exists doc,
        Issuer.get_json Demo.env Demo.imported_issuer V2_0 true false = Ok doc
        /\ dict_get "image" doc
           = Some (JObj [("id", JStr "https://badges.example/public/issuers/imp/image");
                         ("caption", JStr "the guild's seal")]))
  /\ (mem_str "expires" BadgeInstance.excluded_fields = false
      /\ (exists computed,
            BadgeInstance.get_json Demo.env Demo.imported_assertion V2_0
              false false false false = Ok computed
            /\ dict_contains "expires" computed = false)
      /\ option_map (dict_get "expires")
           (imported (BadgeInstance.original_json Demo.imported_assertion))
         = Some (Some (JStr "2030-01-01T00:00:00"))
      /\ exists doc,
           BadgeInstance.get_json Demo.env Demo.imported_assertion V2_0
             false false true false = Ok doc
           /\ dict_get "expires" doc = Some (JStr "2030-01-01T00:00:00Z"))
  /\ (mem_str "motto" BadgeInstance.excluded_fields = false
      /\ option_map (dict_get "motto")
           (imported (BadgeInstance.original_json Demo.imported_assertion))
         = Some (Some (JStr "ad astra"))
      /\ exists doc,
           BadgeInstance.get_json Demo.env
             (BadgeInstance.set_revoked true Demo.imported_assertion) V2_0
             false false true false = Ok doc
           /\ dict_get "motto" doc = None).
Proof.
  split; [|split].
  - split; [reflexivity|]. eexists. split; reflexivity.
  - split; [reflexivity|]. split; [eexists; split; reflexivity|].
    split; [reflexivity|]. eexists. split; reflexivity.
  - split; [reflexivity|]. split; [reflexivity|]. eexists. split; reflexivity.
Qed.

(** C5, amended.  Take a document [get_json] returns with [include_extra]
    set, and as its computed entries the document the same call returns
    with the flag off.

    For an issuer and a badge class the document is the computed entries
    followed by appended ones, and under every key it holds the computed
    value when the computed entries have the key, else the imported value
    when the imported document has the key and the key is not excluded,
    else nothing.

    For an assertion that is not revoked the document is computed
    entries followed by appended ones, where the computed entries have
    the keys of the document with the flag off, in the same order, and
    its values under every key other than [badge] (under [badge], with
    the badge class expanded, stand the nested documents as built with
    the flag set; they are the document with the flag off when the badge
    class is not expanded); the entry under [badge] does not depend on
    the imported document of the assertion; and under every key the
    document holds the computed value when there is one, else the
    imported value when the key is not excluded, an imported [expires]
    that is truthy and whose text does not end in [Z] being passed as
    [parse_original_datetime] normalizes it.

    For a revoked assertion the call with the flag on returns the
    document the call with the flag off returns, or raises
    [AttributeError]. *)
Theorem imported_extra_pass_through :
  forall (env : Env) (obi_version : ObiVersion) (use_canonical_id : bool),
    (forall (i : Issuer.t) (doc : OrderedDict),
        Issuer.get_json env i obi_version true use_canonical_id = Ok doc ->
        exists computed extras,
          Issuer.get_json env i obi_version false use_canonical_id = Ok computed
          /\ doc = (computed ++ extras)%list
          /\ forall k,
               dict_get k doc
               = match dict_get k computed with
                 | Some value => Some value
                 | None =>
                     match imported (Issuer.original_json i) with
                     | Some original =>
                         if mem_str k Issuer.excluded_fields then None
                         else dict_get k original
                     | None => None
                     end
                 end)
    /\ (forall (bc : BadgeClass.t) (doc : OrderedDict),
           BadgeClass.get_json env bc obi_version true use_canonical_id = Ok doc ->
           exists computed extras,
             BadgeClass.get_json env bc obi_version false use_canonical_id
             = Ok computed
             /\ doc = (computed ++ extras)%list
             /\ forall k,
                  dict_get k doc
                  = match dict_get k computed with
                    | Some value => Some value
                    | None =>
                        match imported (BadgeClass.original_json bc) with
                        | Some original =>
                            if mem_str k BadgeClass.excluded_fields then None
                            else dict_get k original
                        | None => None
                        end
                    end)
    /\ (forall (b : BadgeInstance.t) (expand_badgeclass expand_issuer : bool)
               (doc : OrderedDict),
           BadgeInstance.revoked b = false ->
           BadgeInstance.get_json env b obi_version expand_badgeclass
             expand_issuer true use_canonical_id = Ok doc ->
           exists flag_off computed extras without_imported,
             BadgeInstance.get_json env b obi_version expand_badgeclass
               expand_issuer false use_canonical_id = Ok flag_off
             /\ doc = (computed ++ extras)%list
             /\ dict_keys computed = dict_keys flag_off
             /\ (forall k, (k =? "badge") = false ->
                           dict_get k computed = dict_get k flag_off)
             /\ (expand_badgeclass = false -> computed = flag_off)
             /\ BadgeInstance.get_json env
                  (BadgeInstance.set_original_json NoText b) obi_version
                  expand_badgeclass expand_issuer true use_canonical_id
                = Ok without_imported
             /\ dict_get "badge" doc = dict_get "badge" without_imported
             /\ forall k,
                  dict_get k doc
                  = match dict_get k computed with
                    | Some value => Some value
                    | None =>
                        match imported (BadgeInstance.original_json b) with
                        | Some original =>
                            if mem_str k BadgeInstance.excluded_fields then None
                            else option_map (BadgeInstance.passed_value env k)
                                   (dict_get k original)
                        | None => None
                        end
                    end)
    /\ (forall (b : BadgeInstance.t) (expand_badgeclass expand_issuer : bool)
               (doc : OrderedDict),
           BadgeInstance.revoked b = true ->
           BadgeInstance.get_json env b obi_version expand_badgeclass
             expand_issuer false use_canonical_id = Ok doc ->
           BadgeInstance.get_json env b obi_version expand_badgeclass
             expand_issuer true use_canonical_id = Ok doc
           \/ BadgeInstance.get_json env b obi_version expand_badgeclass
                expand_issuer true use_canonical_id = Raise AttributeError).
Proof.
  intros env v uc. split; [|split; [|split]].
  - intros i doc Hdoc. returned Hdoc.
    destruct (pass_through_appends
                (filtered (imported (Issuer.original_json i)) Issuer.excluded_fields)
                (Issuer.document env i v false uc)) as [extras Hextras].
    exists (Issuer.document env i v false uc), extras.
    split; [rewrite Issuer_get_json_returns, Hrenders; reflexivity|].
    split; [exact Hextras|].
    intros k.
    change (Issuer.document env i v true uc)
      with (pass_through
              (filtered (imported (Issuer.original_json i)) Issuer.excluded_fields)
              (Issuer.document env i v false uc)).
    unfold filtered.
    destruct (imported (Issuer.original_json i)) as [orig|].
    + rewrite dict_get_pass_through, dict_get_filter_excluded. reflexivity.
    + unfold pass_through.
      match goal with |- ?x = _ => destruct x; reflexivity end.
  - intros bc doc Hdoc. returned Hdoc.
    destruct (pass_through_appends
                (filtered (imported (BadgeClass.original_json bc))
                   BadgeClass.excluded_fields)
                (BadgeClass.document env bc v false uc)) as [extras Hextras].
    exists (BadgeClass.document env bc v false uc), extras.
    split; [rewrite BadgeClass_get_json_returns,
              (BadgeClass_renders_without_extra _ Hrenders); reflexivity|].
    split; [exact Hextras|].
    intros k.
    change (BadgeClass.document env bc v true uc)
      with (pass_through
              (filtered (imported (BadgeClass.original_json bc))
                 BadgeClass.excluded_fields)
              (BadgeClass.document env bc v false uc)).
    unfold filtered.
    destruct (imported (BadgeClass.original_json bc)) as [orig|].
    + rewrite dict_get_pass_through, dict_get_filter_excluded. reflexivity.
    + unfold pass_through.
      match goal with |- ?x = _ => destruct x; reflexivity end.
  - intros b eb ei doc Hrev Hdoc. returned Hdoc.
    set (computed := BadgeInstance.body env b v uc (BadgeInstance.head env b v eb ei true)).
    destruct (pass_through_appends (BadgeInstance.filtered_json env b) computed)
      as [extras Hextras].
    exists (BadgeInstance.document env b v eb ei false uc), computed, extras,
      (BadgeInstance.document env (BadgeInstance.set_original_json NoText b)
         v eb ei true uc).
    split; [rewrite BadgeInstance_get_json_returns,
              (BadgeInstance_renders_without_extra _ _ _ Hrenders); reflexivity|].
    pose proof (document_badge_without_imported env b v eb ei true uc Hrev)
      as Hbadge.
    rewrite (document_not_revoked env b v eb ei true uc Hrev) in Hbadge |- *.
    rewrite (document_not_revoked env b v eb ei false uc Hrev).
    cbv zeta in Hbadge |- *. fold computed in Hbadge |- *.
    split; [exact Hextras|].
    split; [apply body_keys_agree, head_keys|].
    split; [intros k Hk; apply body_agree, head_agree; exact Hk|].
    split; [intros ->; reflexivity|].
    split.
    { rewrite BadgeInstance_get_json_returns.
      assert (BadgeInstance.renders (BadgeInstance.set_original_json NoText b)
                eb ei true = true) as ->; [|reflexivity].
      unfold BadgeInstance.renders in *.
      apply andb_true_iff in Hrenders. destruct Hrenders as [_ Hnested].
      exact Hnested. }
    split.
    { exact Hbadge. }
    intros k.
    destruct (imported (BadgeInstance.original_json b)) as [orig|] eqn:Horig.
    + destruct (badgeinstance_filtered_lookup env b orig Horig) as [f [Hf Hlook]].
      rewrite Hf, dict_get_pass_through, Hlook. reflexivity.
    + unfold BadgeInstance.filtered_json, BadgeInstance.ensure_expires, filtered.
      rewrite Horig. unfold pass_through.
      match goal with |- ?x = _ => destruct x; reflexivity end.
  - intros b eb ei doc Hrev Hdoc. returned Hdoc.
    rewrite BadgeInstance_get_json_returns, !document_revoked by exact Hrev.
    destruct (BadgeInstance.renders b eb ei true); [left | right]; reflexivity.
Qed.

Lemma imported_extra_pass_through_witness :
  exists doc,
    BadgeInstance.get_json Demo.env Demo.imported_assertion V2_0
      true true true false = Ok doc
    /\ dict_get "motto" doc = Some (JStr "ad astra")
    /\ dict_get "expires" doc = Some (JStr "2030-01-01T00:00:00Z")
    /\ dict_get "id" doc = Some (JStr "https://elsewhere.example/a/1").
Proof.
  eexists. split; [reflexivity|].
  destruct (proj1 (proj2 (proj2
              (imported_extra_pass_through Demo.env V2_0 false)))
              Demo.imported_assertion true true _ eq_refl eq_refl)
    as [flag_off [computed [extras [without [Hoff [_ [_ [Hsame [_ [_ [_ Hlook]]]]]]]]]]].
  injection Hoff as <-.
  rewrite (Hlook "motto"), (Hlook "expires"), (Hlook "id").
  rewrite (Hsame "motto" eq_refl), (Hsame "expires" eq_refl), (Hsame "id" eq_refl).
  repeat split; reflexivity.
Defined.

(** ** Re-baking *)

Lemma stored_app_new (n c : string) (fs : BadgeInstance.Storage) :
  BadgeInstance.stored n (fs ++ [(n, c)])%list = true.
Proof.
  unfold BadgeInstance.stored. rewrite existsb_app. simpl.
  rewrite String.eqb_refl. apply orb_true_iff. right. reflexivity.
Qed.

Lemma stored_filter_other (n old : string) (fs : BadgeInstance.Storage) :
  n <> old ->
  BadgeInstance.stored n (filter (fun f => negb (fst f =? old)) fs)
  = BadgeInstance.stored n fs.
Proof.
  intros Hne. unfold BadgeInstance.stored.
  induction fs as [|[m c] fs IH]; simpl.
  - reflexivity.
  - destruct (m =? old) eqn:E; simpl.
    + apply String.eqb_eq in E. subst m.
      assert ((old =? n) = false) as ->.
      { apply String.eqb_neq. congruence. }
      exact IH.
    + rewrite IH. reflexivity.
Qed.

(** C9, as stated, fails: [rebake] reads the file of the image of the
    badge class first, and for a stored assertion whose badge class has
    no image it raises [ValueError]; nothing is regenerated and nothing
    is written. *)
Lemma rebake_without_badgeclass_image :
  BadgeInstance.pk (BadgeInstance.self Demo.state_of_badgeclass_without_image)
  = Some 4
  /\ BadgeInstance.image (BadgeInstance.self Demo.state_of_badgeclass_without_image)
     = Some "uploads/badges/assertion-pl.png"
  /\ BadgeInstance.rebake Demo.env V2_0 true Demo.state_of_badgeclass_without_image
     = (Raise ValueError, Demo.state_of_badgeclass_without_image).
Proof. repeat split; reflexivity. Qed.

(** [rebake] writes nothing when it cannot bake. *)
Lemma rebake_raises (env : Env) (v : ObiVersion) (save_flag : bool)
  (st : BadgeInstance.State) :
  (truthy_str (BadgeClass.image (BadgeInstance.badgeclass (BadgeInstance.self st)))
   = false ->
   BadgeInstance.rebake env v save_flag st = (Raise ValueError, st))
  /\ (truthy_str (BadgeClass.image (BadgeInstance.badgeclass (BadgeInstance.self st)))
      = true ->
      readable (BadgeInstance.original_json (BadgeInstance.self st)) = false ->
      BadgeInstance.rebake env v save_flag st = (Raise AttributeError, st)).
Proof.
  unfold BadgeInstance.rebake, BadgeInstance.bindM, BadgeInstance.get_self,
    BadgeInstance.field_file, BadgeInstance.lift.
  split.
  - intros Hbc. rewrite Hbc. reflexivity.
  - intros Hbc Hr. rewrite Hbc. cbn [BadgeInstance.ret].
    rewrite get_json_plain, Hr. reflexivity.
Qed.

(** C9, amended.  For a stored assertion whose image is [old], whose
    badge class has an image and whose document of the requested version
    [get_json] returns, [rebake] bakes that document, writes the baked
    image to storage under a new name first, deletes [old] afterwards,
    and writes the new reference to the row last; the new file is in
    storage in every world a reader can see from the first write on, so
    storage never lacks an image of the assertion.  Without an image of
    the badge class [rebake] raises [ValueError], and with an
    [original_json] of the assertion that cannot be read
    [AttributeError]; either way nothing has been written. *)
Theorem rebake_order :
  forall (env : Env) (obi_version : ObiVersion) (st : BadgeInstance.State)
         (old : string) (json : OrderedDict),
    let s := BadgeInstance.self st in
    let new_image :=
      bake env (BadgeClass.image (BadgeInstance.badgeclass s))
        (json_dumps env (JObj json)) in
    let new_name :=
      get_available_name env
        (generate_rebaked_filename env (BadgeInstance.image s)
           (BadgeClass.image (BadgeInstance.badgeclass s)))
        (map fst (BadgeInstance.storage st)) in
    let after_write := (BadgeInstance.storage st ++ [(new_name, new_image)])%list in
    let after_delete := filter (fun f => negb (fst f =? old)) after_write in
    (BadgeInstance.pk s <> None ->
     BadgeInstance.image s = Some old ->
     truthy_str (BadgeClass.image (BadgeInstance.badgeclass s)) = true ->
     BadgeInstance.get_json env s obi_version false false true false = Ok json ->
     new_name <> old ->
     exists st',
       BadgeInstance.rebake env obi_version true st = (Ok tt, st')
       /\ BadgeInstance.history st'
          = (BadgeInstance.history st
             ++ [ {| BadgeInstance.db_row := BadgeInstance.row st;
                     BadgeInstance.files := after_write |};
                  {| BadgeInstance.db_row := BadgeInstance.row st;
                     BadgeInstance.files := after_delete |};
                  {| BadgeInstance.db_row := Some (BadgeInstance.self st');
                     BadgeInstance.files := after_delete |} ])%list
       /\ BadgeInstance.image (BadgeInstance.self st') = Some new_name
       /\ BadgeInstance.row st' = Some (BadgeInstance.self st')
       /\ BadgeInstance.storage st' = after_delete
       /\ BadgeInstance.stored new_name after_write = true
       /\ BadgeInstance.stored new_name after_delete = true
       /\ BadgeInstance.stored old after_delete = false)
    /\ (truthy_str (BadgeClass.image (BadgeInstance.badgeclass s)) = false ->
        BadgeInstance.rebake env obi_version true st = (Raise ValueError, st))
    /\ (truthy_str (BadgeClass.image (BadgeInstance.badgeclass s)) = true ->
        readable (BadgeInstance.original_json s) = false ->
        BadgeInstance.rebake env obi_version true st = (Raise AttributeError, st)).
Proof.
  intros env v st old json s new_image new_name after_write after_delete.
  split; [|exact (rebake_raises env v true st)].
  intros Hpk Himg Hbc Hjson Hne.
  assert (BadgeInstance.stored new_name after_write = true) as Hw
    by apply stored_app_new.
  assert (BadgeInstance.stored new_name after_delete = true) as Hd.
  { subst after_delete. rewrite stored_filter_other by exact Hne. exact Hw. }
  assert (BadgeInstance.stored old after_delete = false) as Ho
    by apply stored_after_delete.
  subst s. destruct st as [s r fs h]. cbn [BadgeInstance.self] in *.
  destruct (BadgeInstance.pk s) as [k|] eqn:Ek; [clear Hpk | contradiction].
  unfold BadgeInstance.rebake, BadgeInstance.bindM, BadgeInstance.get_self,
    BadgeInstance.field_file, BadgeInstance.lift.
  cbn [BadgeInstance.self]. rewrite Hbc. cbn [BadgeInstance.ret].
  rewrite Hjson.
  unfold BadgeInstance.storage_save, BadgeInstance.storage_delete,
    BadgeInstance.modify, BadgeInstance.observe.
  cbn [BadgeInstance.self BadgeInstance.row BadgeInstance.storage
       BadgeInstance.history].
  rewrite Himg.
  rewrite (save_stored env _ k) by exact Ek.
  eexists. split; [reflexivity|].
  rewrite image_written, row_written, storage_written.
  cbn [BadgeInstance.self BadgeInstance.row BadgeInstance.storage
       BadgeInstance.history BadgeInstance.written BadgeInstance.image
       BadgeInstance.set_image].
  rewrite <- !app_assoc.
  unfold after_delete, after_write, new_name, new_image in *.
  cbn [BadgeInstance.storage] in *. rewrite Himg in Hw, Hd, Ho |- *.
  split; [reflexivity|]. split; [reflexivity|]. split; [reflexivity|].
  split; [reflexivity|]. split; [exact Hw|]. split; [exact Hd | exact Ho].
Qed.

Lemma rebake_order_witness :
  exists st',
    BadgeInstance.rebake Demo.env V2_0 true Demo.state = (Ok tt, st')
    /\ BadgeInstance.image (BadgeInstance.self st')
       = Some "uploads/badges/assertion-as.png.rebaked.png"
    /\ BadgeInstance.stored "uploads/badges/assertion-as.png.rebaked.png"
         (BadgeInstance.storage st') = true
    /\ BadgeInstance.stored "uploads/badges/assertion-as.png"
         (BadgeInstance.storage st') = false.
Proof.
  destruct (proj1 (rebake_order Demo.env V2_0 Demo.state
                     "uploads/badges/assertion-as.png" _)
              ltac:(discriminate) eq_refl eq_refl eq_refl ltac:(discriminate))
    as [st' [Hrun [_ [Himg [_ [Hfs [_ [Hnew Hold]]]]]]]].
  exists st'. rewrite Hfs.
  split; [exact Hrun|]. split; [exact Himg|]. split; [exact Hnew | exact Hold].
Defined.

(** ** Tables *)

Lemma NoDup_fst_inj {R : Type} (l : list (nat * R)) (x y : nat * R) :
  NoDup (map fst l) -> In x l -> In y l -> fst x = fst y -> x = y.
Proof.
  induction l as [|a l IH]; simpl; intros Hnd Hx Hy Hxy.
  - contradiction.
  - inversion Hnd as [|? ? Hnotin Hnd']; subst.
    destruct Hx as [Hx|Hx], Hy as [Hy|Hy].
    + congruence.
    + subst a. exfalso. apply Hnotin. rewrite Hxy. apply in_map. exact Hy.
    + subst a. exfalso. apply Hnotin. rewrite <- Hxy. apply in_map. exact Hx.
    + apply IH; assumption.
Qed.

Lemma NoDup_map_fst_filter {R : Type} (p : nat * R -> bool) (l : list (nat * R)) :
  NoDup (map fst l) -> NoDup (map fst (filter p l)).
Proof.
  induction l as [|a l IH]; simpl; intros Hnd.
  - constructor.
  - inversion Hnd as [|? ? Hnotin Hnd']; subst.
    destruct (p a); simpl.
    + constructor.
      * intros Hin. apply Hnotin. apply in_map_iff in Hin.
        destruct Hin as [x [Hx Hin]]. apply filter_In in Hin.
        apply in_map_iff. exists x. split; [exact Hx | apply Hin].
      * apply IH. exact Hnd'.
    + apply IH. exact Hnd'.
Qed.

Lemma wf_table_create {R : Type} (r : R) (t : Table R) :
  wf_table t -> wf_table (create r t).
Proof.
  intros [Hnd Hlt]. unfold wf_table, create. simpl. split.
  - rewrite map_app. simpl.
    apply NoDup_app.
    + exact Hnd.
    + constructor; [intros [] | constructor].
    + intros pk Hin [Heq|[]]. subst pk.
      apply in_map_iff in Hin. destruct Hin as [x [Hx Hin]].
      rewrite Forall_forall in Hlt. specialize (Hlt x Hin). lia.
  - apply Forall_app. split.
    + eapply Forall_impl; [|exact Hlt]. simpl. intros a Ha. lia.
    + constructor; [simpl; lia | constructor].
Qed.

Lemma wf_table_delete {R : Type} (pk : nat) (t : Table R) :
  wf_table t -> wf_table (delete pk t).
Proof.
  intros [Hnd Hlt]. unfold wf_table, delete. simpl. split.
  - apply NoDup_map_fst_filter. exact Hnd.
  - rewrite Forall_forall in *. intros x Hx. apply filter_In in Hx.
    apply Hlt. apply Hx.
Qed.

Lemma map_fst_save_row {R : Type} (pk : nat) (r : R) (l : list (nat * R)) :
  map fst (map (fun x => if Nat.eqb (fst x) pk then (pk, r) else x) l) = map fst l.
Proof.
  induction l as [|a l IH]; simpl.
  - reflexivity.
  - rewrite IH. destruct (Nat.eqb (fst a) pk) eqn:E; simpl.
    + apply Nat.eqb_eq in E. rewrite E. reflexivity.
    + reflexivity.
Qed.

Lemma wf_table_save_row {R : Type} (pk : nat) (r : R) (t : Table R) :
  wf_table t -> wf_table (save_row pk r t).
Proof.
  intros [Hnd Hlt]. unfold wf_table, save_row. simpl. split.
  - rewrite map_fst_save_row. exact Hnd.
  - rewrite Forall_forall in *. intros x Hx. apply in_map_iff in Hx.
    destruct Hx as [y [Hy Hin]]. specialize (Hlt y Hin).
    destruct (Nat.eqb (fst y) pk) eqn:E; subst x; simpl.
    + apply Nat.eqb_eq in E. lia.
    + exact Hlt.
Qed.

Lemma wf_table_committed {R : Type} (t : Table R) :
  wf_table t -> wf_table (committed t).
Proof. intros H. exact H. Qed.

(** Saving a row with the values it has changes no row. *)
Lemma save_row_same {R : Type} (pk : nat) (r : R) (l : list (nat * R)) :
  NoDup (map fst l) -> In (pk, r) l ->
  map (fun x => if Nat.eqb (fst x) pk then (pk, r) else x) l = l.
Proof.
  intros Hnd Hin. rewrite <- (map_id l) at 2. apply map_ext_in.
  intros x Hx. destruct (Nat.eqb (fst x) pk) eqn:E; [|reflexivity].
  apply Nat.eqb_eq in E. symmetry.
  apply (NoDup_fst_inj l); assumption.
Qed.

Lemma foldM_pure {A S : Type} (f : S -> A -> S) (l : list A) (s : S) :
  foldM (fun s a => Ok (f s a)) l s = Ok (fold_left f l s).
Proof.
  revert s. induction l as [|a l IH]; intros s; simpl.
  - reflexivity.
  - apply IH.
Qed.

Lemma foldM_cons {A S : Type} (f : S -> A -> Exc S) (a : A) (l : list A) (s : S) :
  foldM f (a :: l) s = bind (f s a) (fun s' => foldM f l s').
Proof. reflexivity. Qed.

Lemma foldM_ext {A S : Type} (f g : S -> A -> Exc S) (l : list A) (s : S) :
  (forall s a, f s a = g s a) -> foldM f l s = foldM g l s.
Proof.
  intros H. revert s. induction l as [|a l IH]; intros s; simpl.
  - reflexivity.
  - rewrite H. destruct (g s a); simpl; [apply IH | reflexivity].
Qed.

Lemma fold_left_ext {A S : Type} (f g : S -> A -> S) (l : list A) (s : S) :
  (forall s a, f s a = g s a) -> fold_left f l s = fold_left g l s.
Proof.
  intros H. revert s. induction l as [|a l IH]; intros s; simpl.
  - reflexivity.
  - rewrite H. apply IH.
Qed.


(** ** Reconciling twice *)

Section Reconcile.

Context {R D K : Type}.
Variable mem : K -> list K -> bool.
Hypothesis mem_spec : forall k l, mem k l = true <-> In k l.
Variable row_key : nat * R -> K.
Variable key : D -> K.
Variable add : D -> Table R -> Exc (Table R).

(** What adding a row must keep: primary keys in order, the rows with
    another key, and a row with the key asked for afterwards. *)
Hypothesis add_wf :
  forall d t t', wf_table t -> add d t = Ok t' -> wf_table t'.
Hypothesis add_has :
  forall d t t', wf_table t -> add d t = Ok t' ->
                 exists x, In x (rows t') /\ row_key x = key d.
Hypothesis add_frame :
  forall d t t' x, wf_table t -> add d t = Ok t' -> In x (rows t) ->
                   row_key x <> key d -> In x (rows t').

Lemma key_eq_dec (a b : K) : a = b \/ a <> b.
Proof.
  destruct (mem a [b]) eqn:E.
  - left. apply mem_spec in E. destruct E as [E|[]]. congruence.
  - right. intros Heq. subst b.
    assert (mem a [a] = true) as Ht by (apply mem_spec; left; reflexivity).
    congruence.
Qed.

Lemma add_keeps_keys (d : D) (t t' : Table R) (S : list K) :
  wf_table t -> add d t = Ok t' -> has_keys row_key t S -> has_keys row_key t' (key d :: S).
Proof.
  intros Hwf Hadd HS k [Hk|Hk].
  - subst k. eapply add_has; eassumption.
  - destruct (HS k Hk) as [x [Hx Hkx]].
    destruct (key_eq_dec (row_key x) (key d)) as [Heq|Hne].
    + rewrite <- Hkx, Heq. eapply add_has; eassumption.
    + exists x. split; [|exact Hkx]. eapply add_frame; eassumption.
Qed.

Lemma add_missing_loop_skip (E : list K) (value : list D) (t : Table R) :
  (forall d, In d value -> mem (key d) E = true) ->
  add_missing_loop mem key add E value t = Ok t.
Proof.
  unfold add_missing_loop. induction value as [|d value IH]; intros H; simpl.
  - reflexivity.
  - rewrite (H d (or_introl eq_refl)). simpl.
    apply IH. intros d' Hd'. apply H. right. exact Hd'.
Qed.

Lemma add_missing_loop_spec (E : list K) (value : list D) :
  forall (t ta : Table R) (S : list K),
    wf_table t -> has_keys row_key t S ->
    (forall d, In d value -> mem (key d) E = true -> In (key d) S) ->
    add_missing_loop mem key add E value t = Ok ta ->
    wf_table ta /\ has_keys row_key ta S /\ has_keys row_key ta (map key value).
Proof.
  unfold add_missing_loop.
  induction value as [|d value IH]; intros t ta S Hwf HS HE Hrun; simpl in Hrun.
  - inversion Hrun; subst ta.
    split; [exact Hwf|]. split; [exact HS|]. intros k [].
  - destruct (mem (key d) E) eqn:Em; simpl in Hrun.
    + destruct (IH t ta S Hwf HS) as [Hwf' [HS' Hv]]; try assumption.
      { intros d' Hd'. apply HE. right. exact Hd'. }
      split; [exact Hwf'|]. split; [exact HS'|].
      intros k [Hk|Hk].
      * subst k. apply HS'. apply HE; [left; reflexivity | exact Em].
      * apply Hv. exact Hk.
    + destruct (add d t) as [t'|e] eqn:Eadd; simpl in Hrun; [|discriminate].
      destruct (IH t' ta (key d :: S)) as [Hwf' [HS' Hv]]; try assumption.
      { eapply add_wf; eassumption. }
      { eapply add_keeps_keys; eassumption. }
      { intros d' Hd' Hm. right. apply HE; [right; exact Hd' | exact Hm]. }
      split; [exact Hwf'|]. split.
      * intros k Hk. apply HS'. right. exact Hk.
      * intros k [Hk|Hk].
        -- subst k. apply HS'. left. reflexivity.
        -- apply Hv. exact Hk.
Qed.

Lemma remove_old_loop_skip (N : list K) (snapshot : list (nat * R)) (t : Table R) :
  (forall x, In x snapshot -> mem (row_key x) N = true) ->
  remove_old_loop mem row_key N snapshot t = t.
Proof.
  unfold remove_old_loop. revert t.
  induction snapshot as [|x snapshot IH]; intros t H; simpl.
  - reflexivity.
  - rewrite (H x (or_introl eq_refl)). simpl.
    apply IH. intros y Hy. apply H. right. exact Hy.
Qed.

Lemma remove_old_loop_rows (N : list K) (snapshot : list (nat * R)) :
  forall (t : Table R) (y : nat * R),
    In y (rows (remove_old_loop mem row_key N snapshot t)) <->
    In y (rows t)
    /\ ~ exists x, In x snapshot /\ mem (row_key x) N = false
                                /\ fst x = fst y.
Proof.
  unfold remove_old_loop.
  induction snapshot as [|x snapshot IH]; intros t y; simpl.
  - split.
    + intros H. split; [exact H|]. intros [x [[] _]].
    + intros [H _]. exact H.
  - rewrite IH. destruct (mem (row_key x) N) eqn:Em; simpl.
    + split.
      * intros [Hy Hno]. split; [exact Hy|].
        intros [x' [[Hx'|Hx'] [Hm Hpk]]].
        -- subst x'. congruence.
        -- apply Hno. exists x'. repeat split; assumption.
      * intros [Hy Hno]. split; [exact Hy|].
        intros [x' [Hx' [Hm Hpk]]]. apply Hno. exists x'.
        repeat split; try assumption. right. exact Hx'.
    + rewrite filter_In. split.
      * intros [[Hy Hpk] Hno]. split; [exact Hy|].
        intros [x' [[Hx'|Hx'] [Hm Hpk']]].
        -- subst x'. rewrite Hpk' in Hpk. rewrite Nat.eqb_refl in Hpk.
           discriminate.
        -- apply Hno. exists x'. repeat split; assumption.
      * intros [Hy Hno]. repeat split.
        -- exact Hy.
        -- destruct (Nat.eqb (fst y) (fst x)) eqn:Epk; [|reflexivity].
           apply Nat.eqb_eq in Epk. exfalso. apply Hno.
           exists x. repeat split; [left; reflexivity | exact Em | congruence].
        -- intros [x' [Hx' [Hm Hpk]]]. apply Hno. exists x'.
           repeat split; try assumption. right. exact Hx'.
Qed.

(** After the "remove old" loop over the rows of the table itself, the
    rows left are those whose key is among the new keys. *)
Lemma remove_old_loop_all (N : list K) (t : Table R) (y : nat * R) :
  wf_table t ->
  (In y (rows (remove_old_loop mem row_key N (all t) t)) <->
   In y (rows t) /\ mem (row_key y) N = true).
Proof.
  intros [Hnd _]. rewrite remove_old_loop_rows. unfold all. split.
  - intros [Hy Hno]. split; [exact Hy|].
    destruct (mem (row_key y) N) eqn:Em; [reflexivity|].
    exfalso. apply Hno. exists y. repeat split; assumption.
  - intros [Hy Hm]. split; [exact Hy|].
    intros [x [Hx [Hmx Hpk]]].
    assert (x = y) by (apply (NoDup_fst_inj (rows t)); assumption).
    subst x. congruence.
Qed.

Lemma remove_old_loop_next_pk (N : list K) (snapshot : list (nat * R)) :
  forall t : Table R,
    next_pk (remove_old_loop mem row_key N snapshot t) = next_pk t.
Proof.
  unfold remove_old_loop.
  induction snapshot as [|x snapshot IH]; intros t; simpl.
  - reflexivity.
  - rewrite IH. destruct (negb (mem (row_key x) N)); reflexivity.
Qed.

(** The rows found at the start stay as they are while rows are added. *)
Lemma add_missing_loop_frame (E : list K) (value : list D) :
  forall (t ta : Table R) (x : nat * R),
    wf_table t ->
    add_missing_loop mem key add E value t = Ok ta ->
    In x (rows t) -> mem (row_key x) E = true -> In x (rows ta).
Proof.
  unfold add_missing_loop.
  induction value as [|d value IH]; intros t ta x Hwf Hrun Hx Hm; simpl in Hrun.
  - injection Hrun as <-. exact Hx.
  - destruct (mem (key d) E) eqn:Em; simpl in Hrun.
    + eapply IH; eassumption.
    + destruct (add d t) as [t'|e] eqn:Eadd; simpl in Hrun; [|discriminate].
      apply (IH t' ta x); try assumption.
      * eapply add_wf; eassumption.
      * eapply add_frame; try eassumption.
        intros Heq. rewrite Heq in Hm. congruence.
Qed.

(** Reconciling again with the same list changes nothing and writes
    nothing. *)
Theorem reconcile_twice (value : list D) (t t1 : Table R) :
  wf_table t ->
  reconcile mem row_key key add value t = Ok t1 ->
  reconcile mem row_key key add value (committed t1) = Ok (committed t1).
Proof.
  intros Hwf Hrun. unfold reconcile in Hrun.
  destruct (add_missing_loop mem key add
              (map row_key (all t)) value t) as [ta|e] eqn:Eadd;
    simpl in Hrun; [|discriminate].
  injection Hrun as Ht1. subst t1.
  destruct (add_missing_loop_spec
              (map row_key (all t)) value t ta
              (map row_key (all t)) Hwf) as [Hwfa [_ Hv]].
  { intros k Hk. apply in_map_iff in Hk. destruct Hk as [x [Hx Hin]].
    exists x. split; [exact Hin | exact Hx]. }
  { intros d _ Hm. apply mem_spec. exact Hm. }
  { exact Eadd. }
  set (t1 := remove_old_loop mem row_key (map key value) (all ta) ta).
  assert (forall x, In x (rows t1) -> mem (row_key x) (map key value) = true)
    as Hkept.
  { intros x Hx. apply remove_old_loop_all in Hx; [apply Hx | exact Hwfa]. }
  assert (forall d, In d value ->
                    mem (key d) (map row_key (rows t1)) = true)
    as Hpresent.
  { intros d Hd. apply mem_spec.
    destruct (Hv (key d)) as [x [Hx Hkx]].
    { apply in_map. exact Hd. }
    apply in_map_iff. exists x. split; [exact Hkx|].
    apply remove_old_loop_all; [exact Hwfa|].
    split; [exact Hx|]. apply mem_spec. rewrite Hkx. apply in_map. exact Hd. }
  unfold reconcile. unfold all at 1. simpl rows.
  rewrite add_missing_loop_skip by exact Hpresent. simpl.
  unfold all. simpl rows.
  rewrite remove_old_loop_skip by exact Hkept. reflexivity.
Qed.

End Reconcile.

(** Setters that add with [create]. *)
Lemma reconcile_twice_create {R D K : Type} (mem : K -> list K -> bool)
  (row_key : nat * R -> K) (key : D -> K) (mk : D -> R)
  (value : list D) (t t1 : Table R) :
  (forall k l, mem k l = true <-> In k l) ->
  (forall pk d, row_key (pk, mk d) = key d) ->
  wf_table t ->
  reconcile mem row_key key (fun d t => Ok (create (mk d) t)) value t = Ok t1 ->
  reconcile mem row_key key (fun d t => Ok (create (mk d) t)) value (committed t1)
  = Ok (committed t1).
Proof.
  intros Hmem Hmk Hwf Hrun.
  apply (reconcile_twice mem Hmem row_key key
           (fun d t => Ok (create (mk d) t))) with (t := t); try assumption.
  - intros d t0 t' Hwf0 Hadd. injection Hadd as <-. apply wf_table_create. exact Hwf0.
  - intros d t0 t' _ Hadd. injection Hadd as <-.
    exists (next_pk t0, mk d). split; [|apply Hmk].
    simpl. apply in_or_app. right. left. reflexivity.
  - intros d t0 t' x _ Hadd Hx _. injection Hadd as <-.
    simpl. apply in_or_app. left. exact Hx.
Qed.

(** [create] on a descriptor that gives no [None] for a required column
    writes [new_row]; on another it raises. *)
Lemma manager_create_storable (d : BadgeClassAlignment.Data)
  (tbl : Table BadgeClassAlignment.t) :
  BadgeClassAlignment.manager_create d tbl
  = if BadgeClassAlignment.storable d
    then Ok (create (BadgeClassAlignment.new_row d) tbl)
    else Raise IntegrityError.
Proof.
  unfold BadgeClassAlignment.manager_create, BadgeClassAlignment.storable,
    BadgeClassAlignment.new_row, BadgeClassAlignment.column.
  destruct (BadgeClassAlignment.data_target_name d),
    (BadgeClassAlignment.data_target_url d); reflexivity.
Qed.

Lemma complete_storable (d : BadgeClassAlignment.Data) :
  BadgeClassAlignment.complete d = true -> BadgeClassAlignment.storable d = true.
Proof.
  unfold BadgeClassAlignment.complete, BadgeClassAlignment.storable.
  destruct (BadgeClassAlignment.data_target_name d),
    (BadgeClassAlignment.data_target_url d); intros H; first [discriminate | reflexivity].
Qed.

(** The identity of a descriptor that gives both required columns is the
    identity of the row written for it. *)
Lemma identity_complete (d : BadgeClassAlignment.Data) :
  BadgeClassAlignment.complete d = true ->
  BadgeClass._identity d = BadgeClass._obj_identity (BadgeClassAlignment.new_row d).
Proof.
  unfold BadgeClassAlignment.complete, BadgeClass._identity, BadgeClass._obj_identity,
    BadgeClassAlignment.new_row.
  destruct (BadgeClassAlignment.data_target_name d),
    (BadgeClassAlignment.data_target_url d); intros H; first [discriminate | reflexivity].
Qed.

Lemma map_identity_complete (value : list BadgeClassAlignment.Data) :
  forallb BadgeClassAlignment.complete value = true ->
  map BadgeClass._identity value
  = map BadgeClass._obj_identity (map BadgeClassAlignment.new_row value).
Proof.
  induction value as [|d value IH]; simpl; intros H; [reflexivity|].
  apply andb_true_iff in H. destruct H as [Hd Hv].
  rewrite (identity_complete d Hd), (IH Hv). reflexivity.
Qed.

Lemma alignment_add_missing_complete (E : list string)
  (value : list BadgeClassAlignment.Data) :
  forallb BadgeClassAlignment.complete value = true ->
  forall tbl : Table BadgeClassAlignment.t,
    foldM (fun tbl align =>
             if negb (mem_str (BadgeClass._identity align) E)
             then BadgeClassAlignment.manager_create align tbl else Ok tbl)
      value tbl
    = add_missing_loop mem_str BadgeClass._obj_identity
        (fun d t => Ok (create d t)) E
        (map BadgeClassAlignment.new_row value) tbl.
Proof.
  unfold add_missing_loop.
  induction value as [|d value IH]; simpl; intros H tbl; [reflexivity|].
  apply andb_true_iff in H. destruct H as [Hd Hv].
  rewrite manager_create_storable, (complete_storable d Hd),
    (identity_complete d Hd).
  destruct (negb _); simpl; apply IH; exact Hv.
Qed.

(** On descriptors that give both required columns the setter is the
    reconciliation of the rows written for them. *)
Lemma alignment_items_setter_reconcile (value : list BadgeClassAlignment.Data)
  (t : Table BadgeClassAlignment.t) :
  forallb BadgeClassAlignment.complete value = true ->
  BadgeClass.alignment_items_setter (Some value) t
  = reconcile mem_str (fun a => BadgeClass._obj_identity (snd a))
      BadgeClass._obj_identity (fun d t => Ok (create d t))
      (map BadgeClassAlignment.new_row value) t.
Proof.
  intros H. unfold reconcile, BadgeClass.alignment_items_setter.
  rewrite (alignment_add_missing_complete _ value H).
  rewrite (map_identity_complete value H). reflexivity.
Qed.

Lemma alignment_items_setter_twice (value : list BadgeClassAlignment.Data)
  (t : Table BadgeClassAlignment.t) :
  wf_table t ->
  forallb BadgeClassAlignment.complete value = true ->
  exists t1,
    BadgeClass.alignment_items_setter (Some value) t = Ok t1
    /\ BadgeClass.alignment_items_setter (Some value) (committed t1)
       = Ok (committed t1).
Proof.
  intros Hwf H.
  rewrite (alignment_items_setter_reconcile value t H).
  destruct (reconcile mem_str (fun a => BadgeClass._obj_identity (snd a))
              BadgeClass._obj_identity (fun d t => Ok (create d t))
              (map BadgeClassAlignment.new_row value) t) as [t1|e] eqn:Erun.
  - exists t1. split; [reflexivity|].
    rewrite (alignment_items_setter_reconcile value _ H).
    exact (reconcile_twice_create mem_str
             (fun a => BadgeClass._obj_identity (snd a))
             BadgeClass._obj_identity (fun d => d) _ t t1
             mem_str_true_iff (fun pk d => eq_refl) Hwf Erun).
  - exfalso. unfold reconcile, add_missing_loop in Erun.
    rewrite (foldM_ext _
               (fun tbl d =>
                  Ok (if negb (mem_str (BadgeClass._obj_identity d)
                                 (map (fun a => BadgeClass._obj_identity (snd a)) (all t)))
                      then create d tbl else tbl))) in Erun.
    + rewrite foldM_pure in Erun. discriminate.
    + intros s a. destruct (negb _); reflexivity.
Qed.

Lemma tag_items_setter_reconcile (value : list string) (t : Table BadgeClassTag.t) :
  reconcile mem_str (fun x => BadgeClassTag.name (snd x)) (fun tg : string => tg)
    (fun d t => Ok (create {| BadgeClassTag.name := d |} t)) value t
  = Ok (BadgeClass.tag_items_setter (Some value) t).
Proof.
  unfold reconcile, add_missing_loop, BadgeClass.tag_items_setter.
  rewrite (foldM_ext _
             (fun tbl tg =>
                Ok (if negb (mem_str tg
                               (map (fun x => BadgeClassTag.name (snd x)) (all t)))
                    then create {| BadgeClassTag.name := tg |} tbl else tbl))).
  - rewrite foldM_pure. unfold remove_old_loop. rewrite map_id. reflexivity.
  - intros s a. destruct (negb _); reflexivity.
Qed.

Lemma tag_items_setter_twice (value : option (list string))
  (t : Table BadgeClassTag.t) :
  wf_table t ->
  BadgeClass.tag_items_setter value (committed (BadgeClass.tag_items_setter value t))
  = committed (BadgeClass.tag_items_setter value t).
Proof.
  intros Hwf.
  assert (forall v, BadgeClass.tag_items_setter (Some v)
                      (committed (BadgeClass.tag_items_setter (Some v) t))
                    = committed (BadgeClass.tag_items_setter (Some v) t)) as H.
  { intros v.
    pose proof (reconcile_twice_create mem_str
                  (fun x => BadgeClassTag.name (snd x))
                  (fun tg : string => tg)
                  (fun d => {| BadgeClassTag.name := d |}) v t _
                  mem_str_true_iff (fun pk d => eq_refl) Hwf
                  (tag_items_setter_reconcile v t)) as Htwice.
    rewrite tag_items_setter_reconcile in Htwice.
    injection Htwice as Htwice. exact Htwice. }
  destruct value as [v|]; [apply H | apply (H [])].
Qed.

(** The three outcomes of [get_or_create]. *)
Lemma get_or_create_cases {R : Type} (lookup : R -> bool) (new_row : R)
  (t : Table R) :
  get_or_create lookup new_row t = Ok (next_pk t, new_row, true, create new_row t)
  /\ filter (fun x => lookup (snd x)) (rows t) = []
  \/ (exists pk r,
         get_or_create lookup new_row t = Ok (pk, r, false, t)
         /\ filter (fun x => lookup (snd x)) (rows t) = [(pk, r)]
         /\ In (pk, r) (rows t) /\ lookup r = true)
  \/ get_or_create lookup new_row t = Raise MultipleObjectsReturned
     /\ 2 <= length (filter (fun x => lookup (snd x)) (rows t)).
Proof.
  unfold get_or_create.
  destruct (filter (fun x => lookup (snd x)) (rows t)) as [|[pk r] [|y l]] eqn:E.
  - left. split; reflexivity.
  - right. left. exists pk, r.
    assert (In (pk, r) (filter (fun x => lookup (snd x)) (rows t))) as Hin
      by (rewrite E; left; reflexivity).
    apply filter_In in Hin. destruct Hin as [Hin Hl].
    split; [reflexivity|]. split; [reflexivity|]. split; [exact Hin | exact Hl].
  - right. right. split; [reflexivity | simpl; lia].
Qed.

Lemma opt_eqb_eq (a b : option string) : opt_eqb a b = true -> a = b.
Proof.
  destruct a as [x|], b as [y|]; simpl; intros H; try discriminate.
  - apply String.eqb_eq in H. subst. reflexivity.
  - reflexivity.
Qed.

Lemma or_empty_or_None (o : option string) :
  or_empty (BadgeInstance.or_None o) = or_empty o.
Proof.
  unfold BadgeInstance.or_None. destruct o as [s|]; simpl; [|reflexivity].
  destruct (s =? "") eqn:E; simpl; [|reflexivity].
  apply String.eqb_eq in E. subst s. reflexivity.
Qed.

Lemma update_evidence_reconcile (value : list BadgeInstanceEvidence.t)
  (t : Table BadgeInstanceEvidence.t) :
  BadgeInstance.update_evidence value t
  = reconcile mem_str
      (fun x => BadgeInstance._key (BadgeInstanceEvidence.narrative (snd x))
                  (BadgeInstanceEvidence.evidence_url (snd x)))
      (fun d => BadgeInstance._key (BadgeInstanceEvidence.narrative d)
                  (BadgeInstanceEvidence.evidence_url d))
      (fun d tbl =>
         bind (get_or_create
                 (fun r =>
                    opt_eqb (BadgeInstanceEvidence.narrative r)
                            (BadgeInstanceEvidence.narrative d)
                    && opt_eqb (BadgeInstanceEvidence.evidence_url r)
                               (BadgeInstanceEvidence.evidence_url d))
                 {| BadgeInstanceEvidence.evidence_url :=
                      BadgeInstanceEvidence.evidence_url d;
                    BadgeInstanceEvidence.narrative :=
                      BadgeInstanceEvidence.narrative d |} tbl)
           (fun '(_, _, _, tbl) => Ok tbl))
      value t.
Proof.
  unfold BadgeInstance.update_evidence, reconcile, add_missing_loop,
    remove_old_loop.
  change (foldM (BadgeInstance.add_missing ?E) value t)
    with (foldM (fun tbl d => BadgeInstance.add_missing E tbl d) value t).
  unfold BadgeInstance.add_missing.
  match goal with
  | |- bind ?m ?k1 = bind ?m' ?k2 =>
      change m' with m; destruct m as [ta|e]; simpl; [|reflexivity]
  end.
  f_equal. apply fold_left_ext. intros s x.
  unfold BadgeInstance.remove_old, BadgeInstance._key.
  rewrite !or_empty_or_None. reflexivity.
Qed.

Lemma update_evidence_twice (value : list BadgeInstanceEvidence.t)
  (t t1 : Table BadgeInstanceEvidence.t) :
  wf_table t ->
  BadgeInstance.update_evidence value t = Ok t1 ->
  BadgeInstance.update_evidence value (committed t1) = Ok (committed t1).
Proof.
  intros Hwf Hrun. rewrite update_evidence_reconcile in *.
  eapply reconcile_twice; try eassumption.
  - exact mem_str_true_iff.
  - intros d t0 t' Hwf0 Hadd.
    destruct (get_or_create_cases
                (fun r =>
                   opt_eqb (BadgeInstanceEvidence.narrative r)
                           (BadgeInstanceEvidence.narrative d)
                   && opt_eqb (BadgeInstanceEvidence.evidence_url r)
                              (BadgeInstanceEvidence.evidence_url d))
                {| BadgeInstanceEvidence.evidence_url :=
                     BadgeInstanceEvidence.evidence_url d;
                   BadgeInstanceEvidence.narrative :=
                     BadgeInstanceEvidence.narrative d |} t0)
      as [[Hg _]|[[pk [r [Hg _]]]|[Hg _]]]; rewrite Hg in Hadd; simpl in Hadd.
    + injection Hadd as <-. apply wf_table_create. exact Hwf0.
    + injection Hadd as <-. exact Hwf0.
    + discriminate.
  - intros d t0 t' Hwf0 Hadd.
    destruct (get_or_create_cases
                (fun r =>
                   opt_eqb (BadgeInstanceEvidence.narrative r)
                           (BadgeInstanceEvidence.narrative d)
                   && opt_eqb (BadgeInstanceEvidence.evidence_url r)
                              (BadgeInstanceEvidence.evidence_url d))
                {| BadgeInstanceEvidence.evidence_url :=
                     BadgeInstanceEvidence.evidence_url d;
                   BadgeInstanceEvidence.narrative :=
                     BadgeInstanceEvidence.narrative d |} t0)
      as [[Hg _]|[[pk [r [Hg [_ [Hin Hm]]]]]|[Hg _]]]; rewrite Hg in Hadd; simpl in Hadd.
    + injection Hadd as <-. eexists. split.
      * simpl. apply in_or_app. right. left. reflexivity.
      * reflexivity.
    + injection Hadd as <-. exists (pk, r). split; [exact Hin|].
      apply andb_true_iff in Hm. destruct Hm as [Hn Hu].
      apply opt_eqb_eq in Hn. apply opt_eqb_eq in Hu. simpl.
      rewrite Hn, Hu. reflexivity.
    + discriminate.
  - intros d t0 t' x Hwf0 Hadd Hx _.
    destruct (get_or_create_cases
                (fun r =>
                   opt_eqb (BadgeInstanceEvidence.narrative r)
                           (BadgeInstanceEvidence.narrative d)
                   && opt_eqb (BadgeInstanceEvidence.evidence_url r)
                              (BadgeInstanceEvidence.evidence_url d))
                {| BadgeInstanceEvidence.evidence_url :=
                     BadgeInstanceEvidence.evidence_url d;
                   BadgeInstanceEvidence.narrative :=
                     BadgeInstanceEvidence.narrative d |} t0)
      as [[Hg _]|[[pk [r [Hg _]]]|[Hg _]]]; rewrite Hg in Hadd; simpl in Hadd.
    + injection Hadd as <-. simpl. apply in_or_app. left. exact Hx.
    + injection Hadd as <-. exact Hx.
    + discriminate.
Qed.


(** ** Staff and owners *)

Lemma owners_delete_le (pk : nat) (t : Table IssuerStaff.t) :
  length (Issuer.owners (delete pk t)) <= length (Issuer.owners t).
Proof.
  unfold Issuer.owners, delete. simpl.
  induction (rows t) as [|a l IH]; simpl.
  - lia.
  - destruct (Nat.eqb (fst a) pk); simpl;
      destruct (IssuerStaff.role (snd a) =? IssuerStaff.ROLE_OWNER); simpl; lia.
Qed.

Lemma filter_fst_absent {R : Type} (pk : nat) (l : list (nat * R)) :
  ~ In pk (map fst l) -> filter (fun x => negb (Nat.eqb (fst x) pk)) l = l.
Proof.
  induction l as [|a l IH]; simpl; intros H.
  - reflexivity.
  - destruct (Nat.eqb (fst a) pk) eqn:E; simpl.
    + apply Nat.eqb_eq in E. exfalso. apply H. left. exact E.
    + rewrite IH; [reflexivity|]. intros Hin. apply H. right. exact Hin.
Qed.

Lemma owners_delete_one (pk : nat) (t : Table IssuerStaff.t) :
  NoDup (map fst (rows t)) ->
  length (Issuer.owners t) <= S (length (Issuer.owners (delete pk t))).
Proof.
  unfold Issuer.owners, delete. simpl.
  induction (rows t) as [|a l IH]; simpl; intros Hnd.
  - lia.
  - inversion Hnd as [|? ? Hnotin Hnd']; subst.
    destruct (Nat.eqb (fst a) pk) eqn:E; simpl.
    + apply Nat.eqb_eq in E. rewrite E in Hnotin.
      rewrite filter_fst_absent by exact Hnotin.
      destruct (IssuerStaff.role (snd a) =? IssuerStaff.ROLE_OWNER); simpl; lia.
    + specialize (IH Hnd').
      destruct (IssuerStaff.role (snd a) =? IssuerStaff.ROLE_OWNER); simpl; lia.
Qed.

Lemma owners_delete_non_owner (pk : nat) (t : Table IssuerStaff.t) :
  (forall y, In y (rows t) -> fst y = pk -> Issuer.is_owner y = false) ->
  Issuer.owners (delete pk t) = Issuer.owners t.
Proof.
  unfold Issuer.owners, delete, Issuer.is_owner. simpl.
  induction (rows t) as [|a l IH]; simpl; intros H.
  - reflexivity.
  - rewrite <- IH by (intros y Hy; apply H; right; exact Hy).
    destruct (Nat.eqb (fst a) pk) eqn:E; simpl.
    + apply Nat.eqb_eq in E.
      rewrite (H a (or_introl eq_refl) E). reflexivity.
    + reflexivity.
Qed.

Lemma owners_committed (t : Table IssuerStaff.t) :
  Issuer.owners (committed t) = Issuer.owners t.
Proof. reflexivity. Qed.

(** One turn of the "remove old staff records" loop. *)
Lemma staff_remove_old_cases (N : list nat) (t : Table IssuerStaff.t)
  (x : nat * IssuerStaff.t) :
  (Issuer.mem_user (IssuerStaff.user (snd x)) N = true
   /\ Issuer.remove_old N t x = t)
  \/ (Issuer.mem_user (IssuerStaff.user (snd x)) N = false
      /\ (Issuer.is_owner x = false \/ 1 < length (Issuer.owners t))
      /\ Issuer.remove_old N t x = delete (fst x) t)
  \/ (Issuer.mem_user (IssuerStaff.user (snd x)) N = false
      /\ Issuer.is_owner x = true
      /\ length (Issuer.owners t) <= 1
      /\ Issuer.remove_old N t x = t).
Proof.
  unfold Issuer.remove_old, Issuer.is_owner.
  destruct (Issuer.mem_user (IssuerStaff.user (snd x)) N); simpl.
  - left. split; reflexivity.
  - right.
    destruct (IssuerStaff.role (snd x) =? IssuerStaff.ROLE_OWNER); simpl.
    + destruct (Nat.ltb 1 (length (Issuer.owners t))) eqn:El.
      * left. apply Nat.ltb_lt in El. repeat split. right. exact El.
      * right. apply Nat.ltb_ge in El. repeat split. exact El.
    + left. repeat split. left. reflexivity.
Qed.

(** The "remove old staff records" loop, from any point of its run. *)
Lemma staff_remove_old_loop (N : list nat) (snapshot : list (nat * IssuerStaff.t)) :
  forall t : Table IssuerStaff.t,
    NoDup (map fst (rows t)) ->
    (forall x y, In x snapshot -> In y (rows t) -> fst y = fst x -> y = x) ->
    (forall y, In y (rows (fold_left (Issuer.remove_old N) snapshot t)) ->
               In y (rows t))
    /\ length (Issuer.owners (fold_left (Issuer.remove_old N) snapshot t))
       <= length (Issuer.owners t)
    /\ (forall y, In y snapshot ->
                  In y (rows (fold_left (Issuer.remove_old N) snapshot t)) ->
                  Issuer.mem_user (IssuerStaff.user (snd y)) N = false ->
                  Issuer.is_owner y = true
                  /\ length (Issuer.owners
                               (fold_left (Issuer.remove_old N) snapshot t)) <= 1)
    /\ (1 <= length (Issuer.owners t) ->
        1 <= length (Issuer.owners (fold_left (Issuer.remove_old N) snapshot t)))
    /\ (forall y, In y (rows t) ->
                  Issuer.mem_user (IssuerStaff.user (snd y)) N = true ->
                  In y (rows (fold_left (Issuer.remove_old N) snapshot t)))
    /\ next_pk (fold_left (Issuer.remove_old N) snapshot t) = next_pk t.
Proof.
  induction snapshot as [|x snapshot IH]; intros t Hnd Hcompat;
    cbn [fold_left].
  - split; [intros y Hy; exact Hy|]. split; [lia|].
    split; [intros y []|]. split; [intros H; exact H|].
    split; [intros y Hy _; exact Hy | reflexivity].
  - assert (forall x0 y, In x0 snapshot -> In y (rows t) -> fst y = fst x0 -> y = x0)
      as Hcompat'.
    { intros x0 y Hx0. apply Hcompat. right. exact Hx0. }
    destruct (staff_remove_old_cases N t x)
      as [[Em Hstep]|[[Em [Ec Hstep]]|[Em [Erole [Ecount Hstep]]]]];
      rewrite Hstep.
    + destruct (IH t Hnd Hcompat') as [Ha [Hb [Hc [Hd [He Hf]]]]].
      split; [exact Ha|]. split; [exact Hb|].
      split; [|split; [exact Hd|split; [exact He | exact Hf]]].
      intros y [Hy|Hy] Hin Hm; [subst y; congruence|].
      apply (Hc y Hy Hin Hm).
    + assert (NoDup (map fst (rows (delete (fst x) t)))) as Hnd1
        by (apply NoDup_map_fst_filter; exact Hnd).
      assert (forall y, In y (rows (delete (fst x) t)) ->
                        In y (rows t) /\ fst y <> fst x) as Hdel.
      { intros y Hy. simpl in Hy. apply filter_In in Hy.
        destruct Hy as [Hy Hpk]. split; [exact Hy|].
        intros Heq. rewrite Heq, Nat.eqb_refl in Hpk. discriminate. }
      destruct (IH (delete (fst x) t) Hnd1) as [Ha [Hb [Hc [Hd [He Hf]]]]].
      { intros x0 y Hx0 Hy. apply Hcompat'; [exact Hx0 | apply Hdel; exact Hy]. }
      pose proof (owners_delete_le (fst x) t) as Hle.
      split; [|split; [|split; [|split; [|split]]]].
      * intros y Hy. apply Hdel. apply Ha. exact Hy.
      * lia.
      * intros y [Hy|Hy] Hin Hm.
        -- subst y. apply Ha in Hin. apply Hdel in Hin. destruct Hin. congruence.
        -- apply (Hc y Hy Hin Hm).
      * intros Hone. apply Hd. destruct Ec as [Ec|Ec].
        -- rewrite owners_delete_non_owner; [exact Hone|].
           intros y Hy Hpk.
           assert (y = x) by (apply Hcompat; [left; reflexivity | exact Hy | exact Hpk]).
           subst y. exact Ec.
        -- pose proof (owners_delete_one (fst x) t Hnd). lia.
      * intros y Hy Hm. apply He; [|exact Hm].
        simpl. apply filter_In. split; [exact Hy|].
        apply negb_true_iff. apply Nat.eqb_neq. intros Heq.
        assert (y = x) by (apply Hcompat; [left; reflexivity | exact Hy | exact Heq]).
        subst y. congruence.
      * rewrite Hf. reflexivity.
    + destruct (IH t Hnd Hcompat') as [Ha [Hb [Hc [Hd [He Hf]]]]].
      split; [exact Ha|]. split; [exact Hb|].
      split; [|split; [exact Hd|split; [exact He | exact Hf]]].
      intros y [Hy|Hy] Hin Hm.
      * subst y. split; [exact Erole | lia].
      * apply (Hc y Hy Hin Hm).
Qed.

Lemma mem_user_true_iff (u : nat) (l : list nat) :
  Issuer.mem_user u l = true <-> In u l.
Proof.
  unfold Issuer.mem_user. rewrite existsb_exists. split.
  - intros [x [Hin Hx]]. apply Nat.eqb_eq in Hx. subst x. exact Hin.
  - intros Hin. exists u. split; [exact Hin | apply Nat.eqb_refl].
Qed.

Lemma in_save_row {R : Type} (pk : nat) (r : R) (l : list (nat * R)) (x : nat * R) :
  In x l -> fst x <> pk ->
  In x (map (fun y => if Nat.eqb (fst y) pk then (pk, r) else y) l).
Proof.
  intros Hin Hne. apply in_map_iff. exists x. split; [|exact Hin].
  destruct (Nat.eqb (fst x) pk) eqn:E; [|reflexivity].
  apply Nat.eqb_eq in E. contradiction.
Qed.

Lemma staff_add_wf (d : StaffData) (t t' : Table IssuerStaff.t) :
  wf_table t -> Issuer.add_staff_record d t = Ok t' -> wf_table t'.
Proof.
  intros Hwf Hadd. unfold Issuer.add_staff_record in Hadd.
  destruct (get_or_create_cases
              (fun r => Nat.eqb (IssuerStaff.user r) (cached_user d))
              {| IssuerStaff.user := cached_user d;
                 IssuerStaff.role := staff_role d |} t)
    as [[Hg _]|[[pk [r [Hg _]]]|[Hg _]]]; rewrite Hg in Hadd; simpl in Hadd.
  - injection Hadd as <-. apply wf_table_create. exact Hwf.
  - injection Hadd as <-. apply wf_table_save_row. exact Hwf.
  - discriminate.
Qed.

Lemma staff_add_has (d : StaffData) (t t' : Table IssuerStaff.t) :
  wf_table t -> Issuer.add_staff_record d t = Ok t' ->
  exists x, In x (rows t') /\ IssuerStaff.user (snd x) = cached_user d.
Proof.
  intros Hwf Hadd. unfold Issuer.add_staff_record in Hadd.
  destruct (get_or_create_cases
              (fun r => Nat.eqb (IssuerStaff.user r) (cached_user d))
              {| IssuerStaff.user := cached_user d;
                 IssuerStaff.role := staff_role d |} t)
    as [[Hg _]|[[pk [r [Hg [_ [Hin Hm]]]]]|[Hg _]]];
    rewrite Hg in Hadd; simpl in Hadd.
  - injection Hadd as <-. eexists. split.
    + simpl. apply in_or_app. right. left. reflexivity.
    + reflexivity.
  - injection Hadd as <-.
    exists (pk, {| IssuerStaff.user := IssuerStaff.user r;
                   IssuerStaff.role := staff_role d |}).
    split.
    + simpl. apply in_map_iff. exists (pk, r). split; [|exact Hin].
      simpl. rewrite Nat.eqb_refl. reflexivity.
    + simpl. apply Nat.eqb_eq. exact Hm.
  - discriminate.
Qed.

Lemma staff_add_frame (d : StaffData) (t t' : Table IssuerStaff.t)
  (x : nat * IssuerStaff.t) :
  wf_table t -> Issuer.add_staff_record d t = Ok t' -> In x (rows t) ->
  IssuerStaff.user (snd x) <> cached_user d -> In x (rows t').
Proof.
  intros Hwf Hadd Hx Hne. unfold Issuer.add_staff_record in Hadd.
  destruct (get_or_create_cases
              (fun r => Nat.eqb (IssuerStaff.user r) (cached_user d))
              {| IssuerStaff.user := cached_user d;
                 IssuerStaff.role := staff_role d |} t)
    as [[Hg _]|[[pk [r [Hg [_ [Hin Hm]]]]]|[Hg _]]];
    rewrite Hg in Hadd; simpl in Hadd.
  - injection Hadd as <-. simpl. apply in_or_app. left. exact Hx.
  - injection Hadd as <-. simpl. apply in_save_row; [exact Hx|].
    intros Hpk. apply Hne.
    assert (x = (pk, r)) as ->.
    { destruct Hwf as [Hnd _].
      apply (NoDup_fst_inj (rows t)); assumption. }
    simpl. apply Nat.eqb_eq. exact Hm.
  - discriminate.
Qed.

Lemma filter_length_map {A : Type} (p : A -> bool) (f : A -> A) (l : list A) :
  (forall x, In x l -> p (f x) = p x) ->
  length (filter p (map f l)) = length (filter p l).
Proof.
  induction l as [|a l IH]; simpl; intros H.
  - reflexivity.
  - rewrite (H a (or_introl eq_refl)).
    destruct (p a); simpl; rewrite IH; try reflexivity;
      intros x Hx; apply H; right; exact Hx.
Qed.

Lemma staff_add_total (E : list nat) (d : StaffData) (t : Table IssuerStaff.t) :
  wf_table t -> at_most_one_each E t ->
  Issuer.mem_user (cached_user d) E = false ->
  exists t', Issuer.add_staff_record d t = Ok t' /\ at_most_one_each E t'.
Proof.
  intros Hwf Hone Hm. unfold Issuer.add_staff_record.
  destruct (get_or_create_cases
              (fun r => Nat.eqb (IssuerStaff.user r) (cached_user d))
              {| IssuerStaff.user := cached_user d;
                 IssuerStaff.role := staff_role d |} t)
    as [[Hg Hnone]|[[pk [r [Hg [_ [Hin Hr]]]]]|[Hg Htwo]]]; rewrite Hg; simpl.
  - eexists. split; [reflexivity|].
    intros u Hu. simpl. rewrite filter_app, length_app. simpl.
    destruct (Nat.eqb (cached_user d) u) eqn:E1; simpl.
    + apply Nat.eqb_eq in E1. subst u. rewrite Hnone. simpl. lia.
    + specialize (Hone u Hu). lia.
  - eexists. split; [reflexivity|].
    intros u Hu. simpl. rewrite filter_length_map; [apply Hone; exact Hu|].
    intros x Hx. destruct (Nat.eqb (fst x) pk) eqn:Epk; [|reflexivity].
    apply Nat.eqb_eq in Epk.
    assert (x = (pk, r)) as ->.
    { destruct Hwf as [Hnd _]. apply (NoDup_fst_inj (rows t)); assumption. }
    reflexivity.
  - exfalso. specialize (Hone (cached_user d) Hm). simpl in Htwo. lia.
Qed.

Lemma staff_add_missing_total (E : list nat) (value : list StaffData) :
  forall t : Table IssuerStaff.t,
    wf_table t -> at_most_one_each E t ->
    exists ta, foldM (Issuer.add_missing E) value t = Ok ta.
Proof.
  induction value as [|d value IH]; intros t Hwf Hone; simpl.
  - exists t. reflexivity.
  - unfold Issuer.add_missing at 1.
    destruct (Issuer.mem_user (cached_user d) E) eqn:Em; simpl.
    + apply IH; assumption.
    + destruct (staff_add_total E d t Hwf Hone Em) as [t' [Hadd Hone']].
      rewrite Hadd. simpl. apply IH; [|exact Hone'].
      eapply staff_add_wf; eassumption.
Qed.

Lemma at_most_one_each_start (t : Table IssuerStaff.t) :
  at_most_one_each (map (fun s => IssuerStaff.user (snd s)) (all t)) t.
Proof.
  intros u Hu.
  assert (filter (fun x => Nat.eqb (IssuerStaff.user (snd x)) u) (rows t) = [])
    as ->; [|simpl; lia].
  destruct (filter _ (rows t)) as [|x l] eqn:E; [reflexivity|].
  assert (In x (filter (fun x => Nat.eqb (IssuerStaff.user (snd x)) u) (rows t)))
    as Hin by (rewrite E; left; reflexivity).
  apply filter_In in Hin. destruct Hin as [Hin Hx]. apply Nat.eqb_eq in Hx.
  assert (Issuer.mem_user u (map (fun s => IssuerStaff.user (snd s)) (all t)) = true).
  { apply mem_user_true_iff. apply in_map_iff. exists x. split; assumption. }
  congruence.
Qed.

Lemma staff_add_missing_is_loop (E : list nat) (value : list StaffData)
  (t : Table IssuerStaff.t) :
  foldM (Issuer.add_missing E) value t
  = add_missing_loop Issuer.mem_user cached_user Issuer.add_staff_record E value t.
Proof. reflexivity. Qed.

(** What a run of the staff setter goes through. *)
Lemma staff_items_setter_run (value : list StaffData) (t : Table IssuerStaff.t) :
  wf_table t ->
  exists ta,
    foldM (Issuer.add_missing (map (fun s => IssuerStaff.user (snd s)) (all t)))
      value t = Ok ta
    /\ Issuer.staff_items_setter value t
       = Ok (fold_left (Issuer.remove_old (map cached_user value)) (all ta) ta)
    /\ wf_table ta
    /\ (forall x, In x (rows t) -> In x (rows ta))
    /\ (forall d, In d value ->
                  exists x, In x (rows ta)
                            /\ IssuerStaff.user (snd x) = cached_user d).
Proof.
  intros Hwf.
  destruct (staff_add_missing_total
              (map (fun s => IssuerStaff.user (snd s)) (all t)) value t Hwf
              (at_most_one_each_start t)) as [ta Hta].
  exists ta. split; [exact Hta|].
  split; [unfold Issuer.staff_items_setter; rewrite Hta; reflexivity|].
  rewrite staff_add_missing_is_loop in Hta.
  destruct (add_missing_loop_spec Issuer.mem_user mem_user_true_iff
              (fun x => IssuerStaff.user (snd x)) cached_user
              Issuer.add_staff_record
              staff_add_wf staff_add_has staff_add_frame
              (map (fun s => IssuerStaff.user (snd s)) (all t)) value t ta
              (map (fun s => IssuerStaff.user (snd s)) (all t)) Hwf)
    as [Hwfa [_ Hv]].
  { intros k Hk. apply in_map_iff in Hk. destruct Hk as [x [Hx Hin]].
    exists x. split; [exact Hin | exact Hx]. }
  { intros d _ Hm. apply mem_user_true_iff. exact Hm. }
  { exact Hta. }
  split; [exact Hwfa|]. split.
  - intros x Hx.
    apply (add_missing_loop_frame Issuer.mem_user
             (fun x => IssuerStaff.user (snd x))
             cached_user Issuer.add_staff_record staff_add_wf staff_add_frame
             (map (fun s => IssuerStaff.user (snd s)) (all t)) value t ta x Hwf Hta Hx).
    apply mem_user_true_iff. apply in_map_iff. exists x. split; [reflexivity | exact Hx].
  - intros d Hd. apply Hv. apply in_map. exact Hd.
Qed.

Lemma staff_rows_compat (t : Table IssuerStaff.t) :
  wf_table t ->
  forall x y, In x (all t) -> In y (rows t) -> fst y = fst x -> y = x.
Proof.
  intros [Hnd _] x y Hx Hy Hpk. apply (NoDup_fst_inj (rows t)); assumption.
Qed.

(** The setter ends normally, and an issuer that had an owner has one
    afterwards. *)
Lemma staff_items_setter_keeps_an_owner (value : list StaffData)
  (t : Table IssuerStaff.t) :
  wf_table t ->
  exists t1,
    Issuer.staff_items_setter value t = Ok t1
    /\ (1 <= length (Issuer.owners t) -> 1 <= length (Issuer.owners t1)).
Proof.
  intros Hwf.
  destruct (staff_items_setter_run value t Hwf)
    as [ta [_ [Hrun [Hwfa [Hframe _]]]]].
  eexists. split; [exact Hrun|]. intros Hone.
  destruct (staff_remove_old_loop (map cached_user value) (all ta) ta
              (proj1 Hwfa) (staff_rows_compat ta Hwfa))
    as [_ [_ [_ [Hd _]]]].
  apply Hd.
  unfold Issuer.owners in *.
  destruct (filter _ (rows t)) as [|x l] eqn:E; [simpl in Hone; lia|].
  assert (In x (filter (fun m => IssuerStaff.role (snd m) =? IssuerStaff.ROLE_OWNER)
                  (rows t))) as Hin by (rewrite E; left; reflexivity).
  apply filter_In in Hin. destruct Hin as [Hin Hrole].
  assert (In x (filter (fun m => IssuerStaff.role (snd m) =? IssuerStaff.ROLE_OWNER)
                  (rows ta))) as Hin'.
  { apply filter_In. split; [apply Hframe; exact Hin | exact Hrole]. }
  destruct (filter _ (rows ta)); [destruct Hin' | simpl; lia].
Qed.

(** Applying the same staff list again changes nothing and writes
    nothing. *)
Lemma staff_items_setter_twice (value : list StaffData)
  (t t1 : Table IssuerStaff.t) :
  wf_table t ->
  Issuer.staff_items_setter value t = Ok t1 ->
  Issuer.staff_items_setter value (committed t1) = Ok (committed t1).
Proof.
  intros Hwf Hrun.
  destruct (staff_items_setter_run value t Hwf)
    as [ta [_ [Hrun' [Hwfa [_ Hhas]]]]].
  rewrite Hrun' in Hrun. injection Hrun as Ht1.
  destruct (staff_remove_old_loop (map cached_user value) (all ta) ta
              (proj1 Hwfa) (staff_rows_compat ta Hwfa))
    as [Ha [_ [Hc [_ [He _]]]]].
  rewrite Ht1 in Ha, Hc, He.
  unfold Issuer.staff_items_setter.
  rewrite staff_add_missing_is_loop.
  rewrite add_missing_loop_skip.
  - simpl. f_equal.
    assert (forall (snapshot : list (nat * IssuerStaff.t)),
               (forall y, In y snapshot -> In y (rows t1)) ->
               fold_left (Issuer.remove_old (map cached_user value)) snapshot
                 (committed t1) = committed t1) as Hloop.
    { induction snapshot as [|y snapshot IH]; intros Hsub; simpl.
      - reflexivity.
      - assert (Issuer.remove_old (map cached_user value) (committed t1) y
                = committed t1) as ->.
        { destruct (staff_remove_old_cases (map cached_user value) (committed t1) y)
            as [[_ Hs]|[[Em [Ec Hs]]|[_ [_ [_ Hs]]]]]; try exact Hs.
          exfalso.
          destruct (Hc y) as [Hrole Hcount]; try assumption.
          + apply Ha. apply Hsub. left. reflexivity.
          + apply Hsub. left. reflexivity.
          + rewrite owners_committed in Ec. destruct Ec as [Ec|Ec]; [congruence | lia]. }
        apply IH. intros z Hz. apply Hsub. right. exact Hz. }
    apply Hloop. intros y Hy. exact Hy.
  - intros d Hd. apply mem_user_true_iff.
    destruct (Hhas d Hd) as [x [Hx Hu]].
    apply in_map_iff. exists x. split; [exact Hu|].
    simpl. apply He; [exact Hx|].
    apply mem_user_true_iff. rewrite Hu. apply in_map. exact Hd.
Qed.


(** Whether the creator has a membership row decides what [create]
    does. *)
Lemma objects_create_cases (r : IssuerStaff.t) (tbl : Table IssuerStaff.t) :
  ((forall m, In m (rows tbl) -> IssuerStaff.user (snd m) <> IssuerStaff.user r)
   /\ IssuerStaff.objects_create r tbl = Ok (create r tbl))
  \/ ((exists m, In m (rows tbl) /\ IssuerStaff.user (snd m) = IssuerStaff.user r)
      /\ IssuerStaff.objects_create r tbl = Raise IntegrityError).
Proof.
  unfold IssuerStaff.objects_create.
  destruct (existsb (fun m => Nat.eqb (IssuerStaff.user (snd m)) (IssuerStaff.user r))
              (rows tbl)) eqn:E.
  - right. apply existsb_exists in E. destruct E as [m [Hin Hm]].
    apply Nat.eqb_eq in Hm. split; [|reflexivity]. exists m. split; assumption.
  - left. split; [|reflexivity]. intros m Hin Heq.
    assert (existsb (fun m => Nat.eqb (IssuerStaff.user (snd m)) (IssuerStaff.user r))
              (rows tbl) = true) as Ht.
    { apply existsb_exists. exists m. split; [exact Hin|].
      apply Nat.eqb_eq. exact Heq. }
    congruence.
Qed.

(** The three ways [save] ends for an issuer whose creator is known. *)
Lemma issuer_save_cases (env : Env) (i : Issuer.t) (u : nat) :
  Issuer.created_by_id i = Some (S u) ->
  (Issuer.owners (Issuer.staff i) <> [] ->
   fst (Issuer.save env i) = Ok tt
   /\ Issuer.staff (snd (Issuer.save env i)) = Issuer.staff i)
  /\ (Issuer.owners (Issuer.staff i) = [] ->
      (forall m, In m (rows (Issuer.staff i)) -> IssuerStaff.user (snd m) <> S u) ->
      fst (Issuer.save env i) = Ok tt
      /\ Issuer.staff (snd (Issuer.save env i))
         = create {| IssuerStaff.user := S u;
                     IssuerStaff.role := IssuerStaff.ROLE_OWNER |} (Issuer.staff i))
  /\ (Issuer.owners (Issuer.staff i) = [] ->
      (exists m, In m (rows (Issuer.staff i)) /\ IssuerStaff.user (snd m) = S u) ->
      fst (Issuer.save env i) = Raise IntegrityError
      /\ Issuer.staff (snd (Issuer.save env i)) = Issuer.staff i).
Proof.
  intros Hcb. unfold Issuer.save. simpl. rewrite Hcb.
  destruct (Issuer.owners (Issuer.staff i)) as [|o os] eqn:E; simpl.
  - split; [intros H; contradiction|].
    destruct (objects_create_cases
                {| IssuerStaff.user := S u; IssuerStaff.role := IssuerStaff.ROLE_OWNER |}
                (Issuer.staff i)) as [[Hnone Hc]|[[m [Hin Hm]] Hc]];
      rewrite Hc; simpl.
    + split; [intros _ _; split; reflexivity|].
      intros _ [m [Hin Hm]]. exfalso. exact (Hnone m Hin Hm).
    + split; [|intros _ _; split; reflexivity].
      intros _ Hnone. exfalso. exact (Hnone m Hin Hm).
  - split; [intros _; split; reflexivity|].
    split; intros H; discriminate.
Qed.

(** C4, refuted as stated: the creator of this issuer has a staff row
    that is not an owner's and the issuer has no owner; [save] raises
    [IntegrityError] and the issuer still has no owner. *)
Lemma save_without_owner_raises :
  Issuer.created_by_id Demo.issuer_without_owner = Some 7
  /\ Issuer.owners (Issuer.staff Demo.issuer_without_owner) = []
  /\ fst (Issuer.save Demo.env Demo.issuer_without_owner) = Raise IntegrityError
  /\ Issuer.owners (Issuer.staff (snd (Issuer.save Demo.env Demo.issuer_without_owner)))
     = [].
Proof. repeat split. Qed.

(** C4.  For an issuer whose creator is known: [save] leaves the staff of
    an issuer that has an owner as they are; for an issuer without owner
    it creates the owner record of the creator when the creator has no
    staff record of this issuer, and raises [IntegrityError], the staff
    left as they are, when the creator has one; the staff setter ends
    normally for every list and leaves an issuer that had an owner with
    one; and the turn of its loop that meets the only owner's record
    leaves the table as it is. *)
Theorem owner_invariant :
  forall (env : Env) (i : Issuer.t) (u : nat),
    Issuer.created_by_id i = Some (S u) ->
    (Issuer.owners (Issuer.staff i) <> [] ->
     fst (Issuer.save env i) = Ok tt
     /\ Issuer.staff (snd (Issuer.save env i)) = Issuer.staff i)
    /\ (Issuer.owners (Issuer.staff i) = [] ->
        (forall m, In m (rows (Issuer.staff i)) -> IssuerStaff.user (snd m) <> S u) ->
        fst (Issuer.save env i) = Ok tt
        /\ rows (Issuer.staff (snd (Issuer.save env i)))
           = (rows (Issuer.staff i)
              ++ [(next_pk (Issuer.staff i),
                   {| IssuerStaff.user := S u;
                      IssuerStaff.role := IssuerStaff.ROLE_OWNER |})])%list
        /\ 1 <= length (Issuer.owners (Issuer.staff (snd (Issuer.save env i)))))
    /\ (Issuer.owners (Issuer.staff i) = [] ->
        (exists m, In m (rows (Issuer.staff i)) /\ IssuerStaff.user (snd m) = S u) ->
        fst (Issuer.save env i) = Raise IntegrityError
        /\ Issuer.staff (snd (Issuer.save env i)) = Issuer.staff i)
    /\ (forall value : list StaffData,
           wf_table (Issuer.staff i) ->
           exists staff',
             Issuer.staff_items_setter value (Issuer.staff i) = Ok staff'
             /\ (1 <= length (Issuer.owners (Issuer.staff i)) ->
                 1 <= length (Issuer.owners staff')))
    /\ (forall (new_staff_idx : list nat) (tbl : Table IssuerStaff.t)
               (staff_record : nat * IssuerStaff.t),
           Issuer.is_owner staff_record = true ->
           length (Issuer.owners tbl) <= 1 ->
           Issuer.remove_old new_staff_idx tbl staff_record = tbl).
Proof.
  intros env i u Hcb.
  destruct (issuer_save_cases env i u Hcb) as [Hkeep [Hnew Hraise]].
  split; [exact Hkeep|]. split; [|split; [exact Hraise|split]].
  - intros Hno Hnone. destruct (Hnew Hno Hnone) as [Hok Hstaff].
    split; [exact Hok|]. rewrite Hstaff. split; [reflexivity|].
    unfold Issuer.owners. simpl. rewrite filter_app, length_app. simpl. lia.
  - intros value Hwf. apply staff_items_setter_keeps_an_owner. exact Hwf.
  - intros N tbl r Hrole Hcount.
    destruct (staff_remove_old_cases N tbl r)
      as [[_ Hs]|[[_ [[Ec|Ec] _]]|[_ [_ [_ Hs]]]]];
      try exact Hs; [congruence | lia].
Qed.

Lemma staff_table_wf : wf_table Demo.staff_table.
Proof.
  split.
  - simpl. repeat constructor; simpl; intuition discriminate.
  - simpl. repeat constructor.
Defined.

Lemma owner_invariant_witness :
  (fst (Issuer.save Demo.env Demo.new_issuer) = Ok tt
   /\ rows (Issuer.staff (snd (Issuer.save Demo.env Demo.new_issuer)))
      = [(1, Demo.owner_row)]
   /\ 1 <= length (Issuer.owners (Issuer.staff (snd (Issuer.save Demo.env Demo.new_issuer)))))
  /\ (fst (Issuer.save Demo.env Demo.issuer_without_owner) = Raise IntegrityError
      /\ Issuer.staff (snd (Issuer.save Demo.env Demo.issuer_without_owner))
         = Issuer.staff Demo.issuer_without_owner)
  /\ Issuer.staff_items_setter [] (Issuer.staff Demo.issuer)
     = Ok {| rows := [(1, Demo.owner_row)]; next_pk := 3; log := [Deleted 2] |}
  /\ exists staff',
       Issuer.staff_items_setter
         [{| cached_user := 9; staff_role := IssuerStaff.ROLE_EDITOR |}]
         (Issuer.staff Demo.issuer) = Ok staff'
       /\ 1 <= length (Issuer.owners staff').
Proof.
  split; [|split; [|split; [reflexivity|]]].
  - exact (proj1 (proj2 (owner_invariant Demo.env Demo.new_issuer 6 eq_refl))
             eq_refl (fun m (H : In m []) => match H with end)).
  - apply (proj1 (proj2 (proj2 (owner_invariant Demo.env Demo.issuer_without_owner 6
                                  eq_refl)))); [reflexivity|].
    eexists. split; [left; reflexivity | reflexivity].
  - destruct (proj1 (proj2 (proj2 (proj2
                (owner_invariant Demo.env Demo.issuer 6 eq_refl))))
                [{| cached_user := 9; staff_role := IssuerStaff.ROLE_EDITOR |}]
                staff_table_wf) as [staff' [Hrun Hown]].
    exists staff'. split; [exact Hrun|]. apply Hown. simpl. apply le_n.
Defined.

(** ** Extensions *)

Lemma filter_none {A : Type} (p : A -> bool) (l : list A) :
  (forall y, In y l -> p y = false) -> filter p l = [].
Proof.
  induction l as [|a l IH]; simpl; intros H.
  - reflexivity.
  - rewrite (H a (or_introl eq_refl)). apply IH.
    intros y Hy. apply H. right. exact Hy.
Qed.

Lemma filter_unique {A : Type} (p : A -> bool) (l : list A) (x : A) :
  NoDup l -> In x l -> p x = true ->
  (forall y, In y l -> p y = true -> y = x) ->
  filter p l = [x].
Proof.
  induction l as [|a l IH]; simpl; intros Hnd Hin Hpx Huniq.
  - contradiction.
  - inversion Hnd as [|? ? Hnotin Hnd']; subst.
    destruct Hin as [Hin|Hin].
    + subst a. rewrite Hpx. f_equal. apply filter_none.
      intros y Hy. destruct (p y) eqn:E; [|reflexivity].
      exfalso. apply Hnotin.
      rewrite <- (Huniq y (or_intror Hy) E). exact Hy.
    + destruct (p a) eqn:E.
      * exfalso. apply Hnotin.
        rewrite (Huniq a (or_introl eq_refl) E). exact Hin.
      * apply IH; try assumption.
        intros y Hy. apply Huniq. right. exact Hy.
Qed.

Lemma in_filter_nil {A : Type} (p : A -> bool) (l : list A) (y : A) :
  filter p l = [] -> In y l -> p y = true -> False.
Proof.
  intros Hf Hin Hp.
  assert (In y (filter p l)) as H by (apply filter_In; split; assumption).
  rewrite Hf in H. exact H.
Qed.

Lemma in_filter_single {A : Type} (p : A -> bool) (l : list A) (x y : A) :
  filter p l = [x] -> In y l -> p y = true -> y = x.
Proof.
  intros Hf Hin Hp.
  assert (In y (filter p l)) as H by (apply filter_In; split; assumption).
  rewrite Hf in H. destruct H as [H|[]]. symmetry. exact H.
Qed.

(** One turn of "add new" on the first run: the item gets its row. *)
Lemma ext_add_new_settles (P : list (string * Json)) (item : string * Json)
  (t t' : Table BaseOpenBadgeExtension.t) (touched touched' : list nat) :
  wf_table t ->
  (forall i, In i P -> BaseOpenBadgeObjectModel.settled t touched i) ->
  BaseOpenBadgeObjectModel.touched_within t touched P ->
  ~ In (fst item) (map fst P) ->
  BaseOpenBadgeObjectModel.add_new (t, touched) item = Ok (t', touched') ->
  wf_table t'
  /\ (forall i, In i (P ++ [item])%list ->
                BaseOpenBadgeObjectModel.settled t' touched' i)
  /\ BaseOpenBadgeObjectModel.touched_within t' touched' (P ++ [item])%list.
Proof.
  intros Hwf Hset Htouch Hfresh Hrun.
  destruct item as [n e]. simpl in Hfresh.
  unfold BaseOpenBadgeObjectModel.add_new in Hrun.
  destruct (get_or_create_cases
              (fun x => BaseOpenBadgeExtension.name x =? n)
              {| BaseOpenBadgeExtension.name := n;
                 BaseOpenBadgeExtension.original_json := e |} t)
    as [[Hg Hnone]|[[pk [r [Hg [Hone [Hin Hm]]]]]|[Hg _]]];
    rewrite Hg in Hrun; simpl in Hrun; [| |discriminate].
  - (* the row is created *)
    injection Hrun as <- <-.
    split; [apply wf_table_create; exact Hwf|]. split.
    + intros i Hi. apply in_app_or in Hi. destruct Hi as [Hi|[Hi|[]]].
      * destruct (Hset i Hi) as [pk [Hpk [Hrow Huniq]]].
        exists pk. split; [apply in_or_app; left; exact Hpk|].
        split; [simpl; apply in_or_app; left; exact Hrow|].
        intros y Hy Hname. simpl in Hy. apply in_app_or in Hy.
        destruct Hy as [Hy|[Hy|[]]]; [apply Huniq; assumption|].
        subst y. simpl in Hname. exfalso. apply Hfresh.
        rewrite Hname. apply in_map. exact Hi.
      * subst i. exists (next_pk t).
        split; [apply in_or_app; right; left; reflexivity|].
        split; [simpl; apply in_or_app; right; left; reflexivity|].
        intros y Hy Hname. simpl in Hy. apply in_app_or in Hy.
        destruct Hy as [Hy|[Hy|[]]]; [|symmetry; exact Hy].
        exfalso.
        apply (in_filter_nil _ _ y Hnone Hy). simpl in Hname.
        apply String.eqb_eq. exact Hname.
    + intros pk Hpk. apply in_app_or in Hpk. destruct Hpk as [Hpk|[Hpk|[]]].
      * destruct (Htouch pk Hpk) as [y [Hy [Hfst Hname]]].
        exists y. split; [simpl; apply in_or_app; left; exact Hy|].
        split; [exact Hfst|]. rewrite map_app. apply in_or_app. left. exact Hname.
      * subst pk. eexists. split; [simpl; apply in_or_app; right; left; reflexivity|].
        split; [reflexivity|]. rewrite map_app. apply in_or_app. right. left.
        reflexivity.
  - (* the row was there and is saved with the new document *)
    injection Hrun as <- <-.
    apply String.eqb_eq in Hm.
    assert (forall y, In y (rows t) -> In (BaseOpenBadgeExtension.name (snd y)) (map fst P) ->
                      fst y <> pk) as Hother.
    { intros y Hy Hname Hpk.
      assert (y = (pk, r)) as ->
        by (apply (NoDup_fst_inj (rows t)); [apply Hwf | assumption..]).
      simpl in Hname. rewrite Hm in Hname. contradiction. }
    split; [apply wf_table_save_row; exact Hwf|]. split.
    + intros i Hi. apply in_app_or in Hi. destruct Hi as [Hi|[Hi|[]]].
      * destruct (Hset i Hi) as [pk0 [Hpk0 [Hrow Huniq]]].
        exists pk0. split; [apply in_or_app; left; exact Hpk0|]. split.
        -- simpl. apply in_save_row; [exact Hrow|].
           apply (Hother _ Hrow). simpl. apply in_map. exact Hi.
        -- intros y Hy Hname. simpl in Hy. apply in_map_iff in Hy.
           destruct Hy as [x [Hfx Hx]].
           destruct (Nat.eqb (fst x) pk) eqn:Epk.
           ++ subst y. simpl in Hname. exfalso. apply Hfresh.
              rewrite <- Hm, Hname. apply in_map. exact Hi.
           ++ subst y. apply Huniq; assumption.
      * subst i. exists pk. split; [apply in_or_app; right; left; reflexivity|].
        split.
        -- simpl. apply in_map_iff. exists (pk, r). split; [|exact Hin].
           simpl. rewrite Nat.eqb_refl. unfold BaseOpenBadgeObjectModel.ext_row.
           simpl. rewrite Hm. reflexivity.
        -- intros y Hy Hname. simpl in Hy. apply in_map_iff in Hy.
           destruct Hy as [x [Hfx Hx]].
           destruct (Nat.eqb (fst x) pk) eqn:Epk.
           ++ subst y. unfold BaseOpenBadgeObjectModel.ext_row. simpl.
              rewrite Hm. reflexivity.
           ++ subst y. exfalso. simpl in Hname.
              assert (x = (pk, r)) as Hx'.
              { apply (in_filter_single _ _ _ _ Hone Hx).
                apply String.eqb_eq. exact Hname. }
              subst x. simpl in Epk. rewrite Nat.eqb_refl in Epk. discriminate.
    + intros pk0 Hpk0. apply in_app_or in Hpk0. destruct Hpk0 as [Hpk0|[Hpk0|[]]].
      * destruct (Htouch pk0 Hpk0) as [y [Hy [Hfst Hname]]].
        exists y. split.
        -- simpl. apply in_save_row; [exact Hy|]. apply Hother; assumption.
        -- split; [exact Hfst|]. rewrite map_app. apply in_or_app. left. exact Hname.
      * subst pk0. eexists. split.
        -- simpl. apply in_map_iff. exists (pk, r). split; [|exact Hin].
           simpl. rewrite Nat.eqb_refl. reflexivity.
        -- split; [reflexivity|]. simpl. rewrite map_app. apply in_or_app.
           right. left. simpl. symmetry. exact Hm.
Qed.

(** The "add new" loop of the first run, from any point of it. *)
Lemma ext_add_new_loop (rest : list (string * Json)) :
  forall (P : list (string * Json)) (t ta : Table BaseOpenBadgeExtension.t)
         (touched touched_a : list nat),
    wf_table t ->
    (forall i, In i P -> BaseOpenBadgeObjectModel.settled t touched i) ->
    BaseOpenBadgeObjectModel.touched_within t touched P ->
    NoDup (map fst (P ++ rest)%list) ->
    foldM BaseOpenBadgeObjectModel.add_new rest (t, touched) = Ok (ta, touched_a) ->
    wf_table ta
    /\ (forall i, In i (P ++ rest)%list ->
                  BaseOpenBadgeObjectModel.settled ta touched_a i)
    /\ BaseOpenBadgeObjectModel.touched_within ta touched_a (P ++ rest)%list.
Proof.
  induction rest as [|item rest IH]; intros P t ta touched touched_a
                                            Hwf Hset Htouch Hnd Hrun.
  - simpl in Hrun. injection Hrun as <- <-. rewrite app_nil_r.
    split; [exact Hwf|]. split; assumption.
  - rewrite foldM_cons in Hrun.
    destruct (BaseOpenBadgeObjectModel.add_new (t, touched) item)
      as [[t' touched']|err] eqn:Estep; simpl bind in Hrun; [|discriminate].
    assert (~ In (fst item) (map fst P)) as Hfresh.
    { rewrite map_app in Hnd. simpl in Hnd. apply NoDup_remove_2 in Hnd.
      intros Hin. apply Hnd. apply in_or_app. left. exact Hin. }
    destruct (ext_add_new_settles P item t t' touched touched'
                Hwf Hset Htouch Hfresh Estep) as [Hwf' [Hset' Htouch']].
    replace (P ++ item :: rest)%list with ((P ++ [item]) ++ rest)%list
      by (rewrite <- app_assoc; reflexivity).
    apply (IH (P ++ [item])%list t' ta touched' touched_a); try assumption.
    rewrite <- app_assoc. exact Hnd.
Qed.

(** The "add new" loop of a second run: every item finds its row, which
    is saved as it is. *)
Lemma ext_add_new_again (L : list (nat * BaseOpenBadgeExtension.t))
  (rest : list (string * Json)) :
  NoDup (map fst L) ->
  forall (t : Table BaseOpenBadgeExtension.t) (touched : list nat),
    rows t = L ->
    (forall i, In i rest ->
               exists pk,
                 In (pk, BaseOpenBadgeObjectModel.ext_row i) L
                 /\ forall y, In y L ->
                              BaseOpenBadgeExtension.name (snd y) = fst i ->
                              y = (pk, BaseOpenBadgeObjectModel.ext_row i)) ->
    exists t' touched',
      foldM BaseOpenBadgeObjectModel.add_new rest (t, touched) = Ok (t', touched')
      /\ rows t' = L
      /\ next_pk t' = next_pk t
      /\ created_rows t' = created_rows t
      /\ deleted_rows t' = deleted_rows t
      /\ (forall i, In i rest ->
                    exists pk, In pk touched'
                               /\ In (pk, BaseOpenBadgeObjectModel.ext_row i) L).
Proof.
  intros Hnd.
  induction rest as [|item rest IH]; intros t touched Hrows Hitems.
  - exists t, touched. simpl. repeat split; try assumption; try reflexivity.
    intros i [].
  - destruct (Hitems item (or_introl eq_refl)) as [pk [Hin Huniq]].
    destruct item as [n e].
    assert (filter (fun x => BaseOpenBadgeExtension.name (snd x) =? n) (rows t)
            = [(pk, BaseOpenBadgeObjectModel.ext_row (n, e))]) as Hfilter.
    { rewrite Hrows. apply filter_unique.
      - apply NoDup_map_inv in Hnd. exact Hnd.
      - exact Hin.
      - simpl. apply String.eqb_refl.
      - intros y Hy Hname. apply Huniq; [exact Hy|].
        apply String.eqb_eq. exact Hname. }
    assert (BaseOpenBadgeObjectModel.add_new (t, touched) (n, e)
            = Ok (save_row pk (BaseOpenBadgeObjectModel.ext_row (n, e)) t,
                  (touched ++ [pk])%list)) as Hstep.
    { unfold BaseOpenBadgeObjectModel.add_new, get_or_create.
      rewrite Hfilter. reflexivity. }
    destruct (IH (save_row pk (BaseOpenBadgeObjectModel.ext_row (n, e)) t)
                (touched ++ [pk])%list) as [t' [touched' [Hrun [Hr [Hn [Hc [Hd Ht]]]]]]].
    { simpl. rewrite Hrows. apply save_row_same; assumption. }
    { intros i Hi. apply Hitems. right. exact Hi. }
    assert (forall pk0, In pk0 (touched ++ [pk])%list -> In pk0 touched') as Hmono.
    { clear - Hrun. revert Hrun.
      generalize (save_row pk (BaseOpenBadgeObjectModel.ext_row (n, e)) t) as t0.
      generalize (touched ++ [pk])%list as tch.
      induction rest as [|[n' e'] rest IHr]; intros tch t0 Hrun pk0 Hpk0.
      - simpl in Hrun. injection Hrun as _ <-. exact Hpk0.
      - rewrite foldM_cons in Hrun.
        destruct (BaseOpenBadgeObjectModel.add_new (t0, tch) (n', e'))
          as [[t'' tch'']|err] eqn:E; simpl bind in Hrun; [|discriminate].
        apply (IHr tch'' t'' Hrun).
        unfold BaseOpenBadgeObjectModel.add_new in E.
        destruct (get_or_create _ _ t0) as [[[[pk1 e1] c1] t1]|]; simpl in E;
          [|discriminate].
        injection E as _ <-. apply in_or_app. left. exact Hpk0. }
    exists t', touched'. rewrite foldM_cons, Hstep. simpl bind.
    split; [exact Hrun|]. split; [exact Hr|].
    split; [rewrite Hn; reflexivity|].
    split.
    { rewrite Hc. unfold created_rows. simpl. rewrite filter_app. simpl.
      apply app_nil_r. }
    split.
    { rewrite Hd. unfold deleted_rows. simpl. rewrite filter_app. simpl.
      apply app_nil_r. }
    intros i [Hi|Hi].
    + subst i. exists pk. split; [|exact Hin].
      apply Hmono. apply in_or_app. right. left. reflexivity.
    + apply Ht. exact Hi.
Qed.

Lemma extension_remove_old_is_loop (touched : list nat)
  (snapshot : list (nat * BaseOpenBadgeExtension.t))
  (t : Table BaseOpenBadgeExtension.t) :
  fold_left (BaseOpenBadgeObjectModel.remove_old touched) snapshot t
  = remove_old_loop Issuer.mem_user fst touched snapshot t.
Proof. reflexivity. Qed.

(** Applying the same extensions again creates and deletes nothing and
    leaves every row as it is. *)
Lemma update_extensions_twice (value : list (string * Json))
  (t t1 : Table BaseOpenBadgeExtension.t) :
  wf_table t ->
  NoDup (map fst value) ->
  BaseOpenBadgeObjectModel.update_extensions value t = Ok t1 ->
  exists t2,
    BaseOpenBadgeObjectModel.update_extensions value (committed t1)
    = Ok t2
    /\ rows t2 = rows t1
    /\ next_pk t2 = next_pk t1
    /\ created_rows t2 = []
    /\ deleted_rows t2 = [].
Proof.
  intros Hwf Hnd Hrun.
  unfold BaseOpenBadgeObjectModel.update_extensions in Hrun.
  destruct (foldM BaseOpenBadgeObjectModel.add_new value (t, []))
    as [[ta touched]|err] eqn:Eadd; simpl bind in Hrun; [|discriminate].
  injection Hrun as Ht1.
  destruct (ext_add_new_loop value [] t ta [] touched Hwf) as [Hwfa [Hset Htouch]];
    try assumption.
  { intros i []. }
  { intros pk []. }
  simpl in Hset, Htouch.
  rewrite extension_remove_old_is_loop in Ht1.
  assert (forall y, In y (rows t1) <->
                    In y (rows ta) /\ Issuer.mem_user (fst y) touched = true) as Hrows1.
  { intros y. rewrite <- Ht1.
    apply (remove_old_loop_all Issuer.mem_user fst touched ta y Hwfa). }
  assert (NoDup (map fst (rows ta))) as Hnda by apply Hwfa.
  assert (NoDup (map fst (rows t1))) as Hnd1.
  { assert (forall (snapshot : list (nat * BaseOpenBadgeExtension.t))
                   (t0 : Table BaseOpenBadgeExtension.t),
               NoDup (map fst (rows t0)) ->
               NoDup (map fst (rows (remove_old_loop Issuer.mem_user fst touched
                                       snapshot t0)))) as H.
    { unfold remove_old_loop.
      induction snapshot as [|x snapshot IH]; intros t0 H0; simpl; [exact H0|].
      apply IH. destruct (negb _); [|exact H0].
      simpl. apply NoDup_map_fst_filter. exact H0. }
    rewrite <- Ht1. apply H. exact Hnda. }
  assert (forall i, In i value ->
                    exists pk,
                      In (pk, BaseOpenBadgeObjectModel.ext_row i) (rows t1)
                      /\ forall y, In y (rows t1) ->
                                   BaseOpenBadgeExtension.name (snd y) = fst i ->
                                   y = (pk, BaseOpenBadgeObjectModel.ext_row i))
    as Hitems.
  { intros i Hi. destruct (Hset i Hi) as [pk [Hpk [Hrow Huniq]]].
    exists pk. split.
    - apply Hrows1. split; [exact Hrow|]. simpl.
      apply mem_user_true_iff. exact Hpk.
    - intros y Hy. apply Huniq. apply Hrows1. exact Hy. }
  assert (forall y, In y (rows t1) ->
                    In (BaseOpenBadgeExtension.name (snd y)) (map fst value))
    as Hnames.
  { intros y Hy. apply Hrows1 in Hy. destruct Hy as [Hy Hm].
    apply mem_user_true_iff in Hm.
    destruct (Htouch (fst y) Hm) as [y' [Hy' [Hfst Hname]]].
    assert (y' = y) as <- by (apply (NoDup_fst_inj (rows ta)); assumption).
    exact Hname. }
  destruct (ext_add_new_again (rows t1) value Hnd1 (committed t1) [] eq_refl Hitems)
    as [t' [touched' [Hrun2 [Hr [Hn [Hc [Hd Ht]]]]]]].
  exists t'.
  unfold BaseOpenBadgeObjectModel.update_extensions.
  rewrite Hrun2. simpl bind.
  rewrite extension_remove_old_is_loop.
  rewrite remove_old_loop_skip.
  - split; [reflexivity|]. split; [exact Hr|]. split; [exact Hn|].
    split; [exact Hc | exact Hd].
  - intros y Hy. unfold all in Hy. rewrite Hr in Hy.
    apply mem_user_true_iff.
    pose proof (Hnames y Hy) as Hname. apply in_map_iff in Hname.
    destruct Hname as [i [Hfi Hi]].
    destruct (Ht i Hi) as [pk [Hpk Hrow]].
    destruct (Hitems i Hi) as [pk0 [_ Huniq]].
    rewrite (Huniq y Hy (eq_sym Hfi)).
    assert ((pk, BaseOpenBadgeObjectModel.ext_row i)
            = (pk0, BaseOpenBadgeObjectModel.ext_row i)) as Heq
      by (apply Huniq; [exact Hrow | reflexivity]).
    injection Heq as <-. exact Hpk.
Qed.

Lemma no_net_change_committed {R : Type} (t : Table R) :
  no_net_change t (committed t).
Proof. repeat split. Qed.

(** The setter on an object: [save] when the object has no primary key
    and the list is not empty, then the two loops. *)
Lemma extension_items_setter_twice {O : Type} `{BaseOpenBadgeObjectModel.Object O}
  (value : list (string * Json)) (o o1 : O) :
  BaseOpenBadgeObjectModel.lawful O ->
  wf_table (BaseOpenBadgeObjectModel.get_extensions_manager o) ->
  NoDup (map fst value) ->
  BaseOpenBadgeObjectModel.extension_items_setter (Some value) o = Ok o1 ->
  exists o2,
    BaseOpenBadgeObjectModel.extension_items_setter (Some value)
      (BaseOpenBadgeObjectModel.with_extensions o1
         (committed (BaseOpenBadgeObjectModel.get_extensions_manager o1))) = Ok o2
    /\ no_net_change (BaseOpenBadgeObjectModel.get_extensions_manager o1)
         (BaseOpenBadgeObjectModel.get_extensions_manager o2).
Proof.
  intros [Hsave [Hget Hpk]] Hwf Hnd Hrun.
  unfold BaseOpenBadgeObjectModel.extension_items_setter in Hrun.
  set (cond := BaseOpenBadgeObjectModel.unsaved (BaseOpenBadgeObjectModel.object_pk o)
               && negb (Nat.eqb (length value) 0)) in Hrun.
  assert (exists o',
             (if cond then BaseOpenBadgeObjectModel.object_save o else Ok o) = Ok o'
             /\ BaseOpenBadgeObjectModel.get_extensions_manager o'
                = BaseOpenBadgeObjectModel.get_extensions_manager o
             /\ BaseOpenBadgeObjectModel.unsaved (BaseOpenBadgeObjectModel.object_pk o')
                && negb (Nat.eqb (length value) 0) = false)
    as [o' [Ho' [Hsame Hcond']]].
  { destruct cond eqn:Ec.
    - destruct (BaseOpenBadgeObjectModel.object_save o) as [o'|e] eqn:Es;
        [|discriminate].
      exists o'. split; [reflexivity|].
      destruct (Hsave o o' Es) as [Hp Hg]. split; [exact Hg|].
      destruct (BaseOpenBadgeObjectModel.object_pk o'); [reflexivity | contradiction].
    - exists o. split; [reflexivity|]. split; [reflexivity | exact Ec]. }
  rewrite Ho' in Hrun. simpl bind in Hrun. rewrite Hsame in Hrun.
  destruct (BaseOpenBadgeObjectModel.update_extensions value
              (BaseOpenBadgeObjectModel.get_extensions_manager o))
    as [t1|e] eqn:Eup; simpl bind in Hrun; [|discriminate].
  injection Hrun as <-.
  destruct (update_extensions_twice value _ t1 Hwf Hnd Eup)
    as [t2 [Hrun2 [Hr [Hn [Hc Hd]]]]].
  exists (BaseOpenBadgeObjectModel.with_extensions
            (BaseOpenBadgeObjectModel.with_extensions
               (BaseOpenBadgeObjectModel.with_extensions o' t1)
               (committed
                  (BaseOpenBadgeObjectModel.get_extensions_manager
                     (BaseOpenBadgeObjectModel.with_extensions o' t1)))) t2).
  rewrite !Hget. split.
  - unfold BaseOpenBadgeObjectModel.extension_items_setter.
    rewrite !Hpk, Hcond'. simpl bind. rewrite !Hget, Hrun2. reflexivity.
  - repeat split; assumption.
Qed.

Lemma evidence_prepared (env : Env) (s : BadgeInstance.t) :
  BadgeInstance.evidence (BadgeInstance.prepared env s) = BadgeInstance.evidence s
  /\ BadgeInstance.extensions (BadgeInstance.prepared env s)
     = BadgeInstance.extensions s.
Proof.
  unfold BadgeInstance.prepared. cbn. destruct (BadgeInstance.entity_id s);
    split; reflexivity.
Qed.

Lemma evidence_written (env : Env) (st : BadgeInstance.State) :
  BadgeInstance.evidence (BadgeInstance.self (BadgeInstance.written env st))
  = BadgeInstance.evidence (BadgeInstance.self st)
  /\ BadgeInstance.extensions (BadgeInstance.self (BadgeInstance.written env st))
     = BadgeInstance.extensions (BadgeInstance.self st).
Proof.
  unfold BadgeInstance.written. cbn [BadgeInstance.self].
  destruct (BadgeInstance.revoked (BadgeInstance.self st)) eqn:E;
    simpl negb; cbv iota; split; reflexivity.
Qed.

(** [save], when it ends normally, leaves an assertion with a primary key
    and touches neither its evidence nor its extensions. *)
Lemma save_keeps_children (env : Env) (st st' : BadgeInstance.State) :
  BadgeInstance.exec (BadgeInstance.save env) st = Ok st' ->
  BadgeInstance.pk (BadgeInstance.self st') <> None
  /\ BadgeInstance.evidence (BadgeInstance.self st')
     = BadgeInstance.evidence (BadgeInstance.self st)
  /\ BadgeInstance.extensions (BadgeInstance.self st')
     = BadgeInstance.extensions (BadgeInstance.self st).
Proof.
  unfold BadgeInstance.exec. rewrite save_cases.
  assert (forall x : BadgeInstance.State,
             BadgeInstance.evidence (BadgeInstance.self x)
             = BadgeInstance.evidence (BadgeInstance.self st) ->
             BadgeInstance.extensions (BadgeInstance.self x)
             = BadgeInstance.extensions (BadgeInstance.self st) ->
             Ok (BadgeInstance.written env x) = Ok st' ->
             BadgeInstance.pk (BadgeInstance.self st') <> None
             /\ BadgeInstance.evidence (BadgeInstance.self st')
                = BadgeInstance.evidence (BadgeInstance.self st)
             /\ BadgeInstance.extensions (BadgeInstance.self st')
                = BadgeInstance.extensions (BadgeInstance.self st)) as Hw.
  { intros x He Hx Heq. injection Heq as <-.
    destruct (evidence_written env x) as [H1 H2].
    rewrite pk_written, H1, H2. split; [discriminate|]. split; assumption. }
  destruct (evidence_prepared env (BadgeInstance.self st)) as [Hpe Hpx].
  destruct (BadgeInstance.pk (BadgeInstance.self st)).
  - apply Hw; reflexivity.
  - destruct (api_query_is_in_blacklist env _ _); [discriminate|].
    cbv zeta.
    destruct (truthy_str (BadgeInstance.image (BadgeInstance.self st))).
    + apply Hw; assumption.
    + destruct (truthy_str (BadgeClass.image _)); [|discriminate].
      destruct (BadgeInstance.get_json env _ _ false false true false);
        [|discriminate].
      apply Hw; assumption.
Qed.

Lemma BadgeInstance_Object_lawful (env : Env) :
  @BaseOpenBadgeObjectModel.lawful BadgeInstance.State (BadgeInstance.Object env).
Proof.
  split; [|split].
  - intros o o' Hs. destruct (save_keeps_children env o o' Hs) as [Hp [_ Hx]].
    split; assumption.
  - intros o tbl. reflexivity.
  - intros o tbl. reflexivity.
Qed.

Lemma Issuer_Object_lawful (env : Env) :
  @BaseOpenBadgeObjectModel.lawful Issuer.t (Issuer.Object env).
Proof.
  split; [|split].
  - intros o o'. cbn [BaseOpenBadgeObjectModel.object_save
                      BaseOpenBadgeObjectModel.object_pk
                      BaseOpenBadgeObjectModel.get_extensions_manager Issuer.Object].
    unfold Issuer.save. cbn [Issuer.created_by_id Issuer.with_pk Issuer.staff].
    destruct (Issuer.created_by_id o) as [[|u]|];
      try (intros H; injection H as <-; split; [discriminate | reflexivity]).
    destruct (Nat.ltb _ 1);
      try (intros H; injection H as <-; split; [discriminate | reflexivity]).
    destruct (IssuerStaff.objects_create _ _); [|discriminate].
    intros H; injection H as <-; split; [discriminate | reflexivity].
  - intros o tbl. reflexivity.
  - intros o tbl. reflexivity.
Qed.

(** The evidence setter: [save] when the assertion has no primary key,
    then the two loops on its evidence rows. *)
Lemma evidence_items_setter_runs (env : Env) (value : list BadgeInstanceEvidence.t)
  (st st1 : BadgeInstance.State) :
  BadgeInstance.evidence_items_setter env value st = Ok st1 ->
  exists st' t1,
    (if BaseOpenBadgeObjectModel.unsaved (BadgeInstance.pk (BadgeInstance.self st))
     then BadgeInstance.exec (BadgeInstance.save env) st else Ok st) = Ok st'
    /\ BadgeInstance.pk (BadgeInstance.self st') <> None
    /\ BadgeInstance.update_evidence value (BadgeInstance.evidence (BadgeInstance.self st))
       = Ok t1
    /\ st1 = BadgeInstance.with_evidence st' t1.
Proof.
  unfold BadgeInstance.evidence_items_setter. intros Hrun.
  destruct (if BaseOpenBadgeObjectModel.unsaved (BadgeInstance.pk (BadgeInstance.self st))
            then BadgeInstance.exec (BadgeInstance.save env) st else Ok st)
    as [st'|e] eqn:Es; simpl bind in Hrun; [|discriminate].
  assert (BadgeInstance.pk (BadgeInstance.self st') <> None
          /\ BadgeInstance.evidence (BadgeInstance.self st')
             = BadgeInstance.evidence (BadgeInstance.self st)) as [Hp He].
  { destruct (BadgeInstance.pk (BadgeInstance.self st)) eqn:Epk; simpl in Es.
    - injection Es as <-. rewrite Epk. split; [discriminate | reflexivity].
    - destruct (save_keeps_children env st st' Es) as [Hp [He _]].
      split; assumption. }
  rewrite He in Hrun.
  exists st'. unfold BadgeInstance.update_evidence.
  destruct (foldM _ value (BadgeInstance.evidence (BadgeInstance.self st)))
    as [ta|e]; simpl bind in Hrun |- *; [|discriminate].
  injection Hrun as <-. eexists. repeat split. exact Hp.
Qed.

Lemma evidence_items_setter_stored (env : Env) (value : list BadgeInstanceEvidence.t)
  (st : BadgeInstance.State) :
  BadgeInstance.pk (BadgeInstance.self st) <> None ->
  BadgeInstance.evidence_items_setter env value st
  = bind (BadgeInstance.update_evidence value
            (BadgeInstance.evidence (BadgeInstance.self st)))
      (fun t1 => Ok (BadgeInstance.with_evidence st t1)).
Proof.
  intros Hpk. unfold BadgeInstance.evidence_items_setter, BadgeInstance.update_evidence.
  destruct (BadgeInstance.pk (BadgeInstance.self st)); [|contradiction].
  simpl. destruct (foldM _ value _); reflexivity.
Qed.

Lemma evidence_items_setter_twice (env : Env) (value : list BadgeInstanceEvidence.t)
  (st st1 : BadgeInstance.State) :
  wf_table (BadgeInstance.evidence (BadgeInstance.self st)) ->
  BadgeInstance.evidence_items_setter env value st = Ok st1 ->
  exists st2,
    BadgeInstance.evidence_items_setter env value
      (BadgeInstance.with_evidence st1
         (committed (BadgeInstance.evidence (BadgeInstance.self st1)))) = Ok st2
    /\ no_net_change (BadgeInstance.evidence (BadgeInstance.self st1))
         (BadgeInstance.evidence (BadgeInstance.self st2)).
Proof.
  intros Hwf Hrun.
  destruct (evidence_items_setter_runs env value st st1 Hrun)
    as [st' [t1 [_ [Hp [Hup ->]]]]].
  pose proof (update_evidence_twice value _ t1 Hwf Hup) as Htwice.
  eexists. split.
  - rewrite evidence_items_setter_stored by exact Hp.
    cbn [BadgeInstance.with_evidence BadgeInstance.self BadgeInstance.set_evidence
         BadgeInstance.evidence].
    rewrite Htwice. reflexivity.
  - cbn [BadgeInstance.with_evidence BadgeInstance.self BadgeInstance.set_evidence
         BadgeInstance.evidence].
    apply no_net_change_committed.
Qed.

(** C7, refuted as stated: a descriptor of an alignment that leaves
    [target_url] out never matches the row written for it, so the second
    application creates a row and deletes it. *)
Lemma alignment_without_url_created_again :
  exists t1 t2,
    BadgeClass.alignment_items_setter (Some [Demo.alignment_without_url])
      Demo.alignment_table = Ok t1
    /\ BadgeClass.alignment_items_setter (Some [Demo.alignment_without_url])
         (committed t1) = Ok t2
    /\ created_rows t2 = [Created 6]
    /\ deleted_rows t2 = [Deleted 6].
Proof. eexists. eexists. repeat split. Qed.

(** C7.  Applied a second time with the same desired list to what the
    first application left, a setter succeeds, creates no row, deletes no
    row, hands out no primary key and leaves every row as it was: the
    extension setter of every object whose [save] gives it a primary key
    and touches no extension row, the extensions given as a dictionary,
    whose keys are distinct; the evidence setter of an assertion; the
    alignment setter when every descriptor gives [target_name] and
    [target_url] as strings; the tag setter; the staff setter. *)
Theorem sub_document_setters_idempotent :
  (forall (O : Type) (Obj : BaseOpenBadgeObjectModel.Object O)
          (value : option (list (string * Json))) (o o1 : O),
      BaseOpenBadgeObjectModel.lawful O ->
      wf_table (BaseOpenBadgeObjectModel.get_extensions_manager o) ->
      (forall v, value = Some v -> NoDup (map fst v)) ->
      BaseOpenBadgeObjectModel.extension_items_setter value o = Ok o1 ->
      exists o2,
        BaseOpenBadgeObjectModel.extension_items_setter value
          (BaseOpenBadgeObjectModel.with_extensions o1
             (committed (BaseOpenBadgeObjectModel.get_extensions_manager o1)))
        = Ok o2
        /\ no_net_change (BaseOpenBadgeObjectModel.get_extensions_manager o1)
             (BaseOpenBadgeObjectModel.get_extensions_manager o2))
  /\ (forall (env : Env) (value : list BadgeInstanceEvidence.t)
             (st st1 : BadgeInstance.State),
         wf_table (BadgeInstance.evidence (BadgeInstance.self st)) ->
         BadgeInstance.evidence_items_setter env value st = Ok st1 ->
         exists st2,
           BadgeInstance.evidence_items_setter env value
             (BadgeInstance.with_evidence st1
                (committed (BadgeInstance.evidence (BadgeInstance.self st1))))
           = Ok st2
           /\ no_net_change (BadgeInstance.evidence (BadgeInstance.self st1))
                (BadgeInstance.evidence (BadgeInstance.self st2)))
  /\ (forall (value : option (list BadgeClassAlignment.Data))
             (t : Table BadgeClassAlignment.t),
         wf_table t ->
         forallb BadgeClassAlignment.complete
           (match value with Some v => v | None => [] end) = true ->
         exists t1,
           BadgeClass.alignment_items_setter value t = Ok t1
           /\ exists t2,
                BadgeClass.alignment_items_setter value (committed t1) = Ok t2
                /\ no_net_change t1 t2)
  /\ (forall (value : option (list string)) (t : Table BadgeClassTag.t),
         wf_table t ->
         no_net_change
           (BadgeClass.tag_items_setter value t)
           (BadgeClass.tag_items_setter value
              (committed (BadgeClass.tag_items_setter value t))))
  /\ (forall (value : list StaffData) (t t1 : Table IssuerStaff.t),
         wf_table t ->
         Issuer.staff_items_setter value t = Ok t1 ->
         exists t2,
           Issuer.staff_items_setter value (committed t1) = Ok t2
           /\ no_net_change t1 t2).
Proof.
  split; [|split; [|split; [|split]]].
  - intros O Obj value o o1 Hlaw Hwf Hnd Hrun.
    assert (exists v,
               (forall o : O,
                   BaseOpenBadgeObjectModel.extension_items_setter value o
                   = BaseOpenBadgeObjectModel.extension_items_setter (Some v) o)
               /\ NoDup (map fst v)) as [v [Hv Hndv]].
    { destruct value as [v|].
      - exists v. split; [reflexivity|]. apply Hnd. reflexivity.
      - exists []. split; [reflexivity|]. constructor. }
    rewrite Hv in Hrun. rewrite Hv.
    apply (extension_items_setter_twice v o o1 Hlaw Hwf Hndv Hrun).
  - intros env value st st1 Hwf Hrun.
    apply (evidence_items_setter_twice env value st st1 Hwf Hrun).
  - intros value t Hwf Hc.
    assert (exists v,
               (forall t, BadgeClass.alignment_items_setter value t
                          = BadgeClass.alignment_items_setter (Some v) t)
               /\ forallb BadgeClassAlignment.complete v = true) as [v [Hv Hcv]].
    { destruct value as [v|]; [exists v | exists []]; split;
        first [reflexivity | exact Hc]. }
    destruct (alignment_items_setter_twice v t Hwf Hcv) as [t1 [H1 H2]].
    exists t1. rewrite !Hv. split; [exact H1|].
    exists (committed t1). split; [exact H2 | apply no_net_change_committed].
  - intros value t Hwf. rewrite (tag_items_setter_twice value t Hwf).
    apply no_net_change_committed.
  - intros value t t1 Hwf Hrun. exists (committed t1).
    split; [|apply no_net_change_committed].
    apply (staff_items_setter_twice value t t1 Hwf Hrun).
Qed.

Lemma extension_table_wf : wf_table Demo.extension_table.
Proof.
  split.
  - simpl. repeat constructor; simpl; intuition discriminate.
  - simpl. repeat constructor.
Defined.

Lemma evidence_table_wf : wf_table Demo.evidence_table.
Proof.
  split.
  - simpl. repeat constructor; simpl; intuition discriminate.
  - simpl. repeat constructor.
Defined.

Lemma alignment_table_wf : wf_table Demo.alignment_table.
Proof.
  split.
  - simpl. repeat constructor; simpl; intuition discriminate.
  - simpl. repeat constructor.
Defined.

Lemma tag_table_wf : wf_table Demo.tag_table.
Proof.
  split.
  - simpl. repeat constructor; simpl; intuition discriminate.
  - simpl. repeat constructor.
Defined.

Lemma empty_table_wf {R : Type} : wf_table (@empty_table R).
Proof. split; simpl; constructor. Defined.

Lemma sub_document_setters_idempotent_witness :
  (exists o1,
      BaseOpenBadgeObjectModel.extension_items_setter
        (H := BadgeInstance.Object Demo.env)
        (Some [("extensions:OrgExt", JStr "new"); ("extensions:Fresh", JNull)])
        (BadgeInstance.with_self Demo.state
           (BadgeInstance.set_extensions Demo.extension_table Demo.assertion)) = Ok o1
      /\ map fst (rows (BadgeInstance.extensions (BadgeInstance.self o1))) = [1; 3]
      /\ exists o2,
           BaseOpenBadgeObjectModel.extension_items_setter
             (H := BadgeInstance.Object Demo.env)
             (Some [("extensions:OrgExt", JStr "new"); ("extensions:Fresh", JNull)])
             (BadgeInstance.with_self o1
                (BadgeInstance.set_extensions
                   (committed (BadgeInstance.extensions (BadgeInstance.self o1)))
                   (BadgeInstance.self o1)))
           = Ok o2
           /\ no_net_change (BadgeInstance.extensions (BadgeInstance.self o1))
                (BadgeInstance.extensions (BadgeInstance.self o2)))
  /\ (exists st1,
         BadgeInstance.evidence_items_setter Demo.env
           [{| BadgeInstanceEvidence.evidence_url := Some "https://e.example/1";
               BadgeInstanceEvidence.narrative := None |}]
           Demo.new_state = Ok st1
         /\ BadgeInstance.pk (BadgeInstance.self st1) = Some 100
         /\ map fst (rows (BadgeInstance.evidence (BadgeInstance.self st1))) = [1]
         /\ exists st2,
              BadgeInstance.evidence_items_setter Demo.env
                [{| BadgeInstanceEvidence.evidence_url := Some "https://e.example/1";
                    BadgeInstanceEvidence.narrative := None |}]
                (BadgeInstance.with_evidence st1
                   (committed (BadgeInstance.evidence (BadgeInstance.self st1))))
              = Ok st2
              /\ no_net_change (BadgeInstance.evidence (BadgeInstance.self st1))
                   (BadgeInstance.evidence (BadgeInstance.self st2)))
  /\ (exists t1,
         BadgeClass.alignment_items_setter (Some [Demo.alignment])
           Demo.alignment_table = Ok t1
         /\ map fst (rows t1) = [5]
         /\ exists t2,
              BadgeClass.alignment_items_setter (Some [Demo.alignment]) (committed t1)
              = Ok t2
              /\ no_net_change t1 t2)
  /\ map fst (rows (BadgeClass.tag_items_setter (Some ["rust"; "coq"])
                      Demo.tag_table)) = [1; 3]
  /\ no_net_change
       (BadgeClass.tag_items_setter (Some ["rust"; "coq"]) Demo.tag_table)
       (BadgeClass.tag_items_setter (Some ["rust"; "coq"])
          (committed (BadgeClass.tag_items_setter (Some ["rust"; "coq"])
                        Demo.tag_table)))
  /\ (exists t1,
         Issuer.staff_items_setter
           [{| cached_user := 9; staff_role := IssuerStaff.ROLE_EDITOR |}]
           Demo.staff_table = Ok t1
         /\ exists t2,
              Issuer.staff_items_setter
                [{| cached_user := 9; staff_role := IssuerStaff.ROLE_EDITOR |}]
                (committed t1) = Ok t2
              /\ no_net_change t1 t2).
Proof.
  pose proof sub_document_setters_idempotent as [Hext [Hev [Hal [Htag Hstaff]]]].
  split.
  { destruct (BaseOpenBadgeObjectModel.extension_items_setter
                (H := BadgeInstance.Object Demo.env)
                (Some [("extensions:OrgExt", JStr "new"); ("extensions:Fresh", JNull)])
                (BadgeInstance.with_self Demo.state
                   (BadgeInstance.set_extensions Demo.extension_table Demo.assertion)))
      as [o1|e] eqn:E1; [|vm_compute in E1; discriminate].
    exists o1. split; [reflexivity|].
    assert (forall v,
               Some [("extensions:OrgExt", JStr "new"); ("extensions:Fresh", JNull)]
               = Some v -> NoDup (map fst v)) as Hnd.
    { intros v Hv. injection Hv as <-. simpl.
      repeat constructor; simpl; intuition discriminate. }
    destruct (Hext BadgeInstance.State (BadgeInstance.Object Demo.env) _
                (BadgeInstance.with_self Demo.state
                   (BadgeInstance.set_extensions Demo.extension_table Demo.assertion))
                o1 (BadgeInstance_Object_lawful Demo.env) extension_table_wf Hnd E1)
      as [o2 H2].
    vm_compute in E1. injection E1 as E1. subst o1.
    split; [reflexivity|]. exists o2. exact H2. }
  split.
  { destruct (BadgeInstance.evidence_items_setter Demo.env
                [{| BadgeInstanceEvidence.evidence_url := Some "https://e.example/1";
                    BadgeInstanceEvidence.narrative := None |}]
                Demo.new_state) as [st1|e] eqn:E1; [|vm_compute in E1; discriminate].
    exists st1. split; [reflexivity|].
    destruct (Hev Demo.env _ Demo.new_state st1 empty_table_wf E1) as [st2 H2].
    vm_compute in E1. injection E1 as E1. subst st1.
    split; [reflexivity|]. split; [reflexivity|]. exists st2. exact H2. }
  split.
  { destruct (Hal (Some [Demo.alignment]) _ alignment_table_wf eq_refl)
      as [t1 [H1 H2]].
    exists t1. split; [exact H1|]. split; [|exact H2].
    vm_compute in H1. injection H1 as <-. reflexivity. }
  split; [reflexivity|].
  split; [apply (Htag _ _ tag_table_wf)|].
  eexists. split; [reflexivity|].
  apply (Hstaff _ Demo.staff_table _ staff_table_wf). reflexivity.
Defined.

(** * Further properties

    What the setters leave, what the builders write under the keys that
    depend on the version, and what saving, revoking and re-baking do to
    the document of an assertion. *)


(** ** The rows a setter leaves *)

Lemma filter_filter_and {A : Type} (f g : A -> bool) (l : list A) :
  filter f (filter g l) = filter (fun x => g x && f x) l.
Proof.
  induction l as [|a l IH]; simpl.
  - reflexivity.
  - destruct (g a); simpl; [destruct (f a)|]; rewrite IH; reflexivity.
Qed.

(** The rows the "remove old" loop leaves, as one filter. *)
Lemma remove_old_loop_filter {R K : Type} (mem : K -> list K -> bool)
  (row_key : nat * R -> K) (N : list K) (t : Table R) :
  NoDup (map fst (rows t)) ->
  rows (remove_old_loop mem row_key N (all t) t)
  = filter (fun x => mem (row_key x) N) (rows t).
Proof.
  intros Hnd.
  assert (forall (snapshot : list (nat * R)) (t0 : Table R),
             rows (remove_old_loop mem row_key N snapshot t0)
             = filter
                 (fun y => negb (existsb
                                   (fun x => negb (mem (row_key x) N)
                                             && Nat.eqb (fst x) (fst y)) snapshot))
                 (rows t0)) as Hgen.
  { unfold remove_old_loop.
    induction snapshot as [|x snapshot IH]; intros t0; simpl.
    - symmetry. apply filter_true.
    - rewrite IH. destruct (mem (row_key x) N); simpl.
      + reflexivity.
      + rewrite filter_filter_and. apply filter_ext. intros y.
        rewrite (Nat.eqb_sym (fst x) (fst y)).
        destruct (Nat.eqb (fst y) (fst x)); reflexivity. }
  rewrite Hgen. unfold all. apply filter_ext_in. intros y Hy.
  destruct (mem (row_key y) N) eqn:Em.
  - apply negb_true_iff. apply not_true_is_false. intros Hex.
    apply existsb_exists in Hex. destruct Hex as [x [Hx Hc]].
    apply andb_true_iff in Hc. destruct Hc as [Hm Hpk].
    apply Nat.eqb_eq in Hpk.
    assert (x = y) by (apply (NoDup_fst_inj (rows t)); assumption).
    subst x. rewrite Em in Hm. discriminate.
  - apply negb_false_iff. apply existsb_exists. exists y.
    split; [exact Hy|]. rewrite Em, Nat.eqb_refl. reflexivity.
Qed.

(** The "add missing" loop of a setter that adds with [create]: one new
    row for every descriptor whose key was not found, in the order of the
    list, with the next primary keys. *)
Lemma create_loop_rows {R D K : Type} (mem : K -> list K -> bool)
  (key : D -> K) (mk : D -> R) (E : list K) (value : list D) :
  forall t : Table R,
    let new := filter (fun d => negb (mem (key d) E)) value in
    let ta := fold_left
                (fun tbl d => if negb (mem (key d) E) then create (mk d) tbl else tbl)
                value t in
    rows ta = (rows t ++ combine (seq (next_pk t) (length new)) (map mk new))%list
    /\ next_pk ta = next_pk t + length new.
Proof.
  induction value as [|d value IH]; intros t; simpl.
  - rewrite app_nil_r. split; [reflexivity | lia].
  - destruct (negb (mem (key d) E)); simpl.
    + destruct (IH (create (mk d) t)) as [Hr Hn]. simpl in Hr, Hn.
      rewrite Hr, Hn. split; [|lia].
      rewrite <- app_assoc. reflexivity.
    + apply IH.
Qed.

Lemma create_loop_wf {R D K : Type} (mem : K -> list K -> bool)
  (key : D -> K) (mk : D -> R) (E : list K) (value : list D) :
  forall t : Table R,
    wf_table t ->
    wf_table (fold_left
                (fun tbl d => if negb (mem (key d) E) then create (mk d) tbl else tbl)
                value t).
Proof.
  induction value as [|d value IH]; intros t Hwf; simpl.
  - exact Hwf.
  - apply IH. destruct (negb (mem (key d) E)); [apply wf_table_create|]; exact Hwf.
Qed.

(** A setter that adds with [create]: the rows it leaves are, among the
    rows it found followed by one new row for every descriptor whose key
    it did not find, those whose key is wanted. *)
Lemma create_setter_rows_all {R D K : Type} (mem : K -> list K -> bool)
  (row_key : nat * R -> K) (key : D -> K) (mk : D -> R)
  (E N : list K) (value : list D) (t : Table R) :
  wf_table t ->
  let new := filter (fun d => negb (mem (key d) E)) value in
  let ta := fold_left
              (fun tbl d => if negb (mem (key d) E) then create (mk d) tbl else tbl)
              value t in
  rows (fold_left
          (fun tbl x => if negb (mem (row_key x) N) then delete (fst x) tbl else tbl)
          (all ta) ta)
  = filter (fun x => mem (row_key x) N)
      (rows t ++ combine (seq (next_pk t) (length new)) (map mk new))%list.
Proof.
  intros Hwf new ta.
  pose proof (create_loop_wf mem key mk E value t Hwf) as Hwfa.
  destruct (create_loop_rows mem key mk E value t) as [Hrows _].
  fold ta in Hwfa, Hrows. fold new in Hrows.
  change (rows (remove_old_loop mem row_key N (all ta) ta)
          = filter (fun x => mem (row_key x) N)
              (rows t ++ combine (seq (next_pk t) (length new)) (map mk new))%list).
  rewrite remove_old_loop_filter by apply Hwfa.
  rewrite Hrows. reflexivity.
Qed.

(** When the key of a new row is the key of its descriptor, every new row
    stays. *)
Lemma create_setter_rows {R D K : Type} (mem : K -> list K -> bool)
  (row_key : nat * R -> K) (key : D -> K) (mk : D -> R)
  (E N : list K) (value : list D) (t : Table R) :
  (forall pk d, In d value -> row_key (pk, mk d) = key d) ->
  (forall d, In d value -> mem (key d) N = true) ->
  wf_table t ->
  let new := filter (fun d => negb (mem (key d) E)) value in
  let ta := fold_left
              (fun tbl d => if negb (mem (key d) E) then create (mk d) tbl else tbl)
              value t in
  rows (fold_left
          (fun tbl x => if negb (mem (row_key x) N) then delete (fst x) tbl else tbl)
          (all ta) ta)
  = (filter (fun x => mem (row_key x) N) (rows t)
     ++ combine (seq (next_pk t) (length new)) (map mk new))%list.
Proof.
  intros Hmk HN Hwf new ta.
  unfold ta. rewrite (create_setter_rows_all mem row_key key mk E N value t Hwf).
  fold new. rewrite filter_app. f_equal.
  apply forallb_filter_id. apply forallb_forall. intros [pk r] Hx.
  apply in_combine_r in Hx. apply in_map_iff in Hx.
  destruct Hx as [d [<- Hd]]. apply filter_In in Hd.
  rewrite Hmk by apply Hd. apply HN. apply Hd.
Qed.

(** X1.  [tag_items], the setter, on tags with distinct primary keys: the
    tags it leaves are the tags it found whose name is in the list, with
    their primary keys and in their order, followed by one new tag for
    every entry of the list whose name it did not find, in the order of
    the list and with the next primary keys.  A name that was not found
    and stands twice in the list gets two rows; [None] stands for the
    empty list and removes every tag. *)
Theorem tag_items_setter_rows :
  forall (value : option (list string)) (t : Table BadgeClassTag.t),
    wf_table t ->
    let wanted := match value with Some v => v | None => [] end in
    let found := map (fun x => BadgeClassTag.name (snd x)) (rows t) in
    let new := filter (fun tg => negb (mem_str tg found)) wanted in
    rows (BadgeClass.tag_items_setter value t)
    = (filter (fun x => mem_str (BadgeClassTag.name (snd x)) wanted) (rows t)
       ++ combine (seq (next_pk t) (length new))
            (map (fun tg => {| BadgeClassTag.name := tg |}) new))%list.
Proof.
  intros value t Hwf wanted found new.
  unfold BadgeClass.tag_items_setter. fold wanted.
  apply (create_setter_rows mem_str (fun x => BadgeClassTag.name (snd x))
           (fun tg : string => tg) (fun tg => {| BadgeClassTag.name := tg |})
           found wanted wanted t).
  - intros pk d _. reflexivity.
  - intros d Hd. apply mem_str_true_iff. exact Hd.
  - exact Hwf.
Qed.

Lemma tag_items_setter_rows_witness :
  rows (BadgeClass.tag_items_setter (Some ["rust"; "coq"; "coq"]) Demo.tag_table)
  = [(1, {| BadgeClassTag.name := "rust" |});
     (3, {| BadgeClassTag.name := "coq" |});
     (4, {| BadgeClassTag.name := "coq" |})]
  /\ rows (BadgeClass.tag_items_setter None Demo.tag_table) = [].
Proof.
  split.
  - exact (tag_items_setter_rows (Some ["rust"; "coq"; "coq"]) Demo.tag_table
             tag_table_wf).
  - exact (tag_items_setter_rows None Demo.tag_table tag_table_wf).
Defined.

(** The "add missing" loop of the alignment setter: [create] refuses a
    descriptor that gives [None] for a required column. *)
Lemma alignment_add_missing (E : list string)
  (value : list BadgeClassAlignment.Data) :
  forall tbl : Table BadgeClassAlignment.t,
    foldM (fun tbl align =>
             if negb (mem_str (BadgeClass._identity align) E)
             then BadgeClassAlignment.manager_create align tbl else Ok tbl)
      value tbl
    = if forallb BadgeClassAlignment.storable
           (filter (fun a => negb (mem_str (BadgeClass._identity a) E)) value)
      then Ok (fold_left
                 (fun tbl d =>
                    if negb (mem_str (BadgeClass._identity d) E)
                    then create (BadgeClassAlignment.new_row d) tbl else tbl)
                 value tbl)
      else Raise IntegrityError.
Proof.
  induction value as [|d value IH]; intros tbl; simpl; [reflexivity|].
  destruct (negb (mem_str (BadgeClass._identity d) E)); simpl.
  - rewrite manager_create_storable.
    destruct (BadgeClassAlignment.storable d); simpl; [apply IH | reflexivity].
  - apply IH.
Qed.

(** X2.  [alignment_items], the setter, on alignments with distinct
    primary keys.  It raises [IntegrityError] when a descriptor whose
    identity it did not find gives [None] for [target_name] or
    [target_url].  Else it ends normally, and the rows it leaves are,
    among the rows it found followed by one new row for every descriptor
    whose identity it did not find (with the next primary keys, a
    required column that was left out empty), those whose identity (the
    five columns printed and joined) is the identity of a descriptor of
    the list.  When every descriptor gives both required columns as
    strings, these are the rows found whose identity is listed, as they
    were, followed by all the new rows. *)
Theorem alignment_items_setter_rows :
  forall (value : option (list BadgeClassAlignment.Data))
         (t : Table BadgeClassAlignment.t),
    wf_table t ->
    let wanted := match value with Some v => v | None => [] end in
    let found := map (fun a => BadgeClass._obj_identity (snd a)) (rows t) in
    let new := filter (fun a => negb (mem_str (BadgeClass._identity a) found)) wanted in
    let listed := fun a : nat * BadgeClassAlignment.t =>
                    mem_str (BadgeClass._obj_identity (snd a))
                      (map BadgeClass._identity wanted) in
    let new_rows := combine (seq (next_pk t) (length new))
                      (map BadgeClassAlignment.new_row new) in
    (forallb BadgeClassAlignment.storable new = false ->
     BadgeClass.alignment_items_setter value t = Raise IntegrityError)
    /\ (forallb BadgeClassAlignment.storable new = true ->
        exists t1,
          BadgeClass.alignment_items_setter value t = Ok t1
          /\ rows t1 = filter listed (rows t ++ new_rows)%list
          /\ (forallb BadgeClassAlignment.complete wanted = true ->
              rows t1 = (filter listed (rows t) ++ new_rows)%list)).
Proof.
  intros value t Hwf wanted found new listed new_rows.
  assert (BadgeClass.alignment_items_setter value t
          = BadgeClass.alignment_items_setter (Some wanted) t) as ->
    by (destruct value; reflexivity).
  unfold BadgeClass.alignment_items_setter.
  rewrite alignment_add_missing. unfold all. fold found. fold new.
  split; intros Hst; rewrite Hst; simpl bind; [reflexivity|].
  eexists. split; [reflexivity|]. split.
  - apply (create_setter_rows_all mem_str
             (fun a => BadgeClass._obj_identity (snd a))
             BadgeClass._identity BadgeClassAlignment.new_row
             found (map BadgeClass._identity wanted) wanted t Hwf).
  - intros Hc.
    apply (create_setter_rows mem_str
             (fun a => BadgeClass._obj_identity (snd a))
             BadgeClass._identity BadgeClassAlignment.new_row
             found (map BadgeClass._identity wanted) wanted t).
    + intros pk d Hd. simpl. symmetry. apply identity_complete.
      rewrite forallb_forall in Hc. apply Hc. exact Hd.
    + intros d Hd. apply mem_str_true_iff. apply in_map. exact Hd.
    + exact Hwf.
Qed.

Lemma alignment_items_setter_rows_witness :
  (exists t1,
      BadgeClass.alignment_items_setter
        (Some [Demo.alignment; Demo.alignment_without_url]) Demo.alignment_table
      = Ok t1
      /\ rows t1 = [(5, BadgeClassAlignment.new_row Demo.alignment)])
  /\ exists t1,
       BadgeClass.alignment_items_setter (Some [Demo.alignment]) Demo.alignment_table
       = Ok t1
       /\ rows t1 = [(5, BadgeClassAlignment.new_row Demo.alignment)].
Proof.
  split.
  - destruct (proj2 (alignment_items_setter_rows
                       (Some [Demo.alignment; Demo.alignment_without_url])
                       Demo.alignment_table alignment_table_wf) eq_refl)
      as [t1 [Hrun [Hrows _]]].
    exists t1. split; [exact Hrun | exact Hrows].
  - destruct (proj2 (alignment_items_setter_rows (Some [Demo.alignment])
                       Demo.alignment_table alignment_table_wf) eq_refl)
      as [t1 [Hrun [_ Hrows]]].
    exists t1. split; [exact Hrun | exact (Hrows eq_refl)].
Defined.

(** What a run of the shared shape leaves: a row for every key asked for,
    no row with another key, and the rows found with a key asked for as
    they were. *)
Lemma reconcile_result {R D K : Type} (mem : K -> list K -> bool)
  (row_key : nat * R -> K) (key : D -> K) (add : D -> Table R -> Exc (Table R))
  (value : list D) (t t1 : Table R) :
  (forall k l, mem k l = true <-> In k l) ->
  (forall d t t', wf_table t -> add d t = Ok t' -> wf_table t') ->
  (forall d t t', wf_table t -> add d t = Ok t' ->
                  exists x, In x (rows t') /\ row_key x = key d) ->
  (forall d t t' x, wf_table t -> add d t = Ok t' -> In x (rows t) ->
                    row_key x <> key d -> In x (rows t')) ->
  wf_table t ->
  reconcile mem row_key key add value t = Ok t1 ->
  (forall k, In k (map row_key (rows t1)) <-> In k (map key value))
  /\ (forall x, In x (rows t) -> In (row_key x) (map key value) -> In x (rows t1)).
Proof.
  intros Hmem Hwfadd Hhas Hframe Hwf Hrun. unfold reconcile in Hrun.
  destruct (add_missing_loop mem key add (map row_key (all t)) value t)
    as [ta|e] eqn:Eadd; simpl in Hrun; [|discriminate].
  injection Hrun as <-.
  destruct (add_missing_loop_spec mem Hmem row_key key add Hwfadd Hhas Hframe
              (map row_key (all t)) value t ta (map row_key (all t)) Hwf)
    as [Hwfa [_ Hv]].
  { intros k Hk. apply in_map_iff in Hk. destruct Hk as [x [Hx Hin]].
    exists x. split; [exact Hin | exact Hx]. }
  { intros d _ Hm. apply Hmem. exact Hm. }
  { exact Eadd. }
  split.
  - intros k. split.
    + intros Hk. apply in_map_iff in Hk. destruct Hk as [x [<- Hx]].
      apply (remove_old_loop_all mem row_key (map key value) ta x Hwfa) in Hx.
      apply Hmem. apply Hx.
    + intros Hk. destruct (Hv k Hk) as [x [Hx Hkx]].
      apply in_map_iff. exists x. split; [exact Hkx|].
      apply (remove_old_loop_all mem row_key (map key value) ta x Hwfa).
      split; [exact Hx|]. apply Hmem. rewrite Hkx. exact Hk.
  - intros x Hx Hk.
    apply (remove_old_loop_all mem row_key (map key value) ta x Hwfa).
    split; [|apply Hmem; exact Hk].
    apply (add_missing_loop_frame mem row_key key add Hwfadd Hframe
             (map row_key (all t)) value t ta x Hwf Eadd Hx).
    apply Hmem. apply in_map. exact Hx.
Qed.


(** ** The evidence setter *)

Lemma update_evidence_is_reconcile (value : list BadgeInstanceEvidence.t)
  (t : Table BadgeInstanceEvidence.t) :
  BadgeInstance.update_evidence value t
  = reconcile mem_str evidence_key evidence_data_key evidence_add value t.
Proof. apply update_evidence_reconcile. Qed.

Lemma opt_eqb_refl (a : option string) : opt_eqb a a = true.
Proof. destruct a as [x|]; simpl; [apply String.eqb_refl | reflexivity]. Qed.

Lemma evidence_lookup_eq (d r : BadgeInstanceEvidence.t) :
  evidence_lookup d r = true -> r = d.
Proof.
  unfold evidence_lookup. intros H. apply andb_true_iff in H. destruct H as [Hn Hu].
  apply opt_eqb_eq in Hn. apply opt_eqb_eq in Hu.
  destruct r, d. simpl in *. subst. reflexivity.
Qed.

Lemma evidence_lookup_refl (d : BadgeInstanceEvidence.t) : evidence_lookup d d = true.
Proof. unfold evidence_lookup. rewrite !opt_eqb_refl. reflexivity. Qed.

Lemma evidence_add_cases (d : BadgeInstanceEvidence.t)
  (t : Table BadgeInstanceEvidence.t) :
  (evidence_add d t = Ok (create d t)
   /\ filter (fun x => evidence_lookup d (snd x)) (rows t) = [])
  \/ (evidence_add d t = Ok t /\ exists pk, In (pk, d) (rows t))
  \/ (evidence_add d t = Raise MultipleObjectsReturned
      /\ 2 <= length (filter (fun x => evidence_lookup d (snd x)) (rows t))).
Proof.
  unfold evidence_add.
  destruct (get_or_create_cases (evidence_lookup d)
              {| BadgeInstanceEvidence.evidence_url := BadgeInstanceEvidence.evidence_url d;
                 BadgeInstanceEvidence.narrative := BadgeInstanceEvidence.narrative d |} t)
    as [[Hg Hnone]|[[pk [r [Hg [_ [Hin Hm]]]]]|[Hg Htwo]]]; rewrite Hg; simpl.
  - left. split; [|exact Hnone]. destruct d; reflexivity.
  - right. left. split; [reflexivity|]. exists pk.
    apply evidence_lookup_eq in Hm. subst r. exact Hin.
  - right. right. split; [reflexivity | exact Htwo].
Qed.

Lemma evidence_add_wf (d : BadgeInstanceEvidence.t)
  (t t' : Table BadgeInstanceEvidence.t) :
  wf_table t -> evidence_add d t = Ok t' -> wf_table t'.
Proof.
  intros Hwf Hadd.
  destruct (evidence_add_cases d t) as [[Hg _]|[[Hg _]|[Hg _]]];
    rewrite Hg in Hadd; try discriminate; injection Hadd as <-.
  - apply wf_table_create. exact Hwf.
  - exact Hwf.
Qed.

Lemma evidence_add_has (d : BadgeInstanceEvidence.t)
  (t t' : Table BadgeInstanceEvidence.t) :
  wf_table t -> evidence_add d t = Ok t' ->
  exists x, In x (rows t') /\ evidence_key x = evidence_data_key d.
Proof.
  intros _ Hadd.
  destruct (evidence_add_cases d t) as [[Hg _]|[[Hg [pk Hin]]|[Hg _]]];
    rewrite Hg in Hadd; try discriminate; injection Hadd as <-.
  - exists (next_pk t, d). split; [|reflexivity].
    simpl. apply in_or_app. right. left. reflexivity.
  - exists (pk, d). split; [exact Hin | reflexivity].
Qed.

Lemma evidence_add_frame (d : BadgeInstanceEvidence.t)
  (t t' : Table BadgeInstanceEvidence.t) (x : nat * BadgeInstanceEvidence.t) :
  wf_table t -> evidence_add d t = Ok t' -> In x (rows t) ->
  evidence_key x <> evidence_data_key d -> In x (rows t').
Proof.
  intros _ Hadd Hx _.
  destruct (evidence_add_cases d t) as [[Hg _]|[[Hg _]|[Hg _]]];
    rewrite Hg in Hadd; try discriminate; injection Hadd as <-.
  - simpl. apply in_or_app. left. exact Hx.
  - exact Hx.
Qed.

(** While rows are added, no descriptor whose key was not found at the
    start has two rows, and every row is a row found at the start or a
    descriptor of the list; so [get_or_create] finds at most one row. *)
Lemma evidence_add_missing_total (E : list string)
  (value : list BadgeInstanceEvidence.t) :
  forall (t0 t : Table BadgeInstanceEvidence.t),
    wf_table t ->
    (forall d, mem_str (evidence_data_key d) E = false ->
               length (filter (fun x => evidence_lookup d (snd x)) (rows t)) <= 1) ->
    (forall x, In x (rows t) -> In x (rows t0) \/ In (snd x) value) ->
    exists ta,
      add_missing_loop mem_str evidence_data_key evidence_add E value t = Ok ta
      /\ (forall x, In x (rows ta) -> In x (rows t0) \/ In (snd x) value).
Proof.
  unfold add_missing_loop.
  induction value as [|d value IH]; intros t0 t Hwf Hone Hsrc.
  - exists t. split; [reflexivity | exact Hsrc].
  - rewrite foldM_cons.
    destruct (mem_str (evidence_data_key d) E) eqn:Em; simpl.
    + destruct (IH (committed t) t Hwf Hone) as [ta [Hrun Hta]].
      { intros x Hx. left. exact Hx. }
      exists ta. split; [exact Hrun|].
      intros x Hx. destruct (Hta x Hx) as [H|H].
      * destruct (Hsrc x H) as [H'|H']; [left; exact H' | right; exact H'].
      * right. right. exact H.
    + destruct (evidence_add_cases d t) as [[Hg Hnone]|[[Hg _]|[Hg Htwo]]];
        rewrite Hg; simpl.
      * destruct (IH (committed (create d t)) (create d t)) as [ta [Hrun Hta]].
        { apply wf_table_create. exact Hwf. }
        { intros d' Hd'. simpl. rewrite filter_app, length_app. simpl.
          destruct (evidence_lookup d' d) eqn:El; simpl.
          - apply evidence_lookup_eq in El. subst d'. rewrite Hnone. simpl. lia.
          - specialize (Hone d' Hd'). lia. }
        { intros x Hx. left. exact Hx. }
        exists ta. split; [exact Hrun|].
        intros x Hx. destruct (Hta x Hx) as [H|H].
        -- simpl in H. apply in_app_or in H. destruct H as [H|[H|[]]].
           ++ destruct (Hsrc x H) as [H'|H']; [left; exact H' | right; exact H'].
           ++ subst x. right. left. reflexivity.
        -- right. right. exact H.
      * destruct (IH (committed t) t Hwf Hone) as [ta [Hrun Hta]].
        { intros x Hx. left. exact Hx. }
        exists ta. split; [exact Hrun|].
        intros x Hx. destruct (Hta x Hx) as [H|H].
        -- destruct (Hsrc x H) as [H'|H']; [left; exact H' | right; exact H'].
        -- right. right. exact H.
      * exfalso. specialize (Hone d Em). lia.
Qed.

(** The two loops never raise ([get_or_create] finds at most one row,
    whatever rows and whatever list it is given); afterwards the keys of
    the rows are the keys of the descriptors of the list; a row found
    with such a key stays as it was; and every row left is a row found or
    one of the descriptors. *)
Lemma update_evidence_result (value : list BadgeInstanceEvidence.t)
  (t : Table BadgeInstanceEvidence.t) :
  wf_table t ->
  exists t1,
    BadgeInstance.update_evidence value t = Ok t1
    /\ (forall k, In k (map evidence_key (rows t1))
                  <-> In k (map evidence_data_key value))
    /\ (forall x, In x (rows t) ->
                  In (evidence_key x) (map evidence_data_key value) ->
                  In x (rows t1))
    /\ (forall x, In x (rows t1) -> In x (rows t) \/ In (snd x) value).
Proof.
  intros Hwf.
  destruct (evidence_add_missing_total (map evidence_key (all t)) value t t Hwf)
    as [ta [Hadd Hsrc]].
  { intros d Hd.
    assert (filter (fun x => evidence_lookup d (snd x)) (rows t) = []) as ->;
      [|simpl; lia].
    destruct (filter _ (rows t)) as [|x l] eqn:E; [reflexivity|].
    assert (In x (filter (fun x => evidence_lookup d (snd x)) (rows t))) as Hin
      by (rewrite E; left; reflexivity).
    apply filter_In in Hin. destruct Hin as [Hin Hx].
    apply evidence_lookup_eq in Hx.
    apply mem_str_false_iff in Hd. exfalso. apply Hd.
    apply in_map_iff. exists x. split; [|exact Hin].
    unfold evidence_key, evidence_data_key. rewrite Hx. reflexivity. }
  { intros x Hx. left. exact Hx. }
  assert (BadgeInstance.update_evidence value t
          = Ok (remove_old_loop mem_str evidence_key (map evidence_data_key value)
                  (all ta) ta)) as Hrun.
  { rewrite update_evidence_is_reconcile. unfold reconcile.
    rewrite Hadd. reflexivity. }
  eexists. split; [exact Hrun|].
  rewrite update_evidence_is_reconcile in Hrun.
  destruct (reconcile_result mem_str evidence_key evidence_data_key evidence_add
              value t _ mem_str_true_iff evidence_add_wf evidence_add_has
              evidence_add_frame Hwf Hrun) as [Hkeys Hkept].
  split; [exact Hkeys|]. split; [exact Hkept|].
  intros x Hx. apply Hsrc.
  apply remove_old_loop_rows in Hx. apply Hx.
Qed.

(** The setter: [save] for an assertion without primary key, then the two
    loops on the evidence rows, which [save] has not touched. *)
Lemma evidence_items_setter_unfold (env : Env) (value : list BadgeInstanceEvidence.t)
  (st : BadgeInstance.State) :
  BadgeInstance.evidence_items_setter env value st
  = bind (if BaseOpenBadgeObjectModel.unsaved (BadgeInstance.pk (BadgeInstance.self st))
          then BadgeInstance.exec (BadgeInstance.save env) st else Ok st)
      (fun st' =>
         bind (BadgeInstance.update_evidence value
                 (BadgeInstance.evidence (BadgeInstance.self st)))
           (fun t1 => Ok (BadgeInstance.with_evidence st' t1))).
Proof.
  unfold BadgeInstance.evidence_items_setter, BadgeInstance.update_evidence.
  destruct (if BaseOpenBadgeObjectModel.unsaved (BadgeInstance.pk (BadgeInstance.self st))
            then BadgeInstance.exec (BadgeInstance.save env) st else Ok st)
    as [st'|e] eqn:Es; simpl bind; [|reflexivity].
  assert (BadgeInstance.evidence (BadgeInstance.self st')
          = BadgeInstance.evidence (BadgeInstance.self st)) as ->.
  { destruct (BadgeInstance.pk (BadgeInstance.self st)); simpl in Es.
    - injection Es as <-. reflexivity.
    - apply (save_keeps_children env st st' Es). }
  destruct (foldM _ value _); reflexivity.
Qed.

(** X3.  [evidence_items], the setter, on an assertion whose evidence
    rows have distinct primary keys.  An assertion without primary key
    is saved first, and what [save] raises the setter raises.  Else the
    setter ends normally ([get_or_create] finds at most one row, whatever
    rows and whatever list it is given) with the assertion as it was, or
    as [save] left it, and with new evidence rows: their keys (narrative
    and URL joined) are the keys of the descriptors of the list; a row
    found with such a key stays as it was; and every row left is a row
    found or one of the descriptors. *)
Theorem evidence_items_setter_result :
  forall (env : Env) (value : list BadgeInstanceEvidence.t)
         (st : BadgeInstance.State),
    wf_table (BadgeInstance.evidence (BadgeInstance.self st)) ->
    let t := BadgeInstance.evidence (BadgeInstance.self st) in
    let result := fun (st' : BadgeInstance.State) =>
      exists t1,
        BadgeInstance.evidence_items_setter env value st
        = Ok (BadgeInstance.with_evidence st' t1)
        /\ (forall k, In k (map evidence_key (rows t1))
                      <-> In k (map evidence_data_key value))
        /\ (forall x, In x (rows t) ->
                      In (evidence_key x) (map evidence_data_key value) ->
                      In x (rows t1))
        /\ (forall x, In x (rows t1) -> In x (rows t) \/ In (snd x) value) in
    (BadgeInstance.pk (BadgeInstance.self st) <> None -> result st)
    /\ (BadgeInstance.pk (BadgeInstance.self st) = None ->
        forall st', BadgeInstance.exec (BadgeInstance.save env) st = Ok st' ->
                    BadgeInstance.pk (BadgeInstance.self st') <> None /\ result st')
    /\ (BadgeInstance.pk (BadgeInstance.self st) = None ->
        forall e, BadgeInstance.exec (BadgeInstance.save env) st = Raise e ->
                  BadgeInstance.evidence_items_setter env value st = Raise e).
Proof.
  intros env value st Hwf t result.
  destruct (update_evidence_result value t Hwf) as [t1 [Hup Hfacts]].
  split; [|split].
  - intros Hpk. exists t1. split; [|exact Hfacts].
    rewrite evidence_items_setter_unfold. fold t. rewrite Hup.
    destruct (BadgeInstance.pk (BadgeInstance.self st)); [reflexivity | contradiction].
  - intros Hpk st' Hsave. split; [apply (save_keeps_children env st st' Hsave)|].
    exists t1. split; [|exact Hfacts].
    rewrite evidence_items_setter_unfold. fold t. rewrite Hup, Hpk. simpl.
    rewrite Hsave. reflexivity.
  - intros Hpk e Hsave.
    rewrite evidence_items_setter_unfold, Hpk. simpl. rewrite Hsave. reflexivity.
Qed.

Lemma evidence_items_setter_result_witness :
  (exists t1,
      BadgeInstance.evidence_items_setter Demo.env
        [{| BadgeInstanceEvidence.evidence_url := Some "https://e.example/1";
            BadgeInstanceEvidence.narrative := None |};
         {| BadgeInstanceEvidence.evidence_url := None;
            BadgeInstanceEvidence.narrative := Some "fresh" |};
         {| BadgeInstanceEvidence.evidence_url := None;
            BadgeInstanceEvidence.narrative := Some "fresh" |}]
        (BadgeInstance.with_evidence Demo.state Demo.evidence_table)
      = Ok (BadgeInstance.with_evidence
              (BadgeInstance.with_evidence Demo.state Demo.evidence_table) t1)
      /\ In (1, {| BadgeInstanceEvidence.evidence_url := Some "https://e.example/1";
                   BadgeInstanceEvidence.narrative := None |}) (rows t1)
      /\ ~ In "stale-" (map evidence_key (rows t1)))
  /\ (exists st' t1,
         BadgeInstance.exec (BadgeInstance.save Demo.env) Demo.new_state = Ok st'
         /\ BadgeInstance.evidence_items_setter Demo.env
              [{| BadgeInstanceEvidence.evidence_url := None;
                  BadgeInstanceEvidence.narrative := Some "fresh" |}]
              Demo.new_state
            = Ok (BadgeInstance.with_evidence st' t1)
         /\ BadgeInstance.pk (BadgeInstance.self st') <> None
         /\ In "fresh-" (map evidence_key (rows t1)))
  /\ BadgeInstance.evidence_items_setter Demo.env []
       (BadgeInstance.with_self Demo.state_of_badgeclass_without_image
          (BadgeInstance.set_pk None
             (BadgeInstance.set_image None
                Demo.assertion_of_badgeclass_without_image)))
     = Raise ValueError.
Proof.
  split; [|split].
  - destruct (proj1 (evidence_items_setter_result Demo.env
                       [{| BadgeInstanceEvidence.evidence_url := Some "https://e.example/1";
                           BadgeInstanceEvidence.narrative := None |};
                        {| BadgeInstanceEvidence.evidence_url := None;
                           BadgeInstanceEvidence.narrative := Some "fresh" |};
                        {| BadgeInstanceEvidence.evidence_url := None;
                           BadgeInstanceEvidence.narrative := Some "fresh" |}]
                       (BadgeInstance.with_evidence Demo.state Demo.evidence_table)
                       evidence_table_wf))
      as [t1 [Hrun [Hkeys [Hkept _]]]]; [discriminate|].
    exists t1. split; [exact Hrun|]. split.
    + apply Hkept; simpl; left; reflexivity.
    + intros Hin. apply Hkeys in Hin. simpl in Hin.
      destruct Hin as [H|[H|[H|[]]]]; discriminate H.
  - destruct (BadgeInstance.exec (BadgeInstance.save Demo.env) Demo.new_state)
      as [st'|e] eqn:Es; [|vm_compute in Es; discriminate].
    destruct (proj1 (proj2 (evidence_items_setter_result Demo.env
                              [{| BadgeInstanceEvidence.evidence_url := None;
                                  BadgeInstanceEvidence.narrative := Some "fresh" |}]
                              Demo.new_state empty_table_wf)) eq_refl st' Es)
      as [Hpk [t1 [Hrun [Hkeys _]]]].
    exists st', t1. split; [reflexivity|]. split; [exact Hrun|].
    split; [exact Hpk|].
    apply Hkeys. left. reflexivity.
  - apply (proj2 (proj2 (evidence_items_setter_result Demo.env []
                           (BadgeInstance.with_self Demo.state_of_badgeclass_without_image
                              (BadgeInstance.set_pk None
                                 (BadgeInstance.set_image None
                                    Demo.assertion_of_badgeclass_without_image)))
                           empty_table_wf)) eq_refl).
    reflexivity.
Defined.

(** ** The extension setter and its getter *)

Lemma NoDup_map_filter {A B : Type} (f : A -> B) (p : A -> bool) (l : list A) :
  NoDup (map f l) -> NoDup (map f (filter p l)).
Proof.
  induction l as [|a l IH]; simpl; intros Hnd; [constructor|].
  inversion Hnd as [|? ? Hnotin Hnd']; subst.
  destruct (p a); simpl; [|apply IH; exact Hnd'].
  constructor; [|apply IH; exact Hnd'].
  intros Hin. apply Hnotin. apply in_map_iff in Hin.
  destruct Hin as [x [Hx Hin]]. apply filter_In in Hin.
  apply in_map_iff. exists x. split; [exact Hx | apply Hin].
Qed.

Lemma NoDup_map_inj_in {A B : Type} (f : A -> B) (l : list A) (x y : A) :
  NoDup (map f l) -> In x l -> In y l -> f x = f y -> x = y.
Proof.
  induction l as [|a l IH]; simpl; intros Hnd Hx Hy Hf; [contradiction|].
  inversion Hnd as [|? ? Hnotin Hnd']; subst.
  destruct Hx as [Hx|Hx], Hy as [Hy|Hy]; subst.
  - reflexivity.
  - exfalso. apply Hnotin. rewrite Hf. apply in_map. exact Hy.
  - exfalso. apply Hnotin. rewrite <- Hf. apply in_map. exact Hx.
  - apply IH; assumption.
Qed.

Lemma filter_at_most_one {A B : Type} (f : A -> B) (p : A -> bool) (b : B)
  (l : list A) :
  NoDup (map f l) -> (forall x, p x = true -> f x = b) ->
  length (filter p l) <= 1.
Proof.
  intros Hnd Hp.
  destruct (filter p l) as [|x [|y rest]] eqn:E; simpl; try lia.
  exfalso.
  assert (NoDup (map f (filter p l))) as Hnd' by (apply NoDup_map_filter; exact Hnd).
  rewrite E in Hnd'. simpl in Hnd'.
  inversion Hnd' as [|? ? Hnotin _]; subst. apply Hnotin. left.
  assert (In x (filter p l)) as Hx by (rewrite E; left; reflexivity).
  assert (In y (filter p l)) as Hy by (rewrite E; right; left; reflexivity).
  apply filter_In in Hx. apply filter_In in Hy.
  rewrite (Hp x (proj2 Hx)), (Hp y (proj2 Hy)). reflexivity.
Qed.

(** With one row per name, [get_or_create] by name never finds two rows,
    and a turn of the "add new" loop leaves one row per name. *)
Lemma ext_add_new_total (t : Table BaseOpenBadgeExtension.t) (touched : list nat)
  (item : string * Json) :
  wf_table t ->
  NoDup (map (fun x => BaseOpenBadgeExtension.name (snd x)) (rows t)) ->
  exists t' touched',
    BaseOpenBadgeObjectModel.add_new (t, touched) item = Ok (t', touched')
    /\ wf_table t'
    /\ NoDup (map (fun x => BaseOpenBadgeExtension.name (snd x)) (rows t')).
Proof.
  intros Hwf Hnames. destruct item as [n e].
  unfold BaseOpenBadgeObjectModel.add_new.
  destruct (get_or_create_cases
              (fun r => BaseOpenBadgeExtension.name r =? n)
              {| BaseOpenBadgeExtension.name := n;
                 BaseOpenBadgeExtension.original_json := e |} t)
    as [[Hg Hnone]|[[pk [r [Hg [_ [Hin Hm]]]]]|[Hg Htwo]]]; rewrite Hg; simpl.
  - eexists. eexists. split; [reflexivity|].
    split; [apply wf_table_create; exact Hwf|].
    unfold create. simpl. rewrite map_app. simpl. apply NoDup_app.
    + exact Hnames.
    + constructor; [intros [] | constructor].
    + intros k Hk [Heq|[]]. subst k.
      apply in_map_iff in Hk. destruct Hk as [x [Hx Hin]].
      assert (In x (filter (fun x => BaseOpenBadgeExtension.name (snd x) =? n)
                      (rows t))) as Hf.
      { apply filter_In. split; [exact Hin|]. apply String.eqb_eq. exact Hx. }
      rewrite Hnone in Hf. exact Hf.
  - eexists. eexists. split; [reflexivity|].
    split; [apply wf_table_save_row; exact Hwf|].
    unfold save_row. simpl. rewrite map_map.
    rewrite (map_ext_in _ (fun x => BaseOpenBadgeExtension.name (snd x)));
      [exact Hnames|].
    intros x Hx. destruct (Nat.eqb (fst x) pk) eqn:Epk; [|reflexivity].
    apply Nat.eqb_eq in Epk.
    assert (x = (pk, r)) as ->.
    { destruct Hwf as [Hnd _]. apply (NoDup_fst_inj (rows t)); assumption. }
    reflexivity.
  - exfalso.
    assert (length (filter (fun x => BaseOpenBadgeExtension.name (snd x) =? n)
                      (rows t)) <= 1) as H1.
    { apply (filter_at_most_one
               (fun x : nat * BaseOpenBadgeExtension.t =>
                  BaseOpenBadgeExtension.name (snd x))
               (fun x => BaseOpenBadgeExtension.name (snd x) =? n) n (rows t)
               Hnames).
      intros x Hx. apply String.eqb_eq. exact Hx. }
    lia.
Qed.

Lemma ext_add_new_loop_total (value : list (string * Json)) :
  forall (t : Table BaseOpenBadgeExtension.t) (touched : list nat),
    wf_table t ->
    NoDup (map (fun x => BaseOpenBadgeExtension.name (snd x)) (rows t)) ->
    exists ta touched_a,
      foldM BaseOpenBadgeObjectModel.add_new value (t, touched) = Ok (ta, touched_a)
      /\ NoDup (map (fun x => BaseOpenBadgeExtension.name (snd x)) (rows ta)).
Proof.
  induction value as [|item value IH]; intros t touched Hwf Hnames.
  - exists t, touched. split; [reflexivity | exact Hnames].
  - destruct (ext_add_new_total t touched item Hwf Hnames)
      as [t' [touched' [Hstep [Hwf' Hnames']]]].
    destruct (IH t' touched' Hwf' Hnames') as [ta [touched_a [Hrun Hna]]].
    exists ta, touched_a. rewrite foldM_cons, Hstep. simpl bind.
    split; [exact Hrun | exact Hna].
Qed.

Lemma dict_get_in_nodup (k : string) (v : Json) (d : OrderedDict) :
  NoDup (map fst d) -> In (k, v) d -> dict_get k d = Some v.
Proof.
  induction d as [|[k' v'] d IH]; simpl; intros Hnd Hin; [contradiction|].
  inversion Hnd as [|? ? Hnotin Hnd']; subst.
  destruct Hin as [Heq|Hin].
  - injection Heq as -> ->. rewrite String.eqb_refl. reflexivity.
  - destruct (k' =? k) eqn:E.
    + apply String.eqb_eq in E. subst k'. exfalso. apply Hnotin.
      apply in_map_iff. exists (k, v). split; [reflexivity | exact Hin].
    + apply IH; assumption.
Qed.

Lemma dict_get_absent (k : string) (d : OrderedDict) :
  ~ In k (map fst d) -> dict_get k d = None.
Proof.
  induction d as [|[k' v'] d IH]; simpl; intros Hnotin; [reflexivity|].
  destruct (k' =? k) eqn:E.
  - apply String.eqb_eq in E. subst k'. exfalso. apply Hnotin. left. reflexivity.
  - apply IH. intros Hin. apply Hnotin. right. exact Hin.
Qed.

(** The dict built from rows with one row per name holds each row's
    document under its name. *)
Lemma extension_fields_lookup_in (l : list (nat * BaseOpenBadgeExtension.t)) :
  forall (json : OrderedDict) (x : nat * BaseOpenBadgeExtension.t),
    NoDup (map (fun x => BaseOpenBadgeExtension.name (snd x)) l) ->
    In x l ->
    dict_get (BaseOpenBadgeExtension.name (snd x))
      (fold_left
         (fun json extension =>
            dict_set (BaseOpenBadgeExtension.name (snd extension))
              (BaseOpenBadgeExtension.original_json (snd extension)) json)
         l json)
    = Some (BaseOpenBadgeExtension.original_json (snd x)).
Proof.
  induction l as [|a l IH]; intros json x Hnd Hin; simpl; [contradiction|].
  simpl in Hnd. inversion Hnd as [|? ? Hnotin Hnd']; subst.
  destruct Hin as [Heq|Hin].
  - subst a.
    pose proof (dict_get_extension_fields (BaseOpenBadgeExtension.name (snd x))
                  {| rows := l; next_pk := 0; log := [] |}
                  (dict_set (BaseOpenBadgeExtension.name (snd x))
                     (BaseOpenBadgeExtension.original_json (snd x)) json)) as H.
    unfold extension_fields, extension_names, all in H. simpl in H.
    rewrite H; [apply dict_get_set_eq|].
    apply mem_str_false_iff. exact Hnotin.
  - apply IH; assumption.
Qed.

(** A turn of the "add new" loop keeps every row's primary key and name. *)
Lemma ext_add_new_keeps_rows (t t' : Table BaseOpenBadgeExtension.t)
  (touched touched' : list nat) (item : string * Json) :
  wf_table t ->
  BaseOpenBadgeObjectModel.add_new (t, touched) item = Ok (t', touched') ->
  forall pk r, In (pk, r) (rows t) ->
               exists r', In (pk, r') (rows t')
                          /\ BaseOpenBadgeExtension.name r'
                             = BaseOpenBadgeExtension.name r.
Proof.
  intros Hwf. destruct item as [n e]. unfold BaseOpenBadgeObjectModel.add_new.
  destruct (get_or_create_cases
              (fun r => BaseOpenBadgeExtension.name r =? n)
              {| BaseOpenBadgeExtension.name := n;
                 BaseOpenBadgeExtension.original_json := e |} t)
    as [[Hg _]|[[pk0 [r0 [Hg [_ [Hin0 Hm]]]]]|[Hg _]]]; rewrite Hg; simpl;
    intros Hstep; [| |discriminate]; injection Hstep as <- <-; intros pk r Hin.
  - exists r. split; [|reflexivity]. simpl. apply in_or_app. left. exact Hin.
  - unfold save_row. simpl. destruct (Nat.eqb pk pk0) eqn:Epk.
    + apply Nat.eqb_eq in Epk. subst pk0.
      assert ((pk, r0) = (pk, r)) as Heq.
      { destruct Hwf as [Hnd _]. apply (NoDup_fst_inj (rows t)); try assumption.
        reflexivity. }
      injection Heq as ->.
      exists {| BaseOpenBadgeExtension.name := BaseOpenBadgeExtension.name r;
                BaseOpenBadgeExtension.original_json := e |}.
      split; [|reflexivity].
      apply in_map_iff. exists (pk, r). split; [|exact Hin].
      simpl. rewrite Nat.eqb_refl. reflexivity.
    + exists r. split; [|reflexivity]. apply in_map_iff. exists (pk, r).
      split; [|exact Hin]. simpl. rewrite Epk. reflexivity.
Qed.

Lemma ext_add_new_loop_keeps_rows (value : list (string * Json)) :
  forall (t ta : Table BaseOpenBadgeExtension.t) (touched touched_a : list nat),
    wf_table t ->
    NoDup (map (fun x => BaseOpenBadgeExtension.name (snd x)) (rows t)) ->
    foldM BaseOpenBadgeObjectModel.add_new value (t, touched) = Ok (ta, touched_a) ->
    forall pk r, In (pk, r) (rows t) ->
                 exists r', In (pk, r') (rows ta)
                            /\ BaseOpenBadgeExtension.name r'
                               = BaseOpenBadgeExtension.name r.
Proof.
  induction value as [|item value IH]; intros t ta touched touched_a Hwf Hnames Hrun pk r Hin.
  - simpl in Hrun. injection Hrun as <- _. exists r. split; [exact Hin | reflexivity].
  - rewrite foldM_cons in Hrun.
    destruct (ext_add_new_total t touched item Hwf Hnames)
      as [t' [touched' [Hstep [Hwf' Hnames']]]].
    rewrite Hstep in Hrun. simpl bind in Hrun.
    destruct (ext_add_new_keeps_rows t t' touched touched' item Hwf Hstep pk r Hin)
      as [r1 [Hin1 Hn1]].
    destruct (IH t' ta touched' touched_a Hwf' Hnames' Hrun pk r1 Hin1)
      as [r2 [Hin2 Hn2]].
    exists r2. split; [exact Hin2 | congruence].
Qed.

(** The two loops on rows with distinct primary keys and one row per
    name, for a dict (its keys are distinct): they do not raise and leave
    one row per name; every item has its row, holding the document given;
    every row left has the name of an item; and a row whose name is a key
    is updated in place, it keeps its primary key. *)
Lemma update_extensions_result (value : list (string * Json))
  (t : Table BaseOpenBadgeExtension.t) :
  wf_table t ->
  NoDup (map (fun x => BaseOpenBadgeExtension.name (snd x)) (rows t)) ->
  NoDup (map fst value) ->
  exists t1,
    BaseOpenBadgeObjectModel.update_extensions value t = Ok t1
    /\ NoDup (map (fun x => BaseOpenBadgeExtension.name (snd x)) (rows t1))
    /\ (forall item, In item value ->
                     exists pk, In (pk, BaseOpenBadgeObjectModel.ext_row item) (rows t1))
    /\ (forall x, In x (rows t1) ->
                  In (BaseOpenBadgeExtension.name (snd x)) (map fst value))
    /\ (forall pk r v,
           In (pk, r) (rows t) ->
           In (BaseOpenBadgeExtension.name r, v) value ->
           In (pk, {| BaseOpenBadgeExtension.name := BaseOpenBadgeExtension.name r;
                      BaseOpenBadgeExtension.original_json := v |}) (rows t1)).
Proof.
  intros Hwf Hnames Hnd.
  destruct (ext_add_new_loop_total value t [] Hwf Hnames)
    as [ta [touched [Hadd Hna]]].
  destruct (ext_add_new_loop value [] t ta [] touched Hwf) as [Hwfa [Hset Htouch]];
    try assumption.
  { intros i []. }
  { intros pk []. }
  simpl in Hset, Htouch.
  set (t1 := remove_old_loop Issuer.mem_user fst touched (all ta) ta).
  assert (BaseOpenBadgeObjectModel.update_extensions value t = Ok t1) as Hrun.
  { unfold BaseOpenBadgeObjectModel.update_extensions.
    rewrite Hadd. reflexivity. }
  assert (rows t1 = filter (fun x => Issuer.mem_user (fst x) touched) (rows ta))
    as Hrows by (apply remove_old_loop_filter; apply Hwfa).
  assert (NoDup (map (fun x => BaseOpenBadgeExtension.name (snd x)) (rows t1)))
    as Hn1 by (rewrite Hrows; apply NoDup_map_filter; exact Hna).
  exists t1. split; [exact Hrun|]. split; [exact Hn1|].
  split; [|split].
  - intros item Hin. destruct (Hset item Hin) as [pk [Hpk [Hrow _]]].
    exists pk. rewrite Hrows. apply filter_In. split; [exact Hrow|].
    apply mem_user_true_iff. exact Hpk.
  - intros y Hin. rewrite Hrows in Hin.
    apply filter_In in Hin. destruct Hin as [Hin Hm].
    apply mem_user_true_iff in Hm.
    destruct (Htouch (fst y) Hm) as [y' [Hy' [Hfst Hname]]].
    assert (y' = y) as <-
      by (apply (NoDup_fst_inj (rows ta)); [apply Hwfa| | |]; assumption).
    exact Hname.
  - intros pk r v Hin Hv.
    destruct (ext_add_new_loop_keeps_rows value t ta [] touched Hwf Hnames
                Hadd pk r Hin) as [r' [Hin' Hname']].
    destruct (Hset (BaseOpenBadgeExtension.name r, v) Hv)
      as [pk' [Hpk' [Hrow' Huniq]]].
    assert ((pk, r') = (pk', BaseOpenBadgeObjectModel.ext_row
                               (BaseOpenBadgeExtension.name r, v))) as Heq
      by (apply Huniq; [exact Hin' | exact Hname']).
    injection Heq as -> _.
    rewrite Hrows. apply filter_In. split;
      [exact Hrow' | apply mem_user_true_iff; exact Hpk'].
Qed.

(** X4.  [extension_items], the setter, on an object whose [save] gives
    it a primary key and touches no extension row, whose extension rows
    have distinct primary keys and one row per name, for a dict (its keys
    are distinct; [None] stands for the empty dict).  An object without
    primary key is saved first when the dict is not empty, and what
    [save] raises the setter raises.  Else the setter ends normally with
    the object as it was, or as [save] left it, and with new extension
    rows: one row per name; for every item of the dict a row of its name
    that holds its document; no row of another name; and a row whose name
    is a key of the dict is updated in place, it keeps its primary key. *)
Theorem extension_items_setter_rows :
  forall (O : Type) (Obj : BaseOpenBadgeObjectModel.Object O)
         (value : option (list (string * Json))) (o : O),
    BaseOpenBadgeObjectModel.lawful O ->
    let t := BaseOpenBadgeObjectModel.get_extensions_manager o in
    let items := match value with Some v => v | None => [] end in
    let saved :=
      if BaseOpenBadgeObjectModel.unsaved (BaseOpenBadgeObjectModel.object_pk o)
         && negb (Nat.eqb (length items) 0)
      then BaseOpenBadgeObjectModel.object_save o else Ok o in
    wf_table t ->
    NoDup (map (fun x => BaseOpenBadgeExtension.name (snd x)) (rows t)) ->
    NoDup (map fst items) ->
    (forall e, saved = Raise e ->
               BaseOpenBadgeObjectModel.extension_items_setter value o = Raise e)
    /\ (forall o', saved = Ok o' ->
          exists t1,
            BaseOpenBadgeObjectModel.extension_items_setter value o
            = Ok (BaseOpenBadgeObjectModel.with_extensions o' t1)
            /\ NoDup (map (fun x => BaseOpenBadgeExtension.name (snd x)) (rows t1))
            /\ (forall item, In item items ->
                  exists pk,
                    In (pk, {| BaseOpenBadgeExtension.name := fst item;
                               BaseOpenBadgeExtension.original_json := snd item |})
                      (rows t1))
            /\ (forall x, In x (rows t1) ->
                          In (BaseOpenBadgeExtension.name (snd x)) (map fst items))
            /\ (forall pk r v,
                   In (pk, r) (rows t) ->
                   In (BaseOpenBadgeExtension.name r, v) items ->
                   In (pk, {| BaseOpenBadgeExtension.name :=
                                BaseOpenBadgeExtension.name r;
                              BaseOpenBadgeExtension.original_json := v |})
                     (rows t1))).
Proof.
  intros O Obj value o [Hsave [Hget Hpk]] t items saved Hwf Hnames Hnd.
  assert (BaseOpenBadgeObjectModel.extension_items_setter value o
          = bind saved
              (fun o' =>
                 bind (BaseOpenBadgeObjectModel.update_extensions items
                         (BaseOpenBadgeObjectModel.get_extensions_manager o'))
                   (fun t1 => Ok (BaseOpenBadgeObjectModel.with_extensions o' t1))))
    as Hsetter by (destruct value; reflexivity).
  rewrite Hsetter. split.
  - intros e He. rewrite He. reflexivity.
  - intros o' Ho'. rewrite Ho'. simpl bind.
    assert (BaseOpenBadgeObjectModel.get_extensions_manager o' = t) as ->.
    { unfold saved in Ho'.
      destruct (BaseOpenBadgeObjectModel.unsaved _ && _).
      - apply (Hsave o o' Ho').
      - injection Ho' as <-. reflexivity. }
    destruct (update_extensions_result items t Hwf Hnames Hnd)
      as [t1 [Hrun Hfacts]].
    exists t1. rewrite Hrun. split; [reflexivity | exact Hfacts].
Qed.

Lemma extension_items_setter_rows_witness :
  (exists t1,
      BaseOpenBadgeObjectModel.extension_items_setter
        (H := BadgeInstance.Object Demo.env)
        (Some [("extensions:OrgExt", JStr "new"); ("extensions:Fresh", JNull)])
        (BadgeInstance.with_self Demo.state
           (BadgeInstance.set_extensions Demo.extension_table Demo.assertion))
      = Ok (BadgeInstance.with_self Demo.state
              (BadgeInstance.set_extensions t1 Demo.assertion))
      /\ In (1, {| BaseOpenBadgeExtension.name := "extensions:OrgExt";
                   BaseOpenBadgeExtension.original_json := JStr "new" |}) (rows t1)
      /\ ~ In "extensions:Stale"
             (map (fun x => BaseOpenBadgeExtension.name (snd x)) (rows t1)))
  /\ BaseOpenBadgeObjectModel.extension_items_setter
       (H := BadgeInstance.Object Demo.env)
       (Some [("extensions:Fresh", JNull)])
       (BadgeInstance.with_self Demo.state_of_badgeclass_without_image
          (BadgeInstance.set_pk None
             (BadgeInstance.set_image None
                Demo.assertion_of_badgeclass_without_image)))
     = Raise ValueError.
Proof.
  split.
  - destruct (extension_items_setter_rows BadgeInstance.State
                (BadgeInstance.Object Demo.env)
                (Some [("extensions:OrgExt", JStr "new"); ("extensions:Fresh", JNull)])
                (BadgeInstance.with_self Demo.state
                   (BadgeInstance.set_extensions Demo.extension_table Demo.assertion))
                (BadgeInstance_Object_lawful Demo.env) extension_table_wf)
      as [_ Hok].
    + simpl. repeat constructor; simpl; intuition discriminate.
    + simpl. repeat constructor; simpl; intuition discriminate.
    + destruct (Hok _ eq_refl) as [t1 [Hrun [_ [_ [Hnames Hkept]]]]].
      exists t1. split; [exact Hrun|]. split.
      * apply (Hkept 1 {| BaseOpenBadgeExtension.name := "extensions:OrgExt";
                          BaseOpenBadgeExtension.original_json := JStr "old" |}
                 (JStr "new")); simpl; left; reflexivity.
      * intros Hin. apply in_map_iff in Hin. destruct Hin as [x [Hx Hin]].
        apply Hnames in Hin. rewrite Hx in Hin. simpl in Hin.
        destruct Hin as [H|[H|[]]]; discriminate H.
  - apply (extension_items_setter_rows BadgeInstance.State
             (BadgeInstance.Object Demo.env)
             (Some [("extensions:Fresh", JNull)])
             (BadgeInstance.with_self Demo.state_of_badgeclass_without_image
                (BadgeInstance.set_pk None
                   (BadgeInstance.set_image None
                      Demo.assertion_of_badgeclass_without_image)))
             (BadgeInstance_Object_lawful Demo.env) empty_table_wf).
    + simpl. constructor.
    + simpl. repeat constructor; simpl; intuition discriminate.
    + reflexivity.
Defined.

(** ** The staff setter *)

(** X5.  [staff_items], the setter, on staff rows with distinct primary
    keys: it never raises; afterwards every user of the list has a staff
    row; a row found for a user of the list stays as it was, with the
    role it had (the role given in the list is not applied to it); and a
    row left for a user who is not in the list is the record of an owner
    and the only owner record left. *)
Theorem staff_items_setter_result :
  forall (value : list StaffData) (t : Table IssuerStaff.t),
    wf_table t ->
    exists t1,
      Issuer.staff_items_setter value t = Ok t1
      /\ (forall d, In d value ->
                    exists x, In x (rows t1)
                              /\ IssuerStaff.user (snd x) = cached_user d)
      /\ (forall x, In x (rows t) ->
                    In (IssuerStaff.user (snd x)) (map cached_user value) ->
                    In x (rows t1))
      /\ (forall y, In y (rows t1) ->
                    ~ In (IssuerStaff.user (snd y)) (map cached_user value) ->
                    Issuer.is_owner y = true /\ Issuer.owners t1 = [y]).
Proof.
  intros value t Hwf.
  destruct (staff_items_setter_run value t Hwf)
    as [ta [_ [Hrun [Hwfa [Hold Hhas]]]]].
  destruct (staff_remove_old_loop (map cached_user value) (all ta) ta
              (proj1 Hwfa) (staff_rows_compat ta Hwfa))
    as [Hsub [_ [Hlast [_ [Hkeep _]]]]].
  eexists. split; [exact Hrun|]. split; [|split].
  - intros d Hd. destruct (Hhas d Hd) as [x [Hx Hu]].
    exists x. split; [|exact Hu]. apply Hkeep; [exact Hx|].
    apply mem_user_true_iff. rewrite Hu. apply in_map. exact Hd.
  - intros x Hx Hu. apply Hkeep; [apply Hold; exact Hx|].
    apply mem_user_true_iff. exact Hu.
  - intros y Hy Hu.
    destruct (Hlast y (Hsub y Hy) Hy) as [Ho Hone].
    { destruct (Issuer.mem_user (IssuerStaff.user (snd y)) (map cached_user value))
        eqn:E; [|reflexivity].
      apply mem_user_true_iff in E. contradiction. }
    split; [exact Ho|].
    assert (In y (Issuer.owners
                    (fold_left (Issuer.remove_old (map cached_user value))
                       (all ta) ta))) as Hin.
    { unfold Issuer.owners. apply filter_In. split; [exact Hy | exact Ho]. }
    destruct (Issuer.owners
                (fold_left (Issuer.remove_old (map cached_user value)) (all ta) ta))
      as [|z [|z' rest]]; simpl in Hone, Hin.
    + contradiction.
    + destruct Hin as [->|[]]. reflexivity.
    + lia.
Qed.

Lemma staff_items_setter_result_witness :
  exists t1,
    Issuer.staff_items_setter
      [{| cached_user := 7; staff_role := IssuerStaff.ROLE_STAFF |}]
      Demo.staff_table = Ok t1
    /\ In (1, Demo.owner_row) (rows t1).
Proof.
  destruct (staff_items_setter_result
              [{| cached_user := 7; staff_role := IssuerStaff.ROLE_STAFF |}]
              Demo.staff_table staff_table_wf)
    as [t1 [Hrun [_ [Hkept _]]]].
  exists t1. split; [exact Hrun|].
  apply Hkept; simpl; left; reflexivity.
Defined.


(** ** Entries of the documents *)

(** Lookup of [k] in the document of a non-revoked assertion, for a key
    [k] that no extension row is named after and that the pass-through
    excludes: the entry that [body] leaves. *)
Lemma document_lookup_excluded (env : Env) (b : BadgeInstance.t) (v : ObiVersion)
  (eb ei ie uc : bool) (k : string) :
  BadgeInstance.revoked b = false ->
  mem_str k BadgeInstance.excluded_fields = true ->
  dict_get k (BadgeInstance.document env b v eb ei ie uc)
  = dict_get k (BadgeInstance.body env b v uc (BadgeInstance.head env b v eb ei ie)).
Proof.
  intros Hrev Hex. rewrite document_not_revoked by exact Hrev. cbv zeta.
  destruct ie; [|reflexivity].
  apply dict_get_pass_through_excluded. exact Hex.
Qed.

Ltac body_lookup b env :=
  unfold BadgeInstance.body;
  rewrite dict_get_extension_fields by assumption;
  destruct (BadgeInstance.expires_at b);
  destruct (truthy_str (BadgeInstance.evidence_url env b));
  try destruct (truthy_str (BadgeInstance.narrative b));
  dict_lookup; try reflexivity;
  unfold BadgeInstance.head;
  repeat match goal with
         | |- context [if ?c then _ else _] => destruct c
         end;
  dict_lookup; reflexivity.

Lemma document_verification (env : Env) (b : BadgeInstance.t)
  (eb ei ie uc : bool) :
  BadgeInstance.revoked b = false ->
  mem_str "uid" (extension_names (BadgeInstance.extensions b)) = false ->
  mem_str "verify" (extension_names (BadgeInstance.extensions b)) = false ->
  mem_str "verification" (extension_names (BadgeInstance.extensions b)) = false ->
  let doc v := BadgeInstance.document env b v eb ei ie uc in
  (dict_get "uid" (doc V1_1) = Some (opt_json (BadgeInstance.entity_id b))
   /\ dict_get "verify" (doc V1_1)
      = Some (JObj [("url",
                     JStr (if uc then BadgeInstance.public_url env b
                           else add_obi_version_ifneeded env
                                  (BadgeInstance.public_url env b) V1_1));
                    ("type", JStr "hosted")])
   /\ dict_get "verification" (doc V1_1) = None)
  /\ (dict_get "verification" (doc V2_0) = Some (JObj [("type", JStr "HostedBadge")])
      /\ dict_get "uid" (doc V2_0) = None
      /\ dict_get "verify" (doc V2_0) = None).
Proof.
  intros Hrev Huid Hverify Hverification doc. unfold doc.
  repeat split; rewrite document_lookup_excluded by (exact Hrev || reflexivity);
    body_lookup b env.
Qed.

(** X6.  The verification entries of a document [get_json] returns for
    an assertion that is not revoked (no extension row being named after
    them).  Version 1.1 has [uid], the entity id, and [verify], hosted at
    the public URL (with the version suffix unless the canonical id is
    asked for), and no [verification]; version 2.0 has [verification] of
    type HostedBadge and neither [uid] nor [verify].  An imported
    document cannot supply the missing ones: the pass-through excludes
    the three keys. *)
Theorem get_json_verification :
  forall (env : Env) (b : BadgeInstance.t)
         (expand_badgeclass expand_issuer include_extra use_canonical_id : bool),
    BadgeInstance.revoked b = false ->
    mem_str "uid" (extension_names (BadgeInstance.extensions b)) = false ->
    mem_str "verify" (extension_names (BadgeInstance.extensions b)) = false ->
    mem_str "verification" (extension_names (BadgeInstance.extensions b)) = false ->
    let returns v doc :=
      BadgeInstance.get_json env b v expand_badgeclass expand_issuer
        include_extra use_canonical_id = Ok doc in
    (forall doc,
        returns V1_1 doc ->
        dict_get "uid" doc = Some (opt_json (BadgeInstance.entity_id b))
        /\ dict_get "verify" doc
           = Some (JObj [("url",
                          JStr (if use_canonical_id then BadgeInstance.public_url env b
                                else add_obi_version_ifneeded env
                                       (BadgeInstance.public_url env b) V1_1));
                         ("type", JStr "hosted")])
        /\ dict_get "verification" doc = None)
    /\ (forall doc,
           returns V2_0 doc ->
           dict_get "verification" doc = Some (JObj [("type", JStr "HostedBadge")])
           /\ dict_get "uid" doc = None
           /\ dict_get "verify" doc = None).
Proof.
  intros env b eb ei ie uc Hrev Huid Hverify Hverification returns.
  destruct (document_verification env b eb ei ie uc Hrev Huid Hverify Hverification)
    as [H1 H2].
  split; intros doc Hdoc; unfold returns in Hdoc; returned Hdoc; assumption.
Qed.

Lemma get_json_verification_witness :
  (exists doc,
      BadgeInstance.get_json Demo.env Demo.imported_assertion V1_1
        false false true false = Ok doc
      /\ dict_get "verify" doc
         = Some (JObj [("url", JStr "https://badges.example/public/assertions/as?v=1_1");
                       ("type", JStr "hosted")]))
  /\ (exists doc,
         BadgeInstance.get_json Demo.env Demo.imported_assertion V2_0
           false false true false = Ok doc
         /\ dict_get "verification" doc = Some (JObj [("type", JStr "HostedBadge")])
         /\ dict_get "verify" doc = None).
Proof.
  destruct (get_json_verification Demo.env Demo.imported_assertion
              false false true false eq_refl eq_refl eq_refl eq_refl)
    as [H1 H2].
  split.
  - eexists. split; [reflexivity|]. apply (H1 _ eq_refl).
  - eexists. split; [reflexivity|].
    destruct (H2 _ eq_refl) as [Hverification [_ Hnone]].
    split; [exact Hverification | exact Hnone].
Defined.


Lemma evidence_url_truthy (env : Env) (b : BadgeInstance.t) :
  truthy_str (BadgeInstance.evidence_url env b)
  = match BadgeInstance.cached_evidence b with [] => false | _ => true end.
Proof.
  unfold BadgeInstance.evidence_url.
  destruct (BadgeInstance.cached_evidence b) as [|e [|e' l]]; simpl.
  - reflexivity.
  - destruct (truthy_str (BadgeInstanceEvidence.evidence_url e)) eqn:E.
    + exact E.
    + apply public_url_truthy.
  - apply public_url_truthy.
Qed.

Lemma document_v2_evidence (env : Env) (b : BadgeInstance.t) (eb ei ie uc : bool) :
  BadgeInstance.revoked b = false ->
  mem_str "evidence" (extension_names (BadgeInstance.extensions b)) = false ->
  dict_get "evidence" (BadgeInstance.document env b V2_0 eb ei ie uc)
  = match BadgeInstance.cached_evidence b with
    | [] => None
    | items =>
        Some (JArr (map (fun e => JObj (BadgeInstanceEvidence.get_json env e V2_0 false))
                      items))
    end.
Proof.
  intros Hrev Hext.
  rewrite document_lookup_excluded by (exact Hrev || reflexivity).
  pose proof (evidence_url_truthy env b) as Ht.
  unfold BadgeInstance.body.
  rewrite dict_get_extension_fields by exact Hext.
  destruct (BadgeInstance.cached_evidence b) as [|e l] eqn:El;
    rewrite Ht;
    destruct (BadgeInstance.expires_at b);
    try destruct (truthy_str (BadgeInstance.narrative b));
    dict_lookup; try reflexivity;
    unfold BadgeInstance.head;
    repeat match goal with
           | |- context [if ?c then _ else _] => destruct c
           end;
    dict_lookup; reflexivity.
Qed.

(** X7.  The [evidence] entry of a version 2.0 document [get_json]
    returns for an assertion that is not revoked (no extension row being
    named [evidence]): absent when the assertion has no evidence item,
    else the list of the documents of all its evidence items, in their
    order. *)
Theorem get_json_v2_evidence :
  forall (env : Env) (b : BadgeInstance.t)
         (expand_badgeclass expand_issuer include_extra use_canonical_id : bool)
         (doc : OrderedDict),
    BadgeInstance.revoked b = false ->
    mem_str "evidence" (extension_names (BadgeInstance.extensions b)) = false ->
    BadgeInstance.get_json env b V2_0 expand_badgeclass expand_issuer
      include_extra use_canonical_id = Ok doc ->
    dict_get "evidence" doc
    = match BadgeInstance.cached_evidence b with
      | [] => None
      | items =>
          Some (JArr (map (fun e => JObj (BadgeInstanceEvidence.get_json env e V2_0 false))
                        items))
      end.
Proof.
  intros env b eb ei ie uc doc Hrev Hext Hdoc. returned Hdoc.
  apply document_v2_evidence; assumption.
Qed.

Lemma get_json_v2_evidence_witness :
  (exists doc,
      BadgeInstance.get_json Demo.env Demo.assertion_with_evidence V2_0
        false false true false = Ok doc
      /\ dict_get "evidence" doc
         = Some (JArr [JObj [("type", JStr "Evidence");
                             ("id", JStr "https://proof.example/1")];
                       JObj [("type", JStr "Evidence");
                             ("narrative", JStr "seen welding")]]))
  /\ (exists doc,
         BadgeInstance.get_json Demo.env Demo.assertion V2_0 false false true false
         = Ok doc
         /\ dict_get "evidence" doc = None).
Proof.
  split; eexists; (split; [reflexivity|]).
  - exact (get_json_v2_evidence Demo.env Demo.assertion_with_evidence
             false false true false _ eq_refl eq_refl eq_refl).
  - exact (get_json_v2_evidence Demo.env Demo.assertion
             false false true false _ eq_refl eq_refl eq_refl).
Defined.


Lemma dict_get_pass_through_filtered (k : string) (excluded : list string)
  (original_json : option OrderedDict) (json : OrderedDict) :
  mem_str k excluded = true ->
  dict_get k (pass_through (filtered original_json excluded) json)
  = dict_get k json.
Proof.
  intros Hex. unfold filtered.
  destruct original_json as [orig|]; [|reflexivity].
  rewrite dict_get_pass_through, dict_get_filter_excluded, Hex.
  destruct (dict_get k json); reflexivity.
Qed.

Lemma badgeclass_document_criteria (env : Env) (bc : BadgeClass.t) (ie uc : bool) :
  mem_str "criteria" (extension_names (BadgeClass.extensions bc)) = false ->
  dict_get "criteria" (BadgeClass.document env bc V1_1 ie uc)
  = Some (JStr (if truthy_str (BadgeClass.criteria_url bc)
                then or_empty (BadgeClass.criteria_url bc)
                else HTTP_ORIGIN env ++ "/public/badges/"
                     ++ BadgeClass.entity_id bc ++ "/criteria"))
  /\ dict_get "criteria" (BadgeClass.document env bc V2_0 ie uc)
     = Some (JObj
               ((if truthy_str (BadgeClass.criteria_url bc)
                 then [("id", opt_json (BadgeClass.criteria_url bc))] else [])
                ++ (if truthy_str (BadgeClass.criteria_text bc)
                    then [("narrative", opt_json (BadgeClass.criteria_text bc))]
                    else []))%list).
Proof.
  intros Hext. split.
  - unfold BadgeClass.document, get_obi_context. cbv beta iota zeta.
    assert (forall json,
               dict_get "criteria"
                 (extension_fields (BadgeClass.extensions bc)
                    (source_url_fields (BadgeClass.source_url bc)
                       (HTTP_ORIGIN env ++ BadgeClass.get_absolute_url bc) V1_1
                       (dict_set "criteria" (JStr (BadgeClass.get_criteria_url env bc))
                          json)))
               = Some (JStr (BadgeClass.get_criteria_url env bc))) as Hcore.
    { intros json. rewrite dict_get_extension_fields by exact Hext.
      dict_lookup. reflexivity. }
    destruct ie; [apply dict_get_pass_through_present|]; apply Hcore.
  - unfold BadgeClass.document, get_obi_context. cbv beta iota zeta.
    assert (forall json criteria,
               dict_get "criteria"
                 (extension_fields (BadgeClass.extensions bc)
                    (dict_set "tags"
                       (JArr (map (fun tg => JStr (BadgeClassTag.name (snd tg)))
                                (all (BadgeClass.tags bc))))
                       (dict_set "alignment"
                          (JArr (map (fun a => JObj (BadgeClassAlignment.get_json env
                                                       (snd a) V2_0 false))
                                   (all (BadgeClass.alignments bc))))
                          (source_url_fields (BadgeClass.source_url bc)
                             (HTTP_ORIGIN env ++ BadgeClass.get_absolute_url bc) V2_0
                             (dict_set "criteria" (JObj criteria) json)))))
               = Some (JObj criteria)) as Hcore.
    { intros json criteria. rewrite dict_get_extension_fields by exact Hext.
      dict_lookup. reflexivity. }
    destruct (truthy_str (BadgeClass.criteria_url bc));
      destruct (truthy_str (BadgeClass.criteria_text bc));
      (destruct ie; [apply dict_get_pass_through_present|]; apply Hcore).
Qed.

(** X8.  The [criteria] entry of a document [get_json] returns for a
    badge class (no extension row being named [criteria]; the
    pass-through excludes the key).  In version 1.1 it is a URL: the
    criteria URL of the badge class, or the local criteria page when it
    has none.  In version 2.0 it is an object holding [id] when there is
    a criteria URL and [narrative] when there is a criteria text, and
    nothing else: it is empty when the badge class has neither, the local
    page is not used. *)
Theorem badgeclass_get_json_criteria :
  forall (env : Env) (bc : BadgeClass.t) (include_extra use_canonical_id : bool),
    mem_str "criteria" (extension_names (BadgeClass.extensions bc)) = false ->
    (forall doc,
        BadgeClass.get_json env bc V1_1 include_extra use_canonical_id = Ok doc ->
        dict_get "criteria" doc
        = Some (JStr (if truthy_str (BadgeClass.criteria_url bc)
                      then or_empty (BadgeClass.criteria_url bc)
                      else HTTP_ORIGIN env ++ "/public/badges/"
                           ++ BadgeClass.entity_id bc ++ "/criteria")))
    /\ (forall doc,
           BadgeClass.get_json env bc V2_0 include_extra use_canonical_id = Ok doc ->
           dict_get "criteria" doc
           = Some (JObj
                     ((if truthy_str (BadgeClass.criteria_url bc)
                       then [("id", opt_json (BadgeClass.criteria_url bc))] else [])
                      ++ (if truthy_str (BadgeClass.criteria_text bc)
                          then [("narrative", opt_json (BadgeClass.criteria_text bc))]
                          else []))%list)).
Proof.
  intros env bc ie uc Hext.
  destruct (badgeclass_document_criteria env bc ie uc Hext) as [H1 H2].
  split; intros doc Hdoc; returned Hdoc; assumption.
Qed.

Lemma badgeclass_get_json_criteria_witness :
  (exists doc,
      BadgeClass.get_json Demo.env Demo.badgeclass V1_1 true false = Ok doc
      /\ dict_get "criteria" doc
         = Some (JStr "https://badges.example/public/badges/bc/criteria"))
  /\ (exists doc,
         BadgeClass.get_json Demo.env Demo.badgeclass V2_0 true false = Ok doc
         /\ dict_get "criteria" doc = Some (JObj [("narrative", JStr "Weld.")])).
Proof.
  destruct (badgeclass_get_json_criteria Demo.env Demo.badgeclass true false eq_refl)
    as [H1 H2].
  split; eexists; (split; [reflexivity|]); [apply (H1 _ eq_refl) | apply (H2 _ eq_refl)].
Defined.


Lemma extension_fields_lookup (extensions : Table BaseOpenBadgeExtension.t)
  (json : OrderedDict) (x : nat * BaseOpenBadgeExtension.t) :
  NoDup (extension_names extensions) ->
  In x (rows extensions) ->
  dict_get (BaseOpenBadgeExtension.name (snd x)) (extension_fields extensions json)
  = Some (BaseOpenBadgeExtension.original_json (snd x)).
Proof.
  intros Hnd Hin. apply (extension_fields_lookup_in (rows extensions) json x Hnd Hin).
Qed.

Lemma document_extension_entry (env : Env) (obi_version : ObiVersion)
  (include_extra use_canonical_id : bool) (pk : nat)
  (extension : BaseOpenBadgeExtension.t) :
  (forall i : Issuer.t,
      NoDup (extension_names (Issuer.extensions i)) ->
      In (pk, extension) (rows (Issuer.extensions i)) ->
      dict_get (BaseOpenBadgeExtension.name extension)
        (Issuer.document env i obi_version include_extra use_canonical_id)
      = Some (BaseOpenBadgeExtension.original_json extension))
  /\ (forall bc : BadgeClass.t,
         NoDup (extension_names (BadgeClass.extensions bc)) ->
         In (pk, extension) (rows (BadgeClass.extensions bc)) ->
         dict_get (BaseOpenBadgeExtension.name extension)
           (BadgeClass.document env bc obi_version include_extra use_canonical_id)
         = Some (BaseOpenBadgeExtension.original_json extension))
  /\ (forall (b : BadgeInstance.t) (expand_badgeclass expand_issuer : bool),
         BadgeInstance.revoked b = false ->
         NoDup (extension_names (BadgeInstance.extensions b)) ->
         In (pk, extension) (rows (BadgeInstance.extensions b)) ->
         dict_get (BaseOpenBadgeExtension.name extension)
           (BadgeInstance.document env b obi_version expand_badgeclass
              expand_issuer include_extra use_canonical_id)
         = Some (BaseOpenBadgeExtension.original_json extension)).
Proof.
  revert obi_version include_extra use_canonical_id. intros v ie uc. split; [|split].
  - intros i Hnd Hin. unfold Issuer.document, get_obi_context.
    cbv beta iota zeta.
    destruct ie; [apply dict_get_pass_through_present|];
      apply (extension_fields_lookup (Issuer.extensions i) _ (pk, extension) Hnd Hin).
  - intros bc Hnd Hin. unfold BadgeClass.document, get_obi_context.
    cbv beta iota zeta.
    destruct ie; [apply dict_get_pass_through_present|];
      apply (extension_fields_lookup (BadgeClass.extensions bc) _ (pk, extension)
               Hnd Hin).
  - intros b eb ei Hrev Hnd Hin. rewrite document_not_revoked by exact Hrev.
    cbv zeta. unfold BadgeInstance.body.
    destruct ie; [apply dict_get_pass_through_present|];
      apply (extension_fields_lookup (BadgeInstance.extensions b) _ (pk, extension)
               Hnd Hin).
Qed.

(** X9.  An extension row decides the entry under its name.  With one
    extension row per name, a document [get_json] returns for an issuer,
    for a badge class and for an assertion that is not revoked holds,
    under the name of each extension row, the document of that row: also
    when the builder has written an entry under that name before
    ([name], [id], ...), and whatever the imported document holds under
    it. *)
Theorem extension_overrides_computed :
  forall (env : Env) (obi_version : ObiVersion) (include_extra use_canonical_id : bool)
         (pk : nat) (extension : BaseOpenBadgeExtension.t) (doc : OrderedDict),
    (forall i : Issuer.t,
        NoDup (extension_names (Issuer.extensions i)) ->
        In (pk, extension) (rows (Issuer.extensions i)) ->
        Issuer.get_json env i obi_version include_extra use_canonical_id = Ok doc ->
        dict_get (BaseOpenBadgeExtension.name extension) doc
        = Some (BaseOpenBadgeExtension.original_json extension))
    /\ (forall bc : BadgeClass.t,
           NoDup (extension_names (BadgeClass.extensions bc)) ->
           In (pk, extension) (rows (BadgeClass.extensions bc)) ->
           BadgeClass.get_json env bc obi_version include_extra use_canonical_id
           = Ok doc ->
           dict_get (BaseOpenBadgeExtension.name extension) doc
           = Some (BaseOpenBadgeExtension.original_json extension))
    /\ (forall (b : BadgeInstance.t) (expand_badgeclass expand_issuer : bool),
           BadgeInstance.revoked b = false ->
           NoDup (extension_names (BadgeInstance.extensions b)) ->
           In (pk, extension) (rows (BadgeInstance.extensions b)) ->
           BadgeInstance.get_json env b obi_version expand_badgeclass
             expand_issuer include_extra use_canonical_id = Ok doc ->
           dict_get (BaseOpenBadgeExtension.name extension) doc
           = Some (BaseOpenBadgeExtension.original_json extension)).
Proof.
  intros env v ie uc pk extension doc.
  destruct (document_extension_entry env v ie uc pk extension) as [Hi [Hbc Hb]].
  split; [|split].
  - intros i Hnd Hin Hdoc. returned Hdoc. apply Hi; assumption.
  - intros bc Hnd Hin Hdoc. returned Hdoc. apply Hbc; assumption.
  - intros b eb ei Hrev Hnd Hin Hdoc. returned Hdoc. apply Hb; assumption.
Qed.

Lemma extension_overrides_computed_witness :
  exists doc,
    BadgeInstance.get_json Demo.env
      (BadgeInstance.set_extensions
         {| rows := [(1, {| BaseOpenBadgeExtension.name := "issuedOn";
                            BaseOpenBadgeExtension.original_json := JStr "never" |})];
            next_pk := 2; log := [] |}
         Demo.imported_assertion)
      V2_0 false false true false = Ok doc
    /\ dict_get "issuedOn" doc = Some (JStr "never").
Proof.
  eexists. split; [reflexivity|].
  exact (proj2 (proj2 (extension_overrides_computed Demo.env V2_0 true false 1
                         {| BaseOpenBadgeExtension.name := "issuedOn";
                            BaseOpenBadgeExtension.original_json := JStr "never" |} _))
           (BadgeInstance.set_extensions
              {| rows := [(1, {| BaseOpenBadgeExtension.name := "issuedOn";
                                 BaseOpenBadgeExtension.original_json :=
                                   JStr "never" |})];
                 next_pk := 2; log := [] |}
              Demo.imported_assertion)
           false false eq_refl
           ltac:(repeat constructor; simpl; intuition)
           (or_introl eq_refl) eq_refl).
Defined.


Lemma with_image_info_image (original_json : option OrderedDict) (url : Json)
  (json : OrderedDict) :
  dict_get "image" json = Some url ->
  dict_get "image" (with_image_info original_json url json)
  = Some (match original_json with
          | Some original =>
              match dict_get "image" original with
              | Some (JObj image_info) => JObj (dict_set "id" url image_info)
              | _ => url
              end
          | None => url
          end).
Proof.
  intros Hj. unfold with_image_info.
  destruct original_json as [original|]; [|exact Hj].
  destruct (dict_get "image" original) as [[| | | | |image_info]|];
    try exact Hj.
  apply dict_get_set_eq.
Qed.

Lemma document_image_entry (env : Env) (v : ObiVersion) (ie uc : bool) :
  let entry (original_json : JsonText) (url : Json) :=
    match imported original_json with
    | Some original =>
        match dict_get "image" original with
        | Some (JObj image_info) => JObj (dict_set "id" url image_info)
        | _ => url
        end
    | None => url
    end in
  (forall i : Issuer.t,
      mem_str "image" (extension_names (Issuer.extensions i)) = false ->
      dict_get "image" (Issuer.document env i v ie uc)
      = Some (entry (Issuer.original_json i)
                (if truthy_str (Issuer.image i)
                 then JStr (HTTP_ORIGIN env ++ "/public/issuers/" ++ Issuer.entity_id i
                            ++ "/image")
                 else JNull)))
  /\ (forall bc : BadgeClass.t,
         mem_str "image" (extension_names (BadgeClass.extensions bc)) = false ->
         dict_get "image" (BadgeClass.document env bc v ie uc)
         = if truthy_str (BadgeClass.image bc)
           then Some (entry (BadgeClass.original_json bc)
                        (JStr (HTTP_ORIGIN env ++ "/public/badges/"
                               ++ BadgeClass.entity_id bc ++ "/image")))
           else None)
  /\ (forall (b : BadgeInstance.t) (eb ei : bool),
         BadgeInstance.revoked b = false ->
         mem_str "image" (extension_names (BadgeInstance.extensions b)) = false ->
         dict_get "image" (BadgeInstance.document env b v eb ei ie uc)
         = Some (entry (BadgeInstance.original_json b)
                   (JStr (HTTP_ORIGIN env ++ "/public/assertions/"
                          ++ format_opt (BadgeInstance.entity_id b) ++ "/image")))).
Proof.
  intros entry. unfold entry. split; [|split].
  - intros i Hext.
    pose proof (with_image_info_image (imported (Issuer.original_json i))
                (opt_json (Issuer.image_url env i))
                (dict_set "image" (opt_json (Issuer.image_url env i))
                   (dict_update [("@context", JStr (context_iri env v))]
                      [("type", JStr "Issuer");
                       ("id", JStr (if uc then Issuer.jsonld_id env i
                                    else add_obi_version_ifneeded env
                                           (Issuer.jsonld_id env i) v));
                       ("name", JStr (Issuer.name i));
                       ("url", opt_json (Issuer.url i));
                       ("email", opt_json (Issuer.email i));
                       ("description", opt_json (Issuer.description i));
                       ("category", JStr (Issuer.category i));
                       ("slug", JStr (Issuer.entity_id i))]))
                (dict_get_set_eq _ _ _)) as Himg.
    assert (opt_json (Issuer.image_url env i)
            = if truthy_str (Issuer.image i)
              then JStr (HTTP_ORIGIN env ++ "/public/issuers/" ++ Issuer.entity_id i
                         ++ "/image")
              else JNull) as Hurl.
    { unfold Issuer.image_url. destruct (truthy_str (Issuer.image i)); reflexivity. }
    rewrite <- Hurl.
    unfold Issuer.document, get_obi_context. cbv beta iota zeta.
    destruct ie; [apply dict_get_pass_through_present|];
      rewrite dict_get_extension_fields by exact Hext;
      rewrite dict_get_source_url_fields by reflexivity; exact Himg.
  - intros bc Hext.
    unfold BadgeClass.document, get_obi_context. cbv beta iota zeta.
    destruct (truthy_str (BadgeClass.image bc)).
    + match goal with
      | |- context [with_image_info ?o ?u ?j] =>
          pose proof (with_image_info_image o u j (dict_get_set_eq _ _ _)) as Himg
      end.
      destruct ie; [apply dict_get_pass_through_present|];
        rewrite dict_get_extension_fields by exact Hext;
        destruct v; dict_lookup; exact Himg.
    + destruct ie;
        [rewrite dict_get_pass_through_filtered by reflexivity|];
        rewrite dict_get_extension_fields by exact Hext;
        destruct v; destruct (truthy_str (BadgeClass.criteria_url bc));
        destruct (truthy_str (BadgeClass.criteria_text bc));
        dict_lookup; reflexivity.
  - intros b eb ei Hrev Hext.
    rewrite document_lookup_excluded by (exact Hrev || reflexivity).
    assert (dict_get "image"
              (BadgeInstance.body env b v uc (BadgeInstance.head env b v eb ei ie))
            = dict_get "image"
                (with_image_info (imported (BadgeInstance.original_json b))
                   (JStr (BadgeInstance.image_url env b))
                   (dict_set "image" (JStr (BadgeInstance.image_url env b))
                      [("@context", JStr (context_iri env v));
                       ("type", JStr "Assertion");
                       ("id", JStr (add_obi_version_ifneeded env
                                      (BadgeInstance.jsonld_id env b) v));
                       ("badge", JStr (add_obi_version_ifneeded env
                                         (BadgeClass.jsonld_id env
                                            (BadgeInstance.badgeclass b)) v))])))
      as ->.
    { unfold BadgeInstance.body.
      rewrite dict_get_extension_fields by exact Hext.
      destruct v; destruct (BadgeInstance.expires_at b);
        destruct (truthy_str (BadgeInstance.evidence_url env b));
        try destruct (truthy_str (BadgeInstance.narrative b));
        dict_lookup; unfold BadgeInstance.head; destruct eb, ei;
        repeat first [ rewrite dict_get_set_ne by reflexivity
                     | rewrite dict_get_set_in by reflexivity ];
        reflexivity. }
    apply with_image_info_image. apply dict_get_set_eq.
Qed.

(** X10.  The [image] entry of a document [get_json] returns (no
    extension row being named [image]; the pass-through excludes the
    key).  A document of an issuer and of an assertion that is not
    revoked has it, a document of a badge class has it exactly when the
    badge class has an image.  When the imported document of the entity
    holds an object under [image], the entry is that object with its
    [id] set to the public image URL of the entity (null for an issuer
    without image); in every other case it is this URL. *)
Theorem image_entry_points_to_public_url :
  forall (env : Env) (obi_version : ObiVersion) (include_extra use_canonical_id : bool)
         (doc : OrderedDict),
    let entry (original_json : JsonText) (url : Json) :=
      match imported original_json with
      | Some original =>
          match dict_get "image" original with
          | Some (JObj image_info) => JObj (dict_set "id" url image_info)
          | _ => url
          end
      | None => url
      end in
    (forall i : Issuer.t,
        mem_str "image" (extension_names (Issuer.extensions i)) = false ->
        Issuer.get_json env i obi_version include_extra use_canonical_id = Ok doc ->
        dict_get "image" doc
        = Some (entry (Issuer.original_json i)
                  (if truthy_str (Issuer.image i)
                   then JStr (HTTP_ORIGIN env ++ "/public/issuers/"
                              ++ Issuer.entity_id i ++ "/image")
                   else JNull)))
    /\ (forall bc : BadgeClass.t,
           mem_str "image" (extension_names (BadgeClass.extensions bc)) = false ->
           BadgeClass.get_json env bc obi_version include_extra use_canonical_id
           = Ok doc ->
           dict_get "image" doc
           = if truthy_str (BadgeClass.image bc)
             then Some (entry (BadgeClass.original_json bc)
                          (JStr (HTTP_ORIGIN env ++ "/public/badges/"
                                 ++ BadgeClass.entity_id bc ++ "/image")))
             else None)
    /\ (forall (b : BadgeInstance.t) (expand_badgeclass expand_issuer : bool),
           BadgeInstance.revoked b = false ->
           mem_str "image" (extension_names (BadgeInstance.extensions b)) = false ->
           BadgeInstance.get_json env b obi_version expand_badgeclass
             expand_issuer include_extra use_canonical_id = Ok doc ->
           dict_get "image" doc
           = Some (entry (BadgeInstance.original_json b)
                     (JStr (HTTP_ORIGIN env ++ "/public/assertions/"
                            ++ format_opt (BadgeInstance.entity_id b) ++ "/image")))).
Proof.
  intros env v ie uc doc entry.
  destruct (document_image_entry env v ie uc) as [Hi [Hbc Hb]].
  split; [|split].
  - intros i Hext Hdoc. returned Hdoc. apply Hi. exact Hext.
  - intros bc Hext Hdoc. returned Hdoc. apply Hbc. exact Hext.
  - intros b eb ei Hrev Hext Hdoc. returned Hdoc. apply Hb; assumption.
Qed.

Lemma image_entry_points_to_public_url_witness :
  (exists doc,
      Issuer.get_json Demo.env Demo.imported_issuer V2_0 true false = Ok doc
      /\ dict_get "image" doc
         = Some (JObj [("id", JStr "https://badges.example/public/issuers/imp/image");
                       ("caption", JStr "the guild's seal")]))
  /\ (exists doc,
         BadgeInstance.get_json Demo.env Demo.assertion V2_0 false false true false
         = Ok doc
         /\ dict_get "image" doc
            = Some (JStr "https://badges.example/public/assertions/as/image")).
Proof.
  split; eexists; (split; [reflexivity|]).
  - exact (proj1 (image_entry_points_to_public_url Demo.env V2_0 true false _)
             Demo.imported_issuer eq_refl eq_refl).
  - exact (proj2 (proj2 (image_entry_points_to_public_url Demo.env V2_0 true false _))
             Demo.assertion false false eq_refl eq_refl eq_refl).
Defined.

(** ** The nested badge class and issuer *)

Lemma dict_set_set_same (k : string) (v1 v2 : Json) (d : OrderedDict) :
  dict_set k v2 (dict_set k v1 d) = dict_set k v2 d.
Proof.
  induction d as [|[k' v'] d IH]; simpl.
  - rewrite String.eqb_refl. reflexivity.
  - destruct (k' =? k) eqn:E; simpl; rewrite E; [reflexivity|].
    rewrite IH. reflexivity.
Qed.

(** Assignments to two keys commute when the first key is in the dict:
    it keeps its place. *)
Lemma dict_set_comm (k1 k2 : string) (v1 v2 : Json) (d : OrderedDict) :
  (k1 =? k2) = false -> dict_contains k1 d = true ->
  dict_set k2 v2 (dict_set k1 v1 d) = dict_set k1 v1 (dict_set k2 v2 d).
Proof.
  intros Hne. unfold dict_contains.
  induction d as [|[k' v'] d IH]; simpl; intros Hc; [discriminate|].
  destruct (k' =? k1) eqn:E1.
  - apply String.eqb_eq in E1. subst k'. simpl. rewrite Hne. simpl.
    rewrite String.eqb_refl. reflexivity.
  - destruct (k' =? k2) eqn:E2; simpl; rewrite E1, E2; [reflexivity|].
    rewrite IH by exact Hc. reflexivity.
Qed.

Lemma dict_contains_set_mono (k k2 : string) (v : Json) (d : OrderedDict) :
  dict_contains k d = true -> dict_contains k (dict_set k2 v d) = true.
Proof. intros H. rewrite dict_contains_set, H. apply orb_true_r. Qed.

Lemma dict_set_in_set (k k2 : string) (inner : OrderedDict) (v : Json)
  (d : OrderedDict) :
  dict_set_in k k2 v (dict_set k (JObj inner) d)
  = dict_set k (JObj (dict_set k2 v inner)) d.
Proof.
  unfold dict_set_in. rewrite dict_get_set_eq. apply dict_set_set_same.
Qed.

Lemma source_url_fields_contains (k : string) (source_url : option string)
  (hosted_url : string) (v : ObiVersion) (json : OrderedDict) :
  dict_contains k json = true ->
  dict_contains k (source_url_fields source_url hosted_url v json) = true.
Proof.
  intros H. unfold source_url_fields.
  destruct (truthy_str source_url); [|exact H].
  destruct v; repeat apply dict_contains_set_mono; exact H.
Qed.

Lemma source_url_fields_comm (k : string) (X : Json) (source_url : option string)
  (hosted_url : string) (v : ObiVersion) (json : OrderedDict) :
  mem_str k ["source_url"; "hosted_url"; "sourceUrl"; "hostedUrl"] = false ->
  dict_contains k json = true ->
  source_url_fields source_url hosted_url v (dict_set k X json)
  = dict_set k X (source_url_fields source_url hosted_url v json).
Proof.
  intros Hk Hc. unfold source_url_fields.
  destruct (truthy_str source_url); [|reflexivity].
  simpl in Hk. repeat (apply orb_false_iff in Hk; destruct Hk as [? Hk]).
  destruct v;
    rewrite !(dict_set_comm k) by
      (assumption || (repeat apply dict_contains_set_mono; assumption));
    reflexivity.
Qed.

Lemma extension_fields_comm (k : string) (X : Json)
  (extensions : Table BaseOpenBadgeExtension.t) (json : OrderedDict) :
  mem_str k (extension_names extensions) = false ->
  dict_contains k json = true ->
  extension_fields extensions (dict_set k X json)
  = dict_set k X (extension_fields extensions json)
  /\ dict_contains k (extension_fields extensions json) = true.
Proof.
  unfold extension_fields, extension_names, all.
  generalize (rows extensions) as l. intros l. revert json.
  induction l as [|e l IH]; intros json Hk Hc; simpl.
  - split; [reflexivity | exact Hc].
  - simpl in Hk. apply orb_false_iff in Hk. destruct Hk as [Hke Hk].
    rewrite (dict_set_comm k) by assumption.
    apply IH; [exact Hk|]. apply dict_contains_set_mono. exact Hc.
Qed.

Lemma pass_through_comm (k : string) (X : Json) (extra : option OrderedDict)
  (json : OrderedDict) :
  dict_contains k json = true ->
  pass_through extra (dict_set k X json) = dict_set k X (pass_through extra json).
Proof.
  unfold pass_through. destruct extra as [extra|]; [|reflexivity].
  revert json. induction extra as [|[kk vv] extra IH]; intros json Hc; simpl.
  - reflexivity.
  - rewrite dict_contains_set.
    destruct (k =? kk) eqn:E; simpl.
    + apply String.eqb_eq in E. subst kk. rewrite Hc. simpl. apply IH. exact Hc.
    + destruct (dict_contains kk json); simpl.
      * apply IH. exact Hc.
      * rewrite (dict_set_comm k) by assumption.
        apply IH. apply dict_contains_set_mono. exact Hc.
Qed.

Lemma body_comm (env : Env) (b : BadgeInstance.t) (v : ObiVersion) (uc : bool)
  (X : Json) (json : OrderedDict) :
  mem_str "badge" (extension_names (BadgeInstance.extensions b)) = false ->
  dict_contains "badge" json = true ->
  BadgeInstance.body env b v uc (dict_set "badge" X json)
  = dict_set "badge" X (BadgeInstance.body env b v uc json).
Proof.
  intros Hext Hc. unfold BadgeInstance.body.
  destruct v; destruct (BadgeInstance.expires_at b);
    destruct (truthy_str (BadgeInstance.evidence_url env b));
    try destruct (truthy_str (BadgeInstance.narrative b));
    repeat first
      [ rewrite (dict_set_comm "badge") by
          (reflexivity
           || (repeat first [ apply dict_contains_set_mono
                            | apply source_url_fields_contains ]; exact Hc))
      | rewrite (source_url_fields_comm "badge") by
          (reflexivity
           || (repeat first [ apply dict_contains_set_mono
                            | apply source_url_fields_contains ]; exact Hc)) ];
    apply extension_fields_comm;
    try exact Hext;
    repeat first [ apply dict_contains_set_mono
                 | apply source_url_fields_contains ]; exact Hc.
Qed.

Lemma head_contains_badge (env : Env) (b : BadgeInstance.t) (v : ObiVersion)
  (ie : bool) :
  dict_contains "badge" (BadgeInstance.head env b v false false ie) = true.
Proof.
  unfold dict_contains, BadgeInstance.head.
  rewrite dict_get_with_image_info by reflexivity. reflexivity.
Qed.

Lemma head_expanded (env : Env) (b : BadgeInstance.t) (v : ObiVersion) (ie : bool) :
  BadgeInstance.head env b v true true ie
  = dict_set "badge"
      (JObj (dict_set "issuer"
               (JObj (Issuer.document env (BadgeInstance.issuer b) v ie false))
               (BadgeClass.document env (BadgeInstance.badgeclass b) v ie false)))
      (BadgeInstance.head env b v false false ie).
Proof.
  unfold BadgeInstance.head. cbv zeta. apply dict_set_in_set.
Qed.

Lemma extended_document (env : Env) (b : BadgeInstance.t) :
  let nested :=
    JObj (dict_set "issuer"
            (JObj (Issuer.document env (BadgeInstance.issuer b)
                     (CURRENT_OBI_VERSION env) true false))
            (BadgeClass.document env (BadgeInstance.badgeclass b)
               (CURRENT_OBI_VERSION env) true false)) in
  let extended :=
    dict_set_in "badge" "issuer"
      (JObj (Issuer.document env (BadgeInstance.issuer b)
               (CURRENT_OBI_VERSION env) true false))
      (dict_set "badge"
         (JObj (BadgeClass.document env (BadgeInstance.badgeclass b)
                  (CURRENT_OBI_VERSION env) true false))
         (BadgeInstance.document env b (CURRENT_OBI_VERSION env)
            false false true false)) in
  (BadgeInstance.revoked b = false ->
   mem_str "badge" (extension_names (BadgeInstance.extensions b)) = false ->
   extended
   = BadgeInstance.document env b (CURRENT_OBI_VERSION env) true true true false)
  /\ (BadgeInstance.revoked b = true ->
      extended
      = (BadgeInstance.document env b (CURRENT_OBI_VERSION env) true true true false
         ++ [("badge", nested)])%list).
Proof.
  intros nested. cbv zeta.
  rewrite dict_set_in_set. fold nested. split.
  - intros Hrev Hext.
    rewrite !document_not_revoked by exact Hrev. cbv zeta.
    rewrite head_expanded. fold nested.
    rewrite body_comm by (exact Hext || apply head_contains_badge).
    rewrite pass_through_comm; [reflexivity|].
    unfold BadgeInstance.body.
    apply extension_fields_comm with (X := JNull); [exact Hext|].
    destruct (CURRENT_OBI_VERSION env); destruct (BadgeInstance.expires_at b);
      destruct (truthy_str (BadgeInstance.evidence_url env b));
      try destruct (truthy_str (BadgeInstance.narrative b));
      repeat first [ apply dict_contains_set_mono
                   | apply source_url_fields_contains ];
      apply head_contains_badge.
  - intros Hrev.
    unfold BadgeInstance.document, get_obi_context. rewrite Hrev. reflexivity.
Qed.

(** What [extended_json] does: it raises [AttributeError] when one of
    the three columns cannot be read, as [get_json] with both expansions
    does. *)
Lemma extended_json_returns (env : Env) (b : BadgeInstance.t) :
  BadgeInstance.extended_json env b
  = if BadgeInstance.renders b true true true
    then Ok (dict_set_in "badge" "issuer"
               (JObj (Issuer.document env (BadgeInstance.issuer b)
                        (CURRENT_OBI_VERSION env) true false))
               (dict_set "badge"
                  (JObj (BadgeClass.document env (BadgeInstance.badgeclass b)
                           (CURRENT_OBI_VERSION env) true false))
                  (BadgeInstance.document env b (CURRENT_OBI_VERSION env)
                     false false true false)))
    else Raise AttributeError.
Proof.
  unfold BadgeInstance.extended_json.
  rewrite BadgeInstance_get_json_returns, BadgeClass_get_json_returns,
    Issuer_get_json_returns.
  unfold BadgeInstance.renders.
  destruct (readable (BadgeInstance.original_json b)); [|reflexivity].
  cbn [andb bind].
  destruct (BadgeClass.renders (BadgeInstance.badgeclass b) true); [|reflexivity].
  cbn [andb bind].
  destruct (Issuer.renders (BadgeInstance.issuer b)); reflexivity.
Qed.

(** X11.  [extended_json] of an assertion that is not revoked (no extension
    row being named [badge]) is what [get_json] gives for the current
    version with the badge class and the issuer expanded: the same
    document, or the same exception.  For a revoked assertion it is the
    five entries of the revoked document followed by the nested [badge],
    the document of the badge class with the document of the issuer under
    [issuer]; it raises what the three builders raise. *)
Theorem extended_json_expands :
  forall (env : Env) (b : BadgeInstance.t),
    (BadgeInstance.revoked b = false ->
     mem_str "badge" (extension_names (BadgeInstance.extensions b)) = false ->
     BadgeInstance.extended_json env b
     = BadgeInstance.get_json env b (CURRENT_OBI_VERSION env) true true true false)
    /\ (BadgeInstance.revoked b = true ->
        BadgeInstance.extended_json env b
        = (doc <- BadgeInstance.get_json env b (CURRENT_OBI_VERSION env)
                    true true true false ;;
           badge <- BadgeClass.get_json env (BadgeInstance.badgeclass b)
                      (CURRENT_OBI_VERSION env) true false ;;
           issuer <- Issuer.get_json env (BadgeInstance.issuer b)
                       (CURRENT_OBI_VERSION env) true false ;;
           Ok (doc ++ [("badge", JObj (dict_set "issuer" (JObj issuer) badge))])%list)).
Proof.
  intros env b.
  destruct (extended_document env b) as [Hlive Hrevoked].
  rewrite extended_json_returns, BadgeInstance_get_json_returns.
  split.
  - intros Hrev Hext. rewrite (Hlive Hrev Hext). reflexivity.
  - intros Hrev. rewrite (Hrevoked Hrev).
    rewrite BadgeClass_get_json_returns, Issuer_get_json_returns.
    unfold BadgeInstance.renders.
    destruct (readable (BadgeInstance.original_json b)); [|reflexivity].
    cbn [andb bind].
    destruct (BadgeClass.renders (BadgeInstance.badgeclass b) true); [|reflexivity].
    cbn [andb bind].
    destruct (Issuer.renders (BadgeInstance.issuer b)); reflexivity.
Qed.

Lemma extended_json_expands_witness :
  BadgeInstance.extended_json Demo.env Demo.imported_assertion
  = BadgeInstance.get_json Demo.env Demo.imported_assertion V2_0 true true true false
  /\ exists doc,
       BadgeInstance.extended_json Demo.env Demo.imported_assertion = Ok doc.
Proof.
  split.
  - exact (proj1 (extended_json_expands Demo.env Demo.imported_assertion)
             eq_refl eq_refl).
  - eexists. reflexivity.
Defined.


Lemma document_badge_entry (env : Env) (b : BadgeInstance.t) (v : ObiVersion)
  (eb ei ie uc : bool) :
  BadgeInstance.revoked b = false ->
  mem_str "badge" (extension_names (BadgeInstance.extensions b)) = false ->
  let badgeclass_json :=
    BadgeClass.document env (BadgeInstance.badgeclass b) v ie false in
  let issuer_json := Issuer.document env (BadgeInstance.issuer b) v ie false in
  dict_get "badge" (BadgeInstance.document env b v eb ei ie uc)
  = Some (if eb then
            if ei
            then JObj (dict_set "issuer" (JObj issuer_json) badgeclass_json)
            else JObj badgeclass_json
          else JStr (add_obi_version_ifneeded env
                       (BadgeClass.jsonld_id env (BadgeInstance.badgeclass b)) v)).
Proof.
  intros Hrev Hext bcj ij.
  rewrite document_not_revoked by exact Hrev. cbv zeta.
  assert (dict_get "badge"
            (BadgeInstance.body env b v uc (BadgeInstance.head env b v eb ei ie))
          = dict_get "badge" (BadgeInstance.head env b v eb ei ie)) as Hbody.
  { unfold BadgeInstance.body.
    rewrite dict_get_extension_fields by exact Hext.
    destruct v; destruct (BadgeInstance.expires_at b);
      destruct (truthy_str (BadgeInstance.evidence_url env b));
      try destruct (truthy_str (BadgeInstance.narrative b));
      dict_lookup; reflexivity. }
  assert (dict_get "badge" (BadgeInstance.head env b v eb ei ie)
          = Some (if eb then
                    if ei then JObj (dict_set "issuer" (JObj ij) bcj) else JObj bcj
                  else JStr (add_obi_version_ifneeded env
                               (BadgeClass.jsonld_id env (BadgeInstance.badgeclass b))
                               v))) as Hhead.
  { unfold BadgeInstance.head. cbv zeta. fold bcj ij.
    destruct eb; [destruct ei|].
    - rewrite dict_set_in_set. apply dict_get_set_eq.
    - apply dict_get_set_eq.
    - rewrite dict_get_with_image_info by reflexivity. reflexivity. }
  destruct ie.
  - apply dict_get_pass_through_present. rewrite Hbody. exact Hhead.
  - rewrite Hbody. exact Hhead.
Qed.

(** X12.  The [badge] entry of a document [get_json] returns for an
    assertion that is not revoked (no extension row being named
    [badge]): the id of the badge class, with the version suffix, when
    the badge class is not expanded, whether or not the issuer is to be
    expanded; the document [BadgeClass.get_json] returns when it is
    expanded, with its [issuer] entry replaced by the document
    [Issuer.get_json] returns when that is expanded too.  The nested
    documents are built without the canonical id, also when the canonical
    id is asked for. *)
Theorem get_json_badge_entry :
  forall (env : Env) (b : BadgeInstance.t) (obi_version : ObiVersion)
         (expand_badgeclass expand_issuer include_extra use_canonical_id : bool)
         (doc : OrderedDict),
    BadgeInstance.revoked b = false ->
    mem_str "badge" (extension_names (BadgeInstance.extensions b)) = false ->
    BadgeInstance.get_json env b obi_version expand_badgeclass expand_issuer
      include_extra use_canonical_id = Ok doc ->
    (expand_badgeclass = false ->
     dict_get "badge" doc
     = Some (JStr (add_obi_version_ifneeded env
                     (BadgeClass.jsonld_id env (BadgeInstance.badgeclass b))
                     obi_version)))
    /\ (expand_badgeclass = true ->
        exists badgeclass_json,
          BadgeClass.get_json env (BadgeInstance.badgeclass b) obi_version
            include_extra false = Ok badgeclass_json
          /\ (expand_issuer = false ->
              dict_get "badge" doc = Some (JObj badgeclass_json))
          /\ (expand_issuer = true ->
              exists issuer_json,
                Issuer.get_json env (BadgeInstance.issuer b) obi_version
                  include_extra false = Ok issuer_json
                /\ dict_get "badge" doc
                   = Some (JObj (dict_set "issuer" (JObj issuer_json)
                                   badgeclass_json)))).
Proof.
  intros env b v eb ei ie uc doc Hrev Hext Hdoc. returned Hdoc.
  pose proof (document_badge_entry env b v eb ei ie uc Hrev Hext) as Hbadge.
  cbv zeta in Hbadge.
  unfold BadgeInstance.renders in Hrenders.
  apply andb_true_iff in Hrenders. destruct Hrenders as [_ Hnested].
  split.
  - intros ->. exact Hbadge.
  - intros ->. apply andb_true_iff in Hnested. destruct Hnested as [Hbc Hi].
    eexists. split; [rewrite BadgeClass_get_json_returns, Hbc; reflexivity|].
    split.
    + intros ->. exact Hbadge.
    + intros ->. eexists.
      split; [rewrite Issuer_get_json_returns, Hi; reflexivity | exact Hbadge].
Qed.

Lemma get_json_badge_entry_witness :
  (exists doc,
      BadgeInstance.get_json Demo.env Demo.assertion V1_1 false true true true = Ok doc
      /\ dict_get "badge" doc
         = Some (JStr "https://badges.example/public/badges/bc?v=1_1"))
  /\ (exists doc badgeclass_json,
         BadgeInstance.get_json Demo.env Demo.assertion V1_1 true false true true
         = Ok doc
         /\ BadgeClass.get_json Demo.env Demo.badgeclass V1_1 true false
            = Ok badgeclass_json
         /\ dict_get "badge" doc = Some (JObj badgeclass_json)).
Proof.
  split.
  - eexists. split; [reflexivity|].
    exact (proj1 (get_json_badge_entry Demo.env Demo.assertion V1_1 false true true true
                    _ eq_refl eq_refl eq_refl) eq_refl).
  - destruct (proj2 (get_json_badge_entry Demo.env Demo.assertion V1_1
                       true false true true _ eq_refl eq_refl eq_refl) eq_refl)
      as [bcj [Hbc [Hbadge _]]].
    eexists. exists bcj. split; [reflexivity|]. split; [exact Hbc|].
    exact (Hbadge eq_refl).
Defined.

(** ** Saving, revoking and re-baking *)

(** The document does not depend on the primary key, on the name of the
    image file, or, for an assertion that is not revoked, on the
    revocation reason. *)
Lemma document_set_pk (env : Env) (b : BadgeInstance.t) (k : option nat)
  (v : ObiVersion) (eb ei ie uc : bool) :
  BadgeInstance.document env (BadgeInstance.set_pk k b) v eb ei ie uc
  = BadgeInstance.document env b v eb ei ie uc.
Proof. reflexivity. Qed.

Lemma document_set_image (env : Env) (b : BadgeInstance.t) (img : option string)
  (v : ObiVersion) (eb ei ie uc : bool) :
  BadgeInstance.document env (BadgeInstance.set_image img b) v eb ei ie uc
  = BadgeInstance.document env b v eb ei ie uc.
Proof. reflexivity. Qed.

Lemma document_clear_reason (env : Env) (b : BadgeInstance.t) (rev : bool)
  (v : ObiVersion) (eb ei ie uc : bool) :
  BadgeInstance.revoked b = rev ->
  BadgeInstance.document env
    (if negb rev then BadgeInstance.set_revocation_reason None b else b)
    v eb ei ie uc
  = BadgeInstance.document env b v eb ei ie uc.
Proof.
  intros Hrev. destruct rev; simpl negb; cbv iota; [reflexivity|].
  unfold BadgeInstance.document.
  change (BadgeInstance.revoked (BadgeInstance.set_revocation_reason None b))
    with (BadgeInstance.revoked b).
  rewrite Hrev. reflexivity.
Qed.

(** Writing the row changes nothing [get_json] reads. *)
Lemma get_json_written (env : Env) (st : BadgeInstance.State) (v : ObiVersion)
  (eb ei ie uc : bool) :
  BadgeInstance.get_json env (BadgeInstance.self (BadgeInstance.written env st))
    v eb ei ie uc
  = BadgeInstance.get_json env (BadgeInstance.self st) v eb ei ie uc.
Proof.
  rewrite !BadgeInstance_get_json_returns.
  unfold BadgeInstance.written. cbn [BadgeInstance.self].
  rewrite document_set_pk, document_clear_reason by reflexivity.
  destruct (BadgeInstance.revoked (BadgeInstance.self st)); reflexivity.
Qed.

Lemma get_json_set_image (env : Env) (b : BadgeInstance.t) (img : option string)
  (v : ObiVersion) (eb ei ie uc : bool) :
  BadgeInstance.get_json env (BadgeInstance.set_image img b) v eb ei ie uc
  = BadgeInstance.get_json env b v eb ei ie uc.
Proof. rewrite !BadgeInstance_get_json_returns. reflexivity. Qed.

Lemma prepared_keeps (env : Env) (s : BadgeInstance.t) :
  BadgeInstance.pk (BadgeInstance.prepared env s) = BadgeInstance.pk s
  /\ BadgeInstance.revoked (BadgeInstance.prepared env s) = BadgeInstance.revoked s
  /\ BadgeInstance.revocation_reason (BadgeInstance.prepared env s)
     = BadgeInstance.revocation_reason s
  /\ BadgeInstance.image (BadgeInstance.prepared env s) = BadgeInstance.image s
  /\ BadgeInstance.entity_id (BadgeInstance.prepared env s)
     = Some (match BadgeInstance.entity_id s with
             | Some e => e
             | None => generate_entity_uri env
             end).
Proof.
  unfold BadgeInstance.prepared. cbn -[uuid_hex].
  destruct (BadgeInstance.entity_id s) eqn:E; cbn -[uuid_hex]; rewrite ?E;
    repeat split; reflexivity.
Qed.

Lemma entity_id_written (env : Env) (st : BadgeInstance.State) :
  BadgeInstance.entity_id (BadgeInstance.self (BadgeInstance.written env st))
  = BadgeInstance.entity_id (BadgeInstance.self st).
Proof.
  unfold BadgeInstance.written. cbn [BadgeInstance.self].
  destruct (BadgeInstance.revoked (BadgeInstance.self st)); reflexivity.
Qed.

(** What a write leaves, in terms of an assertion [s] the written one
    agrees with on the primary key and on the revocation. *)
Lemma written_row (env : Env) (x : BadgeInstance.State) (s : BadgeInstance.t) :
  BadgeInstance.pk (BadgeInstance.self x) = BadgeInstance.pk s ->
  BadgeInstance.revoked (BadgeInstance.self x) = BadgeInstance.revoked s ->
  BadgeInstance.revocation_reason (BadgeInstance.self x)
  = BadgeInstance.revocation_reason s ->
  let st' := BadgeInstance.written env x in
  BadgeInstance.row st' = Some (BadgeInstance.self st')
  /\ BadgeInstance.pk (BadgeInstance.self st')
     = Some (match BadgeInstance.pk s with
             | Some k => k
             | None => new_pk env
             end)
  /\ BadgeInstance.revoked (BadgeInstance.self st') = BadgeInstance.revoked s
  /\ (BadgeInstance.revoked s = false ->
      BadgeInstance.revocation_reason (BadgeInstance.self st') = None)
  /\ (BadgeInstance.revoked s = true ->
      BadgeInstance.revocation_reason (BadgeInstance.self st')
      = BadgeInstance.revocation_reason s).
Proof.
  intros Hpk Hrev Hreason st'. subst st'.
  rewrite row_written, pk_written, revoked_written, reason_written, Hpk, Hrev, Hreason.
  split; [reflexivity|]. split; [reflexivity|]. split; [reflexivity|].
  split; intros ->; reflexivity.
Qed.

(** X13.  The outcomes of [BadgeInstance.save].  A stored assertion is
    written (the blacklist is not read).  A new one whose recipient is in
    the blacklist is refused with [ValidationError], the object, the row
    and the files left as they were.  A new one that has an image is
    written.  A new one without image is baked first: [save] raises
    [ValueError] when the badge class has no image and [AttributeError]
    when the [original_json] of the assertion cannot be read, the row
    and the files left as they were; else it is written.  When [save]
    writes, it ends normally: the row is the object, the object has a
    primary key, it is revoked exactly when it was, an assertion that is
    not revoked has no revocation reason and a revoked one keeps its
    reason. *)
Theorem save_outcome :
  forall (env : Env) (st : BadgeInstance.State),
    let s := BadgeInstance.self st in
    let writes :=
      exists st',
        BadgeInstance.save env st = (Ok tt, st')
        /\ BadgeInstance.row st' = Some (BadgeInstance.self st')
        /\ BadgeInstance.pk (BadgeInstance.self st')
           = Some (match BadgeInstance.pk s with
                   | Some k => k
                   | None => new_pk env
                   end)
        /\ BadgeInstance.revoked (BadgeInstance.self st') = BadgeInstance.revoked s
        /\ (BadgeInstance.revoked s = false ->
            BadgeInstance.revocation_reason (BadgeInstance.self st') = None)
        /\ (BadgeInstance.revoked s = true ->
            BadgeInstance.revocation_reason (BadgeInstance.self st')
            = BadgeInstance.revocation_reason s) in
    let raises (e : Exception) :=
      exists st',
        BadgeInstance.save env st = (Raise e, st')
        /\ BadgeInstance.row st' = BadgeInstance.row st
        /\ BadgeInstance.storage st' = BadgeInstance.storage st in
    let blacklisted :=
      api_query_is_in_blacklist env (BadgeInstance.recipient_type s)
        (BadgeInstance.recipient_identifier s) in
    (BadgeInstance.pk s <> None -> writes)
    /\ (BadgeInstance.pk s = None -> blacklisted = true ->
        BadgeInstance.save env st
        = (Raise (ValidationError "You may not award this badge to this recipient."),
           st))
    /\ (BadgeInstance.pk s = None -> blacklisted = false ->
        (truthy_str (BadgeInstance.image s) = true -> writes)
        /\ (truthy_str (BadgeInstance.image s) = false ->
            (truthy_str (BadgeClass.image (BadgeInstance.badgeclass s)) = false ->
             raises ValueError)
            /\ (truthy_str (BadgeClass.image (BadgeInstance.badgeclass s)) = true ->
                (readable (BadgeInstance.original_json s) = false ->
                 raises AttributeError)
                /\ (readable (BadgeInstance.original_json s) = true -> writes)))).
Proof.
  intros env st s writes raises blacklisted. subst writes raises blacklisted.
  cbv zeta. rewrite save_cases. fold s.
  destruct (prepared_keeps env s) as [Hppk [Hprev [Hpreason _]]].
  split; [|split].
  - intros Hpk. destruct (BadgeInstance.pk s) as [k|] eqn:Ek; [|contradiction].
    eexists. split; [reflexivity|].
    pose proof (written_row env st s eq_refl eq_refl eq_refl) as H.
    cbv zeta in H. fold s in H. rewrite Ek in H. exact H.
  - intros Hpk Hbl. rewrite Hpk, Hbl. reflexivity.
  - intros Hpk Hbl. rewrite Hpk, Hbl. cbv zeta. split.
    + intros Himg. rewrite Himg. eexists. split; [reflexivity|].
      pose proof (written_row env
                    (BadgeInstance.with_self st (BadgeInstance.prepared env s)) s
                    Hppk Hprev Hpreason) as H.
      cbv zeta in H. rewrite Hpk in H. exact H.
    + intros Himg. rewrite Himg, badgeclass_prepared. split.
      * intros Hbc. rewrite Hbc. eexists. split; [reflexivity|].
        split; reflexivity.
      * intros Hbc. rewrite Hbc, get_json_plain, readable_prepared. split.
        -- intros Hr. rewrite Hr. eexists. split; [reflexivity|].
           split; reflexivity.
        -- intros Hr. rewrite Hr. eexists. split; [reflexivity|].
           match goal with
           | |- context [BadgeInstance.written env ?x] =>
               pose proof (written_row env x s Hppk Hprev Hpreason) as H
           end.
           cbv zeta in H. rewrite Hpk in H. exact H.
Qed.

Lemma save_outcome_witness :
  (exists st',
      BadgeInstance.save Demo.env Demo.state = (Ok tt, st')
      /\ BadgeInstance.row st' = Some (BadgeInstance.self st')
      /\ BadgeInstance.pk (BadgeInstance.self st') = Some 1)
  /\ (exists st',
         BadgeInstance.save Demo.env Demo.new_state = (Ok tt, st')
         /\ BadgeInstance.row st' = Some (BadgeInstance.self st')
         /\ BadgeInstance.pk (BadgeInstance.self st') = Some 100)
  /\ (exists st',
         BadgeInstance.save Demo.env
           (BadgeInstance.with_self Demo.state_of_badgeclass_without_image
              (BadgeInstance.set_pk None
                 (BadgeInstance.set_image None
                    Demo.assertion_of_badgeclass_without_image)))
         = (Raise ValueError, st')
         /\ BadgeInstance.row st'
            = Some Demo.assertion_of_badgeclass_without_image).
Proof.
  split; [|split].
  - destruct (proj1 (save_outcome Demo.env Demo.state) ltac:(discriminate))
      as [st' [Hrun [Hrow [Hpk _]]]].
    exists st'. split; [exact Hrun|]. split; [exact Hrow | exact Hpk].
  - destruct (proj2 (proj2 (proj2 (proj2 (proj2 (save_outcome Demo.env Demo.new_state))
                                      eq_refl eq_refl) eq_refl) eq_refl) eq_refl)
      as [st' [Hrun [Hrow [Hpk _]]]].
    exists st'. split; [exact Hrun|]. split; [exact Hrow | exact Hpk].
  - destruct (proj1 (proj2 (proj2 (proj2 (save_outcome Demo.env
                (BadgeInstance.with_self Demo.state_of_badgeclass_without_image
                   (BadgeInstance.set_pk None
                      (BadgeInstance.set_image None
                         Demo.assertion_of_badgeclass_without_image)))))
                eq_refl eq_refl) eq_refl) eq_refl)
      as [st' [Hrun [Hrow _]]].
    exists st'. split; [exact Hrun | exact Hrow].
Defined.

(** X14.  Saving a new assertion that has no image (the recipient not
    being in the blacklist, the badge class having an image, the
    [original_json] of the assertion being readable) gives it its entity
    id, stores one new file and makes it the image of the assertion.
    The file is named after the entity id and the extension of the image
    of the badge class, and what is baked into it is the document
    [get_json] returns, in the unversioned baked version, for the
    assertion as it is saved: with the salt and the entity id it has
    just been given. *)
Theorem save_new_bakes_saved_document :
  forall (env : Env) (st : BadgeInstance.State),
    let s := BadgeInstance.self st in
    BadgeInstance.pk s = None ->
    api_query_is_in_blacklist env (BadgeInstance.recipient_type s)
      (BadgeInstance.recipient_identifier s) = false ->
    truthy_str (BadgeInstance.image s) = false ->
    truthy_str (BadgeClass.image (BadgeInstance.badgeclass s)) = true ->
    readable (BadgeInstance.original_json s) = true ->
    exists st' entity_id name json,
      BadgeInstance.save env st = (Ok tt, st')
      /\ BadgeInstance.entity_id (BadgeInstance.self st') = Some entity_id
      /\ entity_id = match BadgeInstance.entity_id s with
                     | Some e => e
                     | None => generate_entity_uri env
                     end
      /\ BadgeInstance.image (BadgeInstance.self st') = Some name
      /\ name = get_available_name env
                  ("uploads/badges/assertion-" ++ entity_id
                   ++ splitext_ext env (BadgeClass.image (BadgeInstance.badgeclass s)))
                  (map fst (BadgeInstance.storage st))
      /\ BadgeInstance.get_json env (BadgeInstance.self st')
           (UNVERSIONED_BAKED_VERSION env) false false true false = Ok json
      /\ BadgeInstance.storage st'
         = (BadgeInstance.storage st
            ++ [(name,
                 bake env (BadgeClass.image (BadgeInstance.badgeclass s))
                   (json_dumps env (JObj json)))])%list
      /\ BadgeInstance.row st' = Some (BadgeInstance.self st').
Proof.
  intros env st s Hpk Hbl Himg Hbc Hr.
  destruct (prepared_keeps env s) as [_ [_ [_ [_ Heid]]]].
  rewrite save_cases. fold s. rewrite Hpk, Hbl. cbv zeta.
  rewrite Himg, badgeclass_prepared, Hbc.
  destruct (BadgeInstance.get_json env (BadgeInstance.prepared env s)
              (UNVERSIONED_BAKED_VERSION env) false false true false)
    as [json|e] eqn:Ejson;
    [|rewrite get_json_plain, readable_prepared, Hr in Ejson; discriminate].
  eexists. eexists. eexists. exists json.
  split; [reflexivity|].
  rewrite entity_id_written, image_written, get_json_written, row_written,
    storage_written.
  cbn [BadgeInstance.self BadgeInstance.storage].
  rewrite get_json_set_image.
  change (BadgeInstance.entity_id (BadgeInstance.set_image ?n ?b))
    with (BadgeInstance.entity_id b).
  change (BadgeInstance.image (BadgeInstance.set_image ?n ?b)) with n.
  rewrite Heid. unfold BadgeInstance.UPLOAD_TO.
  split; [reflexivity|]. split; [reflexivity|]. split; [reflexivity|].
  split; [reflexivity|]. split; [exact Ejson|]. split; reflexivity.
Qed.

Lemma save_new_bakes_saved_document_witness :
  exists st',
    BadgeInstance.save Demo.env Demo.new_state = (Ok tt, st')
    /\ BadgeInstance.entity_id (BadgeInstance.self st') = Some "fresh"
    /\ BadgeInstance.image (BadgeInstance.self st')
       = Some "uploads/badges/assertion-fresh.png"
    /\ BadgeInstance.storage st' = [("uploads/badges/assertion-fresh.png", "PNG{}")].
Proof.
  destruct (save_new_bakes_saved_document Demo.env Demo.new_state
              eq_refl eq_refl eq_refl eq_refl eq_refl)
    as [st' [e [n [json [Hrun [He [Heq [Hi [Hn [_ [Hfs _]]]]]]]]]]].
  subst e n. exists st'.
  split; [exact Hrun|]. split; [exact He|]. split; [exact Hi | exact Hfs].
Defined.

(** X15.  [revoke], then [get_json].  After a stored assertion that was
    not revoked is revoked with a reason, [get_json] gives, for every
    version and every flag, the five entries of a revoked assertion, with
    the id it had and the reason given, when the columns it reads before
    it returns them can be read (that of the assertion, and those of the
    badge class and of the issuer it is asked to expand); else it raises
    [AttributeError]. *)
Theorem revoke_then_get_json :
  forall (env : Env) (reason : string) (st : BadgeInstance.State)
         (obi_version : ObiVersion)
         (expand_badgeclass expand_issuer include_extra use_canonical_id : bool),
    BadgeInstance.revoked (BadgeInstance.self st) = false ->
    reason <> "" ->
    BadgeInstance.pk (BadgeInstance.self st) <> None ->
    exists st',
      BadgeInstance.revoke env (Some reason) st = (Ok tt, st')
      /\ BadgeInstance.get_json env (BadgeInstance.self st') obi_version
           expand_badgeclass expand_issuer include_extra use_canonical_id
         = (if BadgeInstance.renders (BadgeInstance.self st)
                 expand_badgeclass expand_issuer include_extra
            then Ok [("@context", JStr (context_iri env obi_version));
                     ("type", JStr "Assertion");
                     ("id", JStr (if use_canonical_id
                                  then BadgeInstance.jsonld_id env (BadgeInstance.self st)
                                  else add_obi_version_ifneeded env
                                         (BadgeInstance.jsonld_id env
                                            (BadgeInstance.self st))
                                         obi_version));
                     ("revoked", JBool true);
                     ("revocationReason", JStr reason)]
            else Raise AttributeError)
      /\ BadgeInstance.row st' = Some (BadgeInstance.self st').
Proof.
  intros env reason st v eb ei ie uc Hrev Hreason Hpk.
  destruct st as [s r fs h]. cbn [BadgeInstance.self] in *.
  destruct (BadgeInstance.pk s) as [k|] eqn:Ek; [clear Hpk | contradiction].
  assert (truthy_str (Some reason) = true) as Htruthy.
  { simpl. destruct (reason =? "") eqn:E; [|reflexivity].
    apply String.eqb_eq in E. contradiction. }
  assert (forall img,
             BadgeInstance.get_json env
               (BadgeInstance.set_image img
                  (BadgeInstance.set_revocation_reason (Some reason)
                     (BadgeInstance.set_revoked true s))) v eb ei ie uc
             = (if BadgeInstance.renders s eb ei ie
                then Ok [("@context", JStr (context_iri env v));
                         ("type", JStr "Assertion");
                         ("id", JStr (if uc then BadgeInstance.jsonld_id env s
                                      else add_obi_version_ifneeded env
                                             (BadgeInstance.jsonld_id env s) v));
                         ("revoked", JBool true);
                         ("revocationReason", JStr reason)]
                else Raise AttributeError)) as Hdoc.
  { intros img. rewrite BadgeInstance_get_json_returns.
    rewrite document_revoked by reflexivity.
    change (BadgeInstance.renders
              (BadgeInstance.set_image img
                 (BadgeInstance.set_revocation_reason (Some reason)
                    (BadgeInstance.set_revoked true s))) eb ei ie)
      with (BadgeInstance.renders s eb ei ie).
    change (BadgeInstance.revocation_reason
              (BadgeInstance.set_image img
                 (BadgeInstance.set_revocation_reason (Some reason)
                    (BadgeInstance.set_revoked true s))))
      with (Some reason).
    rewrite Htruthy. reflexivity. }
  unfold BadgeInstance.revoke, BadgeInstance.image_delete,
    BadgeInstance.bindM, BadgeInstance.get_self.
  cbn -[BadgeInstance.save BadgeInstance.get_json truthy_str].
  rewrite Hrev, Htruthy.
  cbn -[BadgeInstance.save BadgeInstance.get_json truthy_str].
  destruct (truthy_str (BadgeInstance.image s)) eqn:Hi;
    cbn -[BadgeInstance.save BadgeInstance.get_json truthy_str].
  - destruct (BadgeInstance.image s) as [n|] eqn:En; [|discriminate Hi].
    unfold BadgeInstance.storage_delete, BadgeInstance.observe.
    cbn -[BadgeInstance.save BadgeInstance.get_json truthy_str].
    rewrite (save_stored env _ k) by exact Ek.
    rewrite (save_stored env _ k)
      by (rewrite pk_written; cbn [BadgeInstance.self]; cbn; rewrite Ek; reflexivity).
    eexists. split; [reflexivity|]. split; [|apply row_written].
    rewrite !get_json_written. cbn [BadgeInstance.self].
    apply (Hdoc None).
  - rewrite (save_stored env _ k) by exact Ek.
    eexists. split; [reflexivity|]. split; [|apply row_written].
    rewrite get_json_written. cbn [BadgeInstance.self].
    rewrite <- (Hdoc (BadgeInstance.image s)).
    rewrite get_json_set_image. reflexivity.
Qed.

Lemma revoke_then_get_json_witness :
  exists st',
    BadgeInstance.revoke Demo.env (Some "bad") Demo.state = (Ok tt, st')
    /\ BadgeInstance.get_json Demo.env (BadgeInstance.self st') V2_0
         true true true false
       = Ok [("@context", JStr "https://w3id.org/openbadges/v2");
             ("type", JStr "Assertion");
             ("id", JStr "https://badges.example/public/assertions/as");
             ("revoked", JBool true);
             ("revocationReason", JStr "bad")].
Proof.
  destruct (revoke_then_get_json Demo.env "bad" Demo.state V2_0 true true true false
              eq_refl ltac:(discriminate) ltac:(discriminate))
    as [st' [Hrun [Hdoc _]]].
  exists st'. split; [exact Hrun | exact Hdoc].
Defined.


(** X16.  [rebake] of a stored assertion with an image, whose badge class
    has an image and whose [original_json] can be read, ends normally and
    changes nothing [get_json] gives: afterwards it returns the document,
    or raises the exception, it did before, for every version and every
    flag.  Without [save] the row is left as it was; with it the row is
    the object. *)
Theorem rebake_keeps_document :
  forall (env : Env) (obi_version : ObiVersion) (save_flag : bool)
         (st : BadgeInstance.State) (old : string),
    BadgeInstance.pk (BadgeInstance.self st) <> None ->
    BadgeInstance.image (BadgeInstance.self st) = Some old ->
    truthy_str (BadgeClass.image
                  (BadgeInstance.badgeclass (BadgeInstance.self st))) = true ->
    readable (BadgeInstance.original_json (BadgeInstance.self st)) = true ->
    exists st',
      BadgeInstance.rebake env obi_version save_flag st = (Ok tt, st')
      /\ (forall (v : ObiVersion)
                 (expand_badgeclass expand_issuer include_extra use_canonical_id : bool),
             BadgeInstance.get_json env (BadgeInstance.self st') v
               expand_badgeclass expand_issuer include_extra use_canonical_id
             = BadgeInstance.get_json env (BadgeInstance.self st) v
                 expand_badgeclass expand_issuer include_extra use_canonical_id)
      /\ (save_flag = false -> BadgeInstance.row st' = BadgeInstance.row st)
      /\ (save_flag = true -> BadgeInstance.row st' = Some (BadgeInstance.self st')).
Proof.
  intros env v save_flag st old Hpk Himg Hbc Hr.
  destruct st as [s r fs h]. cbn [BadgeInstance.self] in *.
  destruct (BadgeInstance.pk s) as [k|] eqn:Ek; [clear Hpk | contradiction].
  unfold BadgeInstance.rebake, BadgeInstance.bindM, BadgeInstance.get_self,
    BadgeInstance.field_file, BadgeInstance.lift.
  cbn [BadgeInstance.self]. rewrite Hbc. cbn [BadgeInstance.ret].
  rewrite get_json_plain, Hr.
  unfold BadgeInstance.storage_save, BadgeInstance.storage_delete,
    BadgeInstance.modify, BadgeInstance.observe.
  cbn [BadgeInstance.self BadgeInstance.row BadgeInstance.storage
       BadgeInstance.history].
  rewrite Himg.
  destruct save_flag.
  - rewrite (save_stored env _ k) by exact Ek.
    eexists. split; [reflexivity|]. split; [|split].
    + intros v' eb ei ie uc. rewrite get_json_written.
      cbn [BadgeInstance.self]. apply get_json_set_image.
    + discriminate.
    + intros _. apply row_written.
  - eexists. split; [reflexivity|]. split; [|split].
    + intros v' eb ei ie uc. cbn [BadgeInstance.self]. apply get_json_set_image.
    + intros _. reflexivity.
    + discriminate.
Qed.

Lemma rebake_keeps_document_witness :
  exists st',
    BadgeInstance.rebake Demo.env V1_1 true Demo.state = (Ok tt, st')
    /\ BadgeInstance.get_json Demo.env (BadgeInstance.self st') V1_1
         false false true false
       = BadgeInstance.get_json Demo.env Demo.assertion V1_1 false false true false.
Proof.
  destruct (rebake_keeps_document Demo.env V1_1 true Demo.state
              "uploads/badges/assertion-as.png" ltac:(discriminate) eq_refl
              eq_refl eq_refl)
    as [st' [Hrun [Hdoc _]]].
  exists st'. split; [exact Hrun | apply Hdoc].
Defined.

(** ** The user behind a recipient *)

(** Where identifiers are unique, the first verified row with an
    identifier is the row [cached.get] finds, if that one is verified. *)
Lemma find_unique_identifier (key : string) (table : list IdentityRecord) :
  NoDup (map identifier table) ->
  find (fun r => verified r && (identifier r =? key)) table
  = match cached_get key table with
    | Some r => if verified r then Some r else None
    | None => None
    end.
Proof.
  unfold cached_get.
  induction table as [|r table IH]; simpl; intros Hnd; [reflexivity|].
  inversion Hnd as [|? ? Hnotin Hnd']; subst.
  destruct (identifier r =? key) eqn:E.
  - destruct (verified r); simpl; [reflexivity|].
    apply String.eqb_eq in E.
    destruct (find (fun r0 => verified r0 && (identifier r0 =? key)) table)
      as [r'|] eqn:F; [|reflexivity].
    apply find_some in F. destruct F as [Hin Hr'].
    apply andb_true_iff in Hr'. destruct Hr' as [_ Hk].
    apply String.eqb_eq in Hk. exfalso. apply Hnotin.
    rewrite E, <- Hk. apply in_map. exact Hin.
  - rewrite andb_false_r. apply IH. exact Hnd'.
Qed.

(** X17.  [recipient_user] does not read the recipient type.  With unique
    identifiers in both tables it is what [get_user_or_none] gives for
    the type [email] when an e-mail address has the identifier of the
    assertion (so an unverified e-mail address hides a verified
    identifier of another kind), and what [get_user_or_none] gives for
    another type when no e-mail address has it. *)
Theorem recipient_user_by_table :
  forall (U : Type) (user_of : IdentityRecord -> U) (accounts : Accounts)
         (b : BadgeInstance.t),
    NoDup (map identifier (CachedEmailAddress accounts)) ->
    NoDup (map identifier (UserRecipientIdentifier accounts)) ->
    BadgeInstance.recipient_user user_of accounts b
    = match cached_get (BadgeInstance.recipient_identifier b)
              (CachedEmailAddress accounts) with
      | Some _ =>
          get_user_or_none user_of accounts (BadgeInstance.recipient_identifier b)
            RECIPIENT_TYPE_EMAIL
      | None =>
          get_user_or_none user_of accounts (BadgeInstance.recipient_identifier b)
            RECIPIENT_TYPE_URL
      end.
Proof.
  intros U user_of accounts b Hemail Hident.
  unfold BadgeInstance.recipient_user, get_user_or_none. simpl.
  rewrite !find_unique_identifier by assumption.
  destruct (cached_get (BadgeInstance.recipient_identifier b)
              (CachedEmailAddress accounts)) as [r|].
  - destruct (verified r); reflexivity.
  - destruct (cached_get (BadgeInstance.recipient_identifier b)
                (UserRecipientIdentifier accounts)) as [r|]; [|reflexivity].
    destruct (verified r); reflexivity.
Qed.

Lemma recipient_user_by_table_witness :
  BadgeInstance.recipient_user (fun r : IdentityRecord => identifier r)
    {| CachedEmailAddress := [{| identifier := "a@example.com"; verified := false |}];
       UserRecipientIdentifier :=
         [{| identifier := "a@example.com"; verified := true |}] |}
    Demo.assertion
  = None.
Proof.
  exact (recipient_user_by_table string (fun r : IdentityRecord => identifier r)
           {| CachedEmailAddress :=
                [{| identifier := "a@example.com"; verified := false |}];
              UserRecipientIdentifier :=
                [{| identifier := "a@example.com"; verified := true |}] |}
           Demo.assertion
           ltac:(repeat constructor; simpl; intuition)
           ltac:(repeat constructor; simpl; intuition)).
Defined.

(** X18.  An assertion awarded to an e-mail address that is pending has no
    recipient user; so an assertion of that kind with a recipient user is
    not pending. *)
Theorem pending_has_no_recipient_user :
  forall (U : Type) (user_of : IdentityRecord -> U) (accounts : Accounts)
         (b : BadgeInstance.t),
    BadgeInstance.recipient_type b = RECIPIENT_TYPE_EMAIL ->
    BadgeInstance.pending accounts b = true ->
    BadgeInstance.recipient_user user_of accounts b = None.
Proof.
  intros U user_of accounts b Hty.
  unfold BadgeInstance.pending, BadgeInstance.recipient_user. rewrite Hty. simpl.
  destruct (cached_get (BadgeInstance.recipient_identifier b)
              (CachedEmailAddress accounts)) as [r|]; [|discriminate].
  destruct (truthy_str (BadgeInstance.source_url b)); simpl; [|discriminate].
  destruct (verified r); [discriminate | reflexivity].
Qed.

Lemma pending_has_no_recipient_user_witness :
  BadgeInstance.recipient_user (fun r : IdentityRecord => identifier r)
    {| CachedEmailAddress := [{| identifier := "a@example.com"; verified := false |}];
       UserRecipientIdentifier := [] |}
    Demo.imported_assertion
  = None.
Proof.
  exact (pending_has_no_recipient_user string (fun r : IdentityRecord => identifier r)
           {| CachedEmailAddress :=
                [{| identifier := "a@example.com"; verified := false |}];
              UserRecipientIdentifier := [] |}
           Demo.imported_assertion eq_refl eq_refl).
Defined.


(** ** Baked images per version *)

Lemma ObiVersion_eqb_refl (v : ObiVersion) : ObiVersion_eqb v v = true.
Proof. destruct v; reflexivity. Qed.

(** X19. A request for the image baked for a version other than the
    unversioned one, when the assertion has no baked image of that version
    yet.  It builds the fully expanded document of that version first,
    and raises what [get_json] raises; it raises [ValueError] when the
    badge class has no image; either way it stores nothing.  Else it
    bakes the badge class image with that document, stores it under
    [baked/<version>/assertion-<entity id>-<version><ext>] (as the
    storage names it), and returns its URL; the same request again
    returns the same URL and neither bakes nor stores anything. *)
Theorem get_baked_image_url_bakes_once
  (env : Env) (storage_url : string -> string) (b : BadgeInstance.t)
  (v : ObiVersion) (st : BakedState) (name : string) :
  ObiVersion_eqb v (UNVERSIONED_BAKED_VERSION env) = false ->
  (forall x, In x (rows (baked_images st)) ->
             ObiVersion_eqb (BadgeInstanceBakedImage.obi_version (snd x)) v = false) ->
  name = get_available_name env
           ("baked/" ++ version_text v ++ "/assertion-"
            ++ format_opt (BadgeInstance.entity_id b) ++ "-" ++ version_text v
            ++ splitext_ext env (BadgeClass.image (BadgeInstance.badgeclass b)))
           (map fst (baked_files st)) ->
  truthy_str (Some name) = true ->
  (forall e,
      BadgeInstance.get_json env b v true true true false = Raise e ->
      get_baked_image_url env storage_url b v st = (Raise e, st))
  /\ (forall json_to_bake,
         BadgeInstance.get_json env b v true true true false = Ok json_to_bake ->
         (truthy_str (BadgeClass.image (BadgeInstance.badgeclass b)) = false ->
          get_baked_image_url env storage_url b v st = (Raise ValueError, st))
         /\ (truthy_str (BadgeClass.image (BadgeInstance.badgeclass b)) = true ->
             exists st',
               get_baked_image_url env storage_url b v st = (Ok (storage_url name), st')
               /\ baked_files st'
                  = (baked_files st
                     ++ [(name,
                          bake env (BadgeClass.image (BadgeInstance.badgeclass b))
                            (json_dumps env (JObj json_to_bake)))])%list
               /\ get_baked_image_url env storage_url b v st'
                  = (Ok (storage_url name), st'))).
Proof.
  intros Hv Hnone Hname Htruthy.
  unfold get_baked_image_url. rewrite Hv.
  rewrite (filter_none _ _ Hnone).
  split.
  - intros e He. rewrite He. reflexivity.
  - intros json Hjson. rewrite Hjson. split.
    + intros Hbc. rewrite Hbc. reflexivity.
    + intros Hbc. rewrite Hbc. cbn [negb].
      unfold _baked_badge_instance_filename_generator.
      cbn [BadgeInstanceBakedImage.obi_version BadgeInstanceBakedImage.image].
      replace (get_available_name env _ (map fst (baked_files st))) with name.
      unfold field_file_url. rewrite Htruthy.
      eexists. split; [reflexivity|]. split; [reflexivity|].
      cbn [baked_images baked_files]. unfold create at 1.
      cbn [rows]. rewrite filter_app, (filter_none _ _ Hnone).
      cbn [filter snd BadgeInstanceBakedImage.obi_version app].
      rewrite ObiVersion_eqb_refl.
      cbn [BadgeInstanceBakedImage.image]. rewrite Htruthy. reflexivity.
Qed.

Lemma get_baked_image_url_bakes_once_witness :
  (exists st' json,
      BadgeInstance.get_json Demo.env Demo.assertion V1_1 true true true false = Ok json
      /\ get_baked_image_url Demo.env (fun n => "/media/" ++ n) Demo.assertion V1_1
           {| baked_images := empty_table; baked_files := [] |}
         = (Ok "/media/baked/1_1/assertion-as-1_1.png", st')
      /\ baked_files st'
         = [("baked/1_1/assertion-as-1_1.png",
             bake Demo.env (BadgeClass.image (BadgeInstance.badgeclass Demo.assertion))
               (json_dumps Demo.env (JObj json)))]
      /\ get_baked_image_url Demo.env (fun n => "/media/" ++ n) Demo.assertion V1_1 st'
         = (Ok "/media/baked/1_1/assertion-as-1_1.png", st'))
  /\ get_baked_image_url Demo.env (fun n => "/media/" ++ n)
       Demo.assertion_of_badgeclass_without_image V1_1
       {| baked_images := empty_table; baked_files := [] |}
     = (Raise ValueError, {| baked_images := empty_table; baked_files := [] |})
  /\ get_baked_image_url Demo.env (fun n => "/media/" ++ n)
       Demo.revoked_assertion_of_garbled_issuer V1_1
       {| baked_images := empty_table; baked_files := [] |}
     = (Raise AttributeError, {| baked_images := empty_table; baked_files := [] |}).
Proof.
  split; [|split].
  - destruct (proj2 (proj2 (get_baked_image_url_bakes_once Demo.env
                              (fun n => "/media/" ++ n) Demo.assertion V1_1
                              {| baked_images := empty_table; baked_files := [] |}
                              "baked/1_1/assertion-as-1_1.png"
                              eq_refl (fun x (H : In x []) => match H with end)
                              eq_refl eq_refl) _ eq_refl) eq_refl)
      as [st' [Hrun [Hfiles Hagain]]].
    exists st'. eexists. split; [reflexivity|].
    split; [exact Hrun|]. split; [exact Hfiles | exact Hagain].
  - exact (proj1 (proj2 (get_baked_image_url_bakes_once Demo.env
                           (fun n => "/media/" ++ n)
                           Demo.assertion_of_badgeclass_without_image V1_1
                           {| baked_images := empty_table; baked_files := [] |}
                           _ eq_refl (fun x (H : In x []) => match H with end)
                           eq_refl eq_refl) _ eq_refl) eq_refl).
  - exact (proj1 (get_baked_image_url_bakes_once Demo.env
                    (fun n => "/media/" ++ n)
                    Demo.revoked_assertion_of_garbled_issuer V1_1
                    {| baked_images := empty_table; baked_files := [] |}
                    _ eq_refl (fun x (H : In x []) => match H with end)
                    eq_refl eq_refl) _ eq_refl).
Defined.

(** ** Deleting an issuer *)

Lemma refers_to_eq (fk pk : option nat) : refers_to fk pk = true -> fk = pk.
Proof.
  destruct fk as [x|], pk as [y|]; simpl; intros H; try discriminate.
  apply Nat.eqb_eq in H. subst. reflexivity.
Qed.

Lemma filter_absorb {A : Type} (f g : A -> bool) (l : list A) :
  (forall x, In x l -> g x = false -> f x = false) ->
  filter f (filter g l) = filter f l.
Proof.
  induction l as [|a l IH]; intros H; simpl; [reflexivity|].
  destruct (g a) eqn:Hg; simpl.
  - destruct (f a); rewrite IH; auto; intros x Hx; apply H; right; exact Hx.
  - rewrite (H a (or_introl eq_refl) Hg). apply IH.
    intros x Hx. apply H. right. exact Hx.
Qed.

Lemma existsb_filter_false {A : Type} (f g : A -> bool) (l : list A) :
  existsb f l = false -> existsb f (filter g l) = false.
Proof.
  induction l as [|a l IH]; simpl; intros H; [reflexivity|].
  apply orb_false_iff in H. destruct H as [Ha Hl].
  destruct (g a); simpl; [rewrite Ha|]; auto.
Qed.

Lemma existsb_false_in {A : Type} (f : A -> bool) (l : list A) (x : A) :
  existsb f l = false -> In x l -> f x = false.
Proof.
  intros H Hx. destruct (f x) eqn:Hf; [|reflexivity].
  rewrite <- H. symmetry. apply existsb_exists. exists x. split; assumption.
Qed.

Section IssuerDelete.

Variable now : datetime.
Variable i : Issuer.t.

Let of_issuer (c : BadgeClass.t) : bool :=
  refers_to (Issuer.pk (BadgeClass.issuer c)) (Issuer.pk i).

Let issued_by (a : BadgeInstance.t) : bool :=
  refers_to (issuer_id a) (Issuer.pk i).

(** Deleting badge classes of the issuer, none of which has an assertion
    that is not revoked, removes only rows of the issuer. *)
Lemma delete_badgeclasses_of_issuer (bcs : list BadgeClass.t) :
  forall db : Database,
    (forall c, In c bcs ->
       (forall a, In a (badgeinstance_rows db) ->
                  refers_to (badgeclass_id a) (BadgeClass.pk c) = true ->
                  issued_by a = true)
       /\ (forall c', In c' (badgeclass_rows db) ->
                      refers_to (BadgeClass.pk c') (BadgeClass.pk c) = true ->
                      of_issuer c' = true)) ->
    has_nonrevoked_assertions db i = false ->
    exists db',
      delete_badgeclasses now bcs db = (Deleted_, db')
      /\ issuer_rows db' = issuer_rows db
      /\ filter (fun c => negb (of_issuer c)) (badgeclass_rows db')
         = filter (fun c => negb (of_issuer c)) (badgeclass_rows db)
      /\ filter (fun a => negb (issued_by a)) (badgeinstance_rows db')
         = filter (fun a => negb (issued_by a)) (badgeinstance_rows db).
Proof.
  induction bcs as [|bc rest IH]; intros db Hbcs Hnone.
  - exists db. repeat split; reflexivity.
  - destruct (Hbcs bc (or_introl eq_refl)) as [Hinst Hcls].
    assert (Hlive : has_live_assertions now db bc = false).
    { unfold has_live_assertions.
      destruct (existsb _ (badgeinstance_rows db)) eqn:He; [|reflexivity].
      apply existsb_exists in He. destruct He as [a [Ha Hp]].
      apply andb_true_iff in Hp. destruct Hp as [Hp _].
      apply andb_true_iff in Hp. destruct Hp as [Hbc Hrev].
      pose proof (existsb_false_in _ _ a Hnone Ha) as Hf. cbv beta in Hf.
      pose proof (Hinst a Ha Hbc) as Hi. unfold issued_by in Hi.
      rewrite Hi, Hrev in Hf. discriminate. }
    cbn [delete_badgeclasses]. unfold BadgeClass_delete. rewrite Hlive.
    match goal with
    | |- context [delete_badgeclasses now rest ?d] => destruct (IH d) as [db' [Hrun [Hi [Hc Ha]]]]
    end.
    + intros c Hc. destruct (Hbcs c (or_intror Hc)) as [Hinst' Hcls'].
      cbn [badgeinstance_rows badgeclass_rows]. split.
      * intros a Ha. apply filter_In in Ha. destruct Ha as [Ha _].
        apply Hinst'. exact Ha.
      * intros c' Hc'. apply filter_In in Hc'. destruct Hc' as [Hc' _].
        apply Hcls'. exact Hc'.
    + unfold has_nonrevoked_assertions. cbn [badgeinstance_rows].
      apply existsb_filter_false. exact Hnone.
    + exists db'. split; [exact Hrun|].
      cbn [issuer_rows badgeclass_rows badgeinstance_rows] in Hi, Hc, Ha.
      split; [exact Hi|]. split.
      * rewrite Hc. apply filter_absorb.
        intros c' Hc' Hg. apply negb_false_iff in Hg.
        rewrite (Hcls c' Hc' Hg). reflexivity.
      * rewrite Ha. apply filter_absorb.
        intros a Hin Hg. apply negb_false_iff in Hg.
        rewrite (Hinst a Hin Hg). reflexivity.
Qed.

End IssuerDelete.

(** X20. Deleting an issuer is all or nothing when every assertion is
    filed under the issuer of its badge class and the badge classes have
    distinct primary keys: if one of its assertions is not revoked
    the call raises [ProtectedError] and deletes nothing; otherwise it
    succeeds, none of its badge classes refuses, and exactly the issuer,
    its badge classes and its assertions are gone. *)
Theorem Issuer_delete_all_or_nothing
  (now : datetime) (i : Issuer.t) (db : Database) :
  (forall a c, In a (badgeinstance_rows db) -> In c (badgeclass_rows db) ->
               refers_to (badgeclass_id a) (BadgeClass.pk c) = true ->
               issuer_id a = Issuer.pk (BadgeClass.issuer c)) ->
  NoDup (map BadgeClass.pk (badgeclass_rows db)) ->
  Issuer_delete now i db =
    if has_nonrevoked_assertions db i then
      (ProtectedError
         "Issuer can not be deleted because it has previously issued badges.", db)
    else
      (Deleted_,
       {| issuer_rows :=
            filter (fun j => negb (refers_to (Issuer.pk j) (Issuer.pk i)))
              (issuer_rows db);
          badgeclass_rows :=
            filter (fun c => negb (refers_to (Issuer.pk (BadgeClass.issuer c))
                                     (Issuer.pk i)))
              (badgeclass_rows db);
          badgeinstance_rows :=
            filter (fun a => negb (refers_to (issuer_id a) (Issuer.pk i)))
              (badgeinstance_rows db) |}).
Proof.
  intros Hfiled Hpk. unfold Issuer_delete.
  destruct (has_nonrevoked_assertions db i) eqn:Hnone; [reflexivity|].
  destruct (delete_badgeclasses_of_issuer now i
              (filter (fun c => refers_to (Issuer.pk (BadgeClass.issuer c)) (Issuer.pk i))
                 (badgeclass_rows db)) db) as [db' [Hrun [Hi [Hc Ha]]]].
  - intros c Hc. apply filter_In in Hc. destruct Hc as [Hc Hof]. split.
    + intros a Ha Hbc. rewrite (Hfiled a c Ha Hc Hbc). exact Hof.
    + intros c' Hc' Hsame.
      rewrite (NoDup_map_inj_in BadgeClass.pk _ c' c Hpk Hc' Hc (refers_to_eq _ _ Hsame)).
      exact Hof.
  - exact Hnone.
  - rewrite Hrun, Hi, Hc, Ha. reflexivity.
Qed.

Lemma Issuer_delete_all_or_nothing_witness :
  Issuer_delete 0%Z Demo.issuer
    {| issuer_rows := [Demo.issuer; Demo.imported_issuer];
       badgeclass_rows := [Demo.badgeclass];
       badgeinstance_rows := [Demo.revoked_assertion] |}
  = (Deleted_,
     {| issuer_rows := [Demo.imported_issuer];
        badgeclass_rows := [];
        badgeinstance_rows := [] |}).
Proof.
  refine (Issuer_delete_all_or_nothing 0%Z Demo.issuer
            {| issuer_rows := [Demo.issuer; Demo.imported_issuer];
               badgeclass_rows := [Demo.badgeclass];
               badgeinstance_rows := [Demo.revoked_assertion] |} _ _).
  - intros a c [Ha|[]] [Hc|[]] _. subst. reflexivity.
  - constructor; [intros []|constructor].
Defined.

